(** * Dashboard platform core: compiler, guardrail executor, cache, lineage

    A shallow embedding of the Python sources
    - [src/integrations/bigquery_client.py]
    - [src/services/sql_executor.py]
    - [src/services/dashboard_compiler.py]
    - [src/services/lineage.py]
    - [src/models/yaml_schema.py]
    - [src/core/cache.py], [src/core/exceptions.py]
    followed by the properties of the specification that concern them.

    Conventions.  Python [str] is [string]; the text handled here (SQL,
    identifiers, cache keys) is 7-bit ASCII, on which [str.upper],
    [str.lower], [str.split] and [str.encode] are the functions below.
    Python [int] is [Z].  A reading of [time.time()] is a rational number of
    seconds, and every function that reads the clock takes its readings as
    arguments, in the order in which the code makes them.  A [dict] is an
    association list in insertion order (Python dictionaries iterate in
    insertion order, and [OrderedDict] exposes that order). *)

From Stdlib Require Import ZArith QArith Lqa String Ascii List Bool Lia.
From Stdlib Require Import Permutation.
Import ListNotations.
Local Open Scope string_scope.
Local Open Scope list_scope.
Local Open Scope Z_scope.

(* ================================================================= *)
(** ** Python primitives *)

Module Py.

(** A [str] is a [string]; the functions on characters below are Python's
    on texts of ASCII characters ([s.isascii()]), which is what SQL texts,
    slugs and tags are made of.  Beyond ASCII Python's case mappings are
    those of Unicode and can change the length of a text. *)
Definition is_ascii (s : string) : bool :=
  forallb (fun c => (N_of_ascii c <? 128)%N) (list_ascii_of_string s).

(** [c.isspace()] on ASCII: TAB, LF, VT, FF, CR, FS, GS, RS, US and space. *)
Definition is_space (c : ascii) : bool :=
  let n := N_of_ascii c in
  ((9 <=? n) && (n <=? 13) || (28 <=? n) && (n <=? 32))%N.

Definition is_upper (c : ascii) : bool :=
  let n := N_of_ascii c in ((65 <=? n) && (n <=? 90))%N.

Definition is_lower (c : ascii) : bool :=
  let n := N_of_ascii c in ((97 <=? n) && (n <=? 122))%N.

Definition lower_char (c : ascii) : ascii :=
  if is_upper c then ascii_of_N (N_of_ascii c + 32) else c.

Definition upper_char (c : ascii) : ascii :=
  if is_lower c then ascii_of_N (N_of_ascii c - 32) else c.

Fixpoint str_map (f : ascii -> ascii) (s : string) : string :=
  match s with
  | EmptyString => EmptyString
  | String c s' => String (f c) (str_map f s')
  end.

(** [s.lower()] and [s.upper()] of an ASCII text: the letters A to Z and
    a to z are mapped, every other character is kept. *)
Definition lower (s : string) : string := str_map lower_char s.
Definition upper (s : string) : string := str_map upper_char s.

Definition starts_token (s : string) : bool :=
  match s with
  | EmptyString => false
  | String c _ => negb (is_space c)
  end.

(** [s.split()]: the maximal runs of non-whitespace characters, in order. *)
Fixpoint split (s : string) : list string :=
  match s with
  | EmptyString => []
  | String c s' =>
      if is_space c then split s'
      else if starts_token s' then
             match split s' with
             | t :: ts => String c t :: ts
             | [] => [String c EmptyString]
             end
           else String c EmptyString :: split s'
  end.

(** [sep.join(parts)]. *)
Definition join (sep : string) (parts : list string) : string :=
  String.concat sep parts.

(** [s.strip()]. *)
Fixpoint lstrip (s : string) : string :=
  match s with
  | EmptyString => EmptyString
  | String c s' => if is_space c then lstrip s' else s
  end.

Fixpoint rstrip (s : string) : string :=
  match s with
  | EmptyString => EmptyString
  | String c s' =>
      match rstrip s' with
      | EmptyString => if is_space c then EmptyString else String c EmptyString
      | r => String c r
      end
  end.

Definition strip (s : string) : string := rstrip (lstrip s).

(** [s.startswith(p)]. *)
Fixpoint startswith (p s : string) : bool :=
  match p, s with
  | EmptyString, _ => true
  | String a p', String b s' => Ascii.eqb a b && startswith p' s'
  | String _ _, EmptyString => false
  end.

(** [p in s] for strings: [p] occurs in [s] as a contiguous substring. *)
Fixpoint contains (p s : string) : bool :=
  startswith p s ||
  match s with
  | EmptyString => false
  | String _ s' => contains p s'
  end.

(** [s[:n]]. *)
Fixpoint take (n : nat) (s : string) : string :=
  match n, s with
  | S n', String c s' => String c (take n' s')
  | _, _ => EmptyString
  end.

(** [x or d] for an optional integer: [None] and [0] are falsy. *)
Definition or_int (x : option Z) (d : Z) : Z :=
  match x with
  | Some v => if v =? 0 then d else v
  | None => d
  end.

(** [s.encode()]: the UTF-8 bytes, one per ASCII character. *)
Definition encode (s : string) : list Z :=
  map (fun c => Z.of_N (N_of_ascii c)) (list_ascii_of_string s).

(** Decimal digits of a natural number, most significant first. *)
Fixpoint digits_fuel (fuel : nat) (n : Z) (acc : string) : string :=
  match fuel with
  | O => acc
  | S f =>
      let acc' := String (ascii_of_N (Z.to_N (48 + n mod 10))) acc in
      if n / 10 =? 0 then acc' else digits_fuel f (n / 10) acc'
  end.

Definition digits (n : Z) : string :=
  digits_fuel (S (Z.to_nat (Z.log2 n))) n EmptyString.

Fixpoint str_rev_onto (s acc : string) : string :=
  match s with
  | EmptyString => acc
  | String c s' => str_rev_onto s' (String c acc)
  end.

(** Insert a comma before every group of three digits, counted from the right. *)
Fixpoint group3 (rev_digits : string) (k : nat) (acc : string) : string :=
  match rev_digits with
  | EmptyString => acc
  | String c r =>
      match k with
      | O => group3 r 2 (String c (String "," acc))
      | S k' => group3 r k' (String c acc)
      end
  end.

(** [str(n)] and [f"{n:,}"]. *)
Definition str_int (n : Z) : string :=
  if n <? 0 then String "-" (digits (- n)) else digits n.

Definition format_commas (n : Z) : string :=
  let body := group3 (str_rev_onto (digits (Z.abs n)) EmptyString) 3 EmptyString in
  if n <? 0 then String "-" body else body.

(** [f"{n / (1024**2):.0f}"] for an integer [n] below [2^53] in magnitude:
    the quotient is exact as a float and is printed rounded to the nearest
    integer, ties to even. *)
Definition format_mib (n : Z) : string :=
  let a := Z.abs n in
  let q := a / 1048576 in
  let r := a mod 1048576 in
  let rounded :=
    if r <? 524288 then q
    else if 524288 <? r then q + 1
    else if Z.even q then q else q + 1 in
  if n <? 0 then String "-" (digits rounded) else digits rounded.

(** *** Dictionaries in insertion order *)

Section Dict.
Context {V : Type}.

Definition dict := list (string * V).

Fixpoint dict_get (d : dict) (k : string) : option V :=
  match d with
  | [] => None
  | (k', v) :: d' => if String.eqb k' k then Some v else dict_get d' k
  end.

Definition dict_mem (d : dict) (k : string) : bool :=
  match dict_get d k with Some _ => true | None => false end.

(** [d[k] = v]: an existing key keeps its position, a new key goes last. *)
Fixpoint dict_set (d : dict) (k : string) (v : V) : dict :=
  match d with
  | [] => [(k, v)]
  | (k', v') :: d' =>
      if String.eqb k' k then (k', v) :: d' else (k', v') :: dict_set d' k v
  end.

(** [del d[k]]: the entry of [k] is removed (a key has one entry). *)
Definition dict_del (d : dict) (k : string) : dict :=
  filter (fun kv => negb (String.eqb (fst kv) k)) d.

(** [OrderedDict.move_to_end(k)] for a key that is present. *)
Definition move_to_end (d : dict) (k : string) : dict :=
  match dict_get d k with
  | Some v => dict_del d k ++ [(k, v)]
  | None => d
  end.

Definition dict_keys (d : dict) : list string := map fst d.
End Dict.

Arguments dict V : clear implicits.

(** Truth value of a string: only the empty string is falsy. *)
Definition nonempty (s : string) : bool :=
  match s with
  | EmptyString => false
  | String _ _ => true
  end.

(** The values that the services keep in the cache: what [json.dumps]
    accepts. *)
#[warnings="-register-all"] Inductive Json :=
| JNone
| JBool (b : bool)
| JInt (z : Z)
| JStr (s : string)
| JList (l : list Json)
| JDict (d : list (string * Json)).

(** [bool(v)]: [None], [False], [0] and the empty string, list and
    dictionary are falsy. *)
Definition truthy (v : Json) : bool :=
  match v with
  | JNone => false
  | JBool b => b
  | JInt z => negb (z =? 0)
  | JStr s => nonempty s
  | JList l => match l with [] => false | _ :: _ => true end
  | JDict d => match d with [] => false | _ :: _ => true end
  end.

End Py.

(* ================================================================= *)
(** ** [hashlib.sha256] (FIPS 180-4) *)

Module SHA256.

Definition add32 (a b : Z) : Z := (a + b) mod 2 ^ 32.
Definition rotr (n x : Z) : Z :=
  (Z.lor (Z.shiftr x n) (Z.shiftl x (32 - n))) mod 2 ^ 32.
Definition shr (n x : Z) : Z := Z.shiftr x n.
Definition not32 (x : Z) : Z := Z.lxor x 0xffffffff.

Definition Ch (x y z : Z) : Z := Z.lxor (Z.land x y) (Z.land (not32 x) z).
Definition Maj (x y z : Z) : Z :=
  Z.lxor (Z.lxor (Z.land x y) (Z.land x z)) (Z.land y z).
Definition bsig0 (x : Z) : Z := Z.lxor (Z.lxor (rotr 2 x) (rotr 13 x)) (rotr 22 x).
Definition bsig1 (x : Z) : Z := Z.lxor (Z.lxor (rotr 6 x) (rotr 11 x)) (rotr 25 x).
Definition ssig0 (x : Z) : Z := Z.lxor (Z.lxor (rotr 7 x) (rotr 18 x)) (shr 3 x).
Definition ssig1 (x : Z) : Z := Z.lxor (Z.lxor (rotr 17 x) (rotr 19 x)) (shr 10 x).

(** The first primes, by trial division. *)
Definition is_prime (p : Z) : bool :=
  (2 <=? p) &&
  forallb (fun d => negb (p mod d =? 0))
          (map Z.of_nat (seq 2 (Z.to_nat (Z.sqrt p) - 1))).

Definition primes (n : nat) : list Z :=
  firstn n (filter is_prime (map Z.of_nat (seq 2 400))).

(** The integer cube root, by bisection between [lo] and [hi]. *)
Fixpoint bisect_cbrt (fuel : nat) (lo hi n : Z) : Z :=
  match fuel with
  | O => lo
  | S f =>
      if hi - lo <=? 1 then lo
      else let mid := (lo + hi) / 2 in
           if mid * mid * mid <=? n then bisect_cbrt f mid hi n
           else bisect_cbrt f lo mid n
  end.

Definition cbrt (n : Z) : Z := bisect_cbrt 200 0 (2 ^ 40) n.

(** The round constants: the first 32 bits of the fractional parts of the
    cube roots of the first 64 primes. *)
Definition K : list Z :=
  Eval vm_compute in map (fun p => cbrt (p * 2 ^ 96) mod 2 ^ 32) (primes 64).

(** The eight working words. *)
Record state := mkState {
  h0 : Z; h1 : Z; h2 : Z; h3 : Z; h4 : Z; h5 : Z; h6 : Z; h7 : Z }.

(** The initial hash value: the first 32 bits of the fractional parts of the
    square roots of the first 8 primes. *)
Definition frac_sqrt (p : Z) : Z := Z.sqrt (p * 2 ^ 64) mod 2 ^ 32.

Definition init : state :=
  Eval vm_compute in
    mkState (frac_sqrt 2) (frac_sqrt 3) (frac_sqrt 5) (frac_sqrt 7)
            (frac_sqrt 11) (frac_sqrt 13) (frac_sqrt 17) (frac_sqrt 19).

Definition be_bytes (n : nat) (v : Z) : list Z :=
  map (fun i => (Z.shiftr v (8 * Z.of_nat (n - 1 - i))) mod 256) (seq 0 n).

(** Padding: the byte 0x80, zero bytes up to 56 modulo 64, and the length in
    bits on eight bytes. *)
Definition pad (msg : list Z) : list Z :=
  let len := Z.of_nat (List.length msg) in
  let k := Z.to_nat ((55 - len) mod 64) in
  msg ++ [0x80] ++ repeat 0 k ++ be_bytes 8 (8 * len).

Definition be_word (b : list Z) : Z :=
  fold_left (fun acc x => acc * 256 + x) b 0.

Fixpoint words (fuel : nat) (bs : list Z) : list Z :=
  match fuel with
  | O => []
  | S f =>
      match bs with
      | [] => []
      | _ => be_word (firstn 4 bs) :: words f (skipn 4 bs)
      end
  end.

Fixpoint chunks (fuel : nat) (ws : list Z) : list (list Z) :=
  match fuel with
  | O => []
  | S f =>
      match ws with
      | [] => []
      | _ => firstn 16 ws :: chunks f (skipn 16 ws)
      end
  end.

(** Message schedule; [window] holds the sixteen preceding words. *)
Fixpoint schedule (n : nat) (window : list Z) : list Z :=
  match n with
  | O => []
  | S n' =>
      let nw := add32 (add32 (add32 (ssig1 (nth 14 window 0)) (nth 9 window 0))
                             (ssig0 (nth 1 window 0))) (nth 0 window 0) in
      nw :: schedule n' (tl window ++ [nw])
  end.

Definition round (s : state) (kw : Z * Z) : state :=
  let '(k, w) := kw in
  let t1 := add32 (add32 (add32 (add32 (h7 s) (bsig1 (h4 s)))
                                (Ch (h4 s) (h5 s) (h6 s))) k) w in
  let t2 := add32 (bsig0 (h0 s)) (Maj (h0 s) (h1 s) (h2 s)) in
  mkState (add32 t1 t2) (h0 s) (h1 s) (h2 s)
          (add32 (h3 s) t1) (h4 s) (h5 s) (h6 s).

Definition compress (s : state) (block : list Z) : state :=
  let W := block ++ schedule 48 block in
  let r := fold_left round (combine K W) s in
  mkState (add32 (h0 s) (h0 r)) (add32 (h1 s) (h1 r)) (add32 (h2 s) (h2 r))
          (add32 (h3 s) (h3 r)) (add32 (h4 s) (h4 r)) (add32 (h5 s) (h5 r))
          (add32 (h6 s) (h6 r)) (add32 (h7 s) (h7 r)).

Definition digest (msg : list Z) : state :=
  let p := pad msg in
  let ws := words (List.length p) p in
  fold_left compress (chunks (List.length ws) ws) init.

Definition hexchar (d : Z) : ascii :=
  if d <? 10 then ascii_of_N (Z.to_N (48 + d)) else ascii_of_N (Z.to_N (87 + d)).

Fixpoint hex_digits (n : nat) (v : Z) : string :=
  match n with
  | O => EmptyString
  | S n' => String (hexchar ((v / 16 ^ Z.of_nat n') mod 16)) (hex_digits n' v)
  end.

(** [hashlib.sha256(msg).hexdigest()]: 64 lower-case hexadecimal digits. *)
Definition hexdigest (msg : list Z) : string :=
  let s := digest msg in
  (hex_digits 8 (h0 s) ++ hex_digits 8 (h1 s) ++ hex_digits 8 (h2 s) ++
   hex_digits 8 (h3 s) ++ hex_digits 8 (h4 s) ++ hex_digits 8 (h5 s) ++
   hex_digits 8 (h6 s) ++ hex_digits 8 (h7 s))%string.

End SHA256.

(* ================================================================= *)
(** ** [src/core/exceptions.py] *)

Module exceptions.

Inductive ExnClass :=
| ValueError
| KeyError
| UnboundLocalError
| IntegrityError
| EngineError            (* whatever the query-engine library raises *)
| BigQueryException
| BytesLimitExceededException
| DangerousSQLException
| ValidationError        (* pydantic's, raised by the constructor of a model *)
| CompilationException.

Inductive DetailVal :=
| DInt (z : Z)
| DStr (s : string).

(** An exception object: [PeterException] carries [message], [error_code],
    [details] and [original_error]; for a built-in exception only the
    class and the message are meaningful.  [str(e)] is [message]. *)
Record exn := mkExn {
  cls : ExnClass;
  message : string;
  error_code : string;
  details : Py.dict DetailVal;
  original_error : option (ExnClass * string)
}.

Definition builtin (c : ExnClass) (msg : string) : exn :=
  mkExn c msg EmptyString [] None.

Definition str (e : exn) : string := message e.

Definition truthy (s : option string) : option string :=
  match s with
  | Some EmptyString => None
  | other => other
  end.

Definition add_str (k : string) (v : option string) (d : Py.dict DetailVal) :=
  match truthy v with
  | Some s => Py.dict_set d k (DStr s)
  | None => d
  end.

Definition add_int (k : string) (v : option Z) (d : Py.dict DetailVal) :=
  match v with
  | Some z => Py.dict_set d k (DInt z)
  | None => d
  end.

(** [BigQueryException.__init__]. *)
Definition BigQueryException_init (message : string) (query_hash : option string)
    (bytes_scanned : option Z) (job_id : option string)
    (original_error : option exn) : exn :=
  let details :=
    add_str "job_id" job_id
      (add_int "bytes_scanned" bytes_scanned
         (add_str "query_hash" query_hash [])) in
  mkExn BigQueryException message "BIGQUERY_ERROR" details
        (option_map (fun e => (cls e, str e)) original_error).

(** [BytesLimitExceededException.__init__]. *)
Definition BytesLimitExceededException_init (bytes_attempted max_bytes_allowed : Z)
    (query_hash : option string) : exn :=
  let message :=
    ("Query would scan " ++ Py.format_commas bytes_attempted ++
     " bytes, exceeding limit of " ++ Py.format_commas max_bytes_allowed ++
     " bytes (" ++ Py.format_mib max_bytes_allowed ++ "MB)")%string in
  let base := BigQueryException_init message query_hash (Some bytes_attempted)
                                     None None in
  mkExn BytesLimitExceededException message "BYTES_LIMIT_EXCEEDED"
        (Py.dict_set (details base) "max_bytes_allowed" (DInt max_bytes_allowed))
        None.

(** [DangerousSQLException.__init__]. *)
Definition DangerousSQLException_init (pattern : string)
    (sql_preview : option string) : exn :=
  let message := ("SQL contains dangerous pattern: " ++ pattern)%string in
  let d1 := add_str "sql_preview" (option_map (Py.take 200) (truthy sql_preview)) [] in
  mkExn DangerousSQLException message "QUERY_VALIDATION_FAILED"
        (Py.dict_set d1 "dangerous_pattern" (DStr pattern)) None.

(** [CompilationException.__init__]. *)
Definition CompilationException_init (message : string)
    (dashboard_slug compilation_stage : option string) : exn :=
  let details :=
    add_str "compilation_stage" compilation_stage
      (add_str "dashboard_slug" dashboard_slug []) in
  mkExn CompilationException message "COMPILATION_ERROR" details None.

(** The result of running a piece of Python: a value or a raised exception. *)
Inductive outcome (A : Type) :=
| Return (a : A)
| Raise (e : exn).

Arguments Return {A} a.
Arguments Raise {A} e.

End exceptions.

Import exceptions.

(* ================================================================= *)
(** ** Stateful code that may raise *)

Module Eff.

(** A computation over a state [S]: it returns a value or raises, and
    leaves a state either way. *)
Definition M (S A : Type) : Type := S -> outcome A * S.

Definition ret {S A} (a : A) : M S A := fun w => (Return a, w).
Definition raise {S A} (e : exn) : M S A := fun w => (Raise e, w).
Definition bind {S A B} (m : M S A) (k : A -> M S B) : M S B :=
  fun w =>
    match m w with
    | (Return a, w') => k a w'
    | (Raise e, w') => (Raise e, w')
    end.

(** [try: m except Exception as e: h e]. *)
Definition try_except {S A} (m : M S A) (h : exn -> M S A) : M S A :=
  fun w =>
    match m w with
    | (Raise e, w') => h e w'
    | r => r
    end.

Declare Scope py_scope.
Delimit Scope py_scope with py.
Notation "x <- m ;; k" := (bind m (fun x => k))
  (at level 61, m at next level, right associativity) : py_scope.
Notation "m ;;; k" := (bind m (fun _ => k))
  (at level 61, right associativity) : py_scope.

End Eff.


(* ================================================================= *)
(** ** [src/models/yaml_schema.py] *)

Module yaml_schema.

Inductive ViewType := analytical | operational | strategic.
Inductive WarehouseType := bigquery.
Inductive ChartType := line_chart | bar_chart | area_chart | table | kpi.

Definition ViewType_value (v : ViewType) : string :=
  match v with
  | analytical => "analytical"
  | operational => "operational"
  | strategic => "strategic"
  end.

Definition WarehouseType_value (w : WarehouseType) : string :=
  match w with bigquery => "bigquery" end.

Definition ChartType_value (t : ChartType) : string :=
  match t with
  | line_chart => "line_chart"
  | bar_chart => "bar_chart"
  | area_chart => "area_chart"
  | table => "table"
  | kpi => "kpi"
  end.

Record DashboardMetadata := {
  slug : string;
  name : string;
  owner : string;
  view_type : ViewType;
  description : option string;
  tags : list string;
  owner_email : string;
  access_count : Z
}.

Record Query := {
  query_id : string;                (* [Query.id] *)
  warehouse : WarehouseType;
  sql : string;
  max_bytes_billed : option Z
}.

Record AxisConfig := {
  field : string;
  label : option string;
  format : option string
}.

Inductive Axis :=
| AxisName (s : string)
| AxisFull (a : AxisConfig).

(** The chart configurations; every one has [title] and [description]. *)
Inductive ChartConfig :=
| LineChartConfig (title : string) (description : option string)
    (x_axis y_axis : Axis) (color : option string) (show_points show_legend : bool)
| BarChartConfig (title : string) (description : option string)
    (x_axis y_axis : Axis) (color : option string) (horizontal show_legend : bool)
| AreaChartConfig (title : string) (description : option string)
    (x_axis y_axis : Axis) (color : option string) (stacked show_legend : bool)
| TableConfig (title : string) (description : option string)
    (columns : list string) (sortable filterable : bool) (page_size : Z)
| KPIConfig (title : string) (description : option string)
    (value_field : string) (format trend_field comparison_field : option string).

Definition chart_title (c : ChartConfig) : string :=
  match c with
  | LineChartConfig t _ _ _ _ _ _ => t
  | BarChartConfig t _ _ _ _ _ _ => t
  | AreaChartConfig t _ _ _ _ _ _ => t
  | TableConfig t _ _ _ _ _ => t
  | KPIConfig t _ _ _ _ _ => t
  end.

Record GridPosition := { x : Z; y : Z; w : Z; h : Z }.

Record LayoutItem := {
  item_id : string;                 (* [LayoutItem.id] *)
  type : ChartType;
  chart : ChartConfig;
  query_ref : string;
  position : GridPosition
}.

Record DashboardYAML := {
  metadata : DashboardMetadata;
  queries : list Query;
  layout : list LayoutItem
}.

(** [range(a, b)]. *)
Definition range (a b : Z) : list Z :=
  map (fun i => a + Z.of_nat i) (seq 0 (Z.to_nat (b - a))).

Fixpoint insert_sorted (s : string) (l : list string) : list string :=
  match l with
  | [] => [s]
  | t :: l' => if String.leb s t then s :: l else t :: insert_sorted s l'
  end.

(** [sorted(set(l))]. *)
Definition sorted_set (l : list string) : list string :=
  fold_right insert_sorted [] (nodup string_dec l).

Definition mem_str (s : string) (l : list string) : bool :=
  existsb (String.eqb s) l.

Definition count_str (s : string) (l : list string) : nat :=
  List.length (filter (String.eqb s) l).

(** The bounds declared on the fields of [GridPosition]. *)
Definition GridPosition_fields_ok (p : GridPosition) : bool :=
  (0 <=? x p) && (x p <? 12) && (0 <=? y p) &&
  (1 <=? w p) && (w p <=? 12) && (1 <=? h p) && (h p <=? 20).

(** [GridPosition.validate_position]. *)
Definition validate_position (p : GridPosition) : outcome GridPosition :=
  if 12 <? x p + w p
  then Raise (builtin ValueError
         ("Position x(" ++ Py.str_int (x p) ++ ") + width(" ++ Py.str_int (w p) ++
          ") exceeds grid width of 12")%string)
  else Return p.

(** [DashboardYAML.validate_query_refs]. *)
Fixpoint check_query_refs (query_ids : list string) (items : list LayoutItem)
  : outcome unit :=
  match items with
  | [] => Return tt
  | item :: rest =>
      if negb (mem_str (query_ref item) query_ids)
      then Raise (builtin ValueError
             ("Chart '" ++ item_id item ++ "' references unknown query '" ++
              query_ref item ++ "'. Available queries: " ++
              Py.join ", " (sorted_set query_ids))%string)
      else check_query_refs query_ids rest
  end.

Definition validate_query_refs (d : DashboardYAML) : outcome unit :=
  check_query_refs (map query_id (queries d)) (layout d).

Definition duplicates (ids : list string) : list string :=
  filter (fun i => (1 <? count_str i ids)%nat) ids.

(** [DashboardYAML.validate_chart_ids_unique]. *)
Definition validate_chart_ids_unique (d : DashboardYAML) : outcome unit :=
  let chart_ids := map item_id (layout d) in
  match duplicates chart_ids with
  | [] => Return tt
  | dups => Raise (builtin ValueError
              ("Duplicate chart IDs found: " ++ Py.join ", " (sorted_set dups))%string)
  end.

(** [DashboardYAML.validate_query_ids_unique]. *)
Definition validate_query_ids_unique (d : DashboardYAML) : outcome unit :=
  let query_ids := map query_id (queries d) in
  match duplicates query_ids with
  | [] => Return tt
  | dups => Raise (builtin ValueError
              ("Duplicate query IDs found: " ++ Py.join ", " (sorted_set dups))%string)
  end.

Definition cell_eqb (a b : Z * Z) : bool :=
  (fst a =? fst b) && (snd a =? snd b).

(** The cells of a rectangle in the order of the two nested loops. *)
Definition cells (p : GridPosition) : list (Z * Z) :=
  flat_map (fun cx => map (fun cy => (cx, cy)) (range (y p) (y p + h p)))
           (range (x p) (x p + w p)).

Definition overlap_error (item : LayoutItem) (c : Z * Z) : exn :=
  builtin ValueError
    ("Chart '" ++ item_id item ++ "' overlaps with another chart at position (" ++
     Py.str_int (fst c) ++ ", " ++ Py.str_int (snd c) ++ ")")%string.

(** The body of the two inner loops for one item. *)
Fixpoint place_cells (item : LayoutItem) (cs : list (Z * Z))
    (positions : list (Z * Z)) : outcome (list (Z * Z)) :=
  match cs with
  | [] => Return positions
  | c :: cs' =>
      if existsb (cell_eqb c) positions
      then Raise (overlap_error item c)
      else place_cells item cs' (positions ++ [c])
  end.

Fixpoint place_items (items : list LayoutItem) (positions : list (Z * Z))
  : outcome unit :=
  match items with
  | [] => Return tt
  | item :: rest =>
      match place_cells item (cells (position item)) positions with
      | Raise e => Raise e
      | Return positions' => place_items rest positions'
      end
  end.

(** [DashboardYAML.validate_grid_overlaps]. *)
Definition validate_grid_overlaps (d : DashboardYAML) : outcome unit :=
  place_items (layout d) [].

Definition and_then (a : outcome unit) (b : outcome unit) : outcome unit :=
  match a with
  | Return _ => b
  | Raise e => Raise e
  end.

(** The four model validators of [DashboardYAML], in the order of their
    definition; the first failure rejects the definition. *)
Definition model_validators (d : DashboardYAML) : outcome unit :=
  and_then (validate_query_refs d)
    (and_then (validate_chart_ids_unique d)
       (and_then (validate_query_ids_unique d)
          (validate_grid_overlaps d))).

(** A validated definition: every grid position passed its own validation
    and the model validators accepted the whole. *)
Definition validated (d : DashboardYAML) : Prop :=
  Forall (fun item =>
            GridPosition_fields_ok (position item) = true /\
            validate_position (position item) = Return (position item))
         (layout d) /\
  model_validators d = Return tt.

(** *** Field validators *)

(** [DashboardMetadata.validate_email]. *)
Definition validate_email (v : string) : outcome string :=
  if negb (Py.contains "@" v)
  then Raise (builtin ValueError "Owner must be a valid email address")
  else Return (Py.lower v).

(** [DashboardMetadata.validate_owner_email]. *)
Definition validate_owner_email (v : string) : outcome string :=
  if negb (Py.contains "@" v)
  then Raise (builtin ValueError "Owner email must be a valid email address")
  else Return (Py.lower v).

Section Tags.
(** The iteration order of the set of tags, as for the compiler's table
    references. *)
Variable list_of_set : list string -> list string.

(** [DashboardMetadata.validate_tags]:
    [list(set(tag.lower().strip() for tag in v if tag.strip()))]. *)
Definition validate_tags (v : list string) : list string :=
  list_of_set
    (map (fun tag => Py.strip (Py.lower tag))
         (filter (fun tag => Py.nonempty (Py.strip tag)) v)).
End Tags.

(** [Query.validate_sql]. *)
Definition validate_sql (v : string) : outcome string :=
  let sql := Py.strip v in
  if negb (Py.nonempty sql)
  then Raise (builtin ValueError "SQL query cannot be empty")
  else Return sql.

End yaml_schema.

(* ================================================================= *)
(** ** [src/models/db_models.py]: the enumerations *)

Module db_models.

Inductive NodeType := dashboard | chart | query | table.
Inductive EdgeType := contains | executes | reads_from.
Inductive QueryPurpose := verification | serving | precompute.

Definition NodeType_eqb (a b : NodeType) : bool :=
  match a, b with
  | dashboard, dashboard | chart, chart | query, query | table, table => true
  | _, _ => false
  end.

Definition EdgeType_eqb (a b : EdgeType) : bool :=
  match a, b with
  | contains, contains | executes, executes | reads_from, reads_from => true
  | _, _ => false
  end.

Inductive ViewType := analytical | operational | strategic.

Definition ViewType_value (v : ViewType) : string :=
  match v with
  | analytical => "analytical"
  | operational => "operational"
  | strategic => "strategic"
  end.

(** A row of [dashboards]: the columns the services read and write.  A
    [datetime] is the number of seconds it denotes. *)
Record Dashboard := {
  slug : string;                    (* unique *)
  name : string;
  version : Z;
  view_type : ViewType;
  updated_at : Q;
  last_accessed : option Q;
  access_count : Z
}.

End db_models.

(* ================================================================= *)
(** ** [src/services/dashboard_compiler.py] *)

Module DashboardCompilerService.
Import yaml_schema.
Import db_models (NodeType, EdgeType).

(** [_hash_query]: SHA-256 of the whitespace-normalised, lower-cased SQL,
    first 16 hexadecimal digits. *)
Definition normalized (sql : string) : string :=
  Py.lower (Py.join " " (Py.split sql)).

Definition _hash_query (sql : string) : string :=
  Py.take 16 (SHA256.hexdigest (Py.encode (normalized sql))).

(** *** [re.findall] for the table-reference pattern

    [`?([a-zA-Z0-9_-]+\.[a-zA-Z0-9_-]+\.[a-zA-Z0-9_-]+)`?] *)

Definition is_ident (c : ascii) : bool :=
  let n := N_of_ascii c in
  ((97 <=? n) && (n <=? 122) || (65 <=? n) && (n <=? 90) ||
   (48 <=? n) && (n <=? 57) || (n =? 95) || (n =? 45))%N.

(** The longest prefix made of identifier characters, and what follows. *)
Fixpoint ident_run (s : string) : string * string :=
  match s with
  | EmptyString => (EmptyString, EmptyString)
  | String c s' =>
      if is_ident c then let (r, t) := ident_run s' in (String c r, t)
      else (EmptyString, s)
  end.

Definition skip_backtick (s : string) : string :=
  match s with
  | String "`" s' => s'
  | _ => s
  end.

Definition expect_dot (s : string) : option string :=
  match s with
  | String "." s' => Some s'
  | _ => None
  end.

(** A match of the pattern at the head of [s]: the captured group and the
    number of characters consumed.  No identifier character is a dot or a
    backtick, so every [+] takes its whole run and no backtracking occurs. *)
Definition match_here (s : string) : option (string * nat) :=
  let s0 := skip_backtick s in
  let (r1, t1) := ident_run s0 in
  match r1, expect_dot t1 with
  | String _ _, Some u1 =>
      let (r2, t2) := ident_run u1 in
      match r2, expect_dot t2 with
      | String _ _, Some u2 =>
          let (r3, t3) := ident_run u2 in
          match r3 with
          | String _ _ =>
              Some ((r1 ++ "." ++ r2 ++ "." ++ r3)%string,
                    (String.length s - String.length (skip_backtick t3))%nat)
          | EmptyString => None
          end
      | _, _ => None
      end
  | _, _ => None
  end.

(** Scan from left to right; [skip] characters still belong to the last match. *)
Fixpoint scan (s : string) (skip : nat) : list string :=
  match s with
  | EmptyString => []
  | String _ s' =>
      match skip with
      | S k => scan s' k
      | O =>
          match match_here s with
          | Some (m, n) => m :: scan s' (n - 1)
          | None => scan s' O
          end
      end
  end.

Definition findall_table_refs (sql : string) : list string := scan sql O.

Section Compiler.
(** [list(set(matches))]: the order in which a set of strings is iterated
    is fixed by the interpreter process (string hashing is seeded per
    process), not by the program; it is a parameter of the compiler. *)
Variable list_of_set : list string -> list string.

(** [_extract_table_references]. *)
Definition _extract_table_references (sql : string) : list string :=
  list_of_set (findall_table_refs sql).

Record QueryDescriptor := {
  qd_query_id : string;
  qd_query_hash : string;
  qd_warehouse : string;
  qd_sql : string;
  qd_max_bytes_billed : option Z;
  qd_dependent_charts : list string;
  qd_execution_order : Z
}.

Record ChartDescriptor := {
  cd_chart_id : string;
  cd_chart_type : string;
  cd_query_ref : string;
  cd_position : GridPosition;
  cd_config : ChartConfig
}.

Record ExecutionPlan := {
  plan_dashboard_slug : string;
  plan_version : Z;
  plan_queries : list QueryDescriptor;
  plan_charts : list ChartDescriptor;
  plan_execution_strategy : string;
  plan_total_queries : Z;
  plan_total_charts : Z
}.

(** [_build_execution_plan]. *)
Definition _build_execution_plan (d : DashboardYAML) : ExecutionPlan :=
  let qs :=
    map (fun q =>
           {| qd_query_id := query_id q;
              qd_query_hash := _hash_query (sql q);
              qd_warehouse := WarehouseType_value (warehouse q);
              qd_sql := sql q;
              qd_max_bytes_billed := max_bytes_billed q;
              qd_dependent_charts :=
                map item_id
                    (filter (fun item => String.eqb (query_ref item) (query_id q))
                            (layout d));
              qd_execution_order := 0 |})
        (queries d) in
  let cs :=
    map (fun item =>
           {| cd_chart_id := item_id item;
              cd_chart_type := ChartType_value (type item);
              cd_query_ref := query_ref item;
              cd_position := position item;
              cd_config := chart item |})
        (layout d) in
  {| plan_dashboard_slug := slug (metadata d);
     plan_version := 1;
     plan_queries := qs;
     plan_charts := cs;
     plan_execution_strategy := "parallel";
     plan_total_queries := Z.of_nat (List.length qs);
     plan_total_charts := Z.of_nat (List.length cs) |}.

Record NodeSeed := {
  node_type : NodeType;
  node_id : string;
  node_metadata : Py.dict string
}.

Record EdgeSeed := {
  source_node_id : string;
  source_node_type : NodeType;
  target_node_id : string;
  target_node_type : NodeType;
  edge_type : EdgeType
}.

Definition chart_node_id (slug : string) (item : LayoutItem) : string :=
  (slug ++ ":chart:" ++ item_id item)%string.

Definition query_node_id (slug : string) (q : Query) : string :=
  (slug ++ ":query:" ++ query_id q)%string.

Definition dashboard_node (d : DashboardYAML) : NodeSeed :=
  {| node_type := db_models.dashboard;
     node_id := slug (metadata d);
     node_metadata :=
       [("name", name (metadata d)); ("owner", owner (metadata d));
        ("view_type", ViewType_value (view_type (metadata d)))] |}.

Definition chart_node (slug : string) (item : LayoutItem) : NodeSeed :=
  {| node_type := db_models.chart;
     node_id := chart_node_id slug item;
     node_metadata :=
       [("chart_type", ChartType_value (type item));
        ("title", chart_title (chart item));
        ("dashboard_slug", slug)] |}.

Definition contains_edge (slug : string) (item : LayoutItem) : EdgeSeed :=
  {| source_node_id := slug; source_node_type := db_models.dashboard;
     target_node_id := chart_node_id slug item; target_node_type := db_models.chart;
     edge_type := db_models.contains |}.

Definition query_node (slug : string) (q : Query) : NodeSeed :=
  {| node_type := db_models.query;
     node_id := query_node_id slug q;
     node_metadata :=
       [("warehouse", WarehouseType_value (warehouse q));
        ("query_hash", _hash_query (sql q));
        ("sql_preview", Py.take 200 (sql q));
        ("dashboard_slug", slug)] |}.

Definition executes_edge (slug : string) (item : LayoutItem) (q : Query) : EdgeSeed :=
  {| source_node_id := chart_node_id slug item; source_node_type := db_models.chart;
     target_node_id := query_node_id slug q; target_node_type := db_models.query;
     edge_type := db_models.executes |}.

Definition table_node (table_ref : string) : NodeSeed :=
  {| node_type := db_models.table;
     node_id := table_ref;
     node_metadata := [("table_name", table_ref)] |}.

Definition reads_from_edge (slug : string) (q : Query) (table_ref : string) : EdgeSeed :=
  {| source_node_id := query_node_id slug q; source_node_type := db_models.query;
     target_node_id := table_ref; target_node_type := db_models.table;
     edge_type := db_models.reads_from |}.

(** One iteration of the loop over [dashboard.queries]: what it appends to
    [nodes] and to [edges]. *)
Definition query_nodes (d : DashboardYAML) (q : Query) : list NodeSeed :=
  query_node (slug (metadata d)) q ::
  map table_node (_extract_table_references (sql q)).

Definition query_edges (d : DashboardYAML) (q : Query) : list EdgeSeed :=
  map (fun item => executes_edge (slug (metadata d)) item q)
      (filter (fun item => String.eqb (query_ref item) (query_id q)) (layout d))
  ++ map (reads_from_edge (slug (metadata d)) q)
         (_extract_table_references (sql q)).

(** [_build_lineage_seeds]. *)
Definition _build_lineage_seeds (d : DashboardYAML)
  : list NodeSeed * list EdgeSeed :=
  let s := slug (metadata d) in
  (dashboard_node d :: map (chart_node s) (layout d)
     ++ flat_map (query_nodes d) (queries d),
   map (contains_edge s) (layout d)
     ++ flat_map (query_edges d) (queries d)).

Record CompilationResult := {
  dashboard_slug : string;
  execution_plan : ExecutionPlan;
  query_count : Z;
  lineage_nodes : list NodeSeed;
  lineage_edges : list EdgeSeed;
  compiled_at : Q
}.

(** [str(e)] of the [ValidationError] that pydantic raises for a list of
    node seeds; the text is the library's. *)
Variable validation_error_text : list NodeSeed -> string.

(** [CompilationResult(...)]: pydantic checks [lineage_nodes] against
    [List[Dict[str, str]]].  The value under ["metadata"] of a node seed is
    a dictionary, not a string, so every node seed fails the check and the
    constructor returns for an empty list only.  The other arguments have
    the types of their fields. *)
Definition CompilationResult_init (slug : string) (plan : ExecutionPlan)
    (count : Z) (nodes : list NodeSeed) (edges : list EdgeSeed) (now : Q)
  : outcome CompilationResult :=
  match nodes with
  | [] =>
      Return {| dashboard_slug := slug;
                execution_plan := plan;
                query_count := count;
                lineage_nodes := nodes;
                lineage_edges := edges;
                compiled_at := now |}
  | _ :: _ => Raise (builtin ValidationError (validation_error_text nodes))
  end.

(** [compile_dashboard]; [now] is the reading of [datetime.utcnow()].  The
    two stages raise nothing; an exception of the constructor of the result
    is caught and wrapped in a [CompilationException]. *)
Definition compile_dashboard (now : Q) (d : DashboardYAML)
  : outcome CompilationResult :=
  let plan := _build_execution_plan d in
  let '(nodes, edges) := _build_lineage_seeds d in
  match CompilationResult_init (yaml_schema.slug (metadata d)) plan
          (Z.of_nat (List.length (queries d))) nodes edges now with
  | Return result => Return result
  | Raise e =>
      Raise (CompilationException_init
               ("Failed to compile dashboard: " ++ exceptions.str e)%string
               (Some (yaml_schema.slug (metadata d))) (Some "execution_plan"))
  end.
End Compiler.

(** [get_query_dependencies]: a dictionary comprehension over the queries,
    every query without dependencies. *)
Definition get_query_dependencies (d : DashboardYAML) : Py.dict (list string) :=
  fold_left (fun deps q => Py.dict_set deps (query_id q) []) (queries d) [].

(** [max(values, default=d)]. *)
Definition max_default (values : list Z) (default : Z) : Z :=
  match values with
  | [] => default
  | v :: rest => fold_left Z.max rest v
  end.

(** The body of the loop of [estimate_execution_time] for one SQL text. *)
Definition estimate_ms (sql : string) : Z :=
  let sql_length := Z.of_nat (String.length sql) in
  let has_join := Py.contains "join" (Py.lower sql) in
  let has_aggregate :=
    existsb (fun agg => Py.contains agg (Py.lower sql))
            ["sum("; "count("; "avg("; "group by"] in
  500 + (if 1000 <? sql_length then 500 else 0)
      + (if has_join then 300 else 0)
      + (if has_aggregate then 200 else 0).

Record ExecutionEstimate := {
  total_estimated_ms : Z;
  query_estimates : list (string * Z)     (* [query_id], [estimated_ms] *)
}.

(** [estimate_execution_time]. *)
Definition estimate_execution_time (d : DashboardYAML) : ExecutionEstimate :=
  let query_estimates := map (fun q => (query_id q, estimate_ms (sql q))) (queries d) in
  let max_query_time := max_default (map snd query_estimates) 0 in
  {| total_estimated_ms := max_query_time;
     query_estimates := query_estimates |}.

End DashboardCompilerService.

(* ================================================================= *)
(** ** [src/integrations/bigquery_client.py] *)

Module BigQueryClient.

(** The part of [settings] read by the client. *)
Record Settings := {
  bigquery_max_bytes_billed : Z;
  bigquery_query_timeout : Z;
  bigquery_use_query_cache : bool;
  bigquery_allowed_datasets : list string
}.

Definition DANGEROUS_PATTERNS : list string :=
  [ "DROP "; "DELETE "; "TRUNCATE "; "ALTER "; "CREATE ";
    "GRANT "; "REVOKE "; "INSERT "; "UPDATE "; "MERGE " ].

(** [validate_query]. *)
Definition validate_query (settings : Settings) (sql : string)
  : bool * option string :=
  let sql_upper := Py.upper sql in
  match find (fun pattern => Py.contains pattern sql_upper) DANGEROUS_PATTERNS with
  | Some pattern =>
      (false, Some ("Dangerous SQL pattern detected: " ++ Py.strip pattern)%string)
  | None =>
      match bigquery_allowed_datasets settings with
      | [] => (true, None)
      | datasets =>
          let found_allowed :=
            existsb (fun dataset =>
                       Py.contains (dataset ++ ".")%string sql ||
                       Py.contains ("`" ++ dataset ++ ".")%string sql)
                    datasets in
          if negb found_allowed
          then (false,
                Some ("Query must reference one of allowed datasets: " ++
                      Py.join ", " datasets)%string)
          else (true, None)
      end
  end.

(** [hash_query]: the full SHA-256 digest of the normalised SQL. *)
Definition hash_query (sql : string) : string :=
  SHA256.hexdigest (Py.encode (Py.lower (Py.join " " (Py.split sql)))).

(** *** The query engine *)

Record JobConfig := {
  maximum_bytes_billed : Z;
  use_query_cache : bool;
  query_parameters : list (string * string)
}.

Inductive Cell :=
| CNone
| CInt (z : Z)
| CStr (s : string)
| CDateTime (isoformat : string).   (* any value with an [isoformat] method *)

Definition Row := Py.dict Cell.

(** A completed [QueryJob]. *)
Record QueryJob := {
  job_id : string;
  schema : list (string * string);
  rows : list Row;                  (* the complete result set *)
  total_rows : Z;
  total_bytes_processed : option Z;
  total_bytes_billed : option Z;
  cache_hit : option bool;
  started : option Q;
  ended : option Q
}.

(** [client.query(sql, job_config)] followed by [query_job.result(timeout)]:
    a completed job, or the exception the engine raises (a failed or aborted
    job, for instance one that exceeds [maximum_bytes_billed]). *)
Definition Engine := string -> JobConfig -> Z -> outcome QueryJob.

(** The state the executor acts on: the requests sent to the engine and the
    query log table, with whether the database accepts writes. *)
Record QueryLog := {
  log_dashboard_id : option string;
  log_user_id : option string;
  log_query_hash : string;
  log_sql_preview : string;
  log_bytes_scanned : Z;
  log_duration_ms : Z;
  log_row_count : Z;
  log_job_id : option string;
  log_cache_hit : bool;
  log_purpose : db_models.QueryPurpose
}.

Record world := {
  engine_calls : list (string * JobConfig);
  query_log : list QueryLog;
  db_available : bool
}.

Import Eff.
Local Open Scope py_scope.

Definition M : Type -> Type := Eff.M world.

Section Client.
Variable settings : Settings.
Variable engine : Engine.

Definition call_engine (sql : string) (cfg : JobConfig) (timeout : Z) : M QueryJob :=
  fun w =>
    (engine sql cfg timeout,
     {| engine_calls := engine_calls w ++ [(sql, cfg)];
        query_log := query_log w;
        db_available := db_available w |}).

(** [execute_query]. *)
Definition execute_query (sql : string) (parameters : list (string * string))
    (max_bytes_billed : option Z) (timeout : option Z) (use_cache : bool)
  : M QueryJob :=
  match validate_query settings sql with
  | (false, error) =>
      raise (builtin ValueError (match error with Some m => m | None => "None" end))
  | (true, _) =>
      let job_config :=
        {| maximum_bytes_billed :=
             Py.or_int max_bytes_billed (bigquery_max_bytes_billed settings);
           use_query_cache :=
             if bigquery_use_query_cache settings then use_cache else false;
           query_parameters := parameters |} in
      call_engine sql job_config
                  (Py.or_int timeout (bigquery_query_timeout settings))
  end.

(** [int(delta.total_seconds() * 1000)], computed exactly.  Python
    multiplies a float, so its result can be one millisecond less than the
    exact one. *)
Definition millis (delta : Q) : Z :=
  Z.quot (Qnum delta * 1000) (Zpos (Qden delta)).

Record Metadata := {
  md_job_id : string;
  md_schema : list (string * string);
  md_row_count : Z;
  md_bytes_scanned : Z;
  md_bytes_billed : Z;
  md_cache_hit : bool;
  md_duration_ms : Z
}.

(** [get_query_metadata]. *)
Definition get_query_metadata (job : QueryJob) : Metadata :=
  {| md_job_id := job_id job;
     md_schema := schema job;
     md_row_count := total_rows job;
     md_bytes_scanned := Py.or_int (total_bytes_processed job) 0;
     md_bytes_billed := Py.or_int (total_bytes_billed job) 0;
     md_cache_hit := match cache_hit job with Some b => b | None => false end;
     md_duration_ms :=
       match ended job, started job with
       | Some e, Some s => millis (e - s)
       | _, _ => 0
       end |}.

Definition to_iso (c : Cell) : Cell :=
  match c with
  | CDateTime iso => CStr iso
  | other => other
  end.

Definition row_dict (r : Row) : Row := map (fun kv => (fst kv, to_iso (snd kv))) r.

(** [sample_results]. *)
Definition sample_results (job : QueryJob) (max_rows : nat) : list Row :=
  map row_dict (firstn max_rows (rows job)).

(** [execute_for_verification]: the metadata and at most 100 sample rows. *)
Definition execute_for_verification (sql : string)
    (parameters : list (string * string)) (max_bytes_billed : option Z)
  : M (Metadata * list Row) :=
  job <- execute_query sql parameters max_bytes_billed None true ;;
  ret (get_query_metadata job, sample_results job 100).

(** [execute_for_serving]: every row; no byte limit is passed on. *)
Definition execute_for_serving (sql : string)
    (parameters : list (string * string)) : M (list Row) :=
  job <- execute_query sql parameters None None true ;;
  ret (map row_dict (rows job)).
End Client.

End BigQueryClient.

(* ================================================================= *)
(** ** [src/services/sql_executor.py] *)

Module SQLExecutorService.
Import Eff BigQueryClient.
Local Open Scope py_scope.

(** [SQLVerificationResult]. *)
Record SQLVerificationResult := {
  valid : bool;
  res_job_id : option string;
  res_schema : list (string * string);
  res_row_count : Z;
  sample_rows : list Row;
  res_bytes_scanned : Z;
  res_bytes_billed : Z;
  res_cache_hit : bool;
  res_duration_ms : Z;
  error : option string
}.

(** A query of a batch: the keys ['id'], ['sql'] and the optional
    ['max_bytes_billed'] of the dictionary. *)
Record BatchQuery := {
  id : string;
  sql : string;
  max_bytes_billed : option Z
}.

Section Service.
Variable settings : Settings.
Variable engine : Engine.

(** [_log_query_execution]: a failure to write the entry is swallowed. *)
Definition _log_query_execution (sql query_hash : string)
    (bytes_scanned duration_ms row_count : Z) (job_id : option string)
    (cache_hit : bool) (purpose : db_models.QueryPurpose)
    (user_id dashboard_id : option string) : M unit :=
  fun w =>
    if db_available w then
      (Return tt,
       {| engine_calls := engine_calls w;
          query_log := query_log w ++
            [ {| log_dashboard_id := dashboard_id;
                 log_user_id := user_id;
                 log_query_hash := query_hash;
                 log_sql_preview := Py.take 500 sql;
                 log_bytes_scanned := bytes_scanned;
                 log_duration_ms := duration_ms;
                 log_row_count := row_count;
                 log_job_id := job_id;
                 log_cache_hit := cache_hit;
                 log_purpose := purpose |} ];
          db_available := db_available w |})
    else (Return tt, w).

(** [execute_for_verification]. *)
Definition execute_for_verification (sql : string) (max_bytes_billed : option Z)
    (user_id dashboard_id : option string) : M SQLVerificationResult :=
  let query_hash := hash_query sql in
  try_except
    (result <- BigQueryClient.execute_for_verification settings engine
                 sql [] max_bytes_billed ;;
     let '(md, sample) := result in
     _log_query_execution sql query_hash (md_bytes_scanned md) (md_duration_ms md)
       (md_row_count md) (Some (md_job_id md)) (md_cache_hit md)
       db_models.verification user_id dashboard_id ;;;
     ret {| valid := true;
            res_job_id := Some (md_job_id md);
            res_schema := md_schema md;
            res_row_count := md_row_count md;
            sample_rows := sample;
            res_bytes_scanned := md_bytes_scanned md;
            res_bytes_billed := md_bytes_billed md;
            res_cache_hit := md_cache_hit md;
            res_duration_ms := md_duration_ms md;
            error := None |})
    (fun e =>
       _log_query_execution sql query_hash 0 0 0 None false
         db_models.verification user_id dashboard_id ;;;
       ret {| valid := false;
              res_job_id := None;
              res_schema := [];
              res_row_count := 0;
              sample_rows := [];
              res_bytes_scanned := 0;
              res_bytes_billed := 0;
              res_cache_hit := false;
              res_duration_ms := 0;
              error := Some (exceptions.str e) |}).

(** [execute_for_serving]; [max_bytes_billed] is accepted and not used. *)
Definition execute_for_serving (sql : string) (max_bytes_billed : option Z)
    (user_id dashboard_id : option string) : M (list Row) :=
  let query_hash := hash_query sql in
  try_except
    (rows <- BigQueryClient.execute_for_serving settings engine sql [] ;;
     _log_query_execution sql query_hash 0 0 (Z.of_nat (List.length rows)) None
       false db_models.serving user_id dashboard_id ;;;
     ret rows)
    (fun e =>
       raise (BigQueryException_init
                ("Query execution failed: " ++ exceptions.str e)%string
                (Some query_hash) None None (Some e))).

(** [_execute_single_for_batch]. *)
Definition _execute_single_for_batch (query_id sql : string)
    (max_bytes_billed : option Z) (user_id dashboard_id : option string)
  : M (list Row) :=
  execute_for_serving sql max_bytes_billed user_id dashboard_id.

(** [asyncio.gather] with [return_exceptions=True]: every task runs to
    its end and its result or its exception is collected at its position.
    The event loop runs the tasks concurrently; they share no state beyond
    the append-only records of [world], so the results collected do not
    depend on the schedule, which shows only in the order of the records
    appended.  The tasks are run here in the order of the list, one
    schedule among the possible ones: of the records a batch appends, only
    what holds whatever their order is meant. *)
Fixpoint gather {A} (tasks : list (M A)) : M (list (outcome A)) :=
  match tasks with
  | [] => ret []
  | t :: ts =>
      fun w =>
        let '(r, w1) := t w in
        match gather ts w1 with
        | (Return rs, w2) => (Return (r :: rs), w2)
        | (Raise e, w2) => (Raise e, w2)
        end
  end.

(** The loop that fills [result_map]. *)
Fixpoint build_result_map (queries : list BatchQuery)
    (results : list (outcome (list Row))) (result_map : Py.dict (list Row))
  : Py.dict (list Row) :=
  match queries, results with
  | q :: qs, r :: rs =>
      build_result_map qs rs
        (Py.dict_set result_map (id q)
           (match r with
            | Raise _ => []
            | Return rows => rows
            end))
  | _, _ => result_map
  end.

(** [execute_batch]. *)
Definition execute_batch (queries : list BatchQuery)
    (user_id dashboard_id : option string) : M (Py.dict (list Row)) :=
  results <- gather (map (fun q => _execute_single_for_batch (id q) (sql q)
                                     (max_bytes_billed q) user_id dashboard_id)
                         queries) ;;
  ret (build_result_map queries results []).
End Service.

(** *** Compact chart payloads *)

(** The dictionaries [transform_to_compact_payload] returns, one
    constructor for each set of keys. *)
Inductive Payload :=
| RowsPayload (data : list Row) (row_count : Z)
| TimeSeriesPayload (data : list (Cell * Cell)) (row_count : Z)
| CategoricalPayload (data : Py.dict Cell) (row_count : Z)
| KPIPayload (value : Cell) (row_count : option Z)
| TablePayload (data : list Row) (row_count : Z) (columns : list string).

Section Payloads.
(** [str(v)] of a date or time value, given its [isoformat()]. *)
Variable str_datetime : string -> string.

(** [str(v)] for the value of a cell. *)
Definition str_cell (c : Cell) : string :=
  match c with
  | CNone => "None"
  | CInt z => Py.str_int z
  | CStr s => s
  | CDateTime iso => str_datetime iso
  end.

(** [_transform_time_series]: [row[keys[0]]] and [row[keys[1]]] are the
    values of the first two columns of the row. *)
Definition _transform_time_series (rows : list Row) : Payload :=
  let data :=
    flat_map (fun row : Row =>
                match row with
                | (_, v0) :: (_, v1) :: _ => [(v0, v1)]
                | _ => []
                end) rows in
  TimeSeriesPayload data (Z.of_nat (List.length rows)).

(** [_transform_categorical]. *)
Definition _transform_categorical (rows : list Row) : Payload :=
  let data :=
    fold_left (fun (data : Py.dict Cell) (row : Row) =>
                 match row with
                 | (_, v0) :: (_, v1) :: _ => Py.dict_set data (str_cell v0) v1
                 | _ => data
                 end) rows [] in
  CategoricalPayload data (Z.of_nat (List.length rows)).

(** [_transform_kpi]. *)
Definition _transform_kpi (rows : list Row) : Payload :=
  match rows with
  | [] => KPIPayload CNone None
  | first_row :: _ =>
      let value :=
        match first_row with
        | (_, v0) :: _ => v0
        | [] => CNone
        end in
      KPIPayload value (Some (Z.of_nat (List.length rows)))
  end.

(** [_transform_table]. *)
Definition _transform_table (rows : list Row) : Payload :=
  TablePayload rows (Z.of_nat (List.length rows))
    (match rows with
     | first_row :: _ => Py.dict_keys first_row
     | [] => []
     end).

(** [transform_to_compact_payload]. *)
Definition transform_to_compact_payload (rows : list Row) (chart_type : string)
  : Payload :=
  match rows with
  | [] => RowsPayload [] 0
  | _ :: _ =>
      if String.eqb chart_type "line_chart" || String.eqb chart_type "area_chart"
      then _transform_time_series rows
      else if String.eqb chart_type "bar_chart" then _transform_categorical rows
      else if String.eqb chart_type "kpi" then _transform_kpi rows
      else if String.eqb chart_type "table" then _transform_table rows
      else RowsPayload rows (Z.of_nat (List.length rows))
  end.
End Payloads.

End SQLExecutorService.

(* ================================================================= *)
(** ** [src/core/cache.py] *)

Module InMemoryCache.

Section WithValue.
Context {V : Type}.

(** The cache object: the two constructor arguments and the ordered
    dictionary [_cache] of (value, expiry) pairs, least recently used
    first. *)
Record t := mk {
  max_size : Z;
  default_ttl : Z;
  _cache : Py.dict (V * Q)
}.

(** [InMemoryCache(max_size, default_ttl)]. *)
Definition init (max_size default_ttl : Z) : t := mk max_size default_ttl [].

Definition with_cache (c : t) (d : Py.dict (V * Q)) : t :=
  mk (max_size c) (default_ttl c) d.

Definition len (c : t) : Z := Z.of_nat (List.length (_cache c)).

(** [_is_expired] at the clock reading [now]: [now > expiry]. *)
Definition _is_expired (now expiry : Q) : bool := negb (Qle_bool now expiry).

(** [_evict_expired]. *)
Definition _evict_expired (now : Q) (c : t) : t :=
  with_cache c
    (filter (fun kv => negb (_is_expired now (snd (snd kv)))) (_cache c)).

(** [_evict_lru]: [popitem(last=False)] raises [KeyError] on an empty
    dictionary. *)
Definition _evict_lru (c : t) : outcome unit * t :=
  if max_size c <=? len c then
    match _cache c with
    | [] => (Raise (builtin KeyError "'dictionary is empty'"), c)
    | _ :: rest => (Return tt, with_cache c rest)
    end
  else (Return tt, c).

(** [get]; [t1] is the clock in [_evict_expired], [t2] in [_is_expired]. *)
Definition get (c : t) (t1 t2 : Q) (key : string) : option V * t :=
  let c1 := _evict_expired t1 c in
  match Py.dict_get (_cache c1) key with
  | None => (None, c1)
  | Some (value, expiry) =>
      if _is_expired t2 expiry
      then (None, with_cache c1 (Py.dict_del (_cache c1) key))
      else (Some value, with_cache c1 (Py.move_to_end (_cache c1) key))
  end.

(** [set]; [t1] is the clock in [_evict_expired], [t2] the one added to the
    time to live. *)
Definition set (c : t) (t1 t2 : Q) (key : string) (value : V) (ttl : option Z)
  : outcome bool * t :=
  let c1 := _evict_expired t1 c in
  match _evict_lru c1 with
  | (Raise e, c2) => (Raise e, c2)
  | (Return _, c2) =>
      let ttl_seconds := Py.or_int ttl (default_ttl c) in
      let expiry := (t2 + inject_Z ttl_seconds)%Q in
      (Return true,
       with_cache c2
         (Py.move_to_end (Py.dict_set (_cache c2) key (value, expiry)) key))
  end.

(** [delete]. *)
Definition delete (c : t) (key : string) : bool * t :=
  if Py.dict_mem (_cache c) key
  then (true, with_cache c (Py.dict_del (_cache c) key))
  else (false, c).

(** [exists]. *)
Definition exists_ (c : t) (t1 t2 : Q) (key : string) : bool * t :=
  let '(value, c') := get c t1 t2 key in
  (match value with Some _ => true | None => false end, c').

(** [invalidate_pattern]: the keys that contain [pattern] are deleted. *)
Definition invalidate_pattern (c : t) (pattern : string) : Z * t :=
  let keys_to_delete :=
    filter (fun key => Py.contains pattern key) (Py.dict_keys (_cache c)) in
  (Z.of_nat (List.length keys_to_delete),
   with_cache c (fold_left Py.dict_del keys_to_delete (_cache c))).

(** [clear]. *)
Definition clear (c : t) : bool * t := (true, with_cache c []).

(** [health_check]: the reported size, after the purge. *)
Definition health_check (c : t) (t1 : Q) : Z * t :=
  let c1 := _evict_expired t1 c in (len c1, c1).

(** The calls a client can make, with the clock readings of each. *)
Inductive call :=
| CallGet (t1 t2 : Q) (key : string)
| CallSet (t1 t2 : Q) (key : string) (value : V) (ttl : option Z)
| CallDelete (key : string)
| CallExists (t1 t2 : Q) (key : string)
| CallInvalidatePattern (pattern : string)
| CallClear
| CallHealthCheck (t1 : Q).

(** The cache after a call (a raised exception leaves the cache as the
    call had made it so far). *)
Definition after (c : t) (op : call) : t :=
  match op with
  | CallGet t1 t2 key => snd (get c t1 t2 key)
  | CallSet t1 t2 key value ttl => snd (set c t1 t2 key value ttl)
  | CallDelete key => snd (delete c key)
  | CallExists t1 t2 key => snd (exists_ c t1 t2 key)
  | CallInvalidatePattern p => snd (invalidate_pattern c p)
  | CallClear => snd (clear c)
  | CallHealthCheck t1 => snd (health_check c t1)
  end.

Definition run (c : t) (ops : list call) : t := fold_left after ops c.
End WithValue.

Arguments t V : clear implicits.
Arguments call V : clear implicits.

End InMemoryCache.

Module RedisCache.

Section WithServer.
Context {V : Type}.

(** The Redis connection: [GET key] and [SETEX key seconds value] at a
    given time, each of which may fail. *)
Variable server : Type.
Variable redis_get : server -> Q -> string -> outcome (option string).
Variable redis_setex :
  server -> Q -> string -> Z -> string -> outcome unit * server.

(** [json.dumps] and [json.loads]. *)
Variable json_dumps : V -> outcome string.
Variable json_loads : string -> outcome V.

Variable default_ttl : Z.

(** [get]: any failure is logged and reported as a miss. *)
Definition get (srv : server) (now : Q) (key : string) : option V :=
  match redis_get srv now key with
  | Return (Some value) =>
      match json_loads value with
      | Return v => Some v
      | Raise _ => None
      end
  | Return None => None
  | Raise _ => None
  end.

(** [set]: any failure is logged and reported as [False]. *)
Definition set (srv : server) (now : Q) (key : string) (value : V)
    (ttl : option Z) : bool * server :=
  let ttl_seconds := Py.or_int ttl default_ttl in
  match json_dumps value with
  | Return serialized =>
      match redis_setex srv now key ttl_seconds serialized with
      | (Return _, srv') => (true, srv')
      | (Raise _, srv') => (false, srv')
      end
  | Raise _ => (false, srv)
  end.
End WithServer.

End RedisCache.

(** Cache keys. *)
Definition build_dashboard_cache_key (slug query_hash : string) (version : Z) : string :=
  ("dashboard:" ++ slug ++ ":query:" ++ query_hash ++ ":v" ++ Py.str_int version)%string.

Definition build_lineage_cache_key (slug : string) : string :=
  ("lineage:" ++ slug)%string.

(* ================================================================= *)
(** ** [src/services/lineage.py] *)

Module LineageService.
Import Eff.
Import db_models (NodeType, EdgeType, NodeType_eqb, EdgeType_eqb).
Local Open Scope py_scope.

(** The rows of [lineage_nodes] and [lineage_edges]; a UUID is an integer. *)
Record LineageNode := {
  id : Z;
  node_type : NodeType;
  node_id : string;
  node_metadata : option (Py.dict string)
}.

Record LineageEdge := {
  edge_id : Z;
  source_node_id : Z;
  target_node_id : Z;
  edge_type : EdgeType
}.

(** The session: both tables and the next identifier [uuid4] hands out. *)
Record Db := {
  lineage_nodes : list LineageNode;
  lineage_edges : list LineageEdge;
  next_uuid : Z
}.

(** SQL [LIKE]: [%] matches any run of characters, [_] any one character. *)
Fixpoint like (pattern : string) : string -> bool :=
  match pattern with
  | EmptyString => fun s => match s with EmptyString => true | _ => false end
  | String "%" p' =>
      fix star (s : string) : bool :=
        like p' s || match s with
                     | EmptyString => false
                     | String _ s' => star s'
                     end
  | String "_" p' =>
      fun s => match s with
               | EmptyString => false
               | String _ s' => like p' s'
               end
  | String c p' =>
      fun s => match s with
               | EmptyString => false
               | String d s' => Ascii.eqb c d && like p' s'
               end
  end.

(** [select(LineageNode).where(node_type == ty, node_id == nid)] with
    [scalar_one_or_none]; the pair is unique in the table. *)
Definition find_node (db : Db) (ty : NodeType) (nid : string) : option LineageNode :=
  find (fun n => NodeType_eqb (node_type n) ty && String.eqb (node_id n) nid)
       (lineage_nodes db).

(** [_clear_dashboard_lineage]: the dashboard node is deleted, and with it
    (ON DELETE CASCADE) the edges that start or end at it. *)
Definition _clear_dashboard_lineage (slug : string) : M Db unit :=
  fun db =>
    match find_node db db_models.dashboard slug with
    | Some dashboard_node =>
        (Return tt,
         {| lineage_nodes :=
              filter (fun n => negb (id n =? id dashboard_node)) (lineage_nodes db);
            lineage_edges :=
              filter (fun e => negb (source_node_id e =? id dashboard_node) &&
                               negb (target_node_id e =? id dashboard_node))
                     (lineage_edges db);
            next_uuid := next_uuid db |})
    | None => (Return tt, db)
    end.

(** [_create_or_update_node].  In the branch of an existing node the name
    [datetime] is read before the [import] that binds it in the other
    branch, so the update raises [UnboundLocalError] after the metadata has
    been assigned. *)
Definition _create_or_update_node (ty : NodeType) (nid : string)
    (metadata : option (Py.dict string)) : M Db LineageNode :=
  fun db =>
    match find_node db ty nid with
    | Some node =>
        (Raise (builtin UnboundLocalError
                  "local variable 'datetime' referenced before assignment"),
         {| lineage_nodes :=
              map (fun n => if id n =? id node
                            then {| id := id n; node_type := node_type n;
                                    node_id := node_id n;
                                    node_metadata := metadata |}
                            else n)
                  (lineage_nodes db);
            lineage_edges := lineage_edges db;
            next_uuid := next_uuid db |})
    | None =>
        let node := {| id := next_uuid db; node_type := ty; node_id := nid;
                       node_metadata := metadata |} in
        (Return node,
         {| lineage_nodes := lineage_nodes db ++ [node];
            lineage_edges := lineage_edges db;
            next_uuid := next_uuid db + 1 |})
    end.

(** [_create_edge]; [uq_lineage_edge] rejects a second edge with the same
    source, target and type. *)
Definition _create_edge (source target : Z) (ty : EdgeType) : M Db LineageEdge :=
  fun db =>
    if existsb (fun e => (source_node_id e =? source) && (target_node_id e =? target)
                         && EdgeType_eqb (edge_type e) ty)
               (lineage_edges db)
    then (Raise (builtin IntegrityError "uq_lineage_edge"), db)
    else
      let edge := {| edge_id := next_uuid db; source_node_id := source;
                     target_node_id := target; edge_type := ty |} in
      (Return edge,
       {| lineage_nodes := lineage_nodes db;
          lineage_edges := lineage_edges db ++ [edge];
          next_uuid := next_uuid db + 1 |}).

Fixpoint create_nodes (seeds : list DashboardCompilerService.NodeSeed)
    (node_map : Py.dict Z) (nodes_created : Z) : M Db (Py.dict Z * Z) :=
  match seeds with
  | [] => ret (node_map, nodes_created)
  | node_seed :: rest =>
      node <- _create_or_update_node
                (DashboardCompilerService.node_type node_seed)
                (DashboardCompilerService.node_id node_seed)
                (Some (DashboardCompilerService.node_metadata node_seed)) ;;
      create_nodes rest
        (Py.dict_set node_map (DashboardCompilerService.node_id node_seed) (id node))
        (nodes_created + 1)
  end.

Fixpoint create_edges (seeds : list DashboardCompilerService.EdgeSeed)
    (node_map : Py.dict Z) (edges_created : Z) : M Db Z :=
  match seeds with
  | [] => ret edges_created
  | edge_seed :: rest =>
      match Py.dict_get node_map (DashboardCompilerService.source_node_id edge_seed),
            Py.dict_get node_map (DashboardCompilerService.target_node_id edge_seed) with
      | Some source_uuid, Some target_uuid =>
          _create_edge source_uuid target_uuid
            (DashboardCompilerService.edge_type edge_seed) ;;;
          create_edges rest node_map (edges_created + 1)
      | _, _ => create_edges rest node_map edges_created
      end
  end.

(** [build_lineage_for_dashboard]: the counts of nodes and edges created.
    (The deletion of the cached graph acts on the cache, not on the tables.) *)
Definition build_lineage_for_dashboard (slug : string)
    (nodes : list DashboardCompilerService.NodeSeed)
    (edges : list DashboardCompilerService.EdgeSeed) : M Db (Z * Z) :=
  _clear_dashboard_lineage slug ;;;
  created <- create_nodes nodes [] 0 ;;
  let '(node_map, nodes_created) := created in
  edges_created <- create_edges edges node_map 0 ;;
  ret (nodes_created, edges_created).

(** [_get_dashboard_nodes]: the nodes whose [node_id] is the slug or starts
    with the slug and a colon. *)
Definition _get_dashboard_nodes (db : Db) (slug : string) : list LineageNode :=
  match find_node db db_models.dashboard slug with
  | None => []
  | Some _ =>
      filter (fun n => String.eqb (node_id n) slug ||
                       like (slug ++ ":%")%string (node_id n))
             (lineage_nodes db)
  end.

(** [get_upstream_tables]. *)
Definition get_upstream_tables (db : Db) (slug : string) : list string :=
  let nodes := _get_dashboard_nodes db slug in
  let table_nodes :=
    filter (fun node => NodeType_eqb (node_type node) db_models.table) nodes in
  map node_id table_nodes.

Definition empty_db : Db :=
  {| lineage_nodes := []; lineage_edges := []; next_uuid := 1 |}.

(** [_get_edges_for_nodes]. *)
Definition _get_edges_for_nodes (db : Db) (node_ids : list Z) : list LineageEdge :=
  match node_ids with
  | [] => []
  | _ :: _ =>
      filter (fun e => existsb (Z.eqb (source_node_id e)) node_ids ||
                       existsb (Z.eqb (target_node_id e)) node_ids)
             (lineage_edges db)
  end.

(** [get_downstream_dashboards]: from the table node back along the
    [reads_from], [executes] and [contains] edges. *)
Definition get_downstream_dashboards (db : Db) (table_name : string) : list string :=
  match find_node db db_models.table table_name with
  | None => []
  | Some table_node =>
      let query_edges :=
        filter (fun e => (target_node_id e =? id table_node) &&
                         EdgeType_eqb (edge_type e) db_models.reads_from)
               (lineage_edges db) in
      let query_node_ids := map source_node_id query_edges in
      match query_node_ids with
      | [] => []
      | _ :: _ =>
          let chart_edges :=
            filter (fun e => existsb (Z.eqb (target_node_id e)) query_node_ids &&
                             EdgeType_eqb (edge_type e) db_models.executes)
                   (lineage_edges db) in
          let chart_node_ids := map source_node_id chart_edges in
          match chart_node_ids with
          | [] => []
          | _ :: _ =>
              let dashboard_edges :=
                filter (fun e => existsb (Z.eqb (target_node_id e)) chart_node_ids &&
                                 EdgeType_eqb (edge_type e) db_models.contains)
                       (lineage_edges db) in
              let dashboard_node_ids := map source_node_id dashboard_edges in
              let dashboard_nodes :=
                filter (fun n => existsb (Z.eqb (id n)) dashboard_node_ids &&
                                 NodeType_eqb (node_type n) db_models.dashboard)
                       (lineage_nodes db) in
              map node_id dashboard_nodes
          end
      end
  end.

End LineageService.

(* ================================================================= *)
(** ** [src/services/yaml_validation.py] *)

Module YAMLValidationService.

(** [ValidationError] of the response models. *)
Record ValidationError := {
  field : string;
  message : string;
  type : string
}.

Section Service.
Variable settings : BigQueryClient.Settings.

(** [_validate_sql_queries]: [validate_query] raises nothing, so only the
    branch of a refused query adds an error. *)
Definition _validate_sql_queries (dashboard : yaml_schema.DashboardYAML)
  : list ValidationError :=
  flat_map
    (fun query =>
       let '(is_valid, error_msg) :=
         BigQueryClient.validate_query settings (yaml_schema.sql query) in
       if negb is_valid
       then [ {| field := ("queries." ++ yaml_schema.query_id query ++ ".sql")%string;
                 message := match exceptions.truthy error_msg with
                            | Some m => m
                            | None => "SQL validation failed"
                            end;
                 type := "sql_error" |} ]
       else [])
    (yaml_schema.queries dashboard).
End Service.

(** [_check_warnings]. *)
Definition _check_warnings (dashboard : yaml_schema.DashboardYAML) : list string :=
  let long_queries :=
    flat_map
      (fun query =>
         let n := Z.of_nat (String.length (yaml_schema.sql query)) in
         if 10000 <? n
         then [("Query '" ++ yaml_schema.query_id query ++ "' is very long (" ++
                Py.str_int n ++ " characters). " ++
                "Consider breaking into multiple queries or using views.")%string]
         else [])
      (yaml_schema.queries dashboard) in
  let charts := Z.of_nat (List.length (yaml_schema.layout dashboard)) in
  let many_charts :=
    if 20 <? charts
    then [("Dashboard has " ++ Py.str_int charts ++ " charts. " ++
           "Consider splitting into multiple dashboards for better performance.")%string]
    else [] in
  let used_query_refs := map yaml_schema.query_ref (yaml_schema.layout dashboard) in
  let unused_queries :=
    filter (fun i => negb (yaml_schema.mem_str i used_query_refs))
           (map yaml_schema.query_id (yaml_schema.queries dashboard)) in
  let unused :=
    match unused_queries with
    | [] => []
    | _ :: _ =>
        [("Unused queries detected: " ++
          Py.join ", " (yaml_schema.sorted_set unused_queries) ++ ". " ++
          "Consider removing them to improve clarity.")%string]
    end in
  let tags :=
    Z.of_nat (List.length (yaml_schema.tags (yaml_schema.metadata dashboard))) in
  let many_tags :=
    if 10 <? tags
    then [("Dashboard has " ++ Py.str_int tags ++ " tags. " ++
           "Consider using fewer, more focused tags.")%string]
    else [] in
  long_queries ++ many_charts ++ unused ++ many_tags.

(** *** [validate_slug_format]

    [re.match(r"^[a-z0-9][a-z0-9-]*[a-z0-9]$", slug)]; without the
    MULTILINE flag [$] matches at the end of the text and before a line
    feed that ends the text. *)

Definition is_alnum (c : ascii) : bool :=
  let n := N_of_ascii c in
  ((97 <=? n) && (n <=? 122) || (48 <=? n) && (n <=? 57))%N.

Definition is_slug_char (c : ascii) : bool :=
  is_alnum c || Ascii.eqb c "-".

(** [$] at the head of what is left of the text. *)
Definition at_end (s : string) : bool :=
  match s with
  | EmptyString => true
  | String c EmptyString => Ascii.eqb c (ascii_of_nat 10)
  | String _ (String _ _) => false
  end.

(** [[a-z0-9-]*[a-z0-9]$]: the character at hand is the last one of the
    pattern, or one of the repeated ones. *)
Fixpoint match_tail (s : string) : bool :=
  match s with
  | EmptyString => false
  | String c s' =>
      (is_alnum c && at_end s') || (is_slug_char c && match_tail s')
  end.

Definition re_match (s : string) : bool :=
  match s with
  | EmptyString => false
  | String c s' => is_alnum c && match_tail s'
  end.

Definition reserved : list string :=
  ["admin"; "api"; "auth"; "dashboard"; "dashboards"; "health"; "docs"].

Definition validate_slug_format (slug : string) : bool * option string :=
  if negb (re_match slug)
  then (false,
        Some ("Slug must be lowercase alphanumeric with hyphens, " ++
              "start and end with alphanumeric, 3-100 characters")%string)
  else if (String.length slug <? 3)%nat || (100 <? String.length slug)%nat
  then (false, Some "Slug must be between 3 and 100 characters")
  else if yaml_schema.mem_str slug reserved
  then (false, Some ("Slug '" ++ slug ++ "' is reserved and cannot be used")%string)
  else (true, None).

End YAMLValidationService.

(* ================================================================= *)
(** ** [src/services/data_serving.py] *)

Module DataServingService.

(** What a call of the service can raise: [DashboardNotFoundException],
    the [AttributeError] of a read of [.get] on a value that has none, and
    whatever the cache raises. *)
Inductive error :=
| DashboardNotFoundException (slug : string)
| AttributeError (message : string)
| CacheError (e : exn).

(** [str(e)]; [NotFoundException] builds its message with
    ["dashboard".title()]. *)
Definition str (e : error) : string :=
  match e with
  | DashboardNotFoundException slug => ("Dashboard '" ++ slug ++ "' not found")%string
  | AttributeError message => message
  | CacheError e => exceptions.str e
  end.

(** The session and the cache the service was built with; the cache is the
    in-process one, the default of [settings.cache_type]. *)
Record state := {
  dashboards : list db_models.Dashboard;
  cache : InMemoryCache.t Py.Json
}.

(** The readings of the clocks in one call, in the order of the code:
    [time.time()] twice in [cache.get], twice in [cache.set], and
    [datetime.utcnow()] up to three times. *)
Record clock := {
  get_purge : Q;
  get_check : Q;
  set_purge : Q;
  set_stamp : Q;
  utcnow1 : Q;
  utcnow2 : Q;
  utcnow3 : Q
}.

Record DashboardData := {
  dashboard_slug : string;
  version : Z;
  data : Py.Json;
  cache_hit : bool;
  as_of : Py.Json;
  metadata_name : string;
  metadata_view_type : string
}.

Record ChartData := {
  chart_id : string;
  chart_data : Py.Json;
  chart_cache_hit : bool
}.

(** [_get_dashboard]: [slug] is unique in the table. *)
Definition _get_dashboard (s : state) (slug : string) : error + db_models.Dashboard :=
  match find (fun d => String.eqb (db_models.slug d) slug) (dashboards s) with
  | Some dashboard => inr dashboard
  | None => inl (DashboardNotFoundException slug)
  end.

(** [dashboard.last_accessed = now; dashboard.access_count += 1], flushed. *)
Definition record_access (now : Q) (slug : string)
    (rows : list db_models.Dashboard) : list db_models.Dashboard :=
  map (fun d =>
         if String.eqb (db_models.slug d) slug
         then {| db_models.slug := db_models.slug d;
                 db_models.name := db_models.name d;
                 db_models.version := db_models.version d;
                 db_models.view_type := db_models.view_type d;
                 db_models.updated_at := db_models.updated_at d;
                 db_models.last_accessed := Some now;
                 db_models.access_count := db_models.access_count d + 1 |}
         else d)
      rows.

(** [v.get(key)]: [None] for a missing key of a dictionary; the other
    values have no [get]. *)
Definition Json_get (v : Py.Json) (key : string) : error + Py.Json :=
  match v with
  | Py.JDict d =>
      inr (match Py.dict_get d key with
           | Some x => x
           | None => Py.JNone
           end)
  | _ => inl (AttributeError "object has no attribute 'get'")
  end.

Section Service.
Variable cache_default_ttl : Z.        (* [settings.cache_default_ttl] *)
Variable isoformat : Q -> string.      (* [datetime.isoformat] *)

Definition data_cache_key (slug : string) (version : Z) : string :=
  ("dashboard:" ++ slug ++ ":data:v" ++ Py.str_int version)%string.

Definition chart_cache_key (slug chart_id : string) (version : Z) : string :=
  ("dashboard:" ++ slug ++ ":chart:" ++ chart_id ++ ":v" ++ Py.str_int version)%string.

(** [cache.get(key)]: a miss is [None]. *)
Definition cache_get (c : InMemoryCache.t Py.Json) (t1 t2 : Q) (key : string)
  : Py.Json * InMemoryCache.t Py.Json :=
  match InMemoryCache.get c t1 t2 key with
  | (Some value, c') => (value, c')
  | (None, c') => (Py.JNone, c')
  end.

(** [serve_dashboard_data]. *)
Definition serve_dashboard_data (s : state) (slug : string) (force_refresh : bool)
    (clk : clock) : (error + DashboardData) * state :=
  match _get_dashboard s slug with
  | inl e => (inl e, s)
  | inr dashboard =>
      let cache_key := data_cache_key slug (db_models.version dashboard) in
      let '(cached_data, c1) :=
        if force_refresh then (Py.JNone, cache s)
        else cache_get (cache s) (get_purge clk) (get_check clk) cache_key in
      if negb force_refresh && Py.truthy cached_data then
        let s1 := {| dashboards := record_access (utcnow1 clk) slug (dashboards s);
                     cache := c1 |} in
        match Json_get cached_data "computed_at" with
        | inl e => (inl e, s1)
        | inr computed_at =>
            (inr {| dashboard_slug := slug;
                    version := db_models.version dashboard;
                    data := cached_data;
                    cache_hit := true;
                    as_of := computed_at;
                    metadata_name := db_models.name dashboard;
                    metadata_view_type :=
                      db_models.ViewType_value (db_models.view_type dashboard) |},
             s1)
        end
      else
        let computed_data :=
          Py.JDict
            [("computed_at", Py.JStr (isoformat (utcnow1 clk)));
             ("charts", Py.JDict []);
             ("query_count", Py.JInt 0);
             ("note", Py.JStr
                ("TODO: Implement query execution via " ++
                 "StorageService + CompilerService + SQLExecutorService")%string)] in
        match InMemoryCache.set c1 (set_purge clk) (set_stamp clk) cache_key
                computed_data (Some cache_default_ttl) with
        | (Raise e, c2) => (inl (CacheError e), {| dashboards := dashboards s; cache := c2 |})
        | (Return _, c2) =>
            (inr {| dashboard_slug := slug;
                    version := db_models.version dashboard;
                    data := computed_data;
                    cache_hit := false;
                    as_of := Py.JStr (isoformat (utcnow1 clk));
                    metadata_name := db_models.name dashboard;
                    metadata_view_type :=
                      db_models.ViewType_value (db_models.view_type dashboard) |},
             {| dashboards := record_access (utcnow2 clk) slug (dashboards s);
                cache := c2 |})
        end
  end.

(** [get_chart_data]. *)
Definition get_chart_data (s : state) (slug chart_id : string) (force_refresh : bool)
    (clk : clock) : (error + ChartData) * state :=
  match _get_dashboard s slug with
  | inl e => (inl e, s)
  | inr dashboard =>
      let cache_key := chart_cache_key slug chart_id (db_models.version dashboard) in
      let '(cached_data, c1) :=
        if force_refresh then (Py.JNone, cache s)
        else cache_get (cache s) (get_purge clk) (get_check clk) cache_key in
      if negb force_refresh && Py.truthy cached_data then
        (inr {| chart_id := chart_id; chart_data := cached_data;
                chart_cache_hit := true |},
         {| dashboards := dashboards s; cache := c1 |})
      else
        let computed_data :=
          Py.JDict
            [("computed_at", Py.JStr (isoformat (utcnow1 clk)));
             ("data", Py.JList []);
             ("note", Py.JStr "TODO: Implement chart-specific query execution")] in
        match InMemoryCache.set c1 (set_purge clk) (set_stamp clk) cache_key
                computed_data (Some cache_default_ttl) with
        | (Raise e, c2) => (inl (CacheError e), {| dashboards := dashboards s; cache := c2 |})
        | (Return _, c2) =>
            (inr {| chart_id := chart_id; chart_data := computed_data;
                    chart_cache_hit := false |},
             {| dashboards := dashboards s; cache := c2 |})
        end
  end.
End Service.

(** [invalidate_dashboard_cache]. *)
Definition invalidate_dashboard_cache (s : state) (slug : string) : Z * state :=
  let pattern := ("dashboard:" ++ slug ++ ":*")%string in
  let '(count, c) := InMemoryCache.invalidate_pattern (cache s) pattern in
  (count, {| dashboards := dashboards s; cache := c |}).

End DataServingService.

(* ================================================================= *)
(** ** [src/services/precompute.py] *)

Module PrecomputeService.
Import DataServingService.

Record PrecomputeResult := {
  result_slug : string;             (* ["dashboard_slug"] *)
  result_version : Z;
  computed_at : string;
  duration_ms : Z;
  query_count : Z;
  cache_key : string;
  status : string
}.

(** An entry of ["results"] in [precompute_multiple]. *)
Inductive BatchEntry :=
| Succeeded (slug : string) (result : PrecomputeResult)
| Failed (slug : string) (error : string).

Record BatchResult := {
  total : Z;
  successful : Z;
  failed : Z;
  results : list BatchEntry
}.

(** [_get_dashboard], as in the data serving service. *)
Definition _get_dashboard (s : state) (slug : string) : error + db_models.Dashboard :=
  match find (fun d => String.eqb (db_models.slug d) slug) (dashboards s) with
  | Some dashboard => inr dashboard
  | None => inl (DashboardNotFoundException slug)
  end.

(** [dashboard.updated_at = computed_at], flushed. *)
Definition record_update (computed_at : Q) (slug : string)
    (rows : list db_models.Dashboard) : list db_models.Dashboard :=
  map (fun d =>
         if String.eqb (db_models.slug d) slug
         then {| db_models.slug := db_models.slug d;
                 db_models.name := db_models.name d;
                 db_models.version := db_models.version d;
                 db_models.view_type := db_models.view_type d;
                 db_models.updated_at := computed_at;
                 db_models.last_accessed := db_models.last_accessed d;
                 db_models.access_count := db_models.access_count d |}
         else d)
      rows.

Section Service.
Variable cache_default_ttl : Z.
Variable isoformat : Q -> string.

(** [precompute_dashboard]: [utcnow1] is [start_time], [utcnow2] is
    [computed_at], [utcnow3] is read for the duration. *)
Definition precompute_dashboard (s : state) (slug : string) (clk : clock)
  : (error + PrecomputeResult) * state :=
  let start_time := utcnow1 clk in
  match _get_dashboard s slug with
  | inl e => (inl e, s)
  | inr dashboard =>
      let computed_at := utcnow2 clk in
      let computed_data :=
        Py.JDict
          [("computed_at", Py.JStr (isoformat computed_at));
           ("charts", Py.JDict []);
           ("query_count", Py.JInt 0);
           ("note", Py.JStr "TODO: Implement full precompute pipeline")] in
      let cache_key := data_cache_key slug (db_models.version dashboard) in
      match InMemoryCache.set (cache s) (set_purge clk) (set_stamp clk) cache_key
              computed_data (Some cache_default_ttl) with
      | (Raise e, c) => (inl (CacheError e), {| dashboards := dashboards s; cache := c |})
      | (Return _, c) =>
          let duration_ms := BigQueryClient.millis (utcnow3 clk - start_time) in
          (inr {| result_slug := slug;
                  result_version := db_models.version dashboard;
                  computed_at := isoformat computed_at;
                  duration_ms := duration_ms;
                  query_count := 0;
                  cache_key := cache_key;
                  status := "success" |},
           {| dashboards := record_update computed_at slug (dashboards s);
              cache := c |})
      end
  end.

(** The loop of [precompute_multiple]; [clocks i] are the readings of the
    clocks in the iteration for the slug at position [i]. *)
Fixpoint precompute_each (s : state) (slugs : list string) (clocks : nat -> clock)
    (i : nat) (results : list BatchEntry) (successful failed : Z)
  : (list BatchEntry * Z * Z) * state :=
  match slugs with
  | [] => ((results, successful, failed), s)
  | slug :: rest =>
      match precompute_dashboard s slug (clocks i) with
      | (inr result, s') =>
          precompute_each s' rest clocks (S i)
            (results ++ [Succeeded slug result]) (successful + 1) failed
      | (inl e, s') =>
          precompute_each s' rest clocks (S i)
            (results ++ [Failed slug (str e)]) successful (failed + 1)
      end
  end.

(** [precompute_multiple]. *)
Definition precompute_multiple (s : state) (slugs : list string)
    (clocks : nat -> clock) : BatchResult * state :=
  let '((results, successful, failed), s') :=
    precompute_each s slugs clocks O [] 0 0 in
  ({| total := Z.of_nat (List.length slugs);
      successful := successful;
      failed := failed;
      results := results |},
   s').
End Service.

End PrecomputeService.


(* ================================================================= *)
(** * Properties *)

(* ================================================================= *)
(** ** Grid validation *)

Section GridOverlap.
Import yaml_schema.

Lemma in_range (a b z : Z) : In z (range a b) <-> a <= z < b.
Proof.
  unfold range. rewrite in_map_iff. split.
  - intros [i [Hz Hi]]. apply in_seq in Hi. lia.
  - intros Hz. exists (Z.to_nat (z - a)). split; [lia|].
    apply in_seq. lia.
Qed.

Lemma in_cells (p : GridPosition) (cx cy : Z) :
  In (cx, cy) (cells p) <->
  x p <= cx < x p + w p /\ y p <= cy < y p + h p.
Proof.
  unfold cells. rewrite in_flat_map. split.
  - intros [cx' [Hx Hy]]. apply in_map_iff in Hy.
    destruct Hy as [cy' [Heq Hy]]. inversion Heq; subst.
    apply in_range in Hx. apply in_range in Hy. lia.
  - intros [Hx Hy]. exists cx. split; [apply in_range; lia|].
    apply in_map_iff. exists cy. split; [reflexivity|apply in_range; lia].
Qed.

Lemma cell_eqb_eq (a b : Z * Z) : cell_eqb a b = true <-> a = b.
Proof.
  destruct a as [a1 a2], b as [b1 b2]. unfold cell_eqb. simpl.
  rewrite andb_true_iff, !Z.eqb_eq. split.
  - intros [-> ->]. reflexivity.
  - intros H. inversion H. auto.
Qed.

Lemma seen_iff (c : Z * Z) (positions : list (Z * Z)) :
  existsb (cell_eqb c) positions = true <-> In c positions.
Proof.
  rewrite existsb_exists. split.
  - intros [c' [Hin Heq]]. apply cell_eqb_eq in Heq. subst. exact Hin.
  - intros Hin. exists c. split; [exact Hin|apply cell_eqb_eq; reflexivity].
Qed.

(** A rectangle that is placed without error adds exactly its cells. *)
Lemma place_cells_return item cs positions positions' :
  place_cells item cs positions = Return positions' ->
  positions' = positions ++ cs.
Proof.
  revert positions. induction cs as [|c cs IH]; simpl; intros positions H.
  - inversion H. now rewrite app_nil_r.
  - destruct (existsb (cell_eqb c) positions); [discriminate|].
    apply IH in H. rewrite H, <- app_assoc. reflexivity.
Qed.

(** A rectangle one of whose cells is already taken is refused. *)
Lemma place_cells_taken item cs positions c :
  In c cs -> In c positions ->
  exists c', place_cells item cs positions = Raise (overlap_error item c').
Proof.
  revert positions. induction cs as [|c0 cs IH]; simpl; intros positions Hcs Hpos.
  - contradiction.
  - destruct (existsb (cell_eqb c0) positions) eqn:E.
    + eauto.
    + destruct Hcs as [-> | Hcs].
      * apply seen_iff in Hpos. congruence.
      * apply IH; [exact Hcs|]. apply in_or_app. now left.
Qed.

Definition refused (r : outcome unit) : Prop :=
  exists item c, r = Raise (overlap_error item c).

Lemma place_items_taken items positions b c :
  In b items -> In c (cells (position b)) -> In c positions ->
  refused (place_items items positions).
Proof.
  revert positions. induction items as [|it items IH]; simpl;
    intros positions Hb Hc Hpos; [contradiction|].
  destruct (place_cells it (cells (position it)) positions) as [ps|e] eqn:E.
  - destruct Hb as [-> | Hb].
    + destruct (place_cells_taken b _ positions c Hc Hpos) as [c' Hc'].
      congruence.
    + apply place_cells_return in E. subst ps.
      apply IH; auto. apply in_or_app. now left.
  - destruct Hb as [-> | Hb].
    + destruct (place_cells_taken b _ positions c Hc Hpos) as [c' Hc'].
      exists b, c'. congruence.
    + clear IH. revert E. generalize (cells (position it)) as cs.
      intros cs. revert positions Hpos.
      induction cs as [|c0 cs IHcs]; simpl; intros positions Hpos E.
      * discriminate.
      * destruct (existsb (cell_eqb c0) positions).
        -- inversion E. exists it, c0. reflexivity.
        -- apply (IHcs (positions ++ [c0])); [apply in_or_app; now left|exact E].
Qed.

(** Whatever [place_cells] raises is an overlap error. *)
Lemma place_cells_raise item cs positions e :
  place_cells item cs positions = Raise e ->
  exists c, e = overlap_error item c.
Proof.
  revert positions. induction cs as [|c0 cs IH]; simpl; intros positions E.
  - discriminate.
  - destruct (existsb (cell_eqb c0) positions).
    + inversion E. eauto.
    + eauto.
Qed.

Lemma place_items_two l1 a l2 b l3 positions c :
  In c (cells (position a)) -> In c (cells (position b)) ->
  refused (place_items (l1 ++ a :: l2 ++ b :: l3) positions).
Proof.
  intros Ha Hb. revert positions.
  induction l1 as [|it l1 IH]; simpl; intros positions.
  - destruct (place_cells a (cells (position a)) positions) as [ps|e] eqn:E.
    + apply place_cells_return in E. subst ps.
      apply (place_items_taken _ _ b c); auto.
      * apply in_or_app. right. now left.
      * apply in_or_app. now right.
    + apply place_cells_raise in E. destruct E as [c' ->].
      exists a, c'. reflexivity.
  - destruct (place_cells it (cells (position it)) positions) as [ps|e] eqn:E.
    + apply IH.
    + apply place_cells_raise in E. destruct E as [c' ->].
      exists it, c'. reflexivity.
Qed.

Lemma nth_error_two {A} (l : list A) (i j : nat) (a b : A) :
  (i < j)%nat -> nth_error l i = Some a -> nth_error l j = Some b ->
  exists l1 l2 l3, l = l1 ++ a :: l2 ++ b :: l3.
Proof.
  intros Hlt Hi Hj.
  destruct (nth_error_split l i Hi) as [l1 [r [-> Hlen]]].
  rewrite nth_error_app2 in Hj by lia.
  destruct (j - List.length l1)%nat as [|k] eqn:Hk; [lia|]. simpl in Hj.
  destruct (nth_error_split r k Hj) as [l2 [l3 [-> _]]].
  now exists l1, l2, l3.
Qed.

(** Two rectangles share a cell. *)
Definition shares_cell (p q : GridPosition) : Prop :=
  exists cx cy,
    (x p <= cx <= x p + w p - 1 /\ y p <= cy <= y p + h p - 1) /\
    (x q <= cx <= x q + w q - 1 /\ y q <= cy <= y q + h q - 1).

Lemma overlapping_layout_refused (items : list LayoutItem) (i j : nat) a b :
  i <> j -> nth_error items i = Some a -> nth_error items j = Some b ->
  shares_cell (position a) (position b) ->
  refused (place_items items []).
Proof.
  intros Hij Hi Hj [cx [cy [Ha Hb]]].
  assert (Ia : In (cx, cy) (cells (position a))) by (apply in_cells; lia).
  assert (Ib : In (cx, cy) (cells (position b))) by (apply in_cells; lia).
  destruct (Nat.lt_total i j) as [Hlt | [Heq | Hgt]]; [|contradiction|].
  - destruct (nth_error_two items i j a b Hlt Hi Hj) as [l1 [l2 [l3 ->]]].
    now apply (place_items_two l1 a l2 b l3 [] (cx, cy)).
  - destruct (nth_error_two items j i b a Hgt Hj Hi) as [l1 [l2 [l3 ->]]].
    now apply (place_items_two l1 b l2 a l3 [] (cx, cy)).
Qed.
End GridOverlap.

(** Two sample items for the grid: the same chart at two places. *)
Definition sample_chart : yaml_schema.ChartConfig :=
  yaml_schema.KPIConfig "Revenue" None "total" None None None.

Definition grid_item (name : string) (x y w h : Z) : yaml_schema.LayoutItem :=
  {| yaml_schema.item_id := name;
     yaml_schema.type := yaml_schema.kpi;
     yaml_schema.chart := sample_chart;
     yaml_schema.query_ref := "monthly_revenue";
     yaml_schema.position :=
       {| yaml_schema.x := x; yaml_schema.y := y;
          yaml_schema.w := w; yaml_schema.h := h |} |}.

Definition sample_metadata : yaml_schema.DashboardMetadata :=
  {| yaml_schema.slug := "revenue-dashboard";
     yaml_schema.name := "Revenue Dashboard";
     yaml_schema.owner := "user@example.com";
     yaml_schema.view_type := yaml_schema.analytical;
     yaml_schema.description := None;
     yaml_schema.tags := [];
     yaml_schema.owner_email := "user@example.com";
     yaml_schema.access_count := 0 |}.

Definition sample_query (name text : string) : yaml_schema.Query :=
  {| yaml_schema.query_id := name;
     yaml_schema.warehouse := yaml_schema.bigquery;
     yaml_schema.sql := text;
     yaml_schema.max_bytes_billed := None |}.

Definition grid_dashboard (items : list yaml_schema.LayoutItem)
  : yaml_schema.DashboardYAML :=
  {| yaml_schema.metadata := sample_metadata;
     yaml_schema.queries :=
       [sample_query "monthly_revenue" "SELECT month, SUM(revenue) FROM proj.sales.orders GROUP BY month"];
     yaml_schema.layout := items |}.

(** C7.  If two layout items of a definition, at different places of the
    layout list and in either order, have grid rectangles (the cells with
    column from x to x+w-1 and row from y to y+h-1) that share a cell, then
    [validate_grid_overlaps] raises its overlap error and the definition is
    not validated.  In particular an item with x=4, w=6 and an item with x=0,
    w=6 that have a row in common share a cell, and the cells they share lie
    in columns 4 and 5 only. *)
Theorem grid_overlap_rejected :
  (forall (d : yaml_schema.DashboardYAML) (i j : nat) (a b : yaml_schema.LayoutItem),
      i <> j ->
      nth_error (yaml_schema.layout d) i = Some a ->
      nth_error (yaml_schema.layout d) j = Some b ->
      shares_cell (yaml_schema.position a) (yaml_schema.position b) ->
      (exists item c,
          yaml_schema.validate_grid_overlaps d =
          Raise (yaml_schema.overlap_error item c)) /\
      ~ yaml_schema.validated d) /\
  (forall p q : yaml_schema.GridPosition,
      yaml_schema.x p = 4 -> yaml_schema.w p = 6 ->
      yaml_schema.x q = 0 -> yaml_schema.w q = 6 ->
      (exists row, yaml_schema.y p <= row <= yaml_schema.y p + yaml_schema.h p - 1 /\
                   yaml_schema.y q <= row <= yaml_schema.y q + yaml_schema.h q - 1) ->
      shares_cell p q /\ shares_cell q p /\
      forall cx cy,
        In (cx, cy) (yaml_schema.cells p) -> In (cx, cy) (yaml_schema.cells q) ->
        4 <= cx <= 5).
Proof.
  split.
  - intros d i j a b Hij Hi Hj Hshare.
    assert (R : refused (yaml_schema.validate_grid_overlaps d))
      by (exact (overlapping_layout_refused _ i j a b Hij Hi Hj Hshare)).
    split; [exact R|].
    destruct R as [item [c R]].
    intros [_ Hv]. unfold yaml_schema.model_validators in Hv.
    rewrite R in Hv.
    destruct (yaml_schema.validate_query_refs d); [|discriminate].
    destruct (yaml_schema.validate_chart_ids_unique d); [|discriminate].
    destruct (yaml_schema.validate_query_ids_unique d); discriminate.
  - intros p q Hxp Hwp Hxq Hwq [row [Hp Hq]].
    split; [|split].
    + exists 4, row. lia.
    + exists 4, row. lia.
    + intros cx cy Ip Iq. apply in_cells in Ip. apply in_cells in Iq. lia.
Qed.

(** The same two charts, declared in either order, are refused at column 4. *)
Lemma grid_overlap_rejected_witness :
  (exists item c,
      yaml_schema.validate_grid_overlaps
        (grid_dashboard [grid_item "trend" 4 0 6 4; grid_item "table_1" 0 0 6 4]) =
      Raise (yaml_schema.overlap_error item c)) /\
  ~ yaml_schema.validated
      (grid_dashboard [grid_item "trend" 4 0 6 4; grid_item "table_1" 0 0 6 4]).
Proof.
  apply (proj1 grid_overlap_rejected
           (grid_dashboard [grid_item "trend" 4 0 6 4; grid_item "table_1" 0 0 6 4])
           0%nat 1%nat (grid_item "trend" 4 0 6 4) (grid_item "table_1" 0 0 6 4)).
  - discriminate.
  - reflexivity.
  - reflexivity.
  - exists 4, 0. simpl. lia.
Defined.

Example grid_overlap_first_order :
  yaml_schema.validate_grid_overlaps
    (grid_dashboard [grid_item "trend" 4 0 6 4; grid_item "table_1" 0 0 6 4]) =
  Raise (builtin ValueError
           "Chart 'table_1' overlaps with another chart at position (4, 0)").
Proof. vm_compute. reflexivity. Qed.

Example grid_overlap_second_order :
  yaml_schema.validate_grid_overlaps
    (grid_dashboard [grid_item "table_1" 0 0 6 4; grid_item "trend" 4 0 6 4]) =
  Raise (builtin ValueError
           "Chart 'trend' overlaps with another chart at position (4, 0)").
Proof. vm_compute. reflexivity. Qed.

Example grid_side_by_side_accepted :
  yaml_schema.validated
    (grid_dashboard [grid_item "table_1" 0 0 6 4; grid_item "trend" 6 0 6 4]).
Proof.
  split.
  - repeat constructor.
  - vm_compute. reflexivity.
Qed.

(* ================================================================= *)
(** ** Dangerous SQL *)

(** The default [settings]: a cap of 100 MB, a timeout of 60 seconds, the
    engine's result cache on and no dataset allowlist. *)
Definition default_settings : BigQueryClient.Settings :=
  {| BigQueryClient.bigquery_max_bytes_billed := 100000000;
     BigQueryClient.bigquery_query_timeout := 60;
     BigQueryClient.bigquery_use_query_cache := true;
     BigQueryClient.bigquery_allowed_datasets := [] |}.

Definition empty_world : BigQueryClient.world :=
  {| BigQueryClient.engine_calls := [];
     BigQueryClient.query_log := [];
     BigQueryClient.db_available := true |}.

(** The data-mutating keywords named by the specification. *)
Definition DANGEROUS_KEYWORDS : list string :=
  [ "DROP"; "DELETE"; "TRUNCATE"; "ALTER"; "CREATE";
    "GRANT"; "REVOKE"; "INSERT"; "UPDATE"; "MERGE" ].

Definition dangerous_message (keyword : string) : string :=
  ("Dangerous SQL pattern detected: " ++ keyword)%string.

Lemma patterns_are_keywords :
  map Py.strip BigQueryClient.DANGEROUS_PATTERNS = DANGEROUS_KEYWORDS /\
  BigQueryClient.DANGEROUS_PATTERNS =
  map (fun k => (k ++ " ")%string) DANGEROUS_KEYWORDS.
Proof. split; reflexivity. Qed.

Section DangerousSQL.
Import BigQueryClient.
Variable settings : Settings.

(** The pattern loop stops at the first pattern found in the upper-cased SQL. *)
Lemma validate_query_dangerous (sql pattern : string) :
  In pattern DANGEROUS_PATTERNS ->
  Py.contains pattern (Py.upper sql) = true ->
  exists keyword,
    In keyword DANGEROUS_KEYWORDS /\
    Py.contains (keyword ++ " ")%string (Py.upper sql) = true /\
    validate_query settings sql = (false, Some (dangerous_message keyword)).
Proof.
  intros Hin Hc. unfold validate_query.
  destruct (find (fun p => Py.contains p (Py.upper sql)) DANGEROUS_PATTERNS)
    as [p|] eqn:F.
  - apply find_some in F. destruct F as [Hp Hpc].
    exists (Py.strip p). split; [|split].
    + destruct patterns_are_keywords as [<- _]. now apply in_map.
    + replace (Py.strip p ++ " ")%string with p; [exact Hpc|].
      simpl in Hp.
      repeat (destruct Hp as [<- | Hp]; [reflexivity|]). contradiction.
    + reflexivity.
  - apply (find_none _ _ F) in Hin. simpl in Hin. congruence.
Qed.

(** A rejected query raises before the engine is reached: the state, and
    with it the list of requests sent to the engine, is unchanged. *)
Lemma execute_query_rejected (engine : Engine) (sql msg : string)
    parameters max_bytes timeout use_cache (w : world) :
  validate_query settings sql = (false, Some msg) ->
  execute_query settings engine sql parameters max_bytes timeout use_cache w =
  (Raise (builtin ValueError msg), w).
Proof. intros H. unfold execute_query. rewrite H. reflexivity. Qed.
End DangerousSQL.

Definition LF : string := String (ascii_of_nat 10) EmptyString.

(** [DROP], a line break, [TABLE users]. *)
Definition drop_on_two_lines : string := ("DROP" ++ LF ++ "TABLE users")%string.

(** An engine that completes every job with an empty result. *)
Definition idle_engine : BigQueryClient.Engine :=
  fun _ _ _ =>
    Return {| BigQueryClient.job_id := "job_1";
              BigQueryClient.schema := [];
              BigQueryClient.rows := [];
              BigQueryClient.total_rows := 0;
              BigQueryClient.total_bytes_processed := Some 0;
              BigQueryClient.total_bytes_billed := Some 0;
              BigQueryClient.cache_hit := Some false;
              BigQueryClient.started := None;
              BigQueryClient.ended := None |}.

(** The SQL [DROP], line break, [TABLE users] contains the keyword DROP,
    yet validation accepts it and the query is sent to the engine. *)
Lemma dangerous_keyword_not_always_rejected :
  In "DROP" DANGEROUS_KEYWORDS /\
  Py.contains "DROP" (Py.upper drop_on_two_lines) = true /\
  BigQueryClient.validate_query default_settings drop_on_two_lines = (true, None) /\
  BigQueryClient.engine_calls
    (snd (BigQueryClient.execute_query default_settings idle_engine
            drop_on_two_lines [] None None true empty_world)) =
  [(drop_on_two_lines,
    {| BigQueryClient.maximum_bytes_billed := 100000000;
       BigQueryClient.use_query_cache := true;
       BigQueryClient.query_parameters := [] |})].
Proof. repeat split; vm_compute; auto. Qed.

(** For every SQL string whose upper-cased text contains one of the ten
    keywords immediately followed by a space, [validate_query] rejects it
    with the message naming such a keyword, [execute_query] raises that
    message as a [ValueError] without any request to the engine, and the
    verification entry point reports the query as invalid with that
    message, again without any request to the engine. *)
Lemma dangerous_sql_rejected
    (settings : BigQueryClient.Settings) (engine : BigQueryClient.Engine)
    (sql keyword : string) :
  In keyword DANGEROUS_KEYWORDS ->
  Py.contains (keyword ++ " ")%string (Py.upper sql) = true ->
  exists found,
    In found DANGEROUS_KEYWORDS /\
    Py.contains (found ++ " ")%string (Py.upper sql) = true /\
    BigQueryClient.validate_query settings sql = (false, Some (dangerous_message found)) /\
    (forall parameters max_bytes timeout use_cache w,
        BigQueryClient.execute_query settings engine sql parameters max_bytes
          timeout use_cache w =
        (Raise (builtin ValueError (dangerous_message found)), w)) /\
    (forall max_bytes user_id dashboard_id w,
        exists result w',
          SQLExecutorService.execute_for_verification settings engine sql
            max_bytes user_id dashboard_id w = (Return result, w') /\
          SQLExecutorService.valid result = false /\
          SQLExecutorService.error result = Some (dangerous_message found) /\
          BigQueryClient.engine_calls w' = BigQueryClient.engine_calls w).
Proof.
  intros Hk Hc.
  assert (Hp : In (keyword ++ " ")%string BigQueryClient.DANGEROUS_PATTERNS).
  { destruct patterns_are_keywords as [_ ->].
    apply (in_map (fun k => (k ++ " ")%string)). exact Hk. }
  destruct (validate_query_dangerous settings sql _ Hp Hc) as [found [Hf [Hfc Hv]]].
  exists found. repeat split; auto.
  - intros. now apply execute_query_rejected.
  - intros max_bytes user_id dashboard_id w.
    unfold SQLExecutorService.execute_for_verification, Eff.try_except,
      BigQueryClient.execute_for_verification, Eff.bind.
    rewrite (execute_query_rejected settings engine sql _ _ _ _ _ w Hv).
    unfold SQLExecutorService._log_query_execution, Eff.ret.
    destruct (BigQueryClient.db_available w); eexists; eexists;
      (split; [reflexivity|]); repeat split.
Qed.

(** ["DROP TABLE users"] is rejected, under any settings and engine. *)
Lemma dangerous_sql_rejected_witness :
  exists found,
    In found DANGEROUS_KEYWORDS /\
    Py.contains (found ++ " ")%string (Py.upper "DROP TABLE users") = true /\
    BigQueryClient.validate_query default_settings "DROP TABLE users" =
      (false, Some (dangerous_message found)) /\
    (forall parameters max_bytes timeout use_cache w,
        BigQueryClient.execute_query default_settings idle_engine "DROP TABLE users"
          parameters max_bytes timeout use_cache w =
        (Raise (builtin ValueError (dangerous_message found)), w)) /\
    (forall max_bytes user_id dashboard_id w,
        exists result w',
          SQLExecutorService.execute_for_verification default_settings idle_engine
            "DROP TABLE users" max_bytes user_id dashboard_id w = (Return result, w') /\
          SQLExecutorService.valid result = false /\
          SQLExecutorService.error result = Some (dangerous_message found) /\
          BigQueryClient.engine_calls w' = BigQueryClient.engine_calls w).
Proof.
  apply (dangerous_sql_rejected default_settings idle_engine "DROP TABLE users" "DROP").
  - simpl. auto.
  - vm_compute. reflexivity.
Defined.

(** C2 (the code departs from the claim).  The SQL [DROP TABLE users] is
    rejected before any request to the engine, under every configuration,
    but not with a [DangerousSQL] error: [validate_query] returns a message,
    [execute_query] raises it as a plain [ValueError], the verification
    entry point returns an invalid result that carries the message, and
    the serving entry point raises a [BigQueryException] around it.  The
    exception is not the [DangerousSQLException] that the exception module
    defines for this case, which no function constructs.  The patterns are
    the keywords followed by a space: [DROP], line break, [TABLE users]
    passes validation and is sent to the engine. *)
Theorem dangerous_sql_exception_never_raised :
  (forall settings,
      BigQueryClient.validate_query settings "DROP TABLE users" =
      (false, Some "Dangerous SQL pattern detected: DROP")) /\
  (forall settings engine parameters max_bytes timeout use_cache w,
      BigQueryClient.execute_query settings engine "DROP TABLE users" parameters
        max_bytes timeout use_cache w =
      (Raise (builtin ValueError "Dangerous SQL pattern detected: DROP"), w)) /\
  cls (builtin ValueError "Dangerous SQL pattern detected: DROP") <>
    DangerousSQLException /\
  builtin ValueError "Dangerous SQL pattern detected: DROP" <>
    DangerousSQLException_init "DROP" (Some "DROP TABLE users") /\
  (forall settings engine max_bytes user_id dashboard_id w,
      exists result w',
        SQLExecutorService.execute_for_verification settings engine
          "DROP TABLE users" max_bytes user_id dashboard_id w = (Return result, w') /\
        SQLExecutorService.valid result = false /\
        SQLExecutorService.error result = Some "Dangerous SQL pattern detected: DROP" /\
        BigQueryClient.engine_calls w' = BigQueryClient.engine_calls w) /\
  (forall settings engine max_bytes user_id dashboard_id w,
      exists e,
        SQLExecutorService.execute_for_serving settings engine "DROP TABLE users"
          max_bytes user_id dashboard_id w = (Raise e, w) /\
        cls e = BigQueryException /\
        message e = "Query execution failed: Dangerous SQL pattern detected: DROP" /\
        original_error e =
          Some (ValueError, "Dangerous SQL pattern detected: DROP")) /\
  BigQueryClient.validate_query default_settings drop_on_two_lines = (true, None) /\
  map fst (BigQueryClient.engine_calls
             (snd (BigQueryClient.execute_query default_settings idle_engine
                     drop_on_two_lines [] None None true empty_world))) =
    [drop_on_two_lines].
Proof.
  assert (V : forall settings,
             BigQueryClient.validate_query settings "DROP TABLE users" =
             (false, Some "Dangerous SQL pattern detected: DROP")).
  { intros settings. reflexivity. }
  assert (E : forall settings engine parameters max_bytes timeout use_cache w,
             BigQueryClient.execute_query settings engine "DROP TABLE users"
               parameters max_bytes timeout use_cache w =
             (Raise (builtin ValueError "Dangerous SQL pattern detected: DROP"), w)).
  { intros. apply execute_query_rejected. apply V. }
  split; [exact V|]. split; [exact E|]. split; [discriminate|].
  split; [discriminate|]. split; [|split; [|split]].
  - intros settings engine max_bytes user_id dashboard_id w.
    unfold SQLExecutorService.execute_for_verification, Eff.try_except,
      BigQueryClient.execute_for_verification, Eff.bind.
    rewrite E. unfold SQLExecutorService._log_query_execution, Eff.ret.
    destruct (BigQueryClient.db_available w); eexists; eexists;
      (split; [reflexivity|]); repeat split.
  - intros settings engine max_bytes user_id dashboard_id w.
    unfold SQLExecutorService.execute_for_serving, Eff.try_except,
      BigQueryClient.execute_for_serving, Eff.bind.
    rewrite E. eexists. split; [reflexivity|]. repeat split.
  - vm_compute. reflexivity.
  - vm_compute. reflexivity.
Qed.

Example drop_table_users :
  BigQueryClient.validate_query default_settings "DROP TABLE users" =
  (false, Some "Dangerous SQL pattern detected: DROP").
Proof. vm_compute. reflexivity. Qed.

Example drop_table_users_lowercase :
  BigQueryClient.validate_query default_settings "select 1; drop table users" =
  (false, Some "Dangerous SQL pattern detected: DROP").
Proof. vm_compute. reflexivity. Qed.

(* ================================================================= *)
(** ** Strings: substrings, tokens and case *)

Section Strings.
Import Py.

Lemma startswith_app (p s : string) :
  startswith p s = true <-> exists post, s = (p ++ post)%string.
Proof.
  revert s. induction p as [|a p IH]; intros s; simpl.
  - split; [intros _; now exists s|reflexivity].
  - destruct s as [|b s]; simpl.
    + split; [discriminate|intros [post H]; discriminate].
    + rewrite andb_true_iff, IH. split.
      * intros [Hab [post ->]]. apply Ascii.eqb_eq in Hab. subst. now exists post.
      * intros [post H]. inversion H; subst. split; [apply Ascii.eqb_refl|now exists post].
Qed.

(** [contains p s] holds exactly when [p] is a contiguous part of [s]. *)
Lemma contains_app (p s : string) :
  contains p s = true <-> exists pre post, s = (pre ++ p ++ post)%string.
Proof.
  induction s as [|c s IH].
  - simpl. rewrite orb_false_r, startswith_app. split.
    + intros [post H]. now exists EmptyString, post.
    + intros [pre [post H]]. destruct pre; simpl in H; [now exists post|discriminate].
  - cbn [contains]. rewrite orb_true_iff, startswith_app, IH. split.
    + intros [[post H] | [pre [post H]]].
      * now exists EmptyString, post.
      * exists (String c pre), post. simpl. now rewrite H.
    + intros [pre [post H]]. destruct pre as [|c' pre]; simpl in H.
      * left. now exists post.
      * inversion H; subst. right. now exists pre, post.
Qed.

Definition all_space (s : string) : Prop :=
  forall c, In c (list_ascii_of_string s) -> is_space c = true.

Lemma split_leading (ws s : string) :
  all_space ws -> split (ws ++ s) = split s.
Proof.
  induction ws as [|c ws IH]; intros H; simpl; [reflexivity|].
  rewrite (H c) by (simpl; auto).
  apply IH. intros c' Hc'. apply H. simpl. auto.
Qed.

Lemma split_all_space (ws : string) : all_space ws -> split ws = [].
Proof.
  induction ws as [|c ws IH]; intros H; simpl; [reflexivity|].
  rewrite (H c) by (simpl; auto).
  apply IH. intros c' Hc'. apply H. simpl. auto.
Qed.

Lemma split_starts_token (s : string) :
  starts_token s = true -> exists t ts, split s = t :: ts.
Proof.
  destruct s as [|c s]; simpl; [discriminate|].
  intros H. apply negb_true_iff in H. rewrite H.
  destruct (starts_token s); [destruct (split s)|]; eauto.
Qed.

(** A whitespace character separates what precedes it from what follows. *)
Lemma split_at_space (a b : string) (c : ascii) :
  is_space c = true -> split (a ++ String c b) = split a ++ split b.
Proof.
  intros Hc. induction a as [|x a IH].
  - simpl. now rewrite Hc.
  - cbn [append split]. destruct (is_space x) eqn:Hx; [exact IH|].
    destruct a as [|y a].
    + simpl. rewrite Hc. simpl. reflexivity.
    + change (starts_token (String y a ++ String c b))
        with (starts_token (String y a)).
      destruct (starts_token (String y a)) eqn:Hy.
      * rewrite IH.
        destruct (split_starts_token _ Hy) as [t [ts ->]]. reflexivity.
      * rewrite IH. reflexivity.
Qed.

Lemma split_trailing (s ws : string) :
  all_space ws -> split (s ++ ws) = split s.
Proof.
  intros H. destruct ws as [|c ws].
  - f_equal. induction s; simpl; congruence.
  - rewrite split_at_space by (apply H; simpl; auto).
    rewrite (split_all_space ws) by (intros c' Hc'; apply H; simpl; auto).
    apply app_nil_r.
Qed.

(** Any non-empty run of whitespace between two parts splits as any other. *)
Lemma split_between (a ws b : string) :
  ws <> EmptyString -> all_space ws ->
  split (a ++ ws ++ b) = split a ++ split b.
Proof.
  intros Hne H. destruct ws as [|c ws]; [contradiction|].
  change (a ++ String c ws ++ b)%string with (a ++ String c (ws ++ b))%string.
  rewrite split_at_space by (apply H; simpl; auto).
  rewrite split_leading; [reflexivity|].
  intros c' Hc'. apply H. simpl. auto.
Qed.

Lemma is_space_lower (c : ascii) : is_space (lower_char c) = is_space c.
Proof. destruct c as [[] [] [] [] [] [] [] []]; reflexivity. Qed.

Lemma lower_upper_char (c : ascii) : lower_char (upper_char c) = lower_char c.
Proof. destruct c as [[] [] [] [] [] [] [] []]; reflexivity. Qed.

Lemma lower_lower_char (c : ascii) : lower_char (lower_char c) = lower_char c.
Proof. destruct c as [[] [] [] [] [] [] [] []]; reflexivity. Qed.

Lemma lower_upper (s : string) : lower (upper s) = lower s.
Proof.
  unfold lower, upper. induction s as [|c s IH]; cbn [str_map]; [reflexivity|].
  rewrite lower_upper_char. f_equal. exact IH.
Qed.

Lemma lower_lower (s : string) : lower (lower s) = lower s.
Proof.
  unfold lower. induction s as [|c s IH]; cbn [str_map]; [reflexivity|].
  rewrite lower_lower_char. f_equal. exact IH.
Qed.

Lemma lower_app (a b : string) : lower (a ++ b) = (lower a ++ lower b)%string.
Proof.
  unfold lower. induction a as [|c a IH]; cbn [append str_map]; [reflexivity|].
  f_equal. exact IH.
Qed.

Lemma starts_token_lower (s : string) : starts_token (lower s) = starts_token s.
Proof.
  destruct s as [|c s]; [reflexivity|].
  unfold lower. cbn [str_map starts_token]. now rewrite is_space_lower.
Qed.

(** Splitting commutes with lower-casing. *)
Lemma split_lower (s : string) : split (lower s) = map lower (split s).
Proof.
  induction s as [|c s IH]; [reflexivity|].
  change (lower (String c s)) with (String (lower_char c) (lower s)).
  cbn [split]. rewrite is_space_lower, starts_token_lower, IH.
  destruct (is_space c); [reflexivity|].
  destruct (starts_token s); [|reflexivity].
  destruct (split s); reflexivity.
Qed.

Lemma lower_join (sep : string) (l : list string) :
  lower (join sep l) = join (lower sep) (map lower l).
Proof.
  unfold join. induction l as [|t l IH]; [reflexivity|].
  destruct l as [|u l]; [reflexivity|].
  change (String.concat sep (t :: u :: l))
    with (t ++ sep ++ String.concat sep (u :: l))%string.
  rewrite !lower_app, IH. reflexivity.
Qed.
End Strings.

(* ================================================================= *)
(** ** The query hash *)

Section Tokens.
Import Py.

(** A token: a non-empty string without whitespace. *)
Definition token (t : string) : Prop :=
  t <> EmptyString /\ forall c, In c (list_ascii_of_string t) -> is_space c = false.

Lemma token_cons (c : ascii) (t : string) :
  is_space c = false -> token t -> token (String c t).
Proof.
  intros Hc [_ Ht]. split; [discriminate|].
  intros c' [<- | Hin]; auto.
Qed.

Lemma token_single (c : ascii) : is_space c = false -> token (String c EmptyString).
Proof. intros Hc. split; [discriminate|]. intros c' [<- | []]; auto. Qed.

Lemma split_tokens (s : string) : Forall token (split s).
Proof.
  induction s as [|c s IH]; cbn [split]; [constructor|].
  destruct (is_space c) eqn:Hc; [exact IH|].
  destruct (starts_token s).
  - destruct (split s) as [|t ts].
    + constructor; [now apply token_single|constructor].
    + inversion IH; subst. constructor; [now apply token_cons|assumption].
  - constructor; [now apply token_single|exact IH].
Qed.

Lemma split_token (t : string) : token t -> split t = [t].
Proof.
  induction t as [|c t IH]; intros [Hne Hc]; [contradiction|].
  cbn [split]. rewrite (Hc c) by (simpl; auto).
  destruct t as [|d t]; [reflexivity|].
  assert (Ht : token (String d t)).
  { split; [discriminate|]. intros c' Hc'. apply Hc. simpl. auto. }
  cbn [starts_token]. rewrite (Hc d) by (simpl; auto). cbn [negb].
  rewrite (IH Ht). reflexivity.
Qed.

(** Joining tokens with one space and splitting again gives the tokens back. *)
Lemma split_join (l : list string) :
  Forall token l -> split (join " " l) = l.
Proof.
  unfold join. induction l as [|t l IH]; intros H; [reflexivity|].
  inversion H as [|? ? Ht Hl]; subst.
  destruct l as [|u l].
  - simpl. now apply split_token.
  - change (String.concat " " (t :: u :: l))
      with (t ++ String " " (String.concat " " (u :: l)))%string.
    rewrite split_at_space by reflexivity.
    rewrite (split_token t Ht), (IH Hl). reflexivity.
Qed.

Lemma token_lower (t : string) : token t -> token (lower t).
Proof.
  intros [Hne Hc]. split.
  - destruct t; [contradiction|discriminate].
  - intros c Hin. unfold lower in Hin.
    assert (G : forall s, In c (list_ascii_of_string (str_map lower_char s)) ->
                exists d, In d (list_ascii_of_string s) /\ c = lower_char d).
    { induction s as [|d s IHs]; simpl; [contradiction|].
      intros [<- | Hs]; [eauto|].
      destruct (IHs Hs) as [d' [Hd' ->]]. eauto. }
    destruct (G t Hin) as [d [Hd ->]]. rewrite is_space_lower. now apply Hc.
Qed.

(** Two SQL texts have the same tokens up to case: the same sequence of
    whitespace-separated words once every word is lower-cased. *)
Definition same_tokens (s1 s2 : string) : Prop :=
  map lower (split s1) = map lower (split s2).

Lemma normalized_tokens (s : string) :
  DashboardCompilerService.normalized s = join " " (map lower (split s)).
Proof. unfold DashboardCompilerService.normalized. now rewrite lower_join. Qed.

Lemma split_normalized (s : string) :
  split (DashboardCompilerService.normalized s) = map lower (split s).
Proof.
  rewrite normalized_tokens. apply split_join.
  apply Forall_forall. intros t Ht. apply in_map_iff in Ht.
  destruct Ht as [u [<- Hu]]. apply token_lower.
  exact (proj1 (Forall_forall _ _) (split_tokens s) u Hu).
Qed.

(** The text that is hashed is the same exactly when the tokens are the
    same up to case. *)
Lemma normalized_same_tokens (s1 s2 : string) :
  DashboardCompilerService.normalized s1 = DashboardCompilerService.normalized s2
  <-> same_tokens s1 s2.
Proof.
  unfold same_tokens. split; intros H.
  - rewrite <- !split_normalized. now rewrite H.
  - rewrite !normalized_tokens. now rewrite H.
Qed.

Lemma same_tokens_case (s1 s2 : string) : lower s1 = lower s2 -> same_tokens s1 s2.
Proof. unfold same_tokens. intros H. rewrite <- !split_lower. now rewrite H. Qed.
End Tokens.

Section Digests.
Import SHA256.

Definition word_ok (v : Z) : Prop := 0 <= v < 2 ^ 32.

Lemma add32_ok (a b : Z) : word_ok (add32 a b).
Proof. unfold word_ok, add32. apply Z.mod_pos_bound. reflexivity. Qed.

Definition state_ok (s : state) : Prop :=
  word_ok (h0 s) /\ word_ok (h1 s) /\ word_ok (h2 s) /\ word_ok (h3 s) /\
  word_ok (h4 s) /\ word_ok (h5 s) /\ word_ok (h6 s) /\ word_ok (h7 s).

Lemma compress_ok (s : state) (block : list Z) : state_ok (compress s block).
Proof. unfold compress, state_ok. cbn [h0 h1 h2 h3 h4 h5 h6 h7]. repeat split; apply add32_ok. Qed.

Lemma fold_compress_ok (blocks : list (list Z)) (s : state) :
  state_ok s -> state_ok (fold_left compress blocks s).
Proof.
  revert s. induction blocks as [|b blocks IH]; intros s Hs; [exact Hs|].
  simpl. apply IH. apply compress_ok.
Qed.

(** Every word of a digest is a 32-bit word. *)
Lemma digest_ok (msg : list Z) : state_ok (digest msg).
Proof.
  unfold digest. apply fold_compress_ok.
  unfold state_ok, word_ok, init. cbn [h0 h1 h2 h3 h4 h5 h6 h7]. lia.
Qed.

Lemma take_app (a b : string) (n : nat) :
  Py.take (String.length a + n) (a ++ b) = (a ++ Py.take n b)%string.
Proof. induction a as [|c a IH]; simpl; [reflexivity|]. now rewrite IH. Qed.

Lemma take_zero (s : string) : Py.take 0 s = EmptyString.
Proof. destruct s; reflexivity. Qed.

Lemma append_empty_r (s : string) : (s ++ EmptyString)%string = s.
Proof. induction s as [|c s IH]; simpl; [reflexivity|]. now rewrite IH. Qed.

(** The compiler's hash shows the first two words of the digest only. *)
Lemma hash_query_two_words (sql : string) :
  DashboardCompilerService._hash_query sql =
  let d := digest (Py.encode (DashboardCompilerService.normalized sql)) in
  (hex_digits 8 (h0 d) ++ hex_digits 8 (h1 d))%string.
Proof.
  unfold DashboardCompilerService._hash_query, hexdigest.
  set (d := digest _). cbv zeta.
  change 16%nat with (String.length (hex_digits 8 (h0 d)) + 8)%nat at 1.
  rewrite take_app.
  change 8%nat with (String.length (hex_digits 8 (h1 d)) + 0)%nat at 2.
  rewrite take_app, take_zero, append_empty_r. reflexivity.
Qed.

End Digests.

(** Two queries for different orders. *)
Definition order_82ed : string :=
  "select * from orders where id = '82ed7a2293fffa10'".
Definition order_efd5 : string :=
  "select * from orders where id = 'efd51cb5f00f9bab'".

(** C6, second half, fails: the two queries differ in one token, both are
    already in normal form (lower case, single spaces), and the compiler
    gives them the same hash; the digests, of which the hash keeps the first
    16 digits, differ from the 17th digit on. *)
Lemma query_hash_collision :
  ~ same_tokens order_82ed order_efd5 /\
  DashboardCompilerService.normalized order_82ed = order_82ed /\
  DashboardCompilerService.normalized order_efd5 = order_efd5 /\
  DashboardCompilerService._hash_query order_82ed = "5d8fcec5df637b1c" /\
  DashboardCompilerService._hash_query order_efd5 = "5d8fcec5df637b1c" /\
  BigQueryClient.hash_query order_82ed =
    "5d8fcec5df637b1ceac4529fd28a7d159f466dfc31a34573867d821dc78ad7ef" /\
  BigQueryClient.hash_query order_efd5 =
    "5d8fcec5df637b1c6cd47fe7fd63438640b888b78010548eb68f171a8a6db284".
Proof.
  split; [intros H; vm_compute in H; discriminate H|].
  repeat split; vm_compute; reflexivity.
Qed.

Lemma encode_inj (s1 s2 : string) : Py.encode s1 = Py.encode s2 -> s1 = s2.
Proof.
  unfold Py.encode. revert s2.
  induction s1 as [|c1 s1 IH]; intros [|c2 s2] H; simpl in H;
    try discriminate; [reflexivity|].
  inversion H as [[Hc Hs]]. apply N2Z.inj in Hc.
  rewrite <- (ascii_N_embedding c1), <- (ascii_N_embedding c2), Hc.
  f_equal. now apply IH.
Qed.

(** C6, amended.  The query hash (the compiler's 16-digit one and the
    client's full one) depends on the SQL text only through its
    whitespace-separated words once lower-cased: two texts with the same
    lower-cased words have the same hash.  Replacing a run of whitespace by
    another, adding or removing whitespace at either end, lower-casing, any
    edit that keeps the lower-cased text, and upper-casing an ASCII text
    are such edits.  A change of token content changes the bytes that are
    given to SHA-256: two texts with different tokens have the same hash
    only when those different byte strings have the same digest prefix. *)
Theorem query_hash_invariant :
  (forall s1 s2 : string,
      same_tokens s1 s2 ->
      DashboardCompilerService._hash_query s1 = DashboardCompilerService._hash_query s2 /\
      BigQueryClient.hash_query s1 = BigQueryClient.hash_query s2) /\
  (forall a ws1 ws2 b : string,
      ws1 <> EmptyString -> ws2 <> EmptyString -> all_space ws1 -> all_space ws2 ->
      same_tokens (a ++ ws1 ++ b) (a ++ ws2 ++ b)) /\
  (forall s ws : string,
      all_space ws -> same_tokens (ws ++ s) s /\ same_tokens (s ++ ws) s) /\
  (forall s1 s2 : string, Py.lower s1 = Py.lower s2 -> same_tokens s1 s2) /\
  (forall s : string, same_tokens (Py.lower s) s) /\
  (forall s : string, Py.is_ascii s = true -> same_tokens (Py.upper s) s) /\
  (forall s1 s2 : string,
      ~ same_tokens s1 s2 ->
      Py.encode (DashboardCompilerService.normalized s1) <>
      Py.encode (DashboardCompilerService.normalized s2)).
Proof.
  split; [|split; [|split; [|split; [|split; [|split]]]]].
  - intros s1 s2 H. apply normalized_same_tokens in H.
    unfold DashboardCompilerService._hash_query, BigQueryClient.hash_query.
    change (Py.lower (Py.join " " (Py.split s1)))
      with (DashboardCompilerService.normalized s1).
    change (Py.lower (Py.join " " (Py.split s2)))
      with (DashboardCompilerService.normalized s2).
    rewrite H. split; reflexivity.
  - intros a ws1 ws2 b N1 N2 H1 H2. unfold same_tokens.
    now rewrite !split_between.
  - intros s ws H. unfold same_tokens.
    now rewrite split_leading, split_trailing.
  - exact same_tokens_case.
  - intros s. apply same_tokens_case, lower_lower.
  - intros s _. apply same_tokens_case, lower_upper.
  - intros s1 s2 Hne E. apply Hne, normalized_same_tokens. now apply encode_inj.
Qed.

(** The pair of the repository's own test: the same query with other spacing,
    and in lower case. *)
Lemma query_hash_invariant_witness :
  DashboardCompilerService._hash_query "  select   id,  name  FROM  users  " =
  DashboardCompilerService._hash_query "SELECT id, name FROM users" /\
  BigQueryClient.hash_query "  select   id,  name  FROM  users  " =
  BigQueryClient.hash_query "SELECT id, name FROM users".
Proof.
  apply (proj1 query_hash_invariant).
  vm_compute. reflexivity.
Defined.

Example sha256_constants :
  nth 0 SHA256.K 0 = 0x428a2f98 /\ nth 63 SHA256.K 0 = 0xc67178f2 /\
  List.length SHA256.K = 64%nat /\
  SHA256.h0 SHA256.init = 0x6a09e667 /\ SHA256.h7 SHA256.init = 0x5be0cd19.
Proof. repeat split. Qed.

Example sha256_abc :
  SHA256.hexdigest (Py.encode "abc") =
  "ba7816bf8f01cfea414140de5dae2223b00361a396177a9cb410ff61f20015ad".
Proof. vm_compute. reflexivity. Qed.

Example sha256_two_blocks :
  SHA256.hexdigest
    (Py.encode "abcdbcdecdefdefgefghfghighijhijkijkljklmklmnlmnomnopnopq") =
  "248d6a61d20638b8e5c026930c3e6039a33ce45964ff2167f6ecedd419db06c1".
Proof. vm_compute. reflexivity. Qed.

Example hash_query_users :
  DashboardCompilerService._hash_query "SELECT id, name FROM users" =
  "426bb4f09721b725".
Proof. vm_compute. reflexivity. Qed.

Example hash_query_other_column :
  DashboardCompilerService._hash_query "SELECT id, email FROM users" <>
  DashboardCompilerService._hash_query "SELECT id, name FROM users".
Proof. vm_compute. discriminate. Qed.

(* ================================================================= *)
(** ** Lineage seeds *)

Section ValidatedFacts.
Import yaml_schema.

Lemma count_str_occ (s : string) (l : list string) :
  count_str s l = count_occ string_dec l s.
Proof.
  unfold count_str. induction l as [|t l IH]; simpl; [reflexivity|].
  destruct (String.eqb_spec s t) as [->|Hne].
  - destruct (string_dec t t); [|contradiction]. simpl. now rewrite IH.
  - destruct (string_dec t s); [congruence|]. exact IH.
Qed.

Lemma duplicates_nil (ids : list string) : duplicates ids = [] -> NoDup ids.
Proof.
  intros H. apply (NoDup_count_occ' string_dec). intros s Hs.
  assert (Hle : (count_occ string_dec ids s <= 1)%nat).
  { destruct (Nat.ltb_spec 1 (count_occ string_dec ids s)) as [Hlt|]; [|assumption].
    assert (Hin : In s (duplicates ids)).
    { unfold duplicates. apply filter_In. split; [exact Hs|].
      rewrite count_str_occ. now apply Nat.ltb_lt. }
    rewrite H in Hin. contradiction. }
  apply (count_occ_In string_dec) in Hs. lia.
Qed.

Lemma check_query_refs_ok (ids : list string) (items : list LayoutItem) :
  check_query_refs ids items = Return tt ->
  forall item, In item items -> In (query_ref item) ids.
Proof.
  induction items as [|it items IH]; simpl; intros H item Hin; [contradiction|].
  destruct (mem_str (query_ref it) ids) eqn:E; simpl in H; [|discriminate].
  destruct Hin as [<- | Hin]; [|now apply IH].
  unfold mem_str in E. apply existsb_exists in E.
  destruct E as [q [Hq Heq]]. apply String.eqb_eq in Heq. now subst.
Qed.

(** What the compiler relies on in a validated definition. *)
Lemma validated_facts (d : DashboardYAML) :
  validated d ->
  NoDup (map item_id (layout d)) /\
  NoDup (map query_id (queries d)) /\
  (forall item, In item (layout d) ->
                In (query_ref item) (map query_id (queries d))).
Proof.
  intros [_ H]. unfold model_validators in H.
  destruct (validate_query_refs d) as [[]|] eqn:E1; simpl in H; [|discriminate].
  destruct (validate_chart_ids_unique d) as [[]|] eqn:E2; simpl in H; [|discriminate].
  destruct (validate_query_ids_unique d) as [[]|] eqn:E3; simpl in H; [|discriminate].
  unfold validate_chart_ids_unique in E2. unfold validate_query_ids_unique in E3.
  split; [|split].
  - apply duplicates_nil. destruct (duplicates (map item_id (layout d))); congruence.
  - apply duplicates_nil. destruct (duplicates (map query_id (queries d))); congruence.
  - now apply check_query_refs_ok.
Qed.
End ValidatedFacts.

Definition nodes_of_type (ty : db_models.NodeType)
    (nodes : list DashboardCompilerService.NodeSeed) :=
  filter (fun n => db_models.NodeType_eqb (DashboardCompilerService.node_type n) ty) nodes.

Definition edges_of_type (ty : db_models.EdgeType)
    (edges : list DashboardCompilerService.EdgeSeed) :=
  filter (fun e => db_models.EdgeType_eqb (DashboardCompilerService.edge_type e) ty) edges.

Definition EdgeSeed_eq_dec (a b : DashboardCompilerService.EdgeSeed) : {a = b} + {a <> b}.
Proof. repeat decide equality. Defined.

Section Counting.
Context {A B : Type}.

Lemma filter_map_all (p : B -> bool) (f : A -> B) (l : list A) :
  (forall a, p (f a) = true) -> filter p (map f l) = map f l.
Proof.
  intros H. induction l as [|a l IH]; simpl; [reflexivity|].
  now rewrite H, IH.
Qed.

Lemma filter_map_none (p : B -> bool) (f : A -> B) (l : list A) :
  (forall a, p (f a) = false) -> filter p (map f l) = [].
Proof.
  intros H. induction l as [|a l IH]; simpl; [reflexivity|].
  now rewrite H, IH.
Qed.

Lemma filter_flat_map (p : B -> bool) (f : A -> list B) (l : list A) :
  filter p (flat_map f l) = flat_map (fun a => filter p (f a)) l.
Proof.
  induction l as [|a l IH]; simpl; [reflexivity|].
  now rewrite filter_app, IH.
Qed.

Lemma length_flat_map (f : A -> list B) (l : list A) :
  List.length (flat_map f l) = list_sum (map (fun a => List.length (f a)) l).
Proof.
  induction l as [|a l IH]; simpl; [reflexivity|].
  now rewrite length_app, IH.
Qed.

Lemma count_occ_flat_map (dec : forall x y : B, {x = y} + {x <> y})
    (f : A -> list B) (l : list A) (b : B) :
  count_occ dec (flat_map f l) b = list_sum (map (fun a => count_occ dec (f a) b) l).
Proof.
  induction l as [|a l IH]; simpl; [reflexivity|].
  now rewrite count_occ_app, IH.
Qed.

(** An element whose key is unique in the list is met once, under any map
    that separates keys. *)
Lemma count_occ_unique_key (dec : forall x y : B, {x = y} + {x <> y})
    (key : A -> string) (g : A -> B) (l : list A) (a : A) :
  NoDup (map key l) -> In a l ->
  (forall a', g a' = g a -> key a' = key a) ->
  count_occ dec (map g l) (g a) = 1%nat.
Proof.
  intros Hnd Hin Hsep. induction l as [|a0 l IH]; [contradiction|].
  simpl in Hnd. inversion Hnd as [|? ? Hnot Hnd']; subst.
  simpl. destruct Hin as [-> | Hin].
  - destruct (dec (g a) (g a)); [|contradiction].
    f_equal. apply count_occ_not_In. intros Hg. apply in_map_iff in Hg.
    destruct Hg as [a' [Hg Ha']]. apply Hnot. rewrite <- (Hsep a' Hg).
    now apply in_map.
  - destruct (dec (g a0) (g a)) as [E|E].
    + exfalso. apply Hnot. rewrite (Hsep a0 E). now apply in_map.
    + now apply IH.
Qed.

Lemma NoDup_map_filter (key : A -> string) (p : A -> bool) (l : list A) :
  NoDup (map key l) -> NoDup (map key (filter p l)).
Proof.
  induction l as [|a l IH]; simpl; intros H; [constructor|].
  inversion H as [|? ? Hnot Hnd]; subst.
  destruct (p a); simpl; [constructor|]; auto.
  intros Hin. apply Hnot. apply in_map_iff in Hin.
  destruct Hin as [a' [E Ha']]. apply filter_In in Ha'.
  rewrite <- E. apply in_map. tauto.
Qed.
End Counting.

Lemma append_inj_l (p a b : string) : (p ++ a)%string = (p ++ b)%string -> a = b.
Proof. induction p as [|c p IH]; simpl; intros H; [exact H|]. inversion H. auto. Qed.

Section SeedCounts.
Import yaml_schema DashboardCompilerService.
Variable list_of_set : list string -> list string.

Lemma flat_map_nil {A B} (f : A -> list B) (l : list A) :
  (forall a, f a = []) -> flat_map f l = [].
Proof. intros H. induction l as [|a l IH]; simpl; [reflexivity|]. now rewrite H, IH. Qed.

Lemma list_sum_zero {A} (l : list A) : list_sum (map (fun _ => 0%nat) l) = 0%nat.
Proof. induction l; simpl; auto. Qed.

Lemma list_sum_add {A} (f g : A -> nat) (l : list A) :
  list_sum (map (fun a => (f a + g a)%nat) l) =
  (list_sum (map f l) + list_sum (map g l))%nat.
Proof. induction l as [|a l IH]; simpl; [reflexivity|]. rewrite IH. lia. Qed.

Lemma list_sum_indicator (qs : list Query) (r : string) :
  list_sum (map (fun q => if String.eqb r (query_id q) then 1%nat else 0%nat) qs) =
  count_occ string_dec (map query_id qs) r.
Proof.
  induction qs as [|q qs IH]; simpl; [reflexivity|].
  rewrite IH. destruct (String.eqb_spec r (query_id q)) as [->|Hne].
  - destruct (string_dec (query_id q) (query_id q)); [reflexivity|contradiction].
  - destruct (string_dec (query_id q) r); [congruence|reflexivity].
Qed.

(** Every item refers to one query: the items split among the queries. *)
Lemma items_split_among_queries (qs : list Query) (items : list LayoutItem) :
  NoDup (map query_id qs) ->
  (forall item, In item items -> In (query_ref item) (map query_id qs)) ->
  list_sum (map (fun q => List.length
                   (filter (fun item => String.eqb (query_ref item) (query_id q)) items))
                qs) = List.length items.
Proof.
  intros Hnd. induction items as [|it items IH]; intros Href.
  - simpl. apply list_sum_zero.
  - transitivity
      (list_sum (map (fun q =>
         ((if String.eqb (query_ref it) (query_id q) then 1 else 0) +
          List.length (filter (fun item => String.eqb (query_ref item) (query_id q))
                              items))%nat) qs)).
    + f_equal. apply map_ext. intros q. simpl.
      destruct (String.eqb (query_ref it) (query_id q)); reflexivity.
    + rewrite list_sum_add, list_sum_indicator, IH by (intros; apply Href; now right).
      assert (Hin : In (query_ref it) (map query_id qs)) by (apply Href; now left).
      rewrite (proj1 (NoDup_count_occ' string_dec _) Hnd _ Hin). reflexivity.
Qed.

Variable d : DashboardYAML.

Lemma seeds_nodes_by_type :
  let nodes := fst (_build_lineage_seeds list_of_set d) in
  nodes_of_type db_models.dashboard nodes = [dashboard_node d] /\
  nodes_of_type db_models.chart nodes =
    map (chart_node (slug (metadata d))) (layout d) /\
  nodes_of_type db_models.query nodes =
    map (query_node (slug (metadata d))) (queries d) /\
  nodes_of_type db_models.table nodes =
    flat_map (fun q => map table_node (_extract_table_references list_of_set (sql q)))
             (queries d).
Proof.
  unfold _build_lineage_seeds, nodes_of_type. cbn [fst].
  repeat split; cbn [filter dashboard_node node_type db_models.NodeType_eqb];
    rewrite filter_app, filter_flat_map.
  - rewrite filter_map_none by reflexivity.
    rewrite flat_map_nil; [reflexivity|].
    intros q. unfold query_nodes. cbn. now rewrite filter_map_none.
  - rewrite filter_map_all by reflexivity.
    rewrite flat_map_nil; [apply app_nil_r|].
    intros q. unfold query_nodes. cbn. now rewrite filter_map_none.
  - rewrite filter_map_none by reflexivity. cbn [app].
    induction (queries d) as [|q qs IH]; [reflexivity|].
    cbn [flat_map map]. rewrite IH. unfold query_nodes. cbn.
    now rewrite filter_map_none.
  - rewrite filter_map_none by reflexivity. cbn [app].
    apply flat_map_ext. intros q. unfold query_nodes. cbn.
    now rewrite filter_map_all.
Qed.

Lemma seeds_edges_by_type :
  let edges := snd (_build_lineage_seeds list_of_set d) in
  edges_of_type db_models.contains edges =
    map (contains_edge (slug (metadata d))) (layout d) /\
  edges_of_type db_models.executes edges =
    flat_map (fun q => map (fun item => executes_edge (slug (metadata d)) item q)
                (filter (fun item => String.eqb (query_ref item) (query_id q))
                        (layout d)))
             (queries d) /\
  edges_of_type db_models.reads_from edges =
    flat_map (fun q => map (reads_from_edge (slug (metadata d)) q)
                           (_extract_table_references list_of_set (sql q)))
             (queries d).
Proof.
  unfold _build_lineage_seeds, edges_of_type. cbn [snd].
  repeat split; rewrite filter_app, filter_flat_map.
  - rewrite filter_map_all by reflexivity.
    rewrite flat_map_nil; [apply app_nil_r|].
    intros q. unfold query_edges. rewrite filter_app.
    now rewrite !filter_map_none.
  - rewrite filter_map_none by reflexivity. cbn [app].
    apply flat_map_ext. intros q. unfold query_edges. rewrite filter_app.
    rewrite filter_map_all, filter_map_none by reflexivity. apply app_nil_r.
  - rewrite filter_map_none by reflexivity. cbn [app].
    apply flat_map_ext. intros q. unfold query_edges. rewrite filter_app.
    rewrite filter_map_none, filter_map_all by reflexivity. reflexivity.
Qed.

Lemma executes_edge_inj (s : string) (i1 i2 : LayoutItem) (q1 q2 : Query) :
  executes_edge s i1 q1 = executes_edge s i2 q2 ->
  item_id i1 = item_id i2 /\ query_id q1 = query_id q2.
Proof.
  unfold executes_edge, chart_node_id, query_node_id. intros H.
  inversion H as [[H1 H2]].
  apply append_inj_l in H1. apply (append_inj_l ":chart:") in H1.
  apply append_inj_l in H2. apply (append_inj_l ":query:") in H2. auto.
Qed.

Lemma executes_not_of_other_query (item : LayoutItem) (q q' : Query) :
  query_id q' <> query_id q ->
  ~ In (executes_edge (slug (metadata d)) item q) (query_edges list_of_set d q').
Proof.
  intros Hne Hin. unfold query_edges in Hin. apply in_app_or in Hin.
  destruct Hin as [Hin | Hin]; apply in_map_iff in Hin; destruct Hin as [x [E _]].
  - apply executes_edge_inj in E. destruct E. congruence.
  - discriminate.
Qed.

Lemma executes_once_in_own_query (item : LayoutItem) (q : Query) :
  NoDup (map item_id (layout d)) -> In item (layout d) ->
  query_ref item = query_id q ->
  count_occ EdgeSeed_eq_dec (query_edges list_of_set d q)
            (executes_edge (slug (metadata d)) item q) = 1%nat.
Proof.
  intros Hnd Hin Href. unfold query_edges. rewrite count_occ_app.
  rewrite (count_occ_unique_key EdgeSeed_eq_dec item_id
             (fun it => executes_edge (slug (metadata d)) it q)).
  - rewrite (proj1 (count_occ_not_In EdgeSeed_eq_dec _ _)); [reflexivity|].
    intros H. apply in_map_iff in H. destruct H as [x [E _]]. discriminate.
  - now apply NoDup_map_filter.
  - apply filter_In. split; [exact Hin|]. now apply String.eqb_eq.
  - intros a' E. now apply executes_edge_inj in E.
Qed.

Lemma executes_once_among_queries (qs : list Query) (item : LayoutItem) (q : Query) :
  NoDup (map query_id qs) -> In q qs ->
  NoDup (map item_id (layout d)) -> In item (layout d) ->
  query_ref item = query_id q ->
  list_sum (map (fun q' => count_occ EdgeSeed_eq_dec (query_edges list_of_set d q')
                             (executes_edge (slug (metadata d)) item q)) qs) = 1%nat.
Proof.
  intros Hq Hin Hi Hitem Href.
  induction qs as [|q0 qs IH]; [contradiction|].
  simpl in Hq. inversion Hq as [|? ? Hnot Hq']; subst. simpl.
  assert (Zero : forall l, (forall q', In q' l -> query_id q' <> query_id q) ->
            list_sum (map (fun q' => count_occ EdgeSeed_eq_dec
                             (query_edges list_of_set d q')
                             (executes_edge (slug (metadata d)) item q)) l) = 0%nat).
  { induction l as [|q1 l IHl]; intros Hl; [reflexivity|]. simpl.
    rewrite (proj1 (count_occ_not_In EdgeSeed_eq_dec _ _))
      by (apply executes_not_of_other_query; apply Hl; now left).
    apply IHl. intros q' Hq1. apply Hl. now right. }
  destruct Hin as [-> | Hin].
  - rewrite executes_once_in_own_query by assumption.
    rewrite Zero; [reflexivity|].
    intros q' Hq1 E. apply Hnot. rewrite <- E. now apply in_map.
  - rewrite (proj1 (count_occ_not_In EdgeSeed_eq_dec _ _)).
    + now apply IH.
    + apply executes_not_of_other_query. intros E. apply Hnot.
      rewrite E. now apply in_map.
Qed.
End SeedCounts.

Lemma nodes_partition (nodes : list DashboardCompilerService.NodeSeed) :
  List.length nodes =
  (List.length (nodes_of_type db_models.dashboard nodes) +
   List.length (nodes_of_type db_models.chart nodes) +
   List.length (nodes_of_type db_models.query nodes) +
   List.length (nodes_of_type db_models.table nodes))%nat.
Proof.
  unfold nodes_of_type. induction nodes as [|n nodes IH]; [reflexivity|].
  cbn [filter List.length]. destruct (DashboardCompilerService.node_type n);
    cbn [db_models.NodeType_eqb List.length]; lia.
Qed.

(** The revenue dashboard: two queries and three charts. *)
Definition revenue_item (name : string) (ty : yaml_schema.ChartType)
    (ref : string) (x y w h : Z) : yaml_schema.LayoutItem :=
  {| yaml_schema.item_id := name;
     yaml_schema.type := ty;
     yaml_schema.chart :=
       match ty with
       | yaml_schema.line_chart =>
           yaml_schema.LineChartConfig "Revenue by month" None
             (yaml_schema.AxisName "month") (yaml_schema.AxisName "total") None true true
       | yaml_schema.bar_chart =>
           yaml_schema.BarChartConfig "Top products" None
             (yaml_schema.AxisName "name") (yaml_schema.AxisName "total") None false true
       | _ => sample_chart
       end;
     yaml_schema.query_ref := ref;
     yaml_schema.position :=
       {| yaml_schema.x := x; yaml_schema.y := y;
          yaml_schema.w := w; yaml_schema.h := h |} |}.

Definition revenue_dashboard : yaml_schema.DashboardYAML :=
  {| yaml_schema.metadata := sample_metadata;
     yaml_schema.queries :=
       [ sample_query "monthly_revenue"
           "SELECT month, SUM(revenue) AS total FROM `proj.sales.orders` GROUP BY month";
         sample_query "top_products"
           "SELECT p.name, SUM(o.revenue) AS total FROM proj.sales.orders o JOIN proj.catalog.products p ON o.product_id = p.id GROUP BY p.name" ];
     yaml_schema.layout :=
       [ revenue_item "revenue_trend" yaml_schema.line_chart "monthly_revenue" 0 0 6 4;
         revenue_item "product_bars" yaml_schema.bar_chart "top_products" 6 0 6 4;
         revenue_item "revenue_total" yaml_schema.kpi "monthly_revenue" 0 4 12 2 ] |}.

Lemma revenue_dashboard_validated : yaml_schema.validated revenue_dashboard.
Proof.
  split.
  - repeat constructor.
  - vm_compute. reflexivity.
Qed.

(** One way to list a set: first occurrences, in order. *)
Definition first_occurrences (l : list string) : list string :=
  rev (nodup string_dec (rev l)).

(** C4.  For a validated definition with N queries and M layout items, the
    lineage seeds hold exactly one dashboard node, M chart nodes and N query
    nodes, every other node being a table node; exactly M contains edges,
    one from the dashboard to each chart; and exactly one executes edge for
    each pair of a chart and the query it references, M in all and no
    others. *)
Theorem lineage_seed_counts (list_of_set : list string -> list string)
    (d : yaml_schema.DashboardYAML) :
  yaml_schema.validated d ->
  let nodes := fst (DashboardCompilerService._build_lineage_seeds list_of_set d) in
  let edges := snd (DashboardCompilerService._build_lineage_seeds list_of_set d) in
  let s := yaml_schema.slug (yaml_schema.metadata d) in
  let M := List.length (yaml_schema.layout d) in
  let N := List.length (yaml_schema.queries d) in
  List.length (nodes_of_type db_models.dashboard nodes) = 1%nat /\
  List.length (nodes_of_type db_models.chart nodes) = M /\
  List.length (nodes_of_type db_models.query nodes) = N /\
  List.length nodes = (1 + M + N + List.length (nodes_of_type db_models.table nodes))%nat /\
  edges_of_type db_models.contains edges =
    map (DashboardCompilerService.contains_edge s) (yaml_schema.layout d) /\
  List.length (edges_of_type db_models.contains edges) = M /\
  List.length (edges_of_type db_models.executes edges) = M /\
  (forall item q,
      In item (yaml_schema.layout d) -> In q (yaml_schema.queries d) ->
      yaml_schema.query_ref item = yaml_schema.query_id q ->
      count_occ EdgeSeed_eq_dec edges
                (DashboardCompilerService.executes_edge s item q) = 1%nat) /\
  (forall e,
      In e (edges_of_type db_models.executes edges) ->
      exists item q,
        In item (yaml_schema.layout d) /\ In q (yaml_schema.queries d) /\
        yaml_schema.query_ref item = yaml_schema.query_id q /\
        e = DashboardCompilerService.executes_edge s item q).
Proof.
  intros Hv nodes edges s M N.
  destruct (validated_facts d Hv) as [Hitems [Hqueries Hrefs]].
  destruct (seeds_nodes_by_type list_of_set d) as [Nd [Nc [Nq Nt]]].
  destruct (seeds_edges_by_type list_of_set d) as [Ec [Ee Er]].
  fold nodes in Nd, Nc, Nq, Nt. fold edges in Ec, Ee, Er. fold s in Nc, Nq, Ec, Ee, Er.
  assert (C1 : List.length (nodes_of_type db_models.dashboard nodes) = 1%nat)
    by (now rewrite Nd).
  assert (C2 : List.length (nodes_of_type db_models.chart nodes) = M)
    by (rewrite Nc; apply length_map).
  assert (C3 : List.length (nodes_of_type db_models.query nodes) = N)
    by (rewrite Nq; apply length_map).
  repeat split; try assumption.
  - rewrite (nodes_partition nodes). lia.
  - rewrite Ec. apply length_map.
  - rewrite Ee, length_flat_map. unfold M.
    rewrite <- (items_split_among_queries (yaml_schema.queries d)
                  (yaml_schema.layout d) Hqueries Hrefs).
    f_equal. apply map_ext. intros q. apply length_map.
  - intros item q Hitem Hq Href.
    unfold edges, DashboardCompilerService._build_lineage_seeds. cbn [snd].
    rewrite count_occ_app, count_occ_flat_map.
    rewrite (proj1 (count_occ_not_In EdgeSeed_eq_dec _ _)).
    + now apply executes_once_among_queries.
    + intros H. apply in_map_iff in H. destruct H as [x [E _]]. discriminate.
  - intros e He. rewrite Ee in He. apply in_flat_map in He.
    destruct He as [q [Hq He]]. apply in_map_iff in He.
    destruct He as [item [<- Hitem]]. apply filter_In in Hitem.
    destruct Hitem as [Hitem Href]. apply String.eqb_eq in Href.
    now exists item, q.
Qed.

Lemma lineage_seed_counts_witness :
  let nodes := fst (DashboardCompilerService._build_lineage_seeds
                      first_occurrences revenue_dashboard) in
  let edges := snd (DashboardCompilerService._build_lineage_seeds
                      first_occurrences revenue_dashboard) in
  List.length (nodes_of_type db_models.dashboard nodes) = 1%nat /\
  List.length (nodes_of_type db_models.chart nodes) = 3%nat /\
  List.length (nodes_of_type db_models.query nodes) = 2%nat /\
  List.length nodes = (1 + 3 + 2 + List.length (nodes_of_type db_models.table nodes))%nat /\
  edges_of_type db_models.contains edges =
    map (DashboardCompilerService.contains_edge "revenue-dashboard")
        (yaml_schema.layout revenue_dashboard) /\
  List.length (edges_of_type db_models.contains edges) = 3%nat /\
  List.length (edges_of_type db_models.executes edges) = 3%nat /\
  (forall item q,
      In item (yaml_schema.layout revenue_dashboard) ->
      In q (yaml_schema.queries revenue_dashboard) ->
      yaml_schema.query_ref item = yaml_schema.query_id q ->
      count_occ EdgeSeed_eq_dec edges
                (DashboardCompilerService.executes_edge "revenue-dashboard" item q)
      = 1%nat) /\
  (forall e,
      In e (edges_of_type db_models.executes edges) ->
      exists item q,
        In item (yaml_schema.layout revenue_dashboard) /\
        In q (yaml_schema.queries revenue_dashboard) /\
        yaml_schema.query_ref item = yaml_schema.query_id q /\
        e = DashboardCompilerService.executes_edge "revenue-dashboard" item q).
Proof.
  apply (lineage_seed_counts first_occurrences revenue_dashboard).
  split.
  - repeat constructor.
  - vm_compute. reflexivity.
Defined.

(* ================================================================= *)
(** ** Determinism of compilation *)

(** What every iteration over [set(matches)] has in common: each distinct
    element is listed once. *)
Definition set_listing (list_of_set : list string -> list string) : Prop :=
  forall l, Permutation (list_of_set l) (nodup string_dec l).

Definition listing_forward (l : list string) : list string := nodup string_dec l.
Definition listing_backward (l : list string) : list string := rev (nodup string_dec l).

Lemma listing_forward_ok : set_listing listing_forward.
Proof. intros l. apply Permutation_refl. Qed.

Lemma listing_backward_ok : set_listing listing_backward.
Proof. intros l. apply Permutation_sym, Permutation_rev. Qed.

Lemma Permutation_flat_map_pointwise {A B} (f g : A -> list B) (l : list A) :
  (forall a, In a l -> Permutation (f a) (g a)) ->
  Permutation (flat_map f l) (flat_map g l).
Proof.
  induction l as [|a l IH]; intros H; simpl; [constructor|].
  apply Permutation_app; [apply H; now left|].
  apply IH. intros a' Ha'. apply H. now right.
Qed.

Lemma flat_map_pointwise {A B} (f g : A -> list B) (l : list A) :
  (forall a, In a l -> f a = g a) -> flat_map f l = flat_map g l.
Proof.
  induction l as [|a l IH]; intros H; simpl; [reflexivity|].
  rewrite (H a) by now left. f_equal. apply IH. intros a' Ha'. apply H. now right.
Qed.

(** C3, as stated, fails: on the revenue dashboard, whose second query reads
    two tables, two runs that iterate the set of table references in
    different orders produce different lists of lineage nodes and of lineage
    edges. *)
Lemma lineage_order_depends_on_set_iteration :
  set_listing listing_forward /\ set_listing listing_backward /\
  yaml_schema.validated revenue_dashboard /\
  fst (DashboardCompilerService._build_lineage_seeds listing_forward revenue_dashboard) <>
  fst (DashboardCompilerService._build_lineage_seeds listing_backward revenue_dashboard) /\
  snd (DashboardCompilerService._build_lineage_seeds listing_forward revenue_dashboard) <>
  snd (DashboardCompilerService._build_lineage_seeds listing_backward revenue_dashboard).
Proof.
  split; [exact listing_forward_ok|].
  split; [exact listing_backward_ok|].
  split; [exact revenue_dashboard_validated|].
  split; intros H; vm_compute in H; discriminate H.
Qed.

(** C3, amended.  The two stages of the compiler, [_build_execution_plan]
    and [_build_lineage_seeds], run twice on the same definition, whatever
    the order in which each run iterates its sets, produce identical
    execution plans and lineage node and edge lists with the same elements;
    the dashboard, chart and query nodes and the contains and executes edges
    are the same lists in the same order; and the whole lists are identical
    when both runs list the table references of every query in the same
    order. *)
Theorem compilation_deterministic
    (run1 run2 : list string -> list string) (d : yaml_schema.DashboardYAML) :
  set_listing run1 -> set_listing run2 ->
  let plan1 := DashboardCompilerService._build_execution_plan d in
  let plan2 := DashboardCompilerService._build_execution_plan d in
  let seeds1 := DashboardCompilerService._build_lineage_seeds run1 d in
  let seeds2 := DashboardCompilerService._build_lineage_seeds run2 d in
  plan1 = plan2 /\
  Permutation (fst seeds1) (fst seeds2) /\
  Permutation (snd seeds1) (snd seeds2) /\
  (forall ty, ty <> db_models.table ->
      nodes_of_type ty (fst seeds1) = nodes_of_type ty (fst seeds2)) /\
  (forall ty, ty <> db_models.reads_from ->
      edges_of_type ty (snd seeds1) = edges_of_type ty (snd seeds2)) /\
  ((forall q, In q (yaml_schema.queries d) ->
       run1 (DashboardCompilerService.findall_table_refs (yaml_schema.sql q)) =
       run2 (DashboardCompilerService.findall_table_refs (yaml_schema.sql q))) ->
   seeds1 = seeds2).
Proof.
  intros H1 H2 plan1 plan2 seeds1 seeds2.
  assert (Hrefs : forall sql,
             Permutation (DashboardCompilerService._extract_table_references run1 sql)
                         (DashboardCompilerService._extract_table_references run2 sql)).
  { intros sql. unfold DashboardCompilerService._extract_table_references.
    eapply Permutation_trans; [apply H1|apply Permutation_sym, H2]. }
  unfold seeds1, seeds2, DashboardCompilerService._build_lineage_seeds.
  cbn [fst snd].
  split; [reflexivity|]. split; [|split; [|split; [|split]]].
  - apply perm_skip, Permutation_app_head, Permutation_flat_map_pointwise.
    intros q _. unfold DashboardCompilerService.query_nodes.
    apply perm_skip, Permutation_map, Hrefs.
  - apply Permutation_app_head, Permutation_flat_map_pointwise.
    intros q _. unfold DashboardCompilerService.query_edges.
    apply Permutation_app_head, Permutation_map, Hrefs.
  - intros ty Hty.
    destruct (seeds_nodes_by_type run1 d) as [A1 [B1 [C1 _]]].
    destruct (seeds_nodes_by_type run2 d) as [A2 [B2 [C2 _]]].
    unfold DashboardCompilerService._build_lineage_seeds in *. cbn [fst] in *.
    destruct ty; [now rewrite A1, A2|now rewrite B1, B2|now rewrite C1, C2|contradiction].
  - intros ty Hty.
    destruct (seeds_edges_by_type run1 d) as [A1 [B1 _]].
    destruct (seeds_edges_by_type run2 d) as [A2 [B2 _]].
    unfold DashboardCompilerService._build_lineage_seeds in *. cbn [snd] in *.
    destruct ty; [now rewrite A1, A2|now rewrite B1, B2|contradiction].
  - intros Hsame. f_equal.
    + f_equal. f_equal. apply flat_map_pointwise. intros q Hq.
      unfold DashboardCompilerService.query_nodes,
        DashboardCompilerService._extract_table_references.
      now rewrite (Hsame q Hq).
    + f_equal. apply flat_map_pointwise. intros q Hq.
      unfold DashboardCompilerService.query_edges,
        DashboardCompilerService._extract_table_references.
      now rewrite (Hsame q Hq).
Qed.

Lemma compilation_deterministic_witness :
  let plan1 := DashboardCompilerService._build_execution_plan revenue_dashboard in
  let plan2 := DashboardCompilerService._build_execution_plan revenue_dashboard in
  let seeds1 :=
    DashboardCompilerService._build_lineage_seeds listing_forward revenue_dashboard in
  let seeds2 :=
    DashboardCompilerService._build_lineage_seeds listing_backward revenue_dashboard in
  plan1 = plan2 /\
  Permutation (fst seeds1) (fst seeds2) /\
  Permutation (snd seeds1) (snd seeds2) /\
  (forall ty, ty <> db_models.table ->
      nodes_of_type ty (fst seeds1) = nodes_of_type ty (fst seeds2)) /\
  (forall ty, ty <> db_models.reads_from ->
      edges_of_type ty (snd seeds1) = edges_of_type ty (snd seeds2)) /\
  ((forall q, In q (yaml_schema.queries revenue_dashboard) ->
       listing_forward (DashboardCompilerService.findall_table_refs (yaml_schema.sql q)) =
       listing_backward (DashboardCompilerService.findall_table_refs (yaml_schema.sql q))) ->
   seeds1 = seeds2).
Proof.
  apply (compilation_deterministic listing_forward listing_backward revenue_dashboard).
  - intros l. apply Permutation_refl.
  - intros l. apply Permutation_sym, Permutation_rev.
Defined.

(** [compile_dashboard] itself returns for no definition: the list of node
    seeds starts with the dashboard node, whose ["metadata"] is a
    dictionary, so building the [CompilationResult] fails and the failure
    is raised as a [CompilationException] of the stage ["execution_plan"]. *)
Lemma compile_dashboard_raises (list_of_set : list string -> list string)
    (validation_error_text : list DashboardCompilerService.NodeSeed -> string)
    (now : Q) (d : yaml_schema.DashboardYAML) :
  DashboardCompilerService.compile_dashboard list_of_set validation_error_text now d =
  Raise (CompilationException_init
           ("Failed to compile dashboard: " ++
            validation_error_text
              (fst (DashboardCompilerService._build_lineage_seeds list_of_set d)))%string
           (Some (yaml_schema.slug (yaml_schema.metadata d)))
           (Some "execution_plan")).
Proof. reflexivity. Qed.

Example revenue_dashboard_plan :
  let plan := DashboardCompilerService._build_execution_plan revenue_dashboard in
  map DashboardCompilerService.qd_query_id (DashboardCompilerService.plan_queries plan) =
    ["monthly_revenue"; "top_products"] /\
  map DashboardCompilerService.qd_dependent_charts
      (DashboardCompilerService.plan_queries plan) =
    [["revenue_trend"; "revenue_total"]; ["product_bars"]] /\
  map DashboardCompilerService.cd_chart_id (DashboardCompilerService.plan_charts plan) =
    ["revenue_trend"; "product_bars"; "revenue_total"] /\
  DashboardCompilerService.plan_execution_strategy plan = "parallel".
Proof. vm_compute. repeat split. Qed.

Example revenue_dashboard_tables :
  map DashboardCompilerService.findall_table_refs
      (map yaml_schema.sql (yaml_schema.queries revenue_dashboard)) =
  [["proj.sales.orders"]; ["proj.sales.orders"; "proj.catalog.products"]].
Proof. vm_compute. reflexivity. Qed.

(* ================================================================= *)
(** ** The in-memory cache *)

Section DictFacts.
Context {V : Type}.
Implicit Types (d : Py.dict V) (k : string) (v : V).

(** A dictionary has one entry per key. *)
Definition wf_dict d : Prop := NoDup (Py.dict_keys d).

Lemma dict_get_set_same d k v : Py.dict_get (Py.dict_set d k v) k = Some v.
Proof.
  induction d as [|[k0 v0] d IH]; simpl.
  - now rewrite String.eqb_refl.
  - destruct (String.eqb k0 k) eqn:E; simpl; rewrite E; auto.
Qed.

Lemma dict_get_set_other d k k' v :
  k' <> k -> Py.dict_get (Py.dict_set d k v) k' = Py.dict_get d k'.
Proof.
  intros Hne. induction d as [|[k0 v0] d IH]; simpl.
  - destruct (String.eqb_spec k k'); [congruence|reflexivity].
  - destruct (String.eqb_spec k0 k) as [->|]; simpl.
    + destruct (String.eqb_spec k k'); [congruence|reflexivity].
    + destruct (String.eqb k0 k'); auto.
Qed.

Lemma dict_del_set d k v : Py.dict_del (Py.dict_set d k v) k = Py.dict_del d k.
Proof.
  unfold Py.dict_del. induction d as [|[k0 v0] d IH]; simpl.
  - now rewrite String.eqb_refl.
  - destruct (String.eqb k0 k) eqn:E; simpl; rewrite E; simpl; [reflexivity|].
    now rewrite IH.
Qed.

Lemma dict_get_del_same d k : Py.dict_get (Py.dict_del d k) k = None.
Proof.
  unfold Py.dict_del. induction d as [|[k0 v0] d IH]; simpl; [reflexivity|].
  destruct (String.eqb k0 k) eqn:E; simpl; [exact IH|]. now rewrite E.
Qed.

Lemma dict_get_del_other d k k' :
  k' <> k -> Py.dict_get (Py.dict_del d k) k' = Py.dict_get d k'.
Proof.
  intros Hne. unfold Py.dict_del. induction d as [|[k0 v0] d IH]; simpl; [reflexivity|].
  destruct (String.eqb_spec k0 k) as [->|]; simpl.
  - destruct (String.eqb_spec k k'); [congruence|exact IH].
  - destruct (String.eqb k0 k'); auto.
Qed.

Lemma dict_get_app d1 d2 k :
  Py.dict_get (d1 ++ d2) k =
  match Py.dict_get d1 k with
  | Some v => Some v
  | None => Py.dict_get d2 k
  end.
Proof.
  induction d1 as [|[k0 v0] d1 IH]; simpl; [reflexivity|].
  destruct (String.eqb k0 k); auto.
Qed.

Lemma dict_get_none_keys d k : Py.dict_get d k = None <-> ~ In k (Py.dict_keys d).
Proof.
  induction d as [|[k0 v0] d IH]; simpl; [tauto|].
  destruct (String.eqb_spec k0 k) as [->|Hne].
  - split; [discriminate|]. intros H. exfalso. auto.
  - rewrite IH. tauto.
Qed.

(** Filtering a dictionary keeps or drops the entry of a key, and changes
    nothing else about it. *)
Lemma dict_get_filter (p : string * V -> bool) d k :
  wf_dict d ->
  Py.dict_get (filter p d) k =
  match Py.dict_get d k with
  | Some v => if p (k, v) then Some v else None
  | None => None
  end.
Proof.
  unfold wf_dict. induction d as [|[k0 v0] d IH]; simpl; intros Hwf; [reflexivity|].
  inversion Hwf as [|? ? Hnot Hwf']; subst.
  destruct (String.eqb_spec k0 k) as [->|Hne].
  - destruct (p (k, v0)); simpl.
    + now rewrite String.eqb_refl.
    + rewrite (IH Hwf'). now rewrite (proj2 (dict_get_none_keys d k) Hnot).
  - destruct (p (k0, v0)); simpl; [|now apply IH].
    destruct (String.eqb_spec k0 k); [contradiction|now apply IH].
Qed.


Lemma wf_filter (p : string * V -> bool) d : wf_dict d -> wf_dict (filter p d).
Proof. unfold wf_dict, Py.dict_keys. apply NoDup_map_filter. Qed.

Lemma wf_tail (e : string * V) d : wf_dict (e :: d) -> wf_dict d.
Proof. unfold wf_dict. simpl. intros H. now inversion H. Qed.

Lemma keys_set d k v :
  Py.dict_keys (Py.dict_set d k v) =
  if Py.dict_mem d k then Py.dict_keys d else Py.dict_keys d ++ [k].
Proof.
  unfold Py.dict_mem. induction d as [|[k0 v0] d IH]; simpl; [reflexivity|].
  destruct (String.eqb k0 k) eqn:E; simpl; [reflexivity|].
  rewrite IH. destruct (Py.dict_get d k); reflexivity.
Qed.

Lemma wf_set d k v : wf_dict d -> wf_dict (Py.dict_set d k v).
Proof.
  unfold wf_dict. rewrite keys_set. unfold Py.dict_mem. intros H.
  destruct (Py.dict_get d k) eqn:E; [exact H|].
  apply NoDup_app; [exact H|repeat constructor; auto|].
  intros x Hx [<- | []]. now apply dict_get_none_keys in E.
Qed.

Lemma wf_del d k : wf_dict d -> wf_dict (Py.dict_del d k).
Proof. apply wf_filter. Qed.

Lemma wf_move_to_end d k : wf_dict d -> wf_dict (Py.move_to_end d k).
Proof.
  intros H. unfold Py.move_to_end. destruct (Py.dict_get d k) as [v|]; [|exact H].
  unfold wf_dict, Py.dict_keys. rewrite map_app.
  apply NoDup_app; [apply (wf_del d k H)|repeat constructor; auto|].
  intros x Hx [<- | []]. revert Hx. apply dict_get_none_keys, dict_get_del_same.
Qed.

Lemma length_del d k : (List.length (Py.dict_del d k) <= List.length d)%nat.
Proof. apply filter_length_le. Qed.

Lemma length_del_present d k v :
  Py.dict_get d k = Some v -> (S (List.length (Py.dict_del d k)) <= List.length d)%nat.
Proof.
  unfold Py.dict_del. induction d as [|[k0 v0] d IH]; simpl; [discriminate|].
  destruct (String.eqb k0 k) eqn:E; simpl; intros H.
  - pose proof (filter_length_le (fun kv => negb (String.eqb (fst kv) k)) d). lia.
  - apply IH in H. lia.
Qed.

Lemma length_move_to_end d k :
  (List.length (Py.move_to_end d k) <= List.length d)%nat.
Proof.
  unfold Py.move_to_end. destruct (Py.dict_get d k) as [v|] eqn:E; [|lia].
  rewrite length_app. simpl. pose proof (length_del_present d k v E). lia.
Qed.

Lemma length_set d k v :
  (List.length (Py.dict_set d k v) <= S (List.length d))%nat.
Proof.
  induction d as [|[k0 v0] d IH]; simpl; [lia|].
  destruct (String.eqb k0 k); simpl; lia.
Qed.

(** After [d[k] = v] and [move_to_end(k)] the entry of [k] is the last one. *)
Lemma move_to_end_set d k v :
  Py.move_to_end (Py.dict_set d k v) k = Py.dict_del d k ++ [(k, v)].
Proof.
  unfold Py.move_to_end. now rewrite dict_get_set_same, dict_del_set.
Qed.
End DictFacts.

Section CacheFacts.
Context {V : Type}.
Implicit Types (c : InMemoryCache.t V) (op : InMemoryCache.call V).

Definition wf_cache c : Prop := wf_dict (InMemoryCache._cache c).

(** The cache holds no more than [max_size] entries. *)
Definition bounded c : Prop := InMemoryCache.len c <= InMemoryCache.max_size c.

Lemma fold_del_wf (keys : list string) (d : Py.dict (V * Q)) :
  wf_dict d -> wf_dict (fold_left Py.dict_del keys d).
Proof.
  revert d. induction keys as [|k keys IH]; intros d H; simpl; [exact H|].
  apply IH. now apply wf_del.
Qed.

Lemma fold_del_length (keys : list string) (d : Py.dict (V * Q)) :
  (List.length (fold_left Py.dict_del keys d) <= List.length d)%nat.
Proof.
  revert d. induction keys as [|k keys IH]; intros d; simpl; [lia|].
  specialize (IH (Py.dict_del d k)). pose proof (length_del d k). lia.
Qed.

Lemma evict_expired_length now c :
  InMemoryCache.len (InMemoryCache._evict_expired now c) <= InMemoryCache.len c.
Proof.
  unfold InMemoryCache.len, InMemoryCache._evict_expired. simpl.
  pose proof (filter_length_le
                (fun kv : string * (V * Q) =>
                   negb (InMemoryCache._is_expired now (snd (snd kv))))
                (InMemoryCache._cache c)).
  lia.
Qed.

Lemma get_config c t1 t2 key :
  InMemoryCache.max_size (snd (InMemoryCache.get c t1 t2 key)) = InMemoryCache.max_size c /\
  InMemoryCache.default_ttl (snd (InMemoryCache.get c t1 t2 key)) = InMemoryCache.default_ttl c.
Proof.
  unfold InMemoryCache.get.
  destruct (Py.dict_get _ key) as [[value expiry]|]; [|split; reflexivity].
  destruct (InMemoryCache._is_expired t2 expiry); split; reflexivity.
Qed.

Lemma set_config c t1 t2 key value ttl :
  InMemoryCache.max_size (snd (InMemoryCache.set c t1 t2 key value ttl)) =
    InMemoryCache.max_size c /\
  InMemoryCache.default_ttl (snd (InMemoryCache.set c t1 t2 key value ttl)) =
    InMemoryCache.default_ttl c.
Proof.
  unfold InMemoryCache.set, InMemoryCache._evict_lru.
  destruct (_ <=? _); [|split; reflexivity].
  destruct (InMemoryCache._cache _); split; reflexivity.
Qed.

Lemma after_config c op :
  InMemoryCache.max_size (InMemoryCache.after c op) = InMemoryCache.max_size c /\
  InMemoryCache.default_ttl (InMemoryCache.after c op) = InMemoryCache.default_ttl c.
Proof.
  destruct op; cbn [InMemoryCache.after].
  - apply get_config.
  - apply set_config.
  - unfold InMemoryCache.delete. destruct (Py.dict_mem _ _); split; reflexivity.
  - unfold InMemoryCache.exists_.
    destruct (InMemoryCache.get c t1 t2 key) as [v c'] eqn:E.
    pose proof (get_config c t1 t2 key) as H. rewrite E in H. exact H.
  - split; reflexivity.
  - split; reflexivity.
  - split; reflexivity.
Qed.

Lemma wf_get c t1 t2 key : wf_cache c -> wf_cache (snd (InMemoryCache.get c t1 t2 key)).
Proof.
  unfold wf_cache, InMemoryCache.get. intros H.
  assert (H1 : wf_dict (InMemoryCache._cache (InMemoryCache._evict_expired t1 c)))
    by (now apply wf_filter).
  destruct (Py.dict_get _ key) as [[value expiry]|]; [|exact H1].
  destruct (InMemoryCache._is_expired t2 expiry); simpl.
  - now apply wf_del.
  - now apply wf_move_to_end.
Qed.

Lemma wf_set_call c t1 t2 key value ttl :
  wf_cache c -> wf_cache (snd (InMemoryCache.set c t1 t2 key value ttl)).
Proof.
  unfold wf_cache, InMemoryCache.set, InMemoryCache._evict_lru. intros H.
  assert (H1 : wf_dict (InMemoryCache._cache (InMemoryCache._evict_expired t1 c)))
    by (now apply wf_filter).
  revert H1. generalize (InMemoryCache._evict_expired t1 c) as c1. intros c1 H1.
  destruct (_ <=? _).
  - destruct (InMemoryCache._cache c1) as [|lru rest] eqn:E; cbn [snd].
    + now rewrite E.
    + cbn [InMemoryCache._cache InMemoryCache.with_cache].
      apply wf_move_to_end, wf_set. exact (wf_tail _ _ H1).
  - cbn [snd InMemoryCache._cache InMemoryCache.with_cache].
    now apply wf_move_to_end, wf_set.
Qed.

Lemma wf_after c op : wf_cache c -> wf_cache (InMemoryCache.after c op).
Proof.
  intros H. destruct op; cbn [InMemoryCache.after].
  - now apply wf_get.
  - now apply wf_set_call.
  - unfold InMemoryCache.delete. destruct (Py.dict_mem _ _); [|exact H].
    now apply wf_del.
  - unfold InMemoryCache.exists_.
    destruct (InMemoryCache.get c t1 t2 key) as [v c'] eqn:E.
    pose proof (wf_get c t1 t2 key H) as G. now rewrite E in G.
  - now apply fold_del_wf.
  - constructor.
  - now apply wf_filter.
Qed.

Lemma bounded_get c t1 t2 key : bounded c -> bounded (snd (InMemoryCache.get c t1 t2 key)).
Proof.
  unfold bounded. intros H. pose proof (evict_expired_length t1 c) as L.
  destruct (get_config c t1 t2 key) as [-> _].
  unfold InMemoryCache.get.
  set (c1 := InMemoryCache._evict_expired t1 c) in *.
  destruct (Py.dict_get (InMemoryCache._cache c1) key) as [[value expiry]|];
    cbn [snd]; [|lia].
  destruct (InMemoryCache._is_expired t2 expiry); cbn [snd];
    unfold InMemoryCache.len in *;
    cbn [InMemoryCache._cache InMemoryCache.with_cache].
  - pose proof (length_del (InMemoryCache._cache c1) key). lia.
  - pose proof (length_move_to_end (InMemoryCache._cache c1) key). lia.
Qed.

Lemma bounded_set c t1 t2 key value ttl :
  bounded c -> bounded (snd (InMemoryCache.set c t1 t2 key value ttl)).
Proof.
  unfold bounded. intros H. pose proof (evict_expired_length t1 c) as L.
  destruct (set_config c t1 t2 key value ttl) as [-> _].
  unfold InMemoryCache.set, InMemoryCache._evict_lru.
  change (InMemoryCache.max_size (InMemoryCache._evict_expired t1 c))
    with (InMemoryCache.max_size c).
  set (c1 := InMemoryCache._evict_expired t1 c) in *.
  set (entry := (value, (t2 + inject_Z (Py.or_int ttl (InMemoryCache.default_ttl c)))%Q)).
  unfold InMemoryCache.len in *.
  destruct (Z.leb_spec (InMemoryCache.max_size c)
              (Z.of_nat (List.length (InMemoryCache._cache c1)))) as [Hfull|Hroom].
  - destruct (InMemoryCache._cache c1) as [|lru rest] eqn:E; cbn [snd].
    + rewrite E. simpl. lia.
    + cbn [InMemoryCache._cache InMemoryCache.with_cache].
      pose proof (length_move_to_end (Py.dict_set rest key entry) key).
      pose proof (length_set rest key entry).
      simpl in L, Hfull. lia.
  - cbn [snd InMemoryCache._cache InMemoryCache.with_cache].
    pose proof (length_move_to_end
                  (Py.dict_set (InMemoryCache._cache c1) key entry) key).
    pose proof (length_set (InMemoryCache._cache c1) key entry).
    lia.
Qed.

Lemma bounded_after c op : bounded c -> bounded (InMemoryCache.after c op).
Proof.
  intros H. destruct op; cbn [InMemoryCache.after].
  - now apply bounded_get.
  - now apply bounded_set.
  - unfold InMemoryCache.delete. destruct (Py.dict_mem _ _); [|exact H].
    unfold bounded, InMemoryCache.len in *. simpl.
    pose proof (length_del (InMemoryCache._cache c) key). lia.
  - unfold InMemoryCache.exists_.
    destruct (InMemoryCache.get c t1 t2 key) as [v c'] eqn:E.
    pose proof (bounded_get c t1 t2 key H) as G. now rewrite E in G.
  - unfold bounded, InMemoryCache.len in *. simpl.
    pose proof (fold_del_length
                  (filter (fun key => Py.contains pattern key)
                          (Py.dict_keys (InMemoryCache._cache c)))
                  (InMemoryCache._cache c)).
    lia.
  - unfold bounded, InMemoryCache.len in *. simpl. lia.
  - unfold bounded in *. pose proof (evict_expired_length t1 c).
    change (InMemoryCache.max_size (snd (InMemoryCache.health_check c t1)))
      with (InMemoryCache.max_size c).
    change (snd (InMemoryCache.health_check c t1))
      with (InMemoryCache._evict_expired t1 c). lia.
Qed.

Lemma wf_run c (ops : list (InMemoryCache.call V)) :
  wf_cache c -> wf_cache (InMemoryCache.run c ops).
Proof.
  revert c. induction ops as [|op ops IH]; intros c H; [exact H|].
  simpl. apply IH. now apply wf_after.
Qed.

Lemma bounded_run c (ops : list (InMemoryCache.call V)) :
  bounded c -> bounded (InMemoryCache.run c ops).
Proof.
  revert c. induction ops as [|op ops IH]; intros c H; [exact H|].
  simpl. apply IH. now apply bounded_after.
Qed.

Lemma run_config c (ops : list (InMemoryCache.call V)) :
  InMemoryCache.max_size (InMemoryCache.run c ops) = InMemoryCache.max_size c /\
  InMemoryCache.default_ttl (InMemoryCache.run c ops) = InMemoryCache.default_ttl c.
Proof.
  revert c. induction ops as [|op ops IH]; intros c; [split; reflexivity|].
  simpl. destruct (IH (InMemoryCache.after c op)) as [-> ->].
  apply after_config.
Qed.
End CacheFacts.

Section CacheEntries.
Context {V : Type}.
Implicit Types (c : InMemoryCache.t V) (op : InMemoryCache.call V)
  (d : Py.dict (V * Q)) (e : V * Q).

(** The entry of [key] is [e], unless the key has gone. *)
Definition intact (key : string) e d : Prop :=
  Py.dict_get d key = None \/ Py.dict_get d key = Some e.

Definition sets_key (key : string) op : bool :=
  match op with
  | InMemoryCache.CallSet _ _ k _ _ => String.eqb k key
  | _ => false
  end.

Lemma intact_filter key e (p : string * (V * Q) -> bool) d :
  wf_dict d -> intact key e d -> intact key e (filter p d).
Proof.
  unfold intact. intros Hwf H. rewrite (dict_get_filter p d key Hwf).
  destruct H as [-> | ->]; [now left|]. destruct (p (key, e)); auto.
Qed.

Lemma intact_del key e d k : intact key e d -> intact key e (Py.dict_del d k).
Proof.
  unfold intact. intros H. destruct (string_dec key k) as [->|Hne].
  - left. apply dict_get_del_same.
  - now rewrite dict_get_del_other.
Qed.

Lemma intact_move_to_end key e d k :
  intact key e d -> intact key e (Py.move_to_end d k).
Proof.
  unfold intact, Py.move_to_end. intros H.
  destruct (Py.dict_get d k) as [v|] eqn:E; [|exact H].
  rewrite dict_get_app. destruct (string_dec key k) as [->|Hne].
  - rewrite dict_get_del_same. simpl. rewrite String.eqb_refl.
    rewrite E in H. exact H.
  - rewrite dict_get_del_other by assumption.
    destruct H as [-> | ->]; [|now right].
    left. simpl. destruct (String.eqb_spec k key); [congruence|reflexivity].
Qed.

Lemma intact_set_other key e d k v :
  k <> key -> intact key e d -> intact key e (Py.dict_set d k v).
Proof. unfold intact. intros Hne H. rewrite dict_get_set_other; auto. Qed.

Lemma intact_tail key e (x : string * (V * Q)) d :
  wf_dict (x :: d) -> intact key e (x :: d) -> intact key e d.
Proof.
  unfold intact, wf_dict. destruct x as [k0 v0]. simpl. intros Hwf H.
  inversion Hwf as [|? ? Hnot _]; subst.
  destruct (String.eqb_spec k0 key) as [->|Hne]; [|exact H].
  left. now apply dict_get_none_keys.
Qed.

Lemma intact_fold_del key e (keys : list string) d :
  intact key e d -> intact key e (fold_left Py.dict_del keys d).
Proof.
  revert d. induction keys as [|k keys IH]; intros d H; [exact H|].
  simpl. apply IH. now apply intact_del.
Qed.

Lemma intact_get key e c t1 t2 k :
  wf_cache c -> intact key e (InMemoryCache._cache c) ->
  intact key e (InMemoryCache._cache (snd (InMemoryCache.get c t1 t2 k))).
Proof.
  intros Hwf H. unfold InMemoryCache.get.
  assert (H1 : intact key e (InMemoryCache._cache (InMemoryCache._evict_expired t1 c)))
    by (now apply intact_filter).
  revert H1. generalize (InMemoryCache._evict_expired t1 c) as c1. intros c1 H1.
  destruct (Py.dict_get (InMemoryCache._cache c1) k) as [[value expiry]|];
    cbn [snd]; [|exact H1].
  destruct (InMemoryCache._is_expired t2 expiry);
    cbn [snd InMemoryCache._cache InMemoryCache.with_cache].
  - now apply intact_del.
  - now apply intact_move_to_end.
Qed.

(** No call other than a [set] of the same key changes the entry of a key,
    except to remove it. *)
Lemma intact_after key e c op :
  wf_cache c -> sets_key key op = false ->
  intact key e (InMemoryCache._cache c) ->
  intact key e (InMemoryCache._cache (InMemoryCache.after c op)).
Proof.
  intros Hwf Hop H. destruct op; cbn [InMemoryCache.after].
  - now apply intact_get.
  - simpl in Hop. apply String.eqb_neq in Hop.
    unfold InMemoryCache.set, InMemoryCache._evict_lru.
    assert (W1 : wf_dict (InMemoryCache._cache (InMemoryCache._evict_expired t1 c)))
      by (now apply wf_filter).
    assert (H1 : intact key e (InMemoryCache._cache (InMemoryCache._evict_expired t1 c)))
      by (now apply intact_filter).
    revert W1 H1. generalize (InMemoryCache._evict_expired t1 c) as c1.
    intros c1 W1 H1.
    destruct (_ <=? _).
    + destruct (InMemoryCache._cache c1) as [|lru rest] eqn:E; cbn [snd].
      * now rewrite E.
      * cbn [InMemoryCache._cache InMemoryCache.with_cache].
        apply intact_move_to_end, intact_set_other; [exact Hop|].
        exact (intact_tail key e lru rest W1 H1).
    + cbn [snd InMemoryCache._cache InMemoryCache.with_cache].
      now apply intact_move_to_end, intact_set_other.
  - unfold InMemoryCache.delete. destruct (Py.dict_mem _ _); [|exact H].
    now apply intact_del.
  - unfold InMemoryCache.exists_.
    destruct (InMemoryCache.get c t1 t2 key0) as [v c'] eqn:E.
    pose proof (intact_get key e c t1 t2 key0 Hwf H) as G. now rewrite E in G.
  - now apply intact_fold_del.
  - now left.
  - now apply intact_filter.
Qed.

Lemma intact_run key e c (ops : list (InMemoryCache.call V)) :
  wf_cache c -> forallb (fun op => negb (sets_key key op)) ops = true ->
  intact key e (InMemoryCache._cache c) ->
  intact key e (InMemoryCache._cache (InMemoryCache.run c ops)).
Proof.
  revert c. induction ops as [|op ops IH]; intros c Hwf Hops H; [exact H|].
  simpl in Hops. apply andb_true_iff in Hops. destruct Hops as [Hop Hops].
  apply negb_true_iff in Hop.
  simpl. apply IH; [now apply wf_after|exact Hops|now apply intact_after].
Qed.

Lemma is_expired_false now expiry :
  (now <= expiry)%Q -> InMemoryCache._is_expired now expiry = false.
Proof.
  intros H. unfold InMemoryCache._is_expired.
  now rewrite (proj2 (Qle_bool_iff now expiry) H).
Qed.

Lemma is_expired_true now expiry :
  (expiry < now)%Q -> InMemoryCache._is_expired now expiry = true.
Proof.
  intros H. unfold InMemoryCache._is_expired.
  destruct (Qle_bool now expiry) eqn:E; [|reflexivity].
  apply Qle_bool_iff in E. exfalso. exact (Qlt_not_le _ _ H E).
Qed.

(** A [get] of a key whose entry is in the cache and has not expired. *)
Lemma get_live c g1 g2 key value expiry :
  wf_cache c ->
  Py.dict_get (InMemoryCache._cache c) key = Some (value, expiry) ->
  (g1 <= expiry)%Q -> (g2 <= expiry)%Q ->
  fst (InMemoryCache.get c g1 g2 key) = Some value.
Proof.
  intros Hwf Hget H1 H2. unfold InMemoryCache.get, InMemoryCache._evict_expired.
  cbn [InMemoryCache._cache InMemoryCache.with_cache].
  rewrite (dict_get_filter _ _ key Hwf), Hget. cbn [snd].
  rewrite (is_expired_false g1 expiry H1). cbn [negb].
  now rewrite (is_expired_false g2 expiry H2).
Qed.

(** A [get] of a key that is absent, or whose entry has expired. *)
Lemma get_dead c g1 g2 key value expiry :
  wf_cache c -> intact key (value, expiry) (InMemoryCache._cache c) ->
  (expiry < g2)%Q ->
  fst (InMemoryCache.get c g1 g2 key) = None.
Proof.
  intros Hwf H Hlate. unfold InMemoryCache.get, InMemoryCache._evict_expired.
  cbn [InMemoryCache._cache InMemoryCache.with_cache].
  rewrite (dict_get_filter _ _ key Hwf).
  destruct H as [-> | ->]; [reflexivity|]. cbn [snd].
  destruct (InMemoryCache._is_expired g1 expiry); cbn [negb]; [reflexivity|].
  now rewrite (is_expired_true g2 expiry Hlate).
Qed.

(** What a successful [set] leaves under its key. *)
Lemma set_stores c s1 s2 key value ttl c' :
  InMemoryCache.set c s1 s2 key value ttl = (Return true, c') ->
  Py.dict_get (InMemoryCache._cache c') key =
  Some (value, (s2 + inject_Z (Py.or_int ttl (InMemoryCache.default_ttl c)))%Q).
Proof.
  unfold InMemoryCache.set. destruct (InMemoryCache._evict_lru _) as [[[]|err] c2];
    intros H; inversion H; subst; clear H.
  cbn [InMemoryCache._cache InMemoryCache.with_cache].
  rewrite move_to_end_set, dict_get_app, dict_get_del_same. simpl.
  now rewrite String.eqb_refl.
Qed.
End CacheEntries.

Section RedisFacts.
Context {V : Type}.
Variable server : Type.
Variable redis_get : server -> Q -> string -> outcome (option string).
Variable redis_setex : server -> Q -> string -> Z -> string -> outcome unit * server.
Variable json_dumps : V -> outcome string.
Variable json_loads : string -> outcome V.
Variable default_ttl : Z.

(** What the cache asks of the Redis server: a value stored with [SETEX] is
    returned by [GET] until its seconds have passed, and not after. *)
Definition setex_then_get : Prop :=
  forall srv now key seconds s flag srv',
    redis_setex srv now key seconds s = (Return flag, srv') ->
    forall t, (now <= t)%Q ->
      ((t < now + inject_Z seconds)%Q -> redis_get srv' t key = Return (Some s)) /\
      ((now + inject_Z seconds <= t)%Q -> redis_get srv' t key = Return None).

(** The value read back is the JSON decoding of the JSON encoding. *)
Definition json_round_trip (serialized : string) : option V :=
  match json_loads serialized with
  | Return v => Some v
  | Raise _ => None
  end.

Lemma redis_get_after_set :
  setex_then_get ->
  forall srv now key value ttl srv',
    RedisCache.set server redis_setex json_dumps default_ttl srv now key value ttl =
      (true, srv') ->
    exists serialized,
      json_dumps value = Return serialized /\
      forall t, (now <= t)%Q ->
        ((t < now + inject_Z (Py.or_int ttl default_ttl))%Q ->
         RedisCache.get server redis_get json_loads srv' t key =
           json_round_trip serialized) /\
        ((now + inject_Z (Py.or_int ttl default_ttl) <= t)%Q ->
         RedisCache.get server redis_get json_loads srv' t key = None).
Proof.
  intros Law srv now key value ttl srv'. unfold RedisCache.set.
  destruct (json_dumps value) as [serialized|err]; [|discriminate].
  destruct (redis_setex srv now key (Py.or_int ttl default_ttl) serialized)
    as [[flag|err] srv1] eqn:E; intros H; inversion H; subst; clear H.
  exists serialized. split; [reflexivity|].
  intros t Ht. destruct (Law _ _ _ _ _ _ _ E t Ht) as [Hin Hout].
  unfold RedisCache.get, json_round_trip. split; intros Hb.
  - now rewrite (Hin Hb).
  - now rewrite (Hout Hb).
Qed.
End RedisFacts.

(** A Redis server that stores strings with a deadline. *)
Definition toy_redis : Type := Py.dict (string * Q).

Definition toy_get (srv : toy_redis) (t : Q) (key : string) : outcome (option string) :=
  Return (match Py.dict_get srv key with
          | Some (s, deadline) => if Qle_bool deadline t then None else Some s
          | None => None
          end).

Definition toy_setex (srv : toy_redis) (now : Q) (key : string) (seconds : Z)
    (s : string) : outcome unit * toy_redis :=
  if seconds <=? 0
  then (Raise (builtin EngineError "ERR invalid expire time in 'setex' command"), srv)
  else (Return tt, Py.dict_set srv key (s, (now + inject_Z seconds)%Q)).

Lemma toy_redis_law : setex_then_get toy_redis toy_get toy_setex.
Proof.
  intros srv now key seconds s flag srv'. unfold toy_setex, toy_get.
  destruct (seconds <=? 0); intros H; inversion H; subst; clear H.
  intros t Ht. rewrite dict_get_set_same. split; intros Hb.
  - destruct (Qle_bool (now + inject_Z seconds) t) eqn:E; [|reflexivity].
    apply Qle_bool_iff in E. exfalso. exact (Qlt_not_le _ _ Hb E).
  - now rewrite (proj2 (Qle_bool_iff _ _) Hb).
Qed.

(** C5, as stated, fails: a value stored with a time to live of 0 seconds is
    still returned one second later (and for a day: the default applies). *)
Lemma zero_ttl_entry_outlives_its_ttl :
  exists c',
    InMemoryCache.set (InMemoryCache.init 1000 86400) 0 0 "k" "v" (Some 0) =
      (Return true, c') /\
    (0 + inject_Z 0 < 1)%Q /\
    fst (InMemoryCache.get c' 1 1 "k") = Some "v".
Proof.
  eexists. split; [reflexivity|]. split; [reflexivity|]. vm_compute. reflexivity.
Qed.

Lemma set_succeeds {V : Type} (c : InMemoryCache.t V) s1 s2 key value ttl :
  0 < InMemoryCache.max_size c ->
  exists c', InMemoryCache.set c s1 s2 key value ttl = (Return true, c').
Proof.
  intros Hpos. unfold InMemoryCache.set, InMemoryCache._evict_lru.
  change (InMemoryCache.max_size (InMemoryCache._evict_expired s1 c))
    with (InMemoryCache.max_size c).
  unfold InMemoryCache.len.
  destruct (Z.leb_spec (InMemoryCache.max_size c)
              (Z.of_nat (List.length (InMemoryCache._cache
                                        (InMemoryCache._evict_expired s1 c)))))
    as [Hfull|Hroom].
  - destruct (InMemoryCache._cache (InMemoryCache._evict_expired s1 c)) as [|lru rest].
    + simpl in Hfull. lia.
    + eexists. reflexivity.
  - eexists. reflexivity.
Qed.

(** C5, amended.  The time to live of an entry is [ttl] when it is given and
    not zero, and the cache's default otherwise.  In-memory backend: after a
    [set] that returned, whatever calls were made before it and whatever
    calls other than a [set] of the same key follow it, a [get] of the key
    returns exactly the value set as long as the entry is still in the cache
    and the clock has not passed the expiry (the clock of the [set] plus the
    time to live), and returns nothing once the clock has passed the expiry;
    and a [set] returns whenever [max_size] is positive.  Redis backend, on
    a server that keeps a value stored with SETEX until its seconds have
    passed: after a [set] that returned [True], a [get] before the deadline
    returns the JSON decoding of the JSON encoding of the value set, and a
    [get] from the deadline on returns nothing. *)
Theorem cache_get_after_set :
  (forall (V : Type) (max_size default_ttl : Z)
          (before : list (InMemoryCache.call V)) (s1 s2 : Q) (key : string)
          (value : V) (ttl : option Z) (c' : InMemoryCache.t V),
      InMemoryCache.set (InMemoryCache.run (InMemoryCache.init max_size default_ttl) before)
                        s1 s2 key value ttl = (Return true, c') ->
      Py.dict_get (InMemoryCache._cache c') key =
        Some (value, (s2 + inject_Z (Py.or_int ttl default_ttl))%Q) /\
      forall (later : list (InMemoryCache.call V)) (g1 g2 : Q),
        forallb (fun op => negb (sets_key key op)) later = true ->
        (g1 <= g2)%Q ->
        (Py.dict_mem (InMemoryCache._cache (InMemoryCache.run c' later)) key = true ->
         (g2 <= s2 + inject_Z (Py.or_int ttl default_ttl))%Q ->
         fst (InMemoryCache.get (InMemoryCache.run c' later) g1 g2 key) = Some value) /\
        ((s2 + inject_Z (Py.or_int ttl default_ttl) < g2)%Q ->
         fst (InMemoryCache.get (InMemoryCache.run c' later) g1 g2 key) = None)) /\
  (forall (V : Type) (c : InMemoryCache.t V) s1 s2 key value ttl,
      0 < InMemoryCache.max_size c ->
      exists c', InMemoryCache.set c s1 s2 key value ttl = (Return true, c')) /\
  (forall (V : Type) (server : Type)
          (redis_get : server -> Q -> string -> outcome (option string))
          (redis_setex : server -> Q -> string -> Z -> string -> outcome unit * server)
          (json_dumps : V -> outcome string) (json_loads : string -> outcome V)
          (default_ttl : Z),
      setex_then_get server redis_get redis_setex ->
      forall srv now key value ttl srv',
        RedisCache.set server redis_setex json_dumps default_ttl srv now key value ttl =
          (true, srv') ->
        exists serialized,
          json_dumps value = Return serialized /\
          forall t, (now <= t)%Q ->
            ((t < now + inject_Z (Py.or_int ttl default_ttl))%Q ->
             RedisCache.get server redis_get json_loads srv' t key =
               json_round_trip json_loads serialized) /\
            ((now + inject_Z (Py.or_int ttl default_ttl) <= t)%Q ->
             RedisCache.get server redis_get json_loads srv' t key = None)).
Proof.
  split; [|split].
  - intros V max_size default_ttl before s1 s2 key value ttl c' Hset.
    set (c := InMemoryCache.run (InMemoryCache.init max_size default_ttl) before) in *.
    assert (Wc : wf_cache c) by (apply wf_run; constructor).
    assert (Dc : InMemoryCache.default_ttl c = default_ttl)
      by (apply (run_config (InMemoryCache.init max_size default_ttl) before)).
    assert (Wc' : wf_cache c').
    { pose proof (wf_set_call c s1 s2 key value ttl Wc) as W. now rewrite Hset in W. }
    pose proof (set_stores c s1 s2 key value ttl c' Hset) as Hstored.
    rewrite Dc in Hstored. split; [exact Hstored|].
    intros later g1 g2 Hlater Hg.
    assert (Hint : intact key (value, (s2 + inject_Z (Py.or_int ttl default_ttl))%Q)
                     (InMemoryCache._cache (InMemoryCache.run c' later))).
    { apply intact_run; [exact Wc'|exact Hlater|now right]. }
    assert (Wl : wf_cache (InMemoryCache.run c' later)) by (now apply wf_run).
    split.
    + intros Hmem Hin. unfold Py.dict_mem in Hmem.
      destruct Hint as [Hnone | Hsome]; [rewrite Hnone in Hmem; discriminate|].
      apply (get_live _ g1 g2 key value _ Wl Hsome); [|exact Hin].
      eapply Qle_trans; eassumption.
    + intros Hlate. now apply (get_dead _ g1 g2 key value _ Wl Hint).
  - intros V c s1 s2 key value ttl. apply set_succeeds.
  - intros V server redis_get redis_setex json_dumps json_loads default_ttl.
    apply redis_get_after_set.
Qed.

(** Both backends on a concrete run: a value stored for 60 seconds at time
    10 is read at time 30 and gone at time 100, after a [get] of another key
    in between. *)
Lemma cache_get_after_set_witness :
  (exists c',
      InMemoryCache.set (InMemoryCache.run (InMemoryCache.init 2 86400)
                           [InMemoryCache.CallSet 0 0 "other" "w" None])
                        10 10 "k" "v" (Some 60) = (Return true, c') /\
      fst (InMemoryCache.get
             (InMemoryCache.run c' [InMemoryCache.CallGet 20 20 "other"])
             30 30 "k") = Some "v" /\
      fst (InMemoryCache.get
             (InMemoryCache.run c' [InMemoryCache.CallGet 20 20 "other"])
             100 100 "k") = None) /\
  (exists srv',
      RedisCache.set toy_redis toy_setex (fun v : string => Return v) 86400
                     [] 10 "k" "v" (Some 60) = (true, srv') /\
      RedisCache.get toy_redis toy_get (fun s : string => Return s) srv' 30 "k" = Some "v" /\
      RedisCache.get toy_redis toy_get (fun s : string => Return s) srv' 100 "k" = None).
Proof.
  split.
  - eexists. split; [reflexivity|].
    destruct (proj1 cache_get_after_set string 2 86400
                [InMemoryCache.CallSet 0%Q 0%Q "other" "w" None]
                10%Q 10%Q "k" "v" (Some 60) _ eq_refl) as [_ H].
    destruct (H [InMemoryCache.CallGet 20%Q 20%Q "other"] 30%Q 30%Q eq_refl (Qle_refl _))
      as [Hlive _].
    destruct (H [InMemoryCache.CallGet 20%Q 20%Q "other"] 100%Q 100%Q eq_refl (Qle_refl _))
      as [_ Hdead].
    split.
    + apply Hlive; [vm_compute; reflexivity|vm_compute; discriminate].
    + apply Hdead. vm_compute. reflexivity.
  - eexists. split; [reflexivity|].
    destruct (proj2 (proj2 cache_get_after_set) string toy_redis toy_get toy_setex
                (fun v : string => Return v) (fun s : string => Return s) 86400
                toy_redis_law [] 10%Q "k" "v" (Some 60) _ eq_refl)
      as [serialized [Hser H]].
    inversion Hser; subst serialized.
    assert (L30 : (10 <= 30)%Q) by (vm_compute; discriminate).
    assert (L100 : (10 <= 100)%Q) by (vm_compute; discriminate).
    split.
    + apply (proj1 (H 30%Q L30)). vm_compute. reflexivity.
    + apply (proj2 (H 100%Q L100)). vm_compute. discriminate.
Defined.

Lemma evict_expired_nothing {V : Type} (now : Q) (c : InMemoryCache.t V) :
  (forall key value expiry,
      In (key, (value, expiry)) (InMemoryCache._cache c) -> (now <= expiry)%Q) ->
  InMemoryCache._cache (InMemoryCache._evict_expired now c) = InMemoryCache._cache c.
Proof.
  intros H. unfold InMemoryCache._evict_expired.
  cbn [InMemoryCache._cache InMemoryCache.with_cache].
  induction (InMemoryCache._cache c) as [|[k [v e]] d IH]; [reflexivity|].
  cbn [filter snd]. rewrite (is_expired_false now e) by (apply (H k v); now left).
  cbn [negb]. f_equal. apply IH. intros k' v' e' Hin. apply (H k' v'). now right.
Qed.

(** A cache of two entries, filled: [a] is the least recently used. *)
Definition full_cache : InMemoryCache.t string :=
  InMemoryCache.run (InMemoryCache.init 2 60)
    [InMemoryCache.CallSet 0 0 "a" "1" None; InMemoryCache.CallSet 1 1 "b" "2" None].

(** C10, amended.  Starting from an empty cache with a non-negative
    [max_size], the cache never holds more than [max_size] entries after any
    sequence of calls, and every single call preserves that bound.  A [set]
    begins with the purge of the expired entries; when the cache still holds
    [max_size] entries after that purge (with no expired entry, that is the
    cache as it was), the [set] drops the entry at the least recently used
    end, then stores the key at the most recently used end, whether or not
    the key was already in the cache; so overwriting an existing key can
    evict an unrelated entry. *)
Theorem cache_bounded_and_lru :
  (forall (V : Type) (max_size default_ttl : Z) (ops : list (InMemoryCache.call V)),
      0 <= max_size ->
      InMemoryCache.len (InMemoryCache.run (InMemoryCache.init max_size default_ttl) ops)
      <= max_size) /\
  (forall (V : Type) (c : InMemoryCache.t V) (op : InMemoryCache.call V),
      InMemoryCache.len c <= InMemoryCache.max_size c ->
      InMemoryCache.len (InMemoryCache.after c op) <=
      InMemoryCache.max_size (InMemoryCache.after c op)) /\
  (forall (V : Type) (c : InMemoryCache.t V) (t1 t2 : Q) (key : string) (value : V)
          (ttl : option Z) (lru : string * (V * Q)) (rest : Py.dict (V * Q)),
      InMemoryCache.max_size c <= InMemoryCache.len (InMemoryCache._evict_expired t1 c) ->
      InMemoryCache._cache (InMemoryCache._evict_expired t1 c) = lru :: rest ->
      InMemoryCache.set c t1 t2 key value ttl =
      (Return true,
       InMemoryCache.with_cache c
         (Py.dict_del rest key ++
          [(key, (value, (t2 + inject_Z (Py.or_int ttl (InMemoryCache.default_ttl c)))%Q))]))) /\
  (forall (V : Type) (now : Q) (c : InMemoryCache.t V),
      (forall key value expiry,
          In (key, (value, expiry)) (InMemoryCache._cache c) -> (now <= expiry)%Q) ->
      InMemoryCache._cache (InMemoryCache._evict_expired now c) = InMemoryCache._cache c) /\
  (Py.dict_keys (InMemoryCache._cache full_cache) = ["a"; "b"] /\
   InMemoryCache.len full_cache = InMemoryCache.max_size full_cache /\
   Py.dict_keys (InMemoryCache._cache
                   (snd (InMemoryCache.set full_cache 2 2 "b" "3" None))) = ["b"]).
Proof.
  split; [|split; [|split; [|split]]].
  - intros V max_size default_ttl ops Hpos.
    pose proof (bounded_run (InMemoryCache.init max_size default_ttl) ops) as H.
    unfold bounded in H.
    rewrite (proj1 (run_config (InMemoryCache.init max_size default_ttl) ops)) in H.
    apply H. unfold InMemoryCache.len. simpl. exact Hpos.
  - intros V c op H. exact (bounded_after c op H).
  - intros V c t1 t2 key value ttl lru rest Hfull Hcache.
    unfold InMemoryCache.set, InMemoryCache._evict_lru.
    change (InMemoryCache.max_size (InMemoryCache._evict_expired t1 c))
      with (InMemoryCache.max_size c).
    rewrite (proj2 (Z.leb_le _ _) Hfull), Hcache.
    cbn [InMemoryCache._cache InMemoryCache.with_cache
         InMemoryCache.max_size InMemoryCache.default_ttl].
    rewrite move_to_end_set. reflexivity.
  - intros V now c. apply evict_expired_nothing.
  - vm_compute. repeat split.
Qed.

(** On the full cache, storing the key [b] again evicts [a]. *)
Lemma cache_bounded_and_lru_witness :
  InMemoryCache.set full_cache 2 2 "b" "3" None =
  (Return true,
   InMemoryCache.with_cache full_cache [("b", ("3", (2 + inject_Z 60)%Q))]).
Proof.
  apply (proj1 (proj2 (proj2 cache_bounded_and_lru)) string full_cache 2%Q 2%Q
           "b" "3" None ("a", ("1", (0 + inject_Z 60)%Q))
           [("b", ("2", (1 + inject_Z 60)%Q))]).
  - vm_compute. discriminate.
  - vm_compute. reflexivity.
Defined.

Example lru_eviction_of_the_repository_test :
  let c := InMemoryCache.run (InMemoryCache.init 3 60)
             [InMemoryCache.CallSet 0 0 "key1" "value1" None;
              InMemoryCache.CallSet 0 0 "key2" "value2" None;
              InMemoryCache.CallSet 0 0 "key3" "value3" None;
              InMemoryCache.CallSet 0 0 "key4" "value4" None] in
  fst (InMemoryCache.get c 1 1 "key1") = None /\
  fst (InMemoryCache.get c 1 1 "key2") = Some "value2".
Proof. vm_compute. split; reflexivity. Qed.

(** C10, as stated, fails: a cache made for two entries holds two, [a] at
    the least recently used end; a [set] of a third key at a time when [b]
    has expired purges [b] and evicts nothing: [a] stays and is still served. *)
Lemma set_purges_before_evicting :
  let c := InMemoryCache.run (InMemoryCache.init 2 60)
             [InMemoryCache.CallSet 0 0 "a" "1" (Some 100);
              InMemoryCache.CallSet 0 0 "b" "2" (Some 5)] in
  let c' := snd (InMemoryCache.set c 10 10 "c" "3" None) in
  InMemoryCache.len c = InMemoryCache.max_size c /\
  Py.dict_keys (InMemoryCache._cache c) = ["a"; "b"] /\
  fst (InMemoryCache.set c 10 10 "c" "3" None) = Return true /\
  Py.dict_keys (InMemoryCache._cache c') = ["a"; "c"] /\
  fst (InMemoryCache.get c' 11 11 "a") = Some "1".
Proof. vm_compute. repeat split. Qed.

Example set_on_empty_cache_of_size_zero :
  fst (InMemoryCache.set (InMemoryCache.init 0 60) 0 0 "k" "v" None) =
  Raise (builtin KeyError "'dictionary is empty'").
Proof. vm_compute. reflexivity. Qed.

(* ================================================================= *)
(** ** Batch execution *)

Section Batch.
Import BigQueryClient.
Variable settings : Settings.
Variable engine : Engine.

(** What serving one query gives: its rows, or the exception raised.  It is
    decided by the settings and the engine alone. *)
Definition serving_outcome (sql : string) : outcome (list Row) :=
  match validate_query settings sql with
  | (false, error) =>
      Raise (BigQueryException_init
               ("Query execution failed: " ++
                match error with Some m => m | None => "None" end)%string
               (Some (hash_query sql)) None None
               (Some (builtin ValueError
                        (match error with Some m => m | None => "None" end))))
  | (true, _) =>
      match engine sql
              {| maximum_bytes_billed := bigquery_max_bytes_billed settings;
                 use_query_cache := bigquery_use_query_cache settings;
                 query_parameters := [] |}
              (bigquery_query_timeout settings) with
      | Return job => Return (map row_dict (rows job))
      | Raise e =>
          Raise (BigQueryException_init
                   ("Query execution failed: " ++ exceptions.str e)%string
                   (Some (hash_query sql)) None None (Some e))
      end
  end.


Lemma execute_for_serving_outcome (sql : string) max_bytes user_id dashboard_id
    (w : world) :
  fst (SQLExecutorService.execute_for_serving settings engine sql max_bytes
         user_id dashboard_id w) = serving_outcome sql.
Proof.
  unfold SQLExecutorService.execute_for_serving, serving_outcome, Eff.try_except,
    BigQueryClient.execute_for_serving, Eff.bind, execute_query.
  destruct (validate_query settings sql) as [[|] error]; cbn.
  - destruct (bigquery_use_query_cache settings);
      destruct (engine sql _ _) as [job|e]; cbn;
      try reflexivity;
      unfold SQLExecutorService._log_query_execution;
      destruct (db_available w); reflexivity.
  - reflexivity.
Qed.

Lemma gather_outcomes (queries : list SQLExecutorService.BatchQuery)
    user_id dashboard_id (w : world) :
  fst (SQLExecutorService.gather
         (map (fun q => SQLExecutorService._execute_single_for_batch settings engine
                          (SQLExecutorService.id q) (SQLExecutorService.sql q)
                          (SQLExecutorService.max_bytes_billed q) user_id dashboard_id)
              queries) w) =
  Return (map (fun q => serving_outcome (SQLExecutorService.sql q)) queries).
Proof.
  revert w. induction queries as [|q queries IH]; intros w; [reflexivity|].
  cbn [map SQLExecutorService.gather].
  unfold SQLExecutorService._execute_single_for_batch at 1.
  pose proof (execute_for_serving_outcome (SQLExecutorService.sql q)
                (SQLExecutorService.max_bytes_billed q) user_id dashboard_id w) as H.
  destruct (SQLExecutorService.execute_for_serving settings engine _ _ _ _ w)
    as [r w1].
  cbn [fst] in H. subst r. specialize (IH w1).
  destruct (SQLExecutorService.gather _ w1) as [[rs|e] w2]; cbn [fst] in *.
  - inversion IH. reflexivity.
  - discriminate.
Qed.

Definition rows_or_empty (r : outcome (list Row)) : list Row :=
  match r with
  | Return rows => rows
  | Raise _ => []
  end.

Lemma build_result_map_other (queries : list SQLExecutorService.BatchQuery)
    results (acc : Py.dict (list Row)) (k : string) :
  ~ In k (map SQLExecutorService.id queries) ->
  Py.dict_get (SQLExecutorService.build_result_map queries results acc) k =
  Py.dict_get acc k.
Proof.
  revert results acc. induction queries as [|q queries IH]; intros results acc Hk;
    [reflexivity|].
  destruct results as [|r results]; [reflexivity|].
  cbn [SQLExecutorService.build_result_map]. rewrite IH.
  - apply dict_get_set_other. intros E. apply Hk. simpl. auto.
  - intros Hin. apply Hk. simpl. auto.
Qed.

Lemma build_result_map_entry (queries : list SQLExecutorService.BatchQuery)
    (f : SQLExecutorService.BatchQuery -> outcome (list Row))
    (acc : Py.dict (list Row)) (q : SQLExecutorService.BatchQuery) :
  NoDup (map SQLExecutorService.id queries) -> In q queries ->
  Py.dict_get (SQLExecutorService.build_result_map queries (map f queries) acc)
              (SQLExecutorService.id q) = Some (rows_or_empty (f q)).
Proof.
  revert acc. induction queries as [|q0 queries IH]; intros acc Hnd Hin;
    [contradiction|].
  simpl in Hnd. inversion Hnd as [|? ? Hnot Hnd']; subst.
  cbn [map SQLExecutorService.build_result_map].
  destruct Hin as [-> | Hin].
  - rewrite build_result_map_other by assumption.
    rewrite dict_get_set_same. unfold rows_or_empty. destruct (f q); reflexivity.
  - now apply IH.
Qed.
End Batch.

(** C9.  A batch over queries with distinct ids (as a dashboard's queries
    have) never raises: it returns a map in which every query whose
    execution raises has the empty list and every query that succeeds has
    all the rows of its job.  The single-query serving path, on the same
    failure, raises a [BigQueryException] to its caller. *)
Theorem batch_isolates_failures
    (settings : BigQueryClient.Settings) (engine : BigQueryClient.Engine)
    (queries : list SQLExecutorService.BatchQuery)
    (user_id dashboard_id : option string) (w : BigQueryClient.world) :
  NoDup (map SQLExecutorService.id queries) ->
  exists result_map w',
    SQLExecutorService.execute_batch settings engine queries user_id dashboard_id w =
      (Return result_map, w') /\
    forall q, In q queries ->
      forall max_bytes u dsh w0,
        match SQLExecutorService.execute_for_serving settings engine
                (SQLExecutorService.sql q) max_bytes u dsh w0 with
        | (Return rows, _) =>
            Py.dict_get result_map (SQLExecutorService.id q) = Some rows /\
            (forall job,
                engine (SQLExecutorService.sql q)
                  {| BigQueryClient.maximum_bytes_billed :=
                       BigQueryClient.bigquery_max_bytes_billed settings;
                     BigQueryClient.use_query_cache :=
                       BigQueryClient.bigquery_use_query_cache settings;
                     BigQueryClient.query_parameters := [] |}
                  (BigQueryClient.bigquery_query_timeout settings) = Return job ->
                List.length rows = List.length (BigQueryClient.rows job))
        | (Raise e, _) =>
            Py.dict_get result_map (SQLExecutorService.id q) = Some [] /\
            cls e = BigQueryException
        end.
Proof.
  intros Hnd. unfold SQLExecutorService.execute_batch, Eff.bind.
  pose proof (gather_outcomes settings engine queries user_id dashboard_id w) as G.
  destruct (SQLExecutorService.gather _ w) as [[results|e] w1]; cbn [fst] in G;
    [|discriminate].
  inversion G; subst results. clear G.
  eexists. eexists. split; [reflexivity|].
  intros q Hq max_bytes u dsh w0.
  pose proof (execute_for_serving_outcome settings engine (SQLExecutorService.sql q)
                max_bytes u dsh w0) as H.
  pose proof (build_result_map_entry queries
                (fun q => serving_outcome settings engine (SQLExecutorService.sql q))
                [] q Hnd Hq) as B.
  destruct (SQLExecutorService.execute_for_serving settings engine _ _ _ _ w0)
    as [r w2].
  cbn [fst] in H. cbn beta in B. rewrite <- H in B.
  destruct r as [rows|e]; cbn [rows_or_empty] in B.
  - split; [exact B|]. intros job Hjob.
    unfold serving_outcome in H. rewrite Hjob in H.
    destruct (BigQueryClient.validate_query settings (SQLExecutorService.sql q))
      as [[|] err]; [|discriminate].
    inversion H. now rewrite length_map.
  - split; [exact B|]. unfold serving_outcome in H.
    destruct (BigQueryClient.validate_query settings (SQLExecutorService.sql q))
      as [[|] err].
    + destruct (engine _ _ _); [discriminate|]. inversion H. reflexivity.
    + inversion H. reflexivity.
Qed.

(** An engine on which one table is missing: a query that names it fails,
    any other query returns two rows. *)
Definition two_rows : list BigQueryClient.Row :=
  [ [("month", BigQueryClient.CDateTime "2024-01-01"); ("total", BigQueryClient.CInt 10)];
    [("month", BigQueryClient.CDateTime "2024-02-01"); ("total", BigQueryClient.CInt 20)] ].

Definition done_job (rows : list BigQueryClient.Row) (bytes : Z) : BigQueryClient.QueryJob :=
  {| BigQueryClient.job_id := "job_1";
     BigQueryClient.schema := [("month", "DATE"); ("total", "INTEGER")];
     BigQueryClient.rows := rows;
     BigQueryClient.total_rows := Z.of_nat (List.length rows);
     BigQueryClient.total_bytes_processed := Some bytes;
     BigQueryClient.total_bytes_billed := Some bytes;
     BigQueryClient.cache_hit := Some false;
     BigQueryClient.started := Some 0%Q;
     BigQueryClient.ended := Some 1%Q |}.

Definition flaky_engine : BigQueryClient.Engine :=
  fun sql _ _ =>
    if Py.contains "missing_table" sql
    then Raise (builtin EngineError "Not found: Table proj.sales.missing_table")
    else Return (done_job two_rows 2048).

Definition batch_of_two : list SQLExecutorService.BatchQuery :=
  [ {| SQLExecutorService.id := "monthly_revenue";
       SQLExecutorService.sql := "SELECT month, total FROM proj.sales.monthly";
       SQLExecutorService.max_bytes_billed := None |};
    {| SQLExecutorService.id := "top_products";
       SQLExecutorService.sql := "SELECT month, total FROM proj.sales.missing_table";
       SQLExecutorService.max_bytes_billed := None |} ].

Lemma batch_isolates_failures_witness :
  exists result_map w',
    SQLExecutorService.execute_batch default_settings flaky_engine batch_of_two
      None None empty_world = (Return result_map, w') /\
    forall q, In q batch_of_two ->
      forall max_bytes u dsh w0,
        match SQLExecutorService.execute_for_serving default_settings flaky_engine
                (SQLExecutorService.sql q) max_bytes u dsh w0 with
        | (Return rows, _) =>
            Py.dict_get result_map (SQLExecutorService.id q) = Some rows /\
            (forall job,
                flaky_engine (SQLExecutorService.sql q)
                  {| BigQueryClient.maximum_bytes_billed :=
                       BigQueryClient.bigquery_max_bytes_billed default_settings;
                     BigQueryClient.use_query_cache :=
                       BigQueryClient.bigquery_use_query_cache default_settings;
                     BigQueryClient.query_parameters := [] |}
                  (BigQueryClient.bigquery_query_timeout default_settings) = Return job ->
                List.length rows = List.length (BigQueryClient.rows job))
        | (Raise e, _) =>
            Py.dict_get result_map (SQLExecutorService.id q) = Some [] /\
            cls e = BigQueryException
        end.
Proof.
  apply (batch_isolates_failures default_settings flaky_engine batch_of_two
           None None empty_world).
  repeat constructor; simpl; intuition discriminate.
Defined.

Example batch_of_two_result :
  fst (SQLExecutorService.execute_batch default_settings flaky_engine batch_of_two
         None None empty_world) =
  Return [ ("monthly_revenue",
            [ [("month", BigQueryClient.CStr "2024-01-01"); ("total", BigQueryClient.CInt 10)];
              [("month", BigQueryClient.CStr "2024-02-01"); ("total", BigQueryClient.CInt 20)] ]);
           ("top_products", []) ].
Proof. vm_compute. reflexivity. Qed.

(** Two queries under one id: the map keeps the result of the later one. *)
Example batch_with_a_repeated_id :
  fst (SQLExecutorService.execute_batch default_settings flaky_engine
         [ {| SQLExecutorService.id := "q";
              SQLExecutorService.sql := "SELECT month, total FROM proj.sales.monthly";
              SQLExecutorService.max_bytes_billed := None |};
           {| SQLExecutorService.id := "q";
              SQLExecutorService.sql := "SELECT month, total FROM proj.sales.missing_table";
              SQLExecutorService.max_bytes_billed := None |} ]
         None None empty_world) = Return [("q", [])].
Proof. vm_compute. reflexivity. Qed.

Example single_query_failure_propagates :
  fst (SQLExecutorService.execute_for_serving default_settings flaky_engine
         "SELECT month, total FROM proj.sales.missing_table" None None None empty_world) =
  Raise (BigQueryException_init
           "Query execution failed: Not found: Table proj.sales.missing_table"
           (Some (BigQueryClient.hash_query
                    "SELECT month, total FROM proj.sales.missing_table"))
           None None
           (Some (builtin EngineError "Not found: Table proj.sales.missing_table"))).
Proof. vm_compute. reflexivity. Qed.

(* ================================================================= *)
(** ** The byte cap *)

(** An engine that aborts every job that needs more bytes than its cap: the
    table below needs 150,000,000 bytes. *)
Definition capped_engine : BigQueryClient.Engine :=
  fun sql cfg _ =>
    if BigQueryClient.maximum_bytes_billed cfg <? 150000000
    then Raise (builtin EngineError
                  ("Query exceeded limit for bytes billed: " ++
                   Py.str_int (BigQueryClient.maximum_bytes_billed cfg) ++
                   ". 150000000 or higher required.")%string)
    else Return (done_job two_rows 150000000).

Definition big_scan : string := "SELECT * FROM proj.sales.orders".

(** C1 (the code departs from the claim).  The verification entry point
    never raises, whatever the settings, the engine and the query: a job
    that the engine aborts for exceeding the byte cap comes back as an
    ordinary invalid result whose only content is the text of the engine's
    error, with every byte count at zero, and no [BytesLimitExceeded] error
    with the attempted and allowed byte counts is produced.  The serving
    entry point raises a plain [BigQueryException] without byte counts, and
    sends the query with the global cap even when a per-query cap is given. *)
Theorem bytes_limit_exceeded_never_raised :
  (forall settings engine sql max_bytes user_id dashboard_id w,
      exists result w',
        SQLExecutorService.execute_for_verification settings engine sql max_bytes
          user_id dashboard_id w = (Return result, w')) /\
  fst (SQLExecutorService.execute_for_verification default_settings capped_engine
         big_scan None None None empty_world) =
    Return {| SQLExecutorService.valid := false;
              SQLExecutorService.res_job_id := None;
              SQLExecutorService.res_schema := [];
              SQLExecutorService.res_row_count := 0;
              SQLExecutorService.sample_rows := [];
              SQLExecutorService.res_bytes_scanned := 0;
              SQLExecutorService.res_bytes_billed := 0;
              SQLExecutorService.res_cache_hit := false;
              SQLExecutorService.res_duration_ms := 0;
              SQLExecutorService.error :=
                Some "Query exceeded limit for bytes billed: 100000000. 150000000 or higher required." |} /\
  (exists e,
      fst (SQLExecutorService.execute_for_serving default_settings capped_engine
             big_scan (Some 200000000) None None empty_world) = Raise e /\
      cls e = BigQueryException /\
      Py.dict_get (details e) "max_bytes_allowed" = None /\
      Py.dict_get (details e) "bytes_scanned" = None /\
      e <> BytesLimitExceededException_init 150000000 100000000
             (Some (BigQueryClient.hash_query big_scan))) /\
  map (fun call => BigQueryClient.maximum_bytes_billed (snd call))
      (BigQueryClient.engine_calls
         (snd (SQLExecutorService.execute_for_serving default_settings capped_engine
                 big_scan (Some 200000000) None None empty_world))) =
    [100000000].
Proof.
  split; [|split; [|split]].
  - intros settings engine sql max_bytes user_id dashboard_id w.
    unfold SQLExecutorService.execute_for_verification, Eff.try_except, Eff.bind,
      BigQueryClient.execute_for_verification, BigQueryClient.execute_query.
    destruct (BigQueryClient.validate_query settings sql) as [[|] err]; cbn.
    + destruct (engine sql _ _) as [job|e]; cbn;
        unfold SQLExecutorService._log_query_execution;
        destruct (BigQueryClient.db_available w); cbn;
        do 2 eexists; reflexivity.
    + unfold SQLExecutorService._log_query_execution.
      destruct (BigQueryClient.db_available w); cbn;
        do 2 eexists; reflexivity.
  - vm_compute. reflexivity.
  - eexists. split; [vm_compute; reflexivity|].
    split; [reflexivity|]. split; [reflexivity|]. split; [reflexivity|].
    intros H. apply (f_equal cls) in H. discriminate H.
  - vm_compute. reflexivity.
Qed.

Example bytes_limit_exception_carries_both_counts :
  let e := BytesLimitExceededException_init 150000000 100000000 None in
  message e =
    "Query would scan 150,000,000 bytes, exceeding limit of 100,000,000 bytes (95MB)" /\
  error_code e = "BYTES_LIMIT_EXCEEDED" /\
  Py.dict_get (details e) "bytes_scanned" = Some (DInt 150000000) /\
  Py.dict_get (details e) "max_bytes_allowed" = Some (DInt 100000000).
Proof. vm_compute. repeat split. Qed.

(* ================================================================= *)
(** ** Upstream tables *)

(** A dashboard with one query, which reads one table, and one chart. *)
Definition orders_dashboard : yaml_schema.DashboardYAML :=
  grid_dashboard [grid_item "trend" 0 0 6 4].

(** The table ids the claim describes: the query nodes of the dashboard are
    the query nodes whose metadata names the dashboard; the tables are the
    targets of the [reads_from] edges that leave them. *)
Definition tables_read_by (db : LineageService.Db) (slug : string) : list string :=
  let query_nodes :=
    filter (fun n =>
              db_models.NodeType_eqb (LineageService.node_type n) db_models.query &&
              match LineageService.node_metadata n with
              | Some md =>
                  match Py.dict_get md "dashboard_slug" with
                  | Some owner => String.eqb owner slug
                  | None => false
                  end
              | None => false
              end)
           (LineageService.lineage_nodes db) in
  let targets :=
    map LineageService.target_node_id
        (filter (fun e =>
                   db_models.EdgeType_eqb (LineageService.edge_type e) db_models.reads_from &&
                   existsb (fun n => LineageService.id n =? LineageService.source_node_id e)
                           query_nodes)
                (LineageService.lineage_edges db)) in
  map LineageService.node_id
      (filter (fun n => db_models.NodeType_eqb (LineageService.node_type n) db_models.table &&
                        existsb (Z.eqb (LineageService.id n)) targets)
              (LineageService.lineage_nodes db)).

Definition built_db (d : yaml_schema.DashboardYAML) : LineageService.Db :=
  let seeds := DashboardCompilerService._build_lineage_seeds first_occurrences d in
  snd (LineageService.build_lineage_for_dashboard
         (yaml_schema.slug (yaml_schema.metadata d)) (fst seeds) (snd seeds)
         LineageService.empty_db).

(** Whatever [get_upstream_tables] returns is the slug itself or starts
    with the slug and a colon. *)
Lemma upstream_tables_are_slug_prefixed (db : LineageService.Db) (slug t : string) :
  In t (LineageService.get_upstream_tables db slug) ->
  t = slug \/ LineageService.like (slug ++ ":%")%string t = true.
Proof.
  unfold LineageService.get_upstream_tables, LineageService._get_dashboard_nodes.
  destruct (LineageService.find_node db db_models.dashboard slug); [|contradiction].
  intros H. apply in_map_iff in H. destruct H as [n [<- Hn]].
  apply filter_In in Hn. destruct Hn as [Hn _]. apply filter_In in Hn.
  destruct Hn as [_ Hn]. apply orb_true_iff in Hn.
  destruct Hn as [Hn | Hn]; [left; now apply String.eqb_eq|now right].
Qed.

(** C8 (the code departs from the claim).  After the lineage of a validated
    dashboard whose one query reads the table [proj.sales.orders] has been
    built from the compiler's seeds, the table node and the [reads_from]
    edge from the query node to it are stored, and [get_upstream_tables]
    returns the empty list: it searches among the nodes whose id is the slug
    or starts with the slug and a colon, and a table node's id is the table
    reference. *)
Theorem upstream_tables_returns_no_table :
  yaml_schema.validated orders_dashboard /\
  fst (LineageService.build_lineage_for_dashboard "revenue-dashboard"
         (fst (DashboardCompilerService._build_lineage_seeds first_occurrences
                 orders_dashboard))
         (snd (DashboardCompilerService._build_lineage_seeds first_occurrences
                 orders_dashboard))
         LineageService.empty_db) = Return (4, 3) /\
  tables_read_by (built_db orders_dashboard) "revenue-dashboard" = ["proj.sales.orders"] /\
  LineageService.get_upstream_tables (built_db orders_dashboard) "revenue-dashboard" = [].
Proof.
  split; [|split; [|split]].
  - split; [repeat constructor|vm_compute; reflexivity].
  - vm_compute. reflexivity.
  - vm_compute. reflexivity.
  - vm_compute. reflexivity.
Qed.

(** Building the lineage of the same dashboard a second time fails: the
    chart node survives the clearing and its update raises. *)
Example second_build_raises :
  let seeds := DashboardCompilerService._build_lineage_seeds first_occurrences
                 orders_dashboard in
  fst (LineageService.build_lineage_for_dashboard "revenue-dashboard"
         (fst seeds) (snd seeds) (built_db orders_dashboard)) =
  Raise (builtin UnboundLocalError
           "local variable 'datetime' referenced before assignment").
Proof. vm_compute. reflexivity. Qed.

(* ================================================================= *)
(** * Further properties of the services *)
(* ================================================================= *)
(** ** More on the in-memory cache *)

Section CacheCalls.
Context {V : Type}.
Implicit Types (c : InMemoryCache.t V) (d : Py.dict (V * Q)) (k key : string).

Lemma filter_twice {A} (f g : A -> bool) (l : list A) :
  filter f (filter g l) = filter (fun x => g x && f x) l.
Proof.
  induction l as [|x l IH]; [reflexivity|]. cbn [filter].
  destruct (g x); cbn [andb filter]; [destruct (f x)|]; now rewrite IH.
Qed.

Lemma dict_get_filter_kept (p : string * (V * Q) -> bool) d k :
  (forall e, p (k, e) = true) ->
  Py.dict_get (filter p d) k = Py.dict_get d k.
Proof.
  intros Hp. induction d as [|[k0 e0] d IH]; [reflexivity|].
  cbn [filter Py.dict_get]. destruct (String.eqb_spec k0 k) as [->|Hne].
  - rewrite Hp. cbn [Py.dict_get]. now rewrite String.eqb_refl.
  - destruct (p (k0, e0)); [|exact IH]. cbn [Py.dict_get].
    destruct (String.eqb_spec k0 k); [contradiction|exact IH].
Qed.

Lemma dict_get_filter_dropped (p : string * (V * Q) -> bool) d k :
  (forall e, p (k, e) = false) -> Py.dict_get (filter p d) k = None.
Proof.
  intros Hp. induction d as [|[k0 e0] d IH]; [reflexivity|].
  cbn [filter]. destruct (p (k0, e0)) eqn:E; [|exact IH].
  cbn [Py.dict_get]. destruct (String.eqb_spec k0 k) as [->|Hne]; [|exact IH].
  rewrite Hp in E. discriminate.
Qed.

Lemma dict_get_filter_first (p : string * (V * Q) -> bool) d k e :
  Py.dict_get d k = Some e -> p (k, e) = true ->
  Py.dict_get (filter p d) k = Some e.
Proof.
  induction d as [|[k0 e0] d IH]; [discriminate|].
  cbn [filter Py.dict_get]. destruct (String.eqb_spec k0 k) as [->|Hne].
  - intros H Hp. inversion H; subst. rewrite Hp. cbn [Py.dict_get].
    now rewrite String.eqb_refl.
  - intros H Hp. destruct (p (k0, e0)); [|now apply IH]. cbn [Py.dict_get].
    destruct (String.eqb_spec k0 k); [contradiction|now apply IH].
Qed.

Lemma dict_get_filter_absent (p : string * (V * Q) -> bool) d k :
  Py.dict_get d k = None -> Py.dict_get (filter p d) k = None.
Proof.
  induction d as [|[k0 e0] d IH]; [reflexivity|].
  cbn [Py.dict_get filter]. destruct (String.eqb k0 k) eqn:E; [discriminate|].
  intros H. destruct (p (k0, e0)); [|now apply IH].
  cbn [Py.dict_get]. rewrite E. now apply IH.
Qed.

Lemma dict_get_filter_del (p : string * (V * Q) -> bool) d key k :
  k <> key ->
  Py.dict_get (filter p (Py.dict_del d key)) k = Py.dict_get (filter p d) k.
Proof.
  intros Hne. unfold Py.dict_del.
  induction d as [|[k0 e0] d IH]; [reflexivity|].
  cbn [filter fst]. destruct (String.eqb_spec k0 key) as [->|Hk]; cbn [negb].
  - destruct (p (key, e0)); [|exact IH].
    cbn [Py.dict_get]. destruct (String.eqb_spec key k); [congruence|exact IH].
  - cbn [filter]. destruct (p (k0, e0)); [|exact IH].
    cbn [Py.dict_get]. now rewrite IH.
Qed.

(** The keys of [keys_to_delete], deleted one after the other. *)
Lemma fold_del_filter (keys : list string) d :
  fold_left Py.dict_del keys d =
  filter (fun kv => negb (existsb (String.eqb (fst kv)) keys)) d.
Proof.
  revert d. induction keys as [|k keys IH]; intros d; cbn [fold_left existsb].
  - induction d as [|kv d IHd]; simpl in *; [reflexivity|]. now f_equal.
  - rewrite IH. unfold Py.dict_del. rewrite filter_twice.
    apply filter_ext. intros kv. now rewrite negb_orb.
Qed.

Lemma length_filter_split {A} (f : A -> bool) (l : list A) :
  (List.length (filter f l) + List.length (filter (fun x => negb (f x)) l) =
   List.length l)%nat.
Proof.
  induction l as [|x l IH]; [reflexivity|]. cbn [filter].
  destruct (f x); cbn [negb List.length]; lia.
Qed.

Lemma length_filter_keys (f : string -> bool) d :
  List.length (filter f (Py.dict_keys d)) =
  List.length (filter (fun kv => f (fst kv)) d).
Proof.
  unfold Py.dict_keys. induction d as [|[k0 e0] d IH]; [reflexivity|].
  cbn [map filter fst]. destruct (f k0); cbn [List.length]; now rewrite IH.
Qed.

Lemma invalidate_pattern_cache c pattern :
  InMemoryCache._cache (snd (InMemoryCache.invalidate_pattern c pattern)) =
  filter (fun kv => negb (Py.contains pattern (fst kv))) (InMemoryCache._cache c).
Proof.
  unfold InMemoryCache.invalidate_pattern.
  cbn [snd InMemoryCache._cache InMemoryCache.with_cache].
  rewrite fold_del_filter. apply filter_ext_in. intros [k0 e0] Hin. cbn [fst].
  f_equal. destruct (Py.contains pattern k0) eqn:E.
  - apply existsb_exists. exists k0. split; [|apply String.eqb_refl].
    apply filter_In. split; [|exact E].
    unfold Py.dict_keys. now apply (in_map fst) in Hin.
  - destruct (existsb _ _) eqn:X; [|reflexivity].
    apply existsb_exists in X. destruct X as [k1 [Hk1 Heq]].
    apply String.eqb_eq in Heq. subst k1. apply filter_In in Hk1.
    destruct Hk1 as [_ Hk1]. congruence.
Qed.

Lemma contains_empty (s : string) : Py.contains "" s = true.
Proof. destruct s; reflexivity. Qed.

(** What a hit leaves in the cache: the entry of the key, at the most
    recently used end. *)
Lemma get_hit_shape c t1 t2 key value c1 :
  InMemoryCache.get c t1 t2 key = (Some value, c1) ->
  exists expiry,
    Py.dict_get (InMemoryCache._cache (InMemoryCache._evict_expired t1 c)) key =
      Some (value, expiry) /\
    InMemoryCache._is_expired t2 expiry = false /\
    c1 = InMemoryCache.with_cache c
           (Py.dict_del (InMemoryCache._cache (InMemoryCache._evict_expired t1 c)) key
            ++ [(key, (value, expiry))]).
Proof.
  unfold InMemoryCache.get. cbv zeta.
  destruct (Py.dict_get (InMemoryCache._cache (InMemoryCache._evict_expired t1 c)) key)
    as [[v expiry]|] eqn:E; [|discriminate].
  destruct (InMemoryCache._is_expired t2 expiry) eqn:X; [discriminate|].
  intros H. injection H as -> <-. exists expiry.
  split; [reflexivity|]. split; [exact X|].
  unfold Py.move_to_end, InMemoryCache._evict_expired in E |- *.
  cbn [InMemoryCache._cache InMemoryCache.with_cache] in E |- *.
  rewrite E. reflexivity.
Qed.
End CacheCalls.

(** X1.  [delete] reports whether the key was in the cache and leaves the
    cache untouched when it was not; after it a [get] of the key misses, at
    any time, and a [get] of any other key returns what it would have
    returned without the [delete]. *)
Theorem cache_delete_forgets_key (V : Type) (c : InMemoryCache.t V) (key : string) :
  let deleted := fst (InMemoryCache.delete c key) in
  let c' := snd (InMemoryCache.delete c key) in
  deleted = Py.dict_mem (InMemoryCache._cache c) key /\
  (deleted = false -> c' = c) /\
  (forall t1 t2 : Q, fst (InMemoryCache.get c' t1 t2 key) = None) /\
  (forall (k : string) (t1 t2 : Q),
      k <> key ->
      fst (InMemoryCache.get c' t1 t2 k) = fst (InMemoryCache.get c t1 t2 k)).
Proof.
  cbv zeta. unfold InMemoryCache.delete.
  destruct (Py.dict_mem (InMemoryCache._cache c) key) eqn:M; cbn [fst snd].
  - split; [reflexivity|]. split; [discriminate|]. split.
    + intros t1 t2. unfold InMemoryCache.get, InMemoryCache._evict_expired.
      cbn [InMemoryCache._cache InMemoryCache.with_cache].
      rewrite dict_get_filter_absent by apply dict_get_del_same. reflexivity.
    + intros k t1 t2 Hne. unfold InMemoryCache.get, InMemoryCache._evict_expired.
      cbn [InMemoryCache._cache InMemoryCache.with_cache].
      rewrite dict_get_filter_del by exact Hne.
      destruct (Py.dict_get (filter _ (InMemoryCache._cache c)) k) as [[v e]|];
        [|reflexivity].
      destruct (InMemoryCache._is_expired t2 e); reflexivity.
  - split; [reflexivity|]. split; [reflexivity|]. split; [|reflexivity].
    intros t1 t2. unfold InMemoryCache.get, InMemoryCache._evict_expired.
    cbn [InMemoryCache._cache InMemoryCache.with_cache].
    unfold Py.dict_mem in M.
    destruct (Py.dict_get (InMemoryCache._cache c) key) eqn:G; [discriminate|].
    now rewrite dict_get_filter_absent.
Qed.

(** X2.  [invalidate_pattern] deletes exactly the entries whose key contains
    the pattern as a substring and returns their number: the entries that
    remain are the others, in their order; a key that contains the pattern
    is no longer found and every other key is found as before.  The empty
    pattern occurs in every key, so it empties the cache. *)
Theorem invalidate_pattern_removes_matching_keys (V : Type) (c : InMemoryCache.t V)
    (pattern : string) :
  let count := fst (InMemoryCache.invalidate_pattern c pattern) in
  let c' := snd (InMemoryCache.invalidate_pattern c pattern) in
  InMemoryCache._cache c' =
    filter (fun kv => negb (Py.contains pattern (fst kv))) (InMemoryCache._cache c) /\
  count = InMemoryCache.len c - InMemoryCache.len c' /\
  (forall key, Py.contains pattern key = true ->
               Py.dict_get (InMemoryCache._cache c') key = None) /\
  (forall key, Py.contains pattern key = false ->
               Py.dict_get (InMemoryCache._cache c') key =
               Py.dict_get (InMemoryCache._cache c) key) /\
  (pattern = EmptyString -> InMemoryCache._cache c' = []).
Proof.
  cbv zeta. pose proof (invalidate_pattern_cache c pattern) as Hc.
  split; [exact Hc|]. split; [|split; [|split]].
  - unfold InMemoryCache.len. rewrite Hc.
    unfold InMemoryCache.invalidate_pattern. cbn [fst].
    pose proof (length_filter_split (fun kv : string * (V * Q) =>
                   Py.contains pattern (fst kv)) (InMemoryCache._cache c)) as L.
    rewrite (length_filter_keys (fun key => Py.contains pattern key)). lia.
  - intros key Hk. rewrite Hc. apply dict_get_filter_dropped.
    intros e. cbn [fst]. now rewrite Hk.
  - intros key Hk. rewrite Hc. apply dict_get_filter_kept.
    intros e. cbn [fst]. now rewrite Hk.
  - intros ->. rewrite Hc. clear Hc.
    generalize (InMemoryCache._cache c) as d.
    induction d as [|[k0 e0] d IH]; [reflexivity|].
    cbn [filter fst]. now rewrite contains_empty.
Qed.

(** X3.  A hit marks the entry as most recently used: when [get] has just
    returned the value of a key, a [set] of another key that follows, in a
    cache made for at least two entries and at a time when the entry has
    not expired, succeeds and does not evict that entry, however full the
    cache is; the key is still served until its expiry. *)
Theorem cache_hit_protects_from_eviction (V : Type) (c c1 : InMemoryCache.t V)
    (g1 g2 s1 s2 : Q) (key key' : string) (value value' : V) (ttl : option Z)
    (expiry : Q) :
  InMemoryCache.get c g1 g2 key = (Some value, c1) ->
  Py.dict_get (InMemoryCache._cache c1) key = Some (value, expiry) ->
  (s1 <= expiry)%Q ->
  2 <= InMemoryCache.max_size c ->
  key' <> key ->
  exists c2,
    InMemoryCache.set c1 s1 s2 key' value' ttl = (Return true, c2) /\
    Py.dict_get (InMemoryCache._cache c2) key = Some (value, expiry) /\
    forall t1 t2 : Q, (t1 <= expiry)%Q -> (t2 <= expiry)%Q ->
                      fst (InMemoryCache.get c2 t1 t2 key) = Some value.
Proof.
  intros Hget Hentry Hs1 Hsize Hne.
  destruct (get_hit_shape c g1 g2 key value c1 Hget) as [expiry0 [_ [_ Hc1]]].
  set (F := InMemoryCache._cache (InMemoryCache._evict_expired g1 c)) in Hc1.
  assert (Hexp : expiry0 = expiry).
  { rewrite Hc1 in Hentry. cbn [InMemoryCache._cache InMemoryCache.with_cache] in Hentry.
    rewrite dict_get_app, dict_get_del_same in Hentry. cbn in Hentry.
    rewrite String.eqb_refl in Hentry. congruence. }
  subst expiry0.
  set (live := fun kv : string * (V * Q) =>
                 negb (InMemoryCache._is_expired s1 (snd (snd kv)))).
  set (D := filter live (Py.dict_del F key)).
  assert (HD : Py.dict_get D key = None)
    by (apply dict_get_filter_absent, dict_get_del_same).
  assert (Hpurged : InMemoryCache._cache (InMemoryCache._evict_expired s1 c1) =
                    D ++ [(key, (value, expiry))]).
  { rewrite Hc1. unfold InMemoryCache._evict_expired.
    cbn [InMemoryCache._cache InMemoryCache.with_cache].
    rewrite filter_app. fold live. fold D. f_equal. cbn [filter].
    unfold live at 1. cbn [snd]. now rewrite (is_expired_false s1 expiry Hs1). }
  assert (Hmax : InMemoryCache.max_size (InMemoryCache._evict_expired s1 c1) =
                 InMemoryCache.max_size c) by (rewrite Hc1; reflexivity).
  assert (Hlru : exists D',
             InMemoryCache._evict_lru (InMemoryCache._evict_expired s1 c1) =
             (Return tt, InMemoryCache.with_cache c1 (D' ++ [(key, (value, expiry))])) /\
             Py.dict_get D' key = None).
  { unfold InMemoryCache._evict_lru. rewrite Hmax, Hpurged.
    unfold InMemoryCache.len. rewrite Hpurged.
    destruct (Z.leb_spec (InMemoryCache.max_size c)
                (Z.of_nat (List.length (D ++ [(key, (value, expiry))])))) as [Hfull|Hroom].
    - destruct D as [|[k0 e0] D'].
      + cbn in Hfull. lia.
      + cbn [app]. exists D'. split; [reflexivity|].
        cbn [Py.dict_get] in HD. destruct (String.eqb k0 key); [discriminate|exact HD].
    - exists D. split; [|exact HD]. f_equal.
      unfold InMemoryCache._evict_expired. f_equal. exact Hpurged. }
  destruct Hlru as [D' [Hlru HD']].
  eexists. split; [|split].
  - unfold InMemoryCache.set. rewrite Hlru. reflexivity.
  - cbn [InMemoryCache._cache InMemoryCache.with_cache].
    rewrite move_to_end_set, dict_get_app.
    rewrite dict_get_del_other by (intros E; apply Hne; now symmetry).
    rewrite dict_get_app, HD'. cbn. now rewrite String.eqb_refl.
  - intros t1 t2 H1 H2. unfold InMemoryCache.get, InMemoryCache._evict_expired.
    cbn [InMemoryCache._cache InMemoryCache.with_cache].
    rewrite (dict_get_filter_first _ _ key (value, expiry)).
    + now rewrite (is_expired_false t2 expiry H2).
    + rewrite move_to_end_set, dict_get_app.
      rewrite dict_get_del_other by (intros E; apply Hne; now symmetry).
      rewrite dict_get_app, HD'. cbn. now rewrite String.eqb_refl.
    + cbn [snd]. now rewrite (is_expired_false t1 expiry H1).
Qed.

Lemma cache_hit_protects_from_eviction_witness :
  exists c2,
    InMemoryCache.set (snd (InMemoryCache.get full_cache 2 2 "a")) 3 3 "c" "3" None =
      (Return true, c2) /\
    Py.dict_get (InMemoryCache._cache c2) "a" = Some ("1", (0 + inject_Z 60)%Q) /\
    forall t1 t2 : Q, (t1 <= 0 + inject_Z 60)%Q -> (t2 <= 0 + inject_Z 60)%Q ->
                      fst (InMemoryCache.get c2 t1 t2 "a") = Some "1".
Proof.
  apply (cache_hit_protects_from_eviction string full_cache
           (snd (InMemoryCache.get full_cache 2 2 "a")) 2%Q 2%Q 3%Q 3%Q
           "a" "c" "1" "3" None (0 + inject_Z 60)%Q).
  - vm_compute. reflexivity.
  - vm_compute. reflexivity.
  - vm_compute. discriminate.
  - vm_compute. discriminate.
  - discriminate.
Defined.

Lemma is_expired_spec (now expiry : Q) :
  InMemoryCache._is_expired now expiry = false <-> (now <= expiry)%Q.
Proof.
  unfold InMemoryCache._is_expired. rewrite negb_false_iff. apply Qle_bool_iff.
Qed.

(** X4.  [get] serves live entries only: it returns a value exactly when
    the cache holds an entry for the key whose expiry neither of the two
    clock readings of the call has passed, and then that entry's value; when
    it returns nothing, the key has no entry left after the call (an expired
    entry is removed on access). *)
Theorem cache_get_serves_only_live_entries (V : Type) (c : InMemoryCache.t V)
    (t1 t2 : Q) (key : string) :
  wf_cache c ->
  (forall value : V,
      fst (InMemoryCache.get c t1 t2 key) = Some value <->
      exists expiry : Q,
        Py.dict_get (InMemoryCache._cache c) key = Some (value, expiry) /\
        (t1 <= expiry)%Q /\ (t2 <= expiry)%Q) /\
  (fst (InMemoryCache.get c t1 t2 key) = None ->
   Py.dict_get (InMemoryCache._cache (snd (InMemoryCache.get c t1 t2 key))) key = None).
Proof.
  intros Hwf. unfold InMemoryCache.get. cbv zeta.
  assert (HF : Py.dict_get (InMemoryCache._cache (InMemoryCache._evict_expired t1 c)) key =
               match Py.dict_get (InMemoryCache._cache c) key with
               | Some (v, e) => if InMemoryCache._is_expired t1 e then None else Some (v, e)
               | None => None
               end).
  { unfold InMemoryCache._evict_expired.
    cbn [InMemoryCache._cache InMemoryCache.with_cache].
    rewrite (dict_get_filter _ _ key Hwf).
    destruct (Py.dict_get (InMemoryCache._cache c) key) as [[v e]|]; [|reflexivity].
    cbn [snd]. destruct (InMemoryCache._is_expired t1 e); reflexivity. }
  destruct (Py.dict_get (InMemoryCache._cache c) key) as [[v e]|] eqn:G.
  - destruct (InMemoryCache._is_expired t1 e) eqn:Ex1.
    + rewrite HF. cbn [fst snd]. split; [|intros _; exact HF].
      intros value. split; [discriminate|].
      intros [expiry [H [H1 _]]]. inversion H; subst.
      apply is_expired_spec in H1. congruence.
    + rewrite HF. destruct (InMemoryCache._is_expired t2 e) eqn:Ex2; cbn [fst snd].
      * split.
        -- intros value. split; [discriminate|].
           intros [expiry [H [_ H2]]]. inversion H; subst.
           apply is_expired_spec in H2. congruence.
        -- intros _. cbn [InMemoryCache._cache InMemoryCache.with_cache].
           apply dict_get_del_same.
      * split; [|discriminate].
        intros value. split.
        -- intros H. inversion H; subst. exists e.
           split; [reflexivity|]. split; now apply is_expired_spec.
        -- intros [expiry [H _]]. inversion H; subst. reflexivity.
  - rewrite HF. cbn [fst snd]. split; [|intros _; exact HF].
    intros value. split; [discriminate|]. intros [expiry [H _]]. discriminate.
Qed.

Lemma cache_get_serves_only_live_entries_witness :
  (forall value : string,
      fst (InMemoryCache.get full_cache 30 30 "a") = Some value <->
      exists expiry : Q,
        Py.dict_get (InMemoryCache._cache full_cache) "a" = Some (value, expiry) /\
        (30 <= expiry)%Q /\ (30 <= expiry)%Q) /\
  (fst (InMemoryCache.get full_cache 30 30 "a") = None ->
   Py.dict_get (InMemoryCache._cache (snd (InMemoryCache.get full_cache 30 30 "a"))) "a"
   = None).
Proof.
  apply (cache_get_serves_only_live_entries string full_cache 30%Q 30%Q "a").
  unfold wf_cache, wf_dict. vm_compute. repeat constructor; simpl; intuition discriminate.
Defined.

Lemma cache_delete_forgets_key_witness :
  fst (InMemoryCache.delete full_cache "a") = true /\
  fst (InMemoryCache.get (snd (InMemoryCache.delete full_cache "a")) 2 2 "a") = None /\
  fst (InMemoryCache.get (snd (InMemoryCache.delete full_cache "a")) 2 2 "b") = Some "2".
Proof.
  pose proof (cache_delete_forgets_key string full_cache "a") as H.
  cbv zeta in H. destruct H as [H1 [_ [H3 H4]]].
  split; [rewrite H1; reflexivity|]. split; [apply H3|].
  rewrite (H4 "b" 2%Q 2%Q); [reflexivity|discriminate].
Defined.

Lemma invalidate_pattern_removes_matching_keys_witness :
  fst (InMemoryCache.invalidate_pattern full_cache "a") = 1 /\
  Py.dict_get (InMemoryCache._cache (snd (InMemoryCache.invalidate_pattern full_cache "a")))
              "a" = None /\
  Py.dict_get (InMemoryCache._cache (snd (InMemoryCache.invalidate_pattern full_cache "a")))
              "b" = Some ("2", (1 + inject_Z 60)%Q) /\
  InMemoryCache._cache (snd (InMemoryCache.invalidate_pattern full_cache "")) = [].
Proof.
  pose proof (invalidate_pattern_removes_matching_keys string full_cache "a") as H.
  pose proof (invalidate_pattern_removes_matching_keys string full_cache "") as H0.
  cbv zeta in H, H0. destruct H as [_ [H2 [H3 [H4 _]]]]. destruct H0 as [_ [_ [_ [_ H5]]]].
  split; [reflexivity|]. split; [now apply H3|].
  split; [now rewrite H4|]. now apply H5.
Defined.
(* ================================================================= *)
(** ** More on the compiler *)

Definition is_hex (c : ascii) : bool :=
  let n := N_of_ascii c in
  ((48 <=? n) && (n <=? 57) || (97 <=? n) && (n <=? 102))%N.

(** A text made of the digits [0-9a-f]. *)
Definition is_hex_string (s : string) : bool :=
  forallb is_hex (list_ascii_of_string s).

Section HashFormat.
Import SHA256.

Lemma hexchar_is_hex (d : Z) : 0 <= d < 16 -> is_hex (hexchar d) = true.
Proof.
  intros H.
  assert (E : d = 0 \/ d = 1 \/ d = 2 \/ d = 3 \/ d = 4 \/ d = 5 \/ d = 6 \/ d = 7 \/
              d = 8 \/ d = 9 \/ d = 10 \/ d = 11 \/ d = 12 \/ d = 13 \/ d = 14 \/
              d = 15) by lia.
  repeat (destruct E as [-> | E]; [reflexivity|]). subst d. reflexivity.
Qed.

Lemma hex_digits_hex (n : nat) (v : Z) : is_hex_string (hex_digits n v) = true.
Proof.
  unfold is_hex_string. induction n as [|n IH]; [reflexivity|].
  cbn [hex_digits list_ascii_of_string forallb]. rewrite IH, andb_true_r.
  apply hexchar_is_hex. apply Z.mod_pos_bound. lia.
Qed.

Lemma hex_digits_length (n : nat) (v : Z) : String.length (hex_digits n v) = n.
Proof. induction n as [|n IH]; simpl; [reflexivity|]. now rewrite IH. Qed.

Lemma list_ascii_app (a b : string) :
  list_ascii_of_string (a ++ b) = list_ascii_of_string a ++ list_ascii_of_string b.
Proof. induction a as [|c a IH]; simpl; [reflexivity|]. now rewrite IH. Qed.

Lemma is_hex_string_app (a b : string) :
  is_hex_string (a ++ b) = is_hex_string a && is_hex_string b.
Proof. unfold is_hex_string. now rewrite list_ascii_app, forallb_app. Qed.

Lemma length_append (a b : string) :
  String.length (a ++ b) = (String.length a + String.length b)%nat.
Proof. induction a as [|c a IH]; simpl; [reflexivity|]. now rewrite IH. Qed.

Lemma hexdigest_format (msg : list Z) :
  String.length (hexdigest msg) = 64%nat /\ is_hex_string (hexdigest msg) = true.
Proof.
  unfold hexdigest. cbv zeta. split.
  - rewrite !length_append, !hex_digits_length. reflexivity.
  - rewrite !is_hex_string_app, !hex_digits_hex. reflexivity.
Qed.
End HashFormat.

(** X5.  Both query hashes are lower-case hexadecimal texts of a fixed
    length, 16 digits for the compiler's and 64 for the client's, and the
    compiler's hash of a text is the first 16 digits of the client's hash
    of the same text. *)
Theorem query_hash_format (sql : string) :
  String.length (DashboardCompilerService._hash_query sql) = 16%nat /\
  is_hex_string (DashboardCompilerService._hash_query sql) = true /\
  String.length (BigQueryClient.hash_query sql) = 64%nat /\
  is_hex_string (BigQueryClient.hash_query sql) = true /\
  DashboardCompilerService._hash_query sql = Py.take 16 (BigQueryClient.hash_query sql).
Proof.
  split; [|split; [|split; [|split]]].
  - rewrite hash_query_two_words. cbv zeta.
    now rewrite length_append, !hex_digits_length.
  - rewrite hash_query_two_words. cbv zeta.
    now rewrite is_hex_string_app, !hex_digits_hex.
  - apply hexdigest_format.
  - apply hexdigest_format.
  - reflexivity.
Qed.

(** *** Table references *)

(** A non-empty run of the characters [[a-zA-Z0-9_-]]. *)
Definition identifier (s : string) : Prop :=
  s <> EmptyString /\
  forallb DashboardCompilerService.is_ident (list_ascii_of_string s) = true.

(** Three identifiers joined by two dots. *)
Definition table_reference (m : string) : Prop :=
  exists project dataset table : string,
    identifier project /\ identifier dataset /\ identifier table /\
    m = (project ++ "." ++ dataset ++ "." ++ table)%string.

Section TableReferences.
Import DashboardCompilerService.

Lemma ident_run_spec (s r t : string) :
  ident_run s = (r, t) ->
  s = (r ++ t)%string /\ forallb is_ident (list_ascii_of_string r) = true.
Proof.
  revert r t. induction s as [|c s IH]; intros r t; cbn [ident_run].
  - intros H. inversion H. split; reflexivity.
  - destruct (is_ident c) eqn:E.
    + destruct (ident_run s) as [r' t'] eqn:R. intros H. inversion H; subst.
      destruct (IH r' t eq_refl) as [-> Hall]. split; [reflexivity|].
      cbn [list_ascii_of_string forallb]. now rewrite E, Hall.
    + intros H. inversion H. split; reflexivity.
Qed.

Lemma expect_dot_spec (s u : string) : expect_dot s = Some u -> s = String "." u.
Proof.
  destruct s as [|c s]; [discriminate|]. unfold expect_dot.
  destruct (Ascii.eqb_spec c ".") as [->|Hne].
  - intros H. inversion H. reflexivity.
  - destruct c as [[] [] [] [] [] [] [] []]; try discriminate. contradiction.
Qed.

Lemma skip_backtick_spec (s : string) :
  s = skip_backtick s \/ s = String "`" (skip_backtick s).
Proof.
  destruct s as [|c s]; [now left|]. unfold skip_backtick.
  destruct c as [[] [] [] [] [] [] [] []]; auto.
Qed.

Lemma append_assoc (a b c : string) : ((a ++ b) ++ c)%string = (a ++ b ++ c)%string.
Proof. induction a as [|x a IH]; simpl; [reflexivity|]. now rewrite IH. Qed.

Lemma match_here_spec (s m : string) (n : nat) :
  match_here s = Some (m, n) ->
  table_reference m /\ Py.contains m s = true.
Proof.
  unfold match_here.
  destruct (ident_run (skip_backtick s)) as [r1 t1] eqn:R1.
  destruct r1 as [|c1 r1]; [discriminate|].
  destruct (expect_dot t1) as [u1|] eqn:D1; [|discriminate].
  destruct (ident_run u1) as [r2 t2] eqn:R2.
  destruct r2 as [|c2 r2]; [discriminate|].
  destruct (expect_dot t2) as [u2|] eqn:D2; [|discriminate].
  destruct (ident_run u2) as [r3 t3] eqn:R3.
  destruct r3 as [|c3 r3]; [discriminate|].
  intros H. inversion H; subst m n. clear H.
  apply ident_run_spec in R1, R2, R3.
  destruct R1 as [E1 A1], R2 as [E2 A2], R3 as [E3 A3].
  apply expect_dot_spec in D1, D2. subst t1 t2 u1 u2.
  split.
  - exists (String c1 r1), (String c2 r2), (String c3 r3).
    repeat split; try assumption; discriminate.
  - apply contains_app.
    destruct (skip_backtick_spec s) as [Hs | Hs]; rewrite Hs, E1.
    + exists EmptyString, t3. cbn [append]. rewrite !append_assoc. cbn [append].
      rewrite !append_assoc. reflexivity.
    + exists (String "`" EmptyString), t3. cbn [append]. rewrite !append_assoc.
      cbn [append]. rewrite !append_assoc. reflexivity.
Qed.

Lemma scan_spec (s : string) (skip : nat) (m : string) :
  In m (scan s skip) -> table_reference m /\ Py.contains m s = true.
Proof.
  revert skip. induction s as [|c s IH]; intros skip; [contradiction|].
  assert (Hlater : forall k, In m (scan s k) ->
                             table_reference m /\ Py.contains m (String c s) = true).
  { intros k Hin. destruct (IH k Hin) as [Hm Hc]. split; [exact Hm|].
    cbn [Py.contains]. rewrite Hc. apply orb_true_r. }
  cbn [scan]. destruct skip as [|k]; [|apply Hlater].
  destruct (match_here (String c s)) as [[m0 n]|] eqn:M; [|apply Hlater].
  intros [<- | Hin]; [|now apply (Hlater (n - 1)%nat)].
  now apply (match_here_spec _ _ n).
Qed.
End TableReferences.

(** X6.  Every table reference the compiler extracts from a SQL text is a
    piece of that text made of three non-empty identifiers joined by two
    dots, without the backticks; the references extracted are those the
    pattern finds, each listed once. *)
Theorem table_references_shape (list_of_set : list string -> list string)
    (sql : string) :
  set_listing list_of_set ->
  let refs := DashboardCompilerService._extract_table_references list_of_set sql in
  NoDup refs /\
  (forall m, In m refs <-> In m (DashboardCompilerService.findall_table_refs sql)) /\
  (forall m, In m refs -> table_reference m /\ Py.contains m sql = true).
Proof.
  intros Hset refs. unfold refs, DashboardCompilerService._extract_table_references.
  pose proof (Hset (DashboardCompilerService.findall_table_refs sql)) as P.
  assert (Hin : forall m,
             In m (list_of_set (DashboardCompilerService.findall_table_refs sql)) <->
             In m (DashboardCompilerService.findall_table_refs sql)).
  { intros m. split; intros H.
    - apply (Permutation_in _ P) in H. now apply nodup_In in H.
    - apply (Permutation_in _ (Permutation_sym P)). now apply nodup_In. }
  split; [|split].
  - apply (Permutation_NoDup (Permutation_sym P)). apply NoDup_nodup.
  - exact Hin.
  - intros m H. apply Hin in H. now apply (scan_spec sql O).
Qed.

Lemma table_references_shape_witness :
  let refs := DashboardCompilerService._extract_table_references listing_forward
                "SELECT * FROM `proj.sales.orders` o JOIN proj.sales.orders p ON o.id = p.id" in
  refs = ["proj.sales.orders"] /\
  NoDup refs /\
  (forall m, In m refs -> table_reference m).
Proof.
  cbv zeta.
  pose proof (table_references_shape listing_forward
                "SELECT * FROM `proj.sales.orders` o JOIN proj.sales.orders p ON o.id = p.id"
                listing_forward_ok) as H.
  cbv zeta in H. destruct H as [H1 [_ H3]].
  split; [vm_compute; reflexivity|]. split; [exact H1|].
  intros m Hm. now apply H3.
Defined.

(** *** The execution plan *)

Section PlanFacts.
Import yaml_schema DashboardCompilerService.

Lemma item_of_id (items : list LayoutItem) (a b : LayoutItem) :
  NoDup (map item_id items) -> In a items -> In b items ->
  item_id a = item_id b -> a = b.
Proof.
  induction items as [|x items IH]; [contradiction|].
  cbn [map]. intros Hnd Ha Hb E. inversion Hnd as [|? ? Hx Hnd']; subst.
  destruct Ha as [<- | Ha], Hb as [<- | Hb].
  - reflexivity.
  - exfalso. apply Hx. rewrite E. now apply in_map.
  - exfalso. apply Hx. rewrite <- E. now apply in_map.
  - now apply IH.
Qed.
End PlanFacts.

(** X7.  In the execution plan of a validated definition the queries and
    the charts appear in the order of the definition, with their counts;
    the hash of a query is the hash of its SQL; and a chart is a dependent
    of a query exactly when it references that query, so the dependent
    lists of the queries share out the charts, each chart in one list. *)
Theorem execution_plan_links_charts_to_queries (d : yaml_schema.DashboardYAML) :
  yaml_schema.validated d ->
  let plan := DashboardCompilerService._build_execution_plan d in
  DashboardCompilerService.plan_total_queries plan =
    Z.of_nat (List.length (yaml_schema.queries d)) /\
  DashboardCompilerService.plan_total_charts plan =
    Z.of_nat (List.length (yaml_schema.layout d)) /\
  map DashboardCompilerService.qd_query_id (DashboardCompilerService.plan_queries plan) =
    map yaml_schema.query_id (yaml_schema.queries d) /\
  map DashboardCompilerService.cd_chart_id (DashboardCompilerService.plan_charts plan) =
    map yaml_schema.item_id (yaml_schema.layout d) /\
  (forall qd, In qd (DashboardCompilerService.plan_queries plan) ->
              DashboardCompilerService.qd_query_hash qd =
              DashboardCompilerService._hash_query (DashboardCompilerService.qd_sql qd)) /\
  (forall qd item,
      In qd (DashboardCompilerService.plan_queries plan) ->
      In item (yaml_schema.layout d) ->
      (In (yaml_schema.item_id item) (DashboardCompilerService.qd_dependent_charts qd) <->
       yaml_schema.query_ref item = DashboardCompilerService.qd_query_id qd)) /\
  list_sum (map (fun qd => List.length (DashboardCompilerService.qd_dependent_charts qd))
                (DashboardCompilerService.plan_queries plan)) =
    List.length (yaml_schema.layout d).
Proof.
  intros Hv plan. destruct (validated_facts d Hv) as [Hitems [Hqueries Hrefs]].
  unfold plan, DashboardCompilerService._build_execution_plan.
  cbn [DashboardCompilerService.plan_total_queries
       DashboardCompilerService.plan_total_charts
       DashboardCompilerService.plan_queries DashboardCompilerService.plan_charts].
  rewrite !length_map, !map_map.
  cbn [DashboardCompilerService.qd_query_id DashboardCompilerService.cd_chart_id
       DashboardCompilerService.qd_dependent_charts].
  split; [reflexivity|]. split; [reflexivity|]. split; [reflexivity|].
  split; [reflexivity|]. split; [|split].
  - intros qd Hqd. apply in_map_iff in Hqd. destruct Hqd as [q [<- _]]. reflexivity.
  - intros qd item Hqd Hitem. apply in_map_iff in Hqd. destruct Hqd as [q [<- _]].
    cbn [DashboardCompilerService.qd_query_id
         DashboardCompilerService.qd_dependent_charts].
    split.
    + intros H. apply in_map_iff in H. destruct H as [item' [E H]].
      apply filter_In in H. destruct H as [Hin' Href]. apply String.eqb_eq in Href.
      now rewrite <- (item_of_id _ item' item Hitems Hin' Hitem E).
    + intros Href. apply in_map. apply filter_In. split; [exact Hitem|].
      now apply String.eqb_eq.
  - rewrite <- (items_split_among_queries (yaml_schema.queries d)
                  (yaml_schema.layout d) Hqueries Hrefs).
    f_equal. apply map_ext. intros q. apply length_map.
Qed.

Lemma execution_plan_links_charts_to_queries_witness :
  let plan := DashboardCompilerService._build_execution_plan revenue_dashboard in
  DashboardCompilerService.plan_total_queries plan = 2 /\
  list_sum (map (fun qd => List.length (DashboardCompilerService.qd_dependent_charts qd))
                (DashboardCompilerService.plan_queries plan)) =
    List.length (yaml_schema.layout revenue_dashboard).
Proof.
  pose proof (execution_plan_links_charts_to_queries revenue_dashboard
                revenue_dashboard_validated) as H.
  cbv zeta in H. destruct H as [H1 [_ [_ [_ [_ [_ H7]]]]]].
  cbv zeta. split; [exact H1|exact H7].
Defined.

(** *** Execution time estimates *)

Section Estimates.
Import DashboardCompilerService.

Lemma fold_max_le (l : list Z) (v : Z) :
  v <= fold_left Z.max l v /\ forall x, In x l -> x <= fold_left Z.max l v.
Proof.
  revert v. induction l as [|y l IH]; intros v; cbn [fold_left].
  - split; [lia|contradiction].
  - destruct (IH (Z.max v y)) as [H1 H2]. split; [lia|].
    intros x [<- | Hx]; [lia|now apply H2].
Qed.

Lemma fold_max_in (l : list Z) (v : Z) :
  fold_left Z.max l v = v \/ In (fold_left Z.max l v) l.
Proof.
  revert v. induction l as [|y l IH]; intros v; cbn [fold_left]; [now left|].
  destruct (IH (Z.max v y)) as [H | H]; [|right; now right].
  rewrite H. destruct (Z.max_spec v y) as [[_ ->] | [_ ->]]; [right; now left|now left].
Qed.

Lemma max_default_spec (l : list Z) (dflt : Z) :
  (l = [] -> max_default l dflt = dflt) /\
  (l <> [] -> In (max_default l dflt) l) /\
  (forall x, In x l -> x <= max_default l dflt).
Proof.
  destruct l as [|v l]; cbn [max_default].
  - split; [reflexivity|]. split; [congruence|contradiction].
  - split; [discriminate|]. split.
    + intros _. destruct (fold_max_in l v) as [-> | H]; [now left|now right].
    + destruct (fold_max_le l v) as [H1 H2].
      intros x [<- | Hx]; [exact H1|now apply H2].
Qed.

Lemma estimate_ms_bounds (sql : string) : 500 <= estimate_ms sql <= 1500.
Proof.
  unfold estimate_ms. cbv zeta.
  destruct (1000 <? _); destruct (Py.contains "join" _); destruct (existsb _ _); lia.
Qed.
End Estimates.

(** X8.  The estimate of a query lies between 500 and 1500 milliseconds and
    depends on its SQL only through the length of the text and the
    lower-cased text; the estimate of the dashboard is the largest of its
    queries' estimates (they run in parallel), and 0 for a definition
    without queries. *)
Theorem execution_time_estimate_is_the_maximum (d : yaml_schema.DashboardYAML) :
  let est := DashboardCompilerService.estimate_execution_time d in
  map fst (DashboardCompilerService.query_estimates est) =
    map yaml_schema.query_id (yaml_schema.queries d) /\
  (forall id ms, In (id, ms) (DashboardCompilerService.query_estimates est) ->
                 500 <= ms <= 1500 /\
                 ms <= DashboardCompilerService.total_estimated_ms est) /\
  (yaml_schema.queries d = [] ->
   DashboardCompilerService.total_estimated_ms est = 0) /\
  (yaml_schema.queries d <> [] ->
   exists id, In (id, DashboardCompilerService.total_estimated_ms est)
                 (DashboardCompilerService.query_estimates est)) /\
  (forall s1 s2 : string,
      String.length s1 = String.length s2 ->
      Py.lower s1 = Py.lower s2 ->
      DashboardCompilerService.estimate_ms s1 = DashboardCompilerService.estimate_ms s2).
Proof.
  cbv zeta. unfold DashboardCompilerService.estimate_execution_time.
  cbn [DashboardCompilerService.query_estimates
       DashboardCompilerService.total_estimated_ms].
  rewrite !map_map. cbn [fst snd].
  set (values := map (fun q => DashboardCompilerService.estimate_ms (yaml_schema.sql q))
                     (yaml_schema.queries d)).
  destruct (max_default_spec values 0) as [Hnil [Hin Hle]].
  split; [reflexivity|]. split; [|split; [|split]].
  - intros id ms H. apply in_map_iff in H. destruct H as [q [E Hq]].
    inversion E; subst. split; [apply estimate_ms_bounds|].
    apply Hle. unfold values.
    exact (in_map (fun q => DashboardCompilerService.estimate_ms (yaml_schema.sql q))
                  _ _ Hq).
  - intros E. apply Hnil. unfold values. now rewrite E.
  - intros Hne.
    assert (Hv : values <> []).
    { unfold values. destruct (yaml_schema.queries d); [congruence|discriminate]. }
    specialize (Hin Hv). unfold values in Hin at 2. apply in_map_iff in Hin.
    destruct Hin as [q [E Hq]]. exists (yaml_schema.query_id q).
    apply in_map_iff. exists q. split; [|exact Hq]. now rewrite E.
  - intros s1 s2 L E. unfold DashboardCompilerService.estimate_ms. cbv zeta.
    rewrite L, E. reflexivity.
Qed.

Lemma execution_time_estimate_is_the_maximum_witness :
  DashboardCompilerService.total_estimated_ms
    (DashboardCompilerService.estimate_execution_time revenue_dashboard) = 1000 /\
  DashboardCompilerService.estimate_ms "select a from t JOIN u" =
  DashboardCompilerService.estimate_ms "SELECT a FROM t join u".
Proof.
  pose proof (execution_time_estimate_is_the_maximum revenue_dashboard) as H.
  cbv zeta in H. destruct H as [_ [_ [_ [_ H5]]]].
  split; [vm_compute; reflexivity|]. apply H5; vm_compute; reflexivity.
Defined.
(* ================================================================= *)
(** ** More on the query executor *)

(** The job configuration of the serving path: the caps of [settings]. *)
Definition global_config (settings : BigQueryClient.Settings) : BigQueryClient.JobConfig :=
  {| BigQueryClient.maximum_bytes_billed :=
       BigQueryClient.bigquery_max_bytes_billed settings;
     BigQueryClient.use_query_cache := BigQueryClient.bigquery_use_query_cache settings;
     BigQueryClient.query_parameters := [] |}.

(** The entry that the serving path writes for a query that returned
    [row_count] rows. *)
Definition serving_log_entry (sql : string) (row_count : Z)
    (user_id dashboard_id : option string) : BigQueryClient.QueryLog :=
  {| BigQueryClient.log_dashboard_id := dashboard_id;
     BigQueryClient.log_user_id := user_id;
     BigQueryClient.log_query_hash := BigQueryClient.hash_query sql;
     BigQueryClient.log_sql_preview := Py.take 500 sql;
     BigQueryClient.log_bytes_scanned := 0;
     BigQueryClient.log_duration_ms := 0;
     BigQueryClient.log_row_count := row_count;
     BigQueryClient.log_job_id := None;
     BigQueryClient.log_cache_hit := false;
     BigQueryClient.log_purpose := db_models.serving |}.

Section Requests.
Import BigQueryClient.
Variable settings : Settings.
Variable engine : Engine.

(** The world after serving one query. *)
Lemma execute_for_serving_world (sql : string) max_bytes user_id dashboard_id
    (w : world) :
  snd (SQLExecutorService.execute_for_serving settings engine sql max_bytes
         user_id dashboard_id w) =
  if fst (validate_query settings sql) then
    {| engine_calls := engine_calls w ++ [(sql, global_config settings)];
       query_log :=
         match engine sql (global_config settings) (bigquery_query_timeout settings) with
         | Return job =>
             if db_available w
             then query_log w ++
                  [serving_log_entry sql (Z.of_nat (List.length (rows job)))
                                     user_id dashboard_id]
             else query_log w
         | Raise _ => query_log w
         end;
       db_available := db_available w |}
  else w.
Proof.
  unfold SQLExecutorService.execute_for_serving, Eff.try_except,
    BigQueryClient.execute_for_serving, Eff.bind, execute_query, global_config.
  destruct (validate_query settings sql) as [[|] error]; cbn [fst]; [|reflexivity].
  unfold call_engine. cbn [Py.or_int].
  replace (if bigquery_use_query_cache settings then true else false)
    with (bigquery_use_query_cache settings)
    by (destruct (bigquery_use_query_cache settings); reflexivity).
  destruct (engine sql _ _) as [job|e]; cbn.
  - unfold SQLExecutorService._log_query_execution. cbn [db_available].
    destruct (db_available w) eqn:D; cbn; rewrite ?length_map, ?D; reflexivity.
  - reflexivity.
Qed.

(** One step of a batch: the world after the query [q]. *)
Definition batch_step (user_id dashboard_id : option string) (w : world)
    (q : SQLExecutorService.BatchQuery) : world :=
  snd (SQLExecutorService.execute_for_serving settings engine
         (SQLExecutorService.sql q) (SQLExecutorService.max_bytes_billed q)
         user_id dashboard_id w).

Lemma gather_world (queries : list SQLExecutorService.BatchQuery)
    user_id dashboard_id (w : world) :
  snd (SQLExecutorService.gather
         (map (fun q => SQLExecutorService._execute_single_for_batch settings engine
                          (SQLExecutorService.id q) (SQLExecutorService.sql q)
                          (SQLExecutorService.max_bytes_billed q) user_id dashboard_id)
              queries) w) =
  fold_left (batch_step user_id dashboard_id) queries w.
Proof.
  revert w. induction queries as [|q queries IH]; intros w; [reflexivity|].
  cbn [map SQLExecutorService.gather fold_left].
  unfold SQLExecutorService._execute_single_for_batch at 1.
  unfold batch_step at 2.
  destruct (SQLExecutorService.execute_for_serving settings engine _ _ _ _ w)
    as [r w1].
  cbn [snd]. rewrite <- IH.
  destruct (SQLExecutorService.gather _ w1) as [[rs|e] w2]; reflexivity.
Qed.

Lemma execute_batch_world (queries : list SQLExecutorService.BatchQuery)
    user_id dashboard_id (w : world) :
  snd (SQLExecutorService.execute_batch settings engine queries user_id dashboard_id w) =
  fold_left (batch_step user_id dashboard_id) queries w.
Proof.
  unfold SQLExecutorService.execute_batch, Eff.bind.
  rewrite <- gather_world.
  destruct (SQLExecutorService.gather _ w) as [[rs|e] w']; reflexivity.
Qed.

(** The entries a batch adds to the query log. *)
Definition batch_log_entries (user_id dashboard_id : option string)
    (queries : list SQLExecutorService.BatchQuery) : list QueryLog :=
  flat_map (fun q =>
              match serving_outcome settings engine (SQLExecutorService.sql q) with
              | Return rows =>
                  [serving_log_entry (SQLExecutorService.sql q)
                     (Z.of_nat (List.length rows)) user_id dashboard_id]
              | Raise _ => []
              end)
           queries.

Lemma batch_steps (queries : list SQLExecutorService.BatchQuery)
    user_id dashboard_id (w : world) :
  let w' := fold_left (batch_step user_id dashboard_id) queries w in
  engine_calls w' =
    engine_calls w ++
    map (fun q => (SQLExecutorService.sql q, global_config settings))
        (filter (fun q => fst (validate_query settings (SQLExecutorService.sql q)))
                queries) /\
  query_log w' =
    query_log w ++
    (if db_available w then batch_log_entries user_id dashboard_id queries else []) /\
  db_available w' = db_available w.
Proof.
  cbv zeta. revert w. induction queries as [|q queries IH]; intros w.
  - cbn [fold_left filter map batch_log_entries flat_map]. rewrite !app_nil_r.
    destruct (db_available w); rewrite ?app_nil_r; auto.
  - cbn [fold_left]. destruct (IH (batch_step user_id dashboard_id w q)) as [Hc [Hl Hd]].
    rewrite Hc, Hl, Hd. clear IH Hc Hl Hd.
    unfold batch_step. rewrite execute_for_serving_world.
    unfold batch_log_entries. cbn [flat_map filter].
    unfold serving_outcome at 2. fold (global_config settings).
    destruct (validate_query settings (SQLExecutorService.sql q)) as [[|] err];
      cbn [fst engine_calls query_log db_available map].
    + rewrite <- !app_assoc. cbn [app]. split; [reflexivity|]. split; [|reflexivity].
      destruct (engine (SQLExecutorService.sql q) (global_config settings)
                  (bigquery_query_timeout settings)) as [job|e].
      * rewrite length_map. destruct (db_available w); [|reflexivity].
        rewrite <- app_assoc. reflexivity.
      * destruct (db_available w); reflexivity.
    + split; [reflexivity|]. split; reflexivity.
Qed.
End Requests.

(** X9.  A batch sends to the engine exactly the queries whose SQL passes
    [validate_query], once each, every one with the byte cap and the cache
    flag of the settings: the cap given with a query of the batch is not
    used.  The tasks of a batch run concurrently, so the requests are
    characterised up to the order in which they reach the engine. *)
Theorem batch_requests_use_the_global_cap (settings : BigQueryClient.Settings)
    (engine : BigQueryClient.Engine) (queries : list SQLExecutorService.BatchQuery)
    (user_id dashboard_id : option string) (w : BigQueryClient.world) :
  let w' := snd (SQLExecutorService.execute_batch settings engine queries
                   user_id dashboard_id w) in
  let accepted :=
    filter (fun q => fst (BigQueryClient.validate_query settings
                            (SQLExecutorService.sql q)))
           queries in
  exists sent,
    BigQueryClient.engine_calls w' = BigQueryClient.engine_calls w ++ sent /\
    Permutation sent
      (map (fun q => (SQLExecutorService.sql q, global_config settings)) accepted) /\
    List.length sent = List.length accepted /\
    (forall request, In request sent ->
       BigQueryClient.maximum_bytes_billed (snd request) =
         BigQueryClient.bigquery_max_bytes_billed settings /\
       exists q, In q queries /\ SQLExecutorService.sql q = fst request).
Proof.
  cbv zeta. rewrite execute_batch_world.
  destruct (batch_steps settings engine queries user_id dashboard_id w) as [H _].
  cbv zeta in H. eexists. split; [exact H|]. split; [apply Permutation_refl|].
  split; [apply length_map|].
  intros request Hin. apply in_map_iff in Hin. destruct Hin as [q [<- Hq]].
  apply filter_In in Hq. destruct Hq as [Hq _]. cbn [fst snd]. split; [reflexivity|].
  exists q. split; [exact Hq | reflexivity].
Qed.

(** The job configuration of the verification path: the cap of the request
    when it is given and not zero. *)
Definition verification_config (settings : BigQueryClient.Settings)
    (max_bytes_billed : option Z) : BigQueryClient.JobConfig :=
  {| BigQueryClient.maximum_bytes_billed :=
       Py.or_int max_bytes_billed (BigQueryClient.bigquery_max_bytes_billed settings);
     BigQueryClient.use_query_cache := BigQueryClient.bigquery_use_query_cache settings;
     BigQueryClient.query_parameters := [] |}.

(** The log entry that mirrors a verification result. *)
Definition verification_log_entry (sql : string)
    (result : SQLExecutorService.SQLVerificationResult)
    (user_id dashboard_id : option string) : BigQueryClient.QueryLog :=
  {| BigQueryClient.log_dashboard_id := dashboard_id;
     BigQueryClient.log_user_id := user_id;
     BigQueryClient.log_query_hash := BigQueryClient.hash_query sql;
     BigQueryClient.log_sql_preview := Py.take 500 sql;
     BigQueryClient.log_bytes_scanned := SQLExecutorService.res_bytes_scanned result;
     BigQueryClient.log_duration_ms := SQLExecutorService.res_duration_ms result;
     BigQueryClient.log_row_count := SQLExecutorService.res_row_count result;
     BigQueryClient.log_job_id := SQLExecutorService.res_job_id result;
     BigQueryClient.log_cache_hit := SQLExecutorService.res_cache_hit result;
     BigQueryClient.log_purpose := db_models.verification |}.

Section Verification.
Import BigQueryClient.
Variable settings : Settings.
Variable engine : Engine.

(** The verification of one query, step by step: the result does not
    depend on the world it runs in. *)
Lemma execute_for_verification_run (sql : string) (max_bytes : option Z)
    (user_id dashboard_id : option string) :
  exists result,
    (forall w : world,
        SQLExecutorService.execute_for_verification settings engine sql max_bytes
          user_id dashboard_id w =
        (Return result,
         {| engine_calls :=
              engine_calls w ++
              (if fst (validate_query settings sql)
               then [(sql, verification_config settings max_bytes)] else []);
            query_log :=
              query_log w ++
              (if db_available w
               then [verification_log_entry sql result user_id dashboard_id] else []);
            db_available := db_available w |})) /\
    (SQLExecutorService.valid result = true ->
     fst (validate_query settings sql) = true /\
     exists job,
       engine sql (verification_config settings max_bytes)
              (bigquery_query_timeout settings) = Return job /\
       SQLExecutorService.sample_rows result = map row_dict (firstn 100 (rows job)) /\
       SQLExecutorService.res_row_count result = total_rows job /\
       SQLExecutorService.res_job_id result = Some (job_id job) /\
       SQLExecutorService.error result = None) /\
    (SQLExecutorService.valid result = false ->
     SQLExecutorService.error result <> None /\
     SQLExecutorService.sample_rows result = [] /\
     SQLExecutorService.res_job_id result = None /\
     SQLExecutorService.res_bytes_scanned result = 0 /\
     SQLExecutorService.res_row_count result = 0).
Proof.
  unfold SQLExecutorService.execute_for_verification, Eff.try_except,
    BigQueryClient.execute_for_verification, Eff.bind, execute_query,
    verification_config, Eff.raise, Eff.ret, call_engine,
    SQLExecutorService._log_query_execution.
  replace (if bigquery_use_query_cache settings then true else false)
    with (bigquery_use_query_cache settings)
    by (destruct (bigquery_use_query_cache settings); reflexivity).
  destruct (validate_query settings sql) as [[|] error]; cbn [fst].
  - cbn [Py.or_int].
    destruct (engine sql _ _) as [job|e] eqn:E.
    + eexists. split; [|split].
      * intros w. destruct (db_available w) eqn:D;
          cbn -[firstn Py.take hash_query]; rewrite ?D, ?app_nil_r;
          (apply f_equal2; [reflexivity|reflexivity]).
      * intros _. split; [reflexivity|]. exists job. repeat split; reflexivity.
      * cbn. discriminate.
    + eexists. split; [|split].
      * intros w. destruct (db_available w) eqn:D;
          cbn -[firstn Py.take hash_query]; rewrite ?D, ?app_nil_r;
          (apply f_equal2; [reflexivity|reflexivity]).
      * cbn. discriminate.
      * intros _. cbn. split; [discriminate|]. repeat split; reflexivity.
  - eexists. split; [|split].
    + intros w. destruct (db_available w) eqn:D;
        cbn -[firstn Py.take hash_query]; rewrite ?D, ?app_nil_r;
        (apply f_equal2; [reflexivity|]); [reflexivity|].
      destruct w; cbn in *; subst; reflexivity.
    + cbn. discriminate.
    + intros _. cbn. split; [discriminate|]. repeat split; reflexivity.
Qed.

Lemma row_dict_no_datetime (row : Row) (k : string) (v : Cell) :
  In (k, v) (row_dict row) -> forall iso, v <> CDateTime iso.
Proof.
  unfold row_dict. intros H iso. apply in_map_iff in H.
  destruct H as [[k0 v0] [E _]]. cbn [fst snd] in E. inversion E; subst.
  destruct v0; discriminate.
Qed.
End Verification.

(** X10.  A verification that reports a valid query ran it once, with the
    byte cap of the request (the cap of the settings when none, or zero, is
    given), and returns as sample the first 100 rows of the job, fewer when
    the job has fewer, every date and time value replaced by its ISO text,
    while [row_count] is the total number of rows of the job. *)
Theorem verification_samples_first_rows (settings : BigQueryClient.Settings)
    (engine : BigQueryClient.Engine) (sql : string) (max_bytes : option Z)
    (user_id dashboard_id : option string) (w w' : BigQueryClient.world)
    (result : SQLExecutorService.SQLVerificationResult) :
  SQLExecutorService.execute_for_verification settings engine sql max_bytes
    user_id dashboard_id w = (Return result, w') ->
  SQLExecutorService.valid result = true ->
  exists job,
    fst (BigQueryClient.validate_query settings sql) = true /\
    engine sql (verification_config settings max_bytes)
           (BigQueryClient.bigquery_query_timeout settings) = Return job /\
    SQLExecutorService.sample_rows result =
      map BigQueryClient.row_dict (firstn 100 (BigQueryClient.rows job)) /\
    List.length (SQLExecutorService.sample_rows result) =
      Nat.min 100 (List.length (BigQueryClient.rows job)) /\
    SQLExecutorService.res_row_count result = BigQueryClient.total_rows job /\
    (forall row k v,
        In row (SQLExecutorService.sample_rows result) -> In (k, v) row ->
        forall iso, v <> BigQueryClient.CDateTime iso).
Proof.
  intros Hrun Hvalid.
  destruct (execute_for_verification_run settings engine sql max_bytes
              user_id dashboard_id) as [r [Hr [Hok _]]].
  rewrite (Hr w) in Hrun. inversion Hrun; subst r. clear Hrun.
  destruct (Hok Hvalid) as [Hv [job [He [Hs [Hc _]]]]].
  exists job. split; [exact Hv|]. split; [exact He|]. split; [exact Hs|].
  split; [|split; [exact Hc|]].
  - rewrite Hs, length_map. apply length_firstn.
  - intros row k v Hrow Hkv iso. rewrite Hs in Hrow. apply in_map_iff in Hrow.
    destruct Hrow as [row0 [<- _]]. now apply (row_dict_no_datetime row0 k).
Qed.

Lemma verification_samples_first_rows_witness :
  exists job,
    fst (BigQueryClient.validate_query default_settings
           "SELECT month, total FROM proj.sales.orders") = true /\
    flaky_engine "SELECT month, total FROM proj.sales.orders"
      (verification_config default_settings (Some 5000))
      (BigQueryClient.bigquery_query_timeout default_settings) = Return job /\
    SQLExecutorService.sample_rows
      (SQLExecutorService.Build_SQLVerificationResult true (Some "job_1")
         [("month", "DATE"); ("total", "INTEGER")] 2
         [ [("month", BigQueryClient.CStr "2024-01-01"); ("total", BigQueryClient.CInt 10)];
           [("month", BigQueryClient.CStr "2024-02-01"); ("total", BigQueryClient.CInt 20)] ]
         2048 2048 false 1000 None) =
      map BigQueryClient.row_dict (firstn 100 (BigQueryClient.rows job)) /\
    List.length
      [ [("month", BigQueryClient.CStr "2024-01-01"); ("total", BigQueryClient.CInt 10)];
        [("month", BigQueryClient.CStr "2024-02-01"); ("total", BigQueryClient.CInt 20)] ] =
      Nat.min 100 (List.length (BigQueryClient.rows job)) /\
    2 = BigQueryClient.total_rows job /\
    (forall row k v,
        In row
          [ [("month", BigQueryClient.CStr "2024-01-01"); ("total", BigQueryClient.CInt 10)];
            [("month", BigQueryClient.CStr "2024-02-01"); ("total", BigQueryClient.CInt 20)] ] ->
        In (k, v) row -> forall iso, v <> BigQueryClient.CDateTime iso).
Proof.
  apply (verification_samples_first_rows default_settings flaky_engine
           "SELECT month, total FROM proj.sales.orders" (Some 5000) None None
           empty_world
           (snd (SQLExecutorService.execute_for_verification default_settings
                   flaky_engine "SELECT month, total FROM proj.sales.orders"
                   (Some 5000) None None empty_world))).
  - vm_compute. reflexivity.
  - reflexivity.
Defined.

(** X11.  Every verification, valid or not, ends with a result, never an
    exception, and the result is the same whether or not the query log can
    be written.  When the log can be written the call adds exactly one
    entry to it, which carries the hash of the SQL, its first 500
    characters and the job id, row count, bytes scanned, duration and
    cache flag of the result (zeros and no job for a failure); the engine
    is called once when the SQL passes validation and not at all
    otherwise. *)
Theorem verification_is_logged_once (settings : BigQueryClient.Settings)
    (engine : BigQueryClient.Engine) (sql : string) (max_bytes : option Z)
    (user_id dashboard_id : option string) :
  exists result : SQLExecutorService.SQLVerificationResult,
    forall w : BigQueryClient.world,
      let run := SQLExecutorService.execute_for_verification settings engine sql
                   max_bytes user_id dashboard_id w in
      fst run = Return result /\
      BigQueryClient.query_log (snd run) =
        BigQueryClient.query_log w ++
        (if BigQueryClient.db_available w
         then [verification_log_entry sql result user_id dashboard_id] else []) /\
      BigQueryClient.engine_calls (snd run) =
        BigQueryClient.engine_calls w ++
        (if fst (BigQueryClient.validate_query settings sql)
         then [(sql, verification_config settings max_bytes)] else []).
Proof.
  destruct (execute_for_verification_run settings engine sql max_bytes
              user_id dashboard_id) as [r [Hr _]].
  exists r. intros w. cbv zeta. rewrite (Hr w). cbn [fst snd].
  repeat split; reflexivity.
Qed.
(* ================================================================= *)
(** ** Chart payloads *)

(** The ["row_count"] entry of a payload, when it has one. *)
Definition payload_row_count (p : SQLExecutorService.Payload) : option Z :=
  match p with
  | SQLExecutorService.RowsPayload _ n => Some n
  | SQLExecutorService.TimeSeriesPayload _ n => Some n
  | SQLExecutorService.CategoricalPayload _ n => Some n
  | SQLExecutorService.KPIPayload _ n => n
  | SQLExecutorService.TablePayload _ n _ => Some n
  end.

(** The first two values of a row that has at least two columns. *)
Definition first_two (row : BigQueryClient.Row)
  : option (BigQueryClient.Cell * BigQueryClient.Cell) :=
  match row with
  | (_, v0) :: (_, v1) :: _ => Some (v0, v1)
  | _ => None
  end.

Definition has_two_columns (row : BigQueryClient.Row) : bool :=
  match first_two row with Some _ => true | None => false end.

Section PayloadFacts.
Import BigQueryClient SQLExecutorService.
Variable str_datetime : string -> string.

Lemma time_series_data (rows : list Row) :
  _transform_time_series rows =
  TimeSeriesPayload
    (flat_map (fun row => match first_two row with Some p => [p] | None => [] end) rows)
    (Z.of_nat (List.length rows)).
Proof.
  unfold _transform_time_series. f_equal. apply flat_map_ext. intros row.
  destruct row as [|[k0 v0] [|[k1 v1] row]]; reflexivity.
Qed.

Lemma length_flat_map_option {A B} (f : A -> option B) (l : list A) :
  List.length (flat_map (fun a => match f a with Some b => [b] | None => [] end) l) =
  List.length (filter (fun a => match f a with Some _ => true | None => false end) l).
Proof.
  induction l as [|a l IH]; [reflexivity|]. cbn [flat_map filter].
  destruct (f a); cbn [app List.length]; now rewrite IH.
Qed.

Lemma flat_map_option_all {A B} (f : A -> option B) (g : A -> B) (l : list A) :
  (forall a, In a l -> f a = Some (g a)) ->
  flat_map (fun a => match f a with Some b => [b] | None => [] end) l = map g l.
Proof.
  induction l as [|a l IH]; intros H; [reflexivity|]. cbn [flat_map map].
  rewrite (H a) by now left. cbn [app]. f_equal. apply IH. intros b Hb. apply H. now right.
Qed.

(** The categories of the rows, in order: the text of the first value and
    the second value. *)
Definition categories (rows : list Row) : list (string * Cell) :=
  flat_map (fun row => match first_two row with
                       | Some (v0, v1) => [(str_cell str_datetime v0, v1)]
                       | None => []
                       end) rows.

Lemma categorical_fold (rows : list Row) (data : Py.dict Cell) :
  fold_left (fun (data : Py.dict Cell) (row : Row) =>
               match row with
               | (_, v0) :: (_, v1) :: _ =>
                   Py.dict_set data (str_cell str_datetime v0) v1
               | _ => data
               end) rows data =
  fold_left (fun data kv => Py.dict_set data (fst kv) (snd kv)) (categories rows) data.
Proof.
  revert data. induction rows as [|row rows IH]; intros data; [reflexivity|].
  cbn [fold_left]. rewrite IH. unfold categories. cbn [flat_map].
  destruct row as [|[k0 v0] [|[k1 v1] row]]; reflexivity.
Qed.

Lemma find_last {A} (p : A -> bool) (l : list A) (x : A) :
  find p (rev (x :: l)) =
  match find p (rev l) with
  | Some y => Some y
  | None => if p x then Some x else None
  end.
Proof.
  cbn [rev]. induction (rev l) as [|y r IH]; cbn [app find]; [reflexivity|].
  destruct (p y); [reflexivity|exact IH].
Qed.

(** Assignments made one after the other: the last one for a key stays. *)
Lemma fold_set_get (l : list (string * Cell)) (data : Py.dict Cell) (k : string) :
  Py.dict_get (fold_left (fun data kv => Py.dict_set data (fst kv) (snd kv)) l data) k =
  match find (fun kv => String.eqb (fst kv) k) (rev l) with
  | Some kv => Some (snd kv)
  | None => Py.dict_get data k
  end.
Proof.
  revert data. induction l as [|[k0 v0] l IH]; intros data; [reflexivity|].
  cbn [fold_left fst snd]. rewrite IH, find_last. cbn [fst snd].
  destruct (find _ (rev l)); [reflexivity|].
  destruct (String.eqb_spec k0 k) as [->|Hne].
  - apply dict_get_set_same.
  - apply dict_get_set_other. congruence.
Qed.

Lemma fold_set_length (l : list (string * Cell)) (data : Py.dict Cell) :
  (List.length (fold_left (fun data kv => Py.dict_set data (fst kv) (snd kv)) l data)
   <= List.length data + List.length l)%nat.
Proof.
  revert data. induction l as [|[k0 v0] l IH]; intros data; cbn [fold_left fst snd].
  - lia.
  - specialize (IH (Py.dict_set data k0 v0)).
    pose proof (length_set data k0 v0) as L. cbn [List.length]. lia.
Qed.

Lemma fold_set_wf (l : list (string * Cell)) (data : Py.dict Cell) :
  wf_dict data ->
  wf_dict (fold_left (fun data kv => Py.dict_set data (fst kv) (snd kv)) l data).
Proof.
  revert data. induction l as [|[k0 v0] l IH]; intros data H; [exact H|].
  cbn [fold_left fst snd]. apply IH. now apply wf_set.
Qed.
End PayloadFacts.

(** X12.  Whatever the chart type, the payload of a result reports as
    [row_count] the number of rows of the result.  An empty result gives
    the same payload for every chart type, with an empty [data] and no
    [value], also for a KPI.  Otherwise a KPI payload carries the first
    value of the first row, a table payload the rows and the column names
    of the first row, and a chart type the function does not know the rows
    as they are. *)
Theorem compact_payload_counts_every_row (str_datetime : string -> string)
    (rows : list BigQueryClient.Row) (chart_type : string) :
  let n := Z.of_nat (List.length rows) in
  let p := SQLExecutorService.transform_to_compact_payload str_datetime rows chart_type in
  payload_row_count p = Some n /\
  (rows = [] -> p = SQLExecutorService.RowsPayload [] 0) /\
  (forall first rest, rows = first :: rest ->
     (chart_type = "kpi" ->
      p = SQLExecutorService.KPIPayload
            (match first with (_, v) :: _ => v | [] => BigQueryClient.CNone end)
            (Some n)) /\
     (chart_type = "table" ->
      p = SQLExecutorService.TablePayload rows n (Py.dict_keys first)) /\
     (~ In chart_type ["line_chart"; "area_chart"; "bar_chart"; "kpi"; "table"] ->
      p = SQLExecutorService.RowsPayload rows n)).
Proof.
  cbv zeta. unfold SQLExecutorService.transform_to_compact_payload.
  destruct rows as [|first rest]; [repeat split; try reflexivity; discriminate|].
  split; [|split; [discriminate|]].
  - destruct (String.eqb chart_type "line_chart" || String.eqb chart_type "area_chart");
      [reflexivity|].
    destruct (String.eqb chart_type "bar_chart"); [reflexivity|].
    destruct (String.eqb chart_type "kpi"); [reflexivity|].
    destruct (String.eqb chart_type "table"); reflexivity.
  - intros first0 rest0 E. inversion E; subst first0 rest0. clear E.
    split; [|split].
    + intros ->. reflexivity.
    + intros ->. reflexivity.
    + intros Hnot.
      destruct (String.eqb_spec chart_type "line_chart") as [->|_];
        [exfalso; apply Hnot; simpl; tauto|].
      destruct (String.eqb_spec chart_type "area_chart") as [->|_];
        [exfalso; apply Hnot; simpl; tauto|].
      destruct (String.eqb_spec chart_type "bar_chart") as [->|_];
        [exfalso; apply Hnot; simpl; tauto|].
      destruct (String.eqb_spec chart_type "kpi") as [->|_];
        [exfalso; apply Hnot; simpl; tauto|].
      destruct (String.eqb_spec chart_type "table") as [->|_];
        [exfalso; apply Hnot; simpl; tauto|].
      reflexivity.
Qed.

Lemma compact_payload_counts_every_row_witness :
  SQLExecutorService.transform_to_compact_payload (fun iso => iso) [] "kpi" =
    SQLExecutorService.RowsPayload [] 0 /\
  SQLExecutorService.transform_to_compact_payload (fun iso => iso) two_rows "kpi" =
    SQLExecutorService.KPIPayload (BigQueryClient.CDateTime "2024-01-01") (Some 2) /\
  SQLExecutorService.transform_to_compact_payload (fun iso => iso) two_rows "pie_chart" =
    SQLExecutorService.RowsPayload two_rows 2.
Proof.
  pose proof (compact_payload_counts_every_row (fun iso => iso) [] "kpi") as H0.
  pose proof (compact_payload_counts_every_row (fun iso => iso) two_rows "kpi") as H1.
  pose proof (compact_payload_counts_every_row (fun iso => iso) two_rows "pie_chart") as H2.
  cbv zeta in H0, H1, H2.
  destruct H0 as [_ [H0 _]]. destruct H1 as [_ [_ H1]]. destruct H2 as [_ [_ H2]].
  split; [now apply H0|]. split.
  - apply (proj1 (H1 _ _ eq_refl)). reflexivity.
  - apply (proj2 (proj2 (H2 _ _ eq_refl))). simpl. intuition discriminate.
Defined.

(** X13.  The time series and categorical payloads are built from the
    first two columns of the rows, and a row with fewer than two columns
    adds nothing although [row_count] counts it.  A time series has one
    point for each row with two columns, in the order of the rows.  In a
    categorical payload every category (the text of the first value) occurs
    once, with the second value of the last row of that category: rows that
    repeat a category overwrite one another. *)
Theorem chart_data_from_first_two_columns (str_datetime : string -> string)
    (rows : list BigQueryClient.Row) :
  (exists data,
      SQLExecutorService._transform_time_series rows =
        SQLExecutorService.TimeSeriesPayload data (Z.of_nat (List.length rows)) /\
      List.length data = List.length (filter has_two_columns rows) /\
      (List.length data <= List.length rows)%nat /\
      (forallb has_two_columns rows = true -> map Some data = map first_two rows)) /\
  (exists data,
      SQLExecutorService._transform_categorical str_datetime rows =
        SQLExecutorService.CategoricalPayload data (Z.of_nat (List.length rows)) /\
      wf_dict data /\
      (List.length data <= List.length (filter has_two_columns rows))%nat /\
      forall category,
        Py.dict_get data category =
        option_map snd (find (fun kv => String.eqb (fst kv) category)
                             (rev (categories str_datetime rows)))).
Proof.
  split.
  - eexists. split; [apply time_series_data|]. split; [|split].
    + apply (length_flat_map_option first_two).
    + rewrite (length_flat_map_option first_two). apply filter_length_le.
    + intros Hall. rewrite forallb_forall in Hall.
      rewrite (flat_map_option_all first_two
                 (fun row => match first_two row with
                             | Some p => p
                             | None => (BigQueryClient.CNone, BigQueryClient.CNone)
                             end)).
      * rewrite map_map. apply map_ext_in. intros row Hrow.
        specialize (Hall row Hrow). unfold has_two_columns in Hall.
        destruct (first_two row); [reflexivity|discriminate].
      * intros row Hrow. specialize (Hall row Hrow). unfold has_two_columns in Hall.
        destruct (first_two row); [reflexivity|discriminate].
  - exists (fold_left (fun data kv => Py.dict_set data (fst kv) (snd kv))
                      (categories str_datetime rows) []).
    split; [|split; [|split]].
    + unfold SQLExecutorService._transform_categorical. f_equal.
      apply categorical_fold.
    + apply fold_set_wf. constructor.
    + pose proof (fold_set_length (categories str_datetime rows) []) as L.
      cbn [List.length] in L.
      assert (E : List.length (categories str_datetime rows) =
                  List.length (filter has_two_columns rows)).
      { unfold categories, has_two_columns. clear L.
        induction rows as [|row rows IH]; [reflexivity|]. cbn [flat_map filter].
        destruct (first_two row) as [[v0 v1]|]; cbn [app List.length]; now rewrite IH. }
      lia.
    + intros category. rewrite fold_set_get.
      destruct (find _ _); reflexivity.
Qed.

Lemma chart_data_from_first_two_columns_witness :
  exists data,
    SQLExecutorService._transform_categorical (fun iso => iso)
      [ [("region", BigQueryClient.CStr "north"); ("total", BigQueryClient.CInt 1)];
        [("region", BigQueryClient.CStr "south"); ("total", BigQueryClient.CInt 2)];
        [("only", BigQueryClient.CInt 7)];
        [("region", BigQueryClient.CStr "north"); ("total", BigQueryClient.CInt 3)] ] =
      SQLExecutorService.CategoricalPayload data 4 /\
    Py.dict_get data "north" = Some (BigQueryClient.CInt 3) /\
    (List.length data <= 3)%nat.
Proof.
  destruct (chart_data_from_first_two_columns (fun iso => iso)
      [ [("region", BigQueryClient.CStr "north"); ("total", BigQueryClient.CInt 1)];
        [("region", BigQueryClient.CStr "south"); ("total", BigQueryClient.CInt 2)];
        [("only", BigQueryClient.CInt 7)];
        [("region", BigQueryClient.CStr "north"); ("total", BigQueryClient.CInt 3)] ])
    as [_ [data [H1 [_ [H3 H4]]]]].
  exists data. split; [exact H1|]. split; [rewrite H4; reflexivity|exact H3].
Defined.
(* ================================================================= *)
(** ** More on query validation *)

Section AllowedDatasets.
Import BigQueryClient.

Lemma find_all_false {A} (f : A -> bool) (l : list A) :
  (forall x, In x l -> f x = false) -> find f l = None.
Proof.
  induction l as [|x l IH]; intros H; [reflexivity|]. cbn [find].
  rewrite (H x) by now left. apply IH. intros y Hy. apply H. now right.
Qed.

Lemma contains_backticked (dataset sql : string) :
  Py.contains ("`" ++ dataset ++ ".") sql = true ->
  Py.contains (dataset ++ ".") sql = true.
Proof.
  rewrite !contains_app. intros [pre [post ->]].
  exists (pre ++ "`")%string, post. rewrite !append_assoc. reflexivity.
Qed.

Lemma mentions_allowed (datasets : list string) (sql : string) :
  existsb (fun dataset => Py.contains (dataset ++ ".")%string sql ||
                          Py.contains ("`" ++ dataset ++ ".")%string sql) datasets = true
  <-> exists dataset pre post,
        In dataset datasets /\ sql = (pre ++ dataset ++ "." ++ post)%string.
Proof.
  rewrite existsb_exists. split.
  - intros [dataset [Hin H]].
    assert (Hc : Py.contains (dataset ++ ".") sql = true).
    { apply orb_true_iff in H. destruct H as [H | H]; [exact H|].
      now apply contains_backticked. }
    apply contains_app in Hc. destruct Hc as [pre [post ->]].
    exists dataset, pre, post. split; [exact Hin|]. now rewrite append_assoc.
  - intros [dataset [pre [post [Hin ->]]]]. exists dataset. split; [exact Hin|].
    apply orb_true_iff. left. apply contains_app. exists pre, post.
    now rewrite append_assoc.
Qed.
End AllowedDatasets.

(** X14.  With a list of allowed datasets, a query without a dangerous
    pattern is accepted exactly when its text contains, anywhere, the name
    of an allowed dataset followed by a dot (the test for a backtick before
    the name adds nothing); otherwise it is refused with the message that
    lists the allowed datasets. *)
Theorem allowed_datasets_are_matched_as_substrings
    (settings : BigQueryClient.Settings) (sql : string) :
  (forall pattern, In pattern BigQueryClient.DANGEROUS_PATTERNS ->
                   Py.contains pattern (Py.upper sql) = false) ->
  BigQueryClient.bigquery_allowed_datasets settings <> [] ->
  (BigQueryClient.validate_query settings sql = (true, None) <->
   exists dataset pre post,
     In dataset (BigQueryClient.bigquery_allowed_datasets settings) /\
     sql = (pre ++ dataset ++ "." ++ post)%string) /\
  (BigQueryClient.validate_query settings sql <> (true, None) ->
   BigQueryClient.validate_query settings sql =
   (false,
    Some ("Query must reference one of allowed datasets: " ++
          Py.join ", " (BigQueryClient.bigquery_allowed_datasets settings))%string)).
Proof.
  intros Hsafe Hlist. unfold BigQueryClient.validate_query. cbv zeta.
  rewrite (find_all_false _ _ Hsafe).
  destruct (BigQueryClient.bigquery_allowed_datasets settings) as [|d0 ds] eqn:D;
    [congruence|].
  rewrite <- (mentions_allowed (d0 :: ds) sql).
  destruct (existsb _ (d0 :: ds)); cbn [negb].
  - split; [split; reflexivity|]. congruence.
  - split; [split; discriminate|]. reflexivity.
Qed.

Lemma allowed_datasets_are_matched_as_substrings_witness :
  BigQueryClient.validate_query
    {| BigQueryClient.bigquery_max_bytes_billed := 100000000;
       BigQueryClient.bigquery_query_timeout := 60;
       BigQueryClient.bigquery_use_query_cache := true;
       BigQueryClient.bigquery_allowed_datasets := ["sales"] |}
    "SELECT 'presales.' AS note FROM proj.other.orders" = (true, None).
Proof.
  apply (proj1 (allowed_datasets_are_matched_as_substrings
           {| BigQueryClient.bigquery_max_bytes_billed := 100000000;
              BigQueryClient.bigquery_query_timeout := 60;
              BigQueryClient.bigquery_use_query_cache := true;
              BigQueryClient.bigquery_allowed_datasets := ["sales"] |}
           "SELECT 'presales.' AS note FROM proj.other.orders"
           ltac:(intros pattern Hin; simpl in Hin;
                 repeat (destruct Hin as [<- | Hin]; [vm_compute; reflexivity|]);
                 contradiction)
           ltac:(discriminate))).
  exists "sales", "SELECT 'pre", "' AS note FROM proj.other.orders".
  split; [now left|reflexivity].
Defined.
(* ================================================================= *)
(** ** More on the schema validators *)

Section Strip.
Import Py.

Lemma all_space_nil : all_space EmptyString.
Proof. intros c []. Qed.

Lemma all_space_cons (c : ascii) (s : string) :
  is_space c = true -> all_space s -> all_space (String c s).
Proof. intros Hc Hs c' [<- | H]; [exact Hc|now apply Hs]. Qed.

Lemma all_space_inv (c : ascii) (s : string) :
  all_space (String c s) -> is_space c = true /\ all_space s.
Proof.
  intros H. split; [apply H; now left|]. intros c' Hc'. apply H. now right.
Qed.

(** What [lstrip] removes is whitespace, and what it leaves does not start
    with whitespace. *)
Lemma lstrip_spec (s : string) :
  exists ws, all_space ws /\ s = (ws ++ lstrip s)%string /\
             (lstrip s = EmptyString \/ starts_token (lstrip s) = true).
Proof.
  induction s as [|c s IH].
  - exists EmptyString. split; [apply all_space_nil|]. split; [reflexivity|now left].
  - cbn [lstrip]. destruct (is_space c) eqn:E.
    + destruct IH as [ws [Hws [Hs Hhead]]]. exists (String c ws).
      split; [now apply all_space_cons|]. split; [|exact Hhead].
      cbn [append]. now rewrite <- Hs.
    + exists EmptyString. split; [apply all_space_nil|]. split; [reflexivity|].
      right. cbn [starts_token]. now rewrite E.
Qed.

(** What [rstrip] removes is whitespace. *)
Lemma rstrip_spec (s : string) :
  exists ws, all_space ws /\ s = (rstrip s ++ ws)%string.
Proof.
  induction s as [|c s IH].
  - exists EmptyString. split; [apply all_space_nil|reflexivity].
  - destruct IH as [ws [Hws Hs]]. cbn [rstrip].
    destruct (rstrip s) as [|c' r] eqn:R.
    + destruct (is_space c) eqn:E.
      * exists (String c ws). split; [now apply all_space_cons|].
        cbn [append] in *. now rewrite <- Hs.
      * exists ws. split; [exact Hws|]. cbn [append] in *. now rewrite <- Hs.
    + exists ws. split; [exact Hws|]. cbn [append] in *. now rewrite <- Hs.
Qed.

Lemma rstrip_all_space (s : string) : all_space s -> rstrip s = EmptyString.
Proof.
  induction s as [|c s IH]; intros H; [reflexivity|].
  apply all_space_inv in H. destruct H as [Hc Hs]. cbn [rstrip].
  rewrite (IH Hs). now rewrite Hc.
Qed.

Lemma rstrip_empty_all_space (s : string) : rstrip s = EmptyString -> all_space s.
Proof.
  intros H. destruct (rstrip_spec s) as [ws [Hws Hs]]. rewrite H in Hs.
  cbn [append] in Hs. now subst.
Qed.

Lemma lstrip_all_space (s : string) : all_space s -> lstrip s = EmptyString.
Proof.
  induction s as [|c s IH]; intros H; [reflexivity|].
  apply all_space_inv in H. destruct H as [Hc Hs]. cbn [lstrip]. rewrite Hc. now apply IH.
Qed.

(** [rstrip] keeps a first character that is not whitespace. *)
Lemma rstrip_head (c : ascii) (s : string) :
  is_space c = false -> exists r, rstrip (String c s) = String c r.
Proof.
  intros Hc. cbn [rstrip]. destruct (rstrip s) as [|c' r].
  - rewrite Hc. now exists EmptyString.
  - now exists (String c' r).
Qed.

Lemma rstrip_idempotent (s : string) : rstrip (rstrip s) = rstrip s.
Proof.
  induction s as [|c s IH]; [reflexivity|]. cbn [rstrip].
  destruct (rstrip s) as [|c' r] eqn:R.
  - destruct (is_space c) eqn:E; [reflexivity|]. cbn [rstrip]. now rewrite E.
  - cbn [rstrip]. cbn [rstrip] in IH. rewrite IH. reflexivity.
Qed.

Lemma strip_idempotent (s : string) : strip (strip s) = strip s.
Proof.
  unfold strip. destruct (lstrip_spec s) as [_ [_ [_ [H | H]]]].
  - rewrite H. reflexivity.
  - destruct (lstrip s) as [|c t]; [discriminate|]. cbn [starts_token] in H.
    apply negb_true_iff in H. destruct (rstrip_head c t H) as [r Hr].
    rewrite Hr. cbn [lstrip]. rewrite H. rewrite <- Hr. apply rstrip_idempotent.
Qed.

Lemma split_strip (s : string) : split (strip s) = split s.
Proof.
  unfold strip. destruct (lstrip_spec s) as [ws1 [H1 [E1 _]]].
  destruct (rstrip_spec (lstrip s)) as [ws2 [H2 E2]].
  rewrite E1 at 2. rewrite split_leading by exact H1.
  rewrite E2 at 2. now rewrite split_trailing.
Qed.

Lemma strip_empty_iff (s : string) : strip s = EmptyString <-> all_space s.
Proof.
  unfold strip. split.
  - intros H. apply rstrip_empty_all_space in H.
    destruct (lstrip_spec s) as [ws [Hws [E _]]]. rewrite E.
    intros c Hc. rewrite list_ascii_app in Hc. apply in_app_or in Hc.
    destruct Hc as [Hc | Hc]; [now apply Hws|now apply H].
  - intros H. now rewrite (lstrip_all_space s H).
Qed.

Lemma lower_lstrip (s : string) : lower (lstrip s) = lstrip (lower s).
Proof.
  unfold lower. induction s as [|c s IH]; [reflexivity|].
  cbn [lstrip str_map]. rewrite is_space_lower.
  destruct (is_space c); [exact IH|reflexivity].
Qed.

Lemma lower_rstrip (s : string) : lower (rstrip s) = rstrip (lower s).
Proof.
  unfold lower. induction s as [|c s IH]; [reflexivity|].
  cbn [rstrip str_map]. rewrite <- IH, is_space_lower.
  destruct (rstrip s) as [|c' r]; cbn [str_map]; [|reflexivity].
  destruct (is_space c); reflexivity.
Qed.

Lemma lower_strip (s : string) : lower (strip s) = strip (lower s).
Proof. unfold strip. now rewrite lower_rstrip, lower_lstrip. Qed.

Lemma nonempty_iff (s : string) : nonempty s = true <-> s <> EmptyString.
Proof. destruct s; simpl; split; congruence. Qed.
End Strip.

(** X15.  [validate_sql] accepts every text that is not all whitespace and
    returns it without the whitespace at its two ends; validating the
    result again changes nothing, and the stored SQL has the same query
    hashes (the compiler's and the client's) as the text that was written. *)
Theorem validate_sql_trims_and_keeps_hash (v : string) :
  ((exists e, yaml_schema.validate_sql v = Raise e) <-> all_space v) /\
  (forall sql,
      yaml_schema.validate_sql v = Return sql ->
      sql = Py.strip v /\ sql <> EmptyString /\
      yaml_schema.validate_sql sql = Return sql /\
      DashboardCompilerService._hash_query sql = DashboardCompilerService._hash_query v /\
      BigQueryClient.hash_query sql = BigQueryClient.hash_query v).
Proof.
  unfold yaml_schema.validate_sql. cbv zeta. split.
  - rewrite <- strip_empty_iff. destruct (Py.strip v); cbn [Py.nonempty negb].
    + split; [reflexivity|]. intros _. eexists. reflexivity.
    + split; [intros [e H]; discriminate|discriminate].
  - intros sql H. destruct (Py.strip v) as [|c s] eqn:E; cbn [Py.nonempty negb] in H;
      [discriminate|].
    inversion H; subst sql. clear H. rewrite <- E.
    assert (Hn : DashboardCompilerService.normalized (Py.strip v) =
                 DashboardCompilerService.normalized v).
    { unfold DashboardCompilerService.normalized. now rewrite split_strip. }
    split; [reflexivity|]. split; [rewrite E; discriminate|]. split; [|split].
    + rewrite strip_idempotent, E. reflexivity.
    + unfold DashboardCompilerService._hash_query. now rewrite Hn.
    + unfold BigQueryClient.hash_query.
      change (Py.lower (Py.join " " (Py.split (Py.strip v))))
        with (DashboardCompilerService.normalized (Py.strip v)).
      now rewrite Hn.
Qed.

Lemma validate_sql_trims_and_keeps_hash_witness :
  DashboardCompilerService._hash_query "SELECT id FROM users" =
  DashboardCompilerService._hash_query "  SELECT id FROM users  ".
Proof.
  apply (proj2 (validate_sql_trims_and_keeps_hash "  SELECT id FROM users  ")
           "SELECT id FROM users").
  vm_compute. reflexivity.
Defined.

(** X16.  The tags kept by [validate_tags] are the lower-cased, trimmed
    forms of the tags that are not blank, each once: no tag that is kept is
    empty, has an upper-case letter or has whitespace at an end. *)
Theorem validate_tags_normalises (list_of_set : list string -> list string)
    (v : list string) :
  set_listing list_of_set ->
  let tags := yaml_schema.validate_tags list_of_set v in
  NoDup tags /\
  (forall t, In t tags <->
             exists tag, In tag v /\ ~ all_space tag /\ t = Py.strip (Py.lower tag)) /\
  (forall t, In t tags -> t <> EmptyString /\ Py.lower t = t /\ Py.strip t = t).
Proof.
  intros Hset tags. unfold tags, yaml_schema.validate_tags.
  set (l := map (fun tag => Py.strip (Py.lower tag))
                (filter (fun tag => Py.nonempty (Py.strip tag)) v)).
  pose proof (Hset l) as P.
  assert (Hin : forall t, In t (list_of_set l) <->
                          exists tag, In tag v /\ ~ all_space tag /\
                                      t = Py.strip (Py.lower tag)).
  { intros t. split.
    - intros H. apply (Permutation_in _ P) in H. apply nodup_In in H.
      unfold l in H. apply in_map_iff in H. destruct H as [tag [<- H]].
      apply filter_In in H. destruct H as [Hv Hne]. exists tag.
      split; [exact Hv|]. split; [|reflexivity].
      apply nonempty_iff in Hne. now rewrite <- strip_empty_iff.
    - intros [tag [Hv [Hne ->]]]. apply (Permutation_in _ (Permutation_sym P)).
      apply nodup_In. unfold l. apply in_map_iff. exists tag. split; [reflexivity|].
      apply filter_In. split; [exact Hv|]. apply nonempty_iff.
      now rewrite strip_empty_iff. }
  split; [|split].
  - apply (Permutation_NoDup (Permutation_sym P)). apply NoDup_nodup.
  - exact Hin.
  - intros t H. apply Hin in H. destruct H as [tag [_ [Hne ->]]].
    split; [|split].
    + rewrite <- lower_strip. intros E. apply Hne. apply strip_empty_iff.
      destruct (Py.strip tag); [reflexivity|discriminate].
    + now rewrite <- lower_strip, lower_lower.
    + apply strip_idempotent.
Qed.

Lemma validate_tags_normalises_witness :
  let tags := yaml_schema.validate_tags listing_forward
                [" Revenue "; "revenue"; "   "; "Regional"] in
  tags = ["revenue"; "regional"] /\ NoDup tags /\
  (forall t, In t tags -> t <> EmptyString /\ Py.lower t = t /\ Py.strip t = t).
Proof.
  cbv zeta.
  pose proof (validate_tags_normalises listing_forward
                [" Revenue "; "revenue"; "   "; "Regional"] listing_forward_ok) as H.
  cbv zeta in H. destruct H as [H1 [_ H3]].
  split; [vm_compute; reflexivity|]. split; assumption.
Defined.

Section Validators.
Import yaml_schema.

Lemma filter_none {A} (f : A -> bool) (l : list A) :
  (forall a, In a l -> f a = false) -> filter f l = [].
Proof.
  induction l as [|a l IH]; intros H; [reflexivity|]. cbn [filter].
  rewrite (H a) by now left. apply IH. intros b Hb. apply H. now right.
Qed.

Lemma duplicates_of_nodup (ids : list string) : NoDup ids -> duplicates ids = [].
Proof.
  intros H. unfold duplicates. apply filter_none. intros i Hi.
  rewrite count_str_occ.
  rewrite (proj1 (NoDup_count_occ' string_dec ids) H i Hi). reflexivity.
Qed.

Lemma check_query_refs_iff (ids : list string) (items : list LayoutItem) :
  check_query_refs ids items = Return tt <->
  forall item, In item items -> In (query_ref item) ids.
Proof.
  split; [apply check_query_refs_ok|].
  induction items as [|it items IH]; intros H; [reflexivity|]. cbn [check_query_refs].
  assert (M : mem_str (query_ref it) ids = true).
  { unfold mem_str. apply existsb_exists. exists (query_ref it).
    split; [apply H; now left|apply String.eqb_refl]. }
  rewrite M. cbn [negb]. apply IH. intros item Hin. apply H. now right.
Qed.

Lemma and_then_ok (a b : outcome unit) :
  and_then a b = Return tt <-> a = Return tt /\ b = Return tt.
Proof.
  unfold and_then. destruct a as [[]|e]; split.
  - intros H. now split.
  - now intros [_ H].
  - discriminate.
  - intros [H _]. discriminate.
Qed.
End Validators.

(** X17.  The model validators accept exactly what their names say: the
    chart ids are pairwise different, the query ids are pairwise different,
    and every chart references the id of a query of the definition; a
    definition passes the four of them when it passes each. *)
Theorem model_validators_characterised (d : yaml_schema.DashboardYAML) :
  (yaml_schema.validate_chart_ids_unique d = Return tt <->
   NoDup (map yaml_schema.item_id (yaml_schema.layout d))) /\
  (yaml_schema.validate_query_ids_unique d = Return tt <->
   NoDup (map yaml_schema.query_id (yaml_schema.queries d))) /\
  (yaml_schema.validate_query_refs d = Return tt <->
   forall item, In item (yaml_schema.layout d) ->
                In (yaml_schema.query_ref item)
                   (map yaml_schema.query_id (yaml_schema.queries d))) /\
  (yaml_schema.model_validators d = Return tt <->
   yaml_schema.validate_query_refs d = Return tt /\
   yaml_schema.validate_chart_ids_unique d = Return tt /\
   yaml_schema.validate_query_ids_unique d = Return tt /\
   yaml_schema.validate_grid_overlaps d = Return tt).
Proof.
  split; [|split; [|split]].
  - unfold yaml_schema.validate_chart_ids_unique. cbv zeta. split; intros H.
    + apply duplicates_nil. destruct (yaml_schema.duplicates _); [reflexivity|discriminate].
    + now rewrite (duplicates_of_nodup _ H).
  - unfold yaml_schema.validate_query_ids_unique. cbv zeta. split; intros H.
    + apply duplicates_nil. destruct (yaml_schema.duplicates _); [reflexivity|discriminate].
    + now rewrite (duplicates_of_nodup _ H).
  - apply check_query_refs_iff.
  - unfold yaml_schema.model_validators. rewrite !and_then_ok. reflexivity.
Qed.

Section GridAccept.
Import yaml_schema.

Lemma NoDup_app_intro {A} (l1 l2 : list A) :
  NoDup l1 -> NoDup l2 -> (forall a, In a l1 -> ~ In a l2) -> NoDup (l1 ++ l2).
Proof.
  induction l1 as [|a l1 IH]; intros H1 H2 H; [exact H2|]. cbn [app].
  inversion H1 as [|? ? Ha H1']; subst. constructor.
  - intros Hin. apply in_app_or in Hin. destruct Hin as [Hin | Hin]; [contradiction|].
    apply (H a); [now left|exact Hin].
  - apply IH; [exact H1'|exact H2|]. intros b Hb. apply H. now right.
Qed.

Lemma NoDup_range (a b : Z) : NoDup (range a b).
Proof.
  unfold range. generalize (Z.to_nat (b - a)) as n. intros n.
  assert (H : forall m k, NoDup (map (fun i => a + Z.of_nat i) (seq k m))).
  { induction m as [|m IH]; intros k; cbn [seq map]; constructor; [|apply IH].
    intros Hin. apply in_map_iff in Hin. destruct Hin as [i [E Hi]].
    apply in_seq in Hi. lia. }
  apply H.
Qed.

Lemma NoDup_cells (p : GridPosition) : NoDup (cells p).
Proof.
  unfold cells. generalize (NoDup_range (x p) (x p + w p)).
  generalize (range (x p) (x p + w p)) as cols.
  induction cols as [|cx cols IH]; intros Hnd; [constructor|]. cbn [flat_map].
  inversion Hnd as [|? ? Hcx Hnd']; subst. apply NoDup_app_intro.
  - generalize (NoDup_range (y p) (y p + h p)).
    generalize (range (y p) (y p + h p)) as rows.
    induction rows as [|cy rows IHr]; intros Hr; [constructor|]. cbn [map].
    inversion Hr as [|? ? Hcy Hr']; subst. constructor; [|now apply IHr].
    intros Hin. apply in_map_iff in Hin. destruct Hin as [cy' [E Hin]].
    inversion E; subst. contradiction.
  - now apply IH.
  - intros [ax ay] H1 H2. apply in_map_iff in H1. destruct H1 as [cy [E _]].
    inversion E; subst. apply in_flat_map in H2. destruct H2 as [cx' [Hcx' H2]].
    apply in_map_iff in H2. destruct H2 as [cy' [E' _]]. inversion E'; subst.
    contradiction.
Qed.

Lemma place_cells_free item cs positions :
  NoDup cs -> (forall c, In c cs -> ~ In c positions) ->
  place_cells item cs positions = Return (positions ++ cs).
Proof.
  revert positions. induction cs as [|c cs IH]; intros positions Hnd Hfree.
  - cbn [place_cells]. now rewrite app_nil_r.
  - cbn [place_cells]. inversion Hnd as [|? ? Hc Hnd']; subst.
    destruct (existsb (cell_eqb c) positions) eqn:E.
    + apply seen_iff in E. exfalso. apply (Hfree c); [now left|exact E].
    + rewrite IH; [now rewrite <- app_assoc|exact Hnd'|].
      intros c' Hc' Hin. apply in_app_or in Hin. destruct Hin as [Hin | [<- | []]].
      * apply (Hfree c'); [now right|exact Hin].
      * contradiction.
Qed.

(** No cell of one position is a cell of the other. *)
Definition disjoint (p q : GridPosition) : Prop :=
  forall c, In c (cells p) -> ~ In c (cells q).

Lemma place_items_free items positions :
  ForallOrdPairs (fun a b => disjoint (position a) (position b)) items ->
  (forall b c, In b items -> In c (cells (position b)) -> ~ In c positions) ->
  place_items items positions = Return tt.
Proof.
  revert positions. induction items as [|a items IH]; intros positions Hpairs Hfree;
    [reflexivity|].
  cbn [place_items]. inversion Hpairs as [|? ? Ha Hrest]; subst.
  rewrite place_cells_free; [|apply NoDup_cells|intros c Hc; apply (Hfree a); [now left|exact Hc]].
  apply IH; [exact Hrest|]. intros b c Hb Hc Hin. apply in_app_or in Hin.
  destruct Hin as [Hin | Hin].
  - apply (Hfree b c); [now right|exact Hc|exact Hin].
  - rewrite Forall_forall in Ha. apply (Ha b Hb c Hin Hc).
Qed.

Lemma shares_cell_iff (p q : GridPosition) :
  shares_cell p q <-> exists c, In c (cells p) /\ In c (cells q).
Proof.
  unfold shares_cell. split.
  - intros [cx [cy [Hp Hq]]]. exists (cx, cy). rewrite !in_cells. lia.
  - intros [[cx cy] [Hp Hq]]. rewrite in_cells in Hp, Hq. exists cx, cy. lia.
Qed.

Lemma pairs_of_positions (items : list LayoutItem) :
  (forall i j a b, i <> j -> nth_error items i = Some a -> nth_error items j = Some b ->
                   ~ shares_cell (position a) (position b)) ->
  ForallOrdPairs (fun a b => disjoint (position a) (position b)) items.
Proof.
  induction items as [|a items IH]; intros H; constructor.
  - apply Forall_forall. intros b Hb c Hc Hc'.
    apply In_nth_error in Hb. destruct Hb as [j Hj].
    apply (H O (S j) a b); [discriminate|reflexivity|exact Hj|].
    apply shares_cell_iff. now exists c.
  - apply IH. intros i j a' b' Hne Hi Hj. apply (H (S i) (S j) a' b'); [lia|exact Hi|exact Hj].
Qed.
End GridAccept.

(** X18.  A layout in which no two items share a grid cell passes
    [validate_grid_overlaps]: the validator refuses nothing but layouts
    in which two items overlap. *)
Theorem disjoint_layout_accepted (d : yaml_schema.DashboardYAML) :
  (forall (i j : nat) (a b : yaml_schema.LayoutItem),
      i <> j ->
      nth_error (yaml_schema.layout d) i = Some a ->
      nth_error (yaml_schema.layout d) j = Some b ->
      ~ shares_cell (yaml_schema.position a) (yaml_schema.position b)) ->
  yaml_schema.validate_grid_overlaps d = Return tt.
Proof.
  intros H. unfold yaml_schema.validate_grid_overlaps.
  apply place_items_free; [now apply pairs_of_positions|]. intros b c _ _ [].
Qed.

Lemma disjoint_layout_accepted_witness :
  yaml_schema.validate_grid_overlaps
    (grid_dashboard [grid_item "left" 0 0 6 4; grid_item "right" 6 0 6 4]) = Return tt.
Proof.
  apply disjoint_layout_accepted.
  intros i j a b Hne Hi Hj [cx [cy [Ha Hb]]].
  destruct i as [|[|i]]; destruct j as [|[|j]]; cbn in Hi, Hj;
    try congruence; try (destruct i; discriminate); try (destruct j; discriminate);
    inversion Hi; inversion Hj; subst; cbn in Ha, Hb; lia.
Defined.

Lemma length_range (a b : Z) : List.length (yaml_schema.range a b) = Z.to_nat (b - a).
Proof. unfold yaml_schema.range. now rewrite length_map, length_seq. Qed.

Lemma length_cells (p : yaml_schema.GridPosition) :
  List.length (yaml_schema.cells p) =
  (Z.to_nat (yaml_schema.w p) * Z.to_nat (yaml_schema.h p))%nat.
Proof.
  unfold yaml_schema.cells.
  assert (H : forall (cols rows : list Z),
             List.length (flat_map (fun cx => map (fun cy => (cx, cy)) rows) cols) =
             (List.length cols * List.length rows)%nat).
  { intros cols rows. induction cols as [|cx cols IH]; [reflexivity|].
    cbn [flat_map List.length]. rewrite length_app, IH, length_map. lia. }
  rewrite H, !length_range. f_equal; f_equal; lia.
Qed.

(** X19.  A grid position that passes its field bounds and
    [validate_position] covers [w * h] cells, at least one and at most 240,
    all of them in the columns 0 to 11 and in rows from [y] on; and
    [validate_position] refuses exactly the positions that reach beyond
    column 11. *)
Theorem validated_position_fits_the_grid (p : yaml_schema.GridPosition) :
  (yaml_schema.validate_position p = Return p <->
   yaml_schema.x p + yaml_schema.w p <= 12) /\
  (yaml_schema.GridPosition_fields_ok p = true ->
   yaml_schema.validate_position p = Return p ->
   Z.of_nat (List.length (yaml_schema.cells p)) = yaml_schema.w p * yaml_schema.h p /\
   1 <= yaml_schema.w p * yaml_schema.h p <= 240 /\
   forall cx cy, In (cx, cy) (yaml_schema.cells p) ->
                 0 <= cx <= 11 /\ 0 <= yaml_schema.y p <= cy /\
                 cy < yaml_schema.y p + 20).
Proof.
  assert (Hv : yaml_schema.validate_position p = Return p <->
               yaml_schema.x p + yaml_schema.w p <= 12).
  { unfold yaml_schema.validate_position.
    destruct (Z.ltb_spec 12 (yaml_schema.x p + yaml_schema.w p)); split;
      try discriminate; try reflexivity; lia. }
  split; [exact Hv|]. intros Hf Hp. apply Hv in Hp.
  unfold yaml_schema.GridPosition_fields_ok in Hf.
  repeat (apply andb_true_iff in Hf; destruct Hf as [Hf ?]).
  repeat match goal with
         | H : (_ <=? _) = true |- _ => apply Z.leb_le in H
         | H : (_ <? _) = true |- _ => apply Z.ltb_lt in H
         end.
  split; [|split].
  - rewrite length_cells, Nat2Z.inj_mul, !Z2Nat.id by lia. reflexivity.
  - nia.
  - intros cx cy Hin. apply in_cells in Hin. lia.
Qed.

Lemma validated_position_fits_the_grid_witness :
  Z.of_nat (List.length (yaml_schema.cells
                           {| yaml_schema.x := 6; yaml_schema.y := 2;
                              yaml_schema.w := 6; yaml_schema.h := 4 |})) = 6 * 4 /\
  1 <= 6 * 4 <= 240 /\
  forall cx cy,
    In (cx, cy) (yaml_schema.cells {| yaml_schema.x := 6; yaml_schema.y := 2;
                                      yaml_schema.w := 6; yaml_schema.h := 4 |}) ->
    0 <= cx <= 11 /\ 0 <= 2 <= cy /\ cy < 2 + 20.
Proof.
  apply (proj2 (validated_position_fits_the_grid
                  {| yaml_schema.x := 6; yaml_schema.y := 2;
                     yaml_schema.w := 6; yaml_schema.h := 4 |})); reflexivity.
Defined.
(* ================================================================= *)
(** ** The YAML validation service *)

(** A lower-case letter or digit, then letters, digits and hyphens, then a
    lower-case letter or digit. *)
Definition slug_text (s : string) : Prop :=
  exists (first : ascii) (middle : string) (last : ascii),
    s = String first (middle ++ String last EmptyString) /\
    YAMLValidationService.is_alnum first = true /\
    forallb YAMLValidationService.is_slug_char (list_ascii_of_string middle) = true /\
    YAMLValidationService.is_alnum last = true.

Section SlugFormat.
Import YAMLValidationService.

Lemma at_end_iff (s : string) : at_end s = true <-> s = EmptyString \/ s = LF.
Proof.
  unfold LF. destruct s as [|c [|c' s]]; cbn [at_end].
  - split; auto.
  - rewrite Ascii.eqb_eq. split.
    + intros ->. now right.
    + intros [H | H]; [discriminate|]. now inversion H.
  - split; [discriminate|]. intros [H | H]; discriminate.
Qed.

Lemma alnum_is_slug_char (c : ascii) : is_alnum c = true -> is_slug_char c = true.
Proof. unfold is_slug_char. now intros ->. Qed.

(** [match_tail] accepts the texts [middle ++ last], with a line feed after
    them or not. *)
Lemma match_tail_iff (s : string) :
  match_tail s = true <->
  exists (middle : string) (last : ascii) (tail : string),
    s = (middle ++ String last tail)%string /\
    forallb is_slug_char (list_ascii_of_string middle) = true /\
    is_alnum last = true /\ (tail = EmptyString \/ tail = LF).
Proof.
  induction s as [|c s IH].
  - split; [discriminate|]. intros [middle [last [tail [E _]]]].
    destruct middle; discriminate.
  - cbn [match_tail]. rewrite orb_true_iff, !andb_true_iff, at_end_iff, IH. split.
    + intros [[Hc Hend] | [Hc [middle [last [tail [-> [Hm [Hl Ht]]]]]]]].
      * exists EmptyString, c, s. now repeat split.
      * exists (String c middle), last, tail. repeat split; try assumption.
        cbn [list_ascii_of_string forallb]. now rewrite Hc, Hm.
    + intros [middle [last [tail [E [Hm [Hl Ht]]]]]].
      destruct middle as [|c' middle]; cbn [append] in E; inversion E; subst.
      * left. now split.
      * right. cbn [list_ascii_of_string forallb] in Hm.
        apply andb_true_iff in Hm. destruct Hm as [Hc Hm]. split; [exact Hc|].
        now exists middle, last, tail.
Qed.

Lemma re_match_iff (s : string) :
  re_match s = true <-> slug_text s \/ exists body, s = (body ++ LF)%string /\ slug_text body.
Proof.
  unfold re_match, slug_text. destruct s as [|c s].
  - split; [discriminate|].
    intros [[f [m [l [E _]]]] | [body [E [f [m [l [-> _]]]]]]]; discriminate.
  - rewrite andb_true_iff, match_tail_iff. split.
    + intros [Hc [middle [last [tail [-> [Hm [Hl [-> | ->]]]]]]]].
      * left. now exists c, middle, last.
      * right. exists (String c (middle ++ String last EmptyString)). split.
        -- cbn [append]. f_equal. rewrite append_assoc. reflexivity.
        -- now exists c, middle, last.
    + intros [[f [m [l [E [Hf [Hm Hl]]]]]] | [body [E [f [m [l [-> [Hf [Hm Hl]]]]]]]]].
      * inversion E; subst. split; [exact Hf|]. exists m, l, EmptyString.
        split; [reflexivity|]. split; [exact Hm|]. split; [exact Hl|now left].
      * cbn [append] in E. inversion E; subst. split; [exact Hf|].
        exists m, l, LF. split; [now rewrite append_assoc|].
        split; [exact Hm|]. split; [exact Hl|now right].
Qed.
End SlugFormat.

(** X20.  [validate_slug_format] accepts exactly the texts of 3 to 100
    characters that are not reserved words and consist of a lower-case
    letter or digit, then letters, digits and hyphens, then a letter or
    digit; one line feed may follow, since [$] also matches before a line
    feed that ends the text.  The line feed counts in the length and is
    part of the text compared with the reserved words. *)
Theorem slug_format_accepted (slug : string) :
  YAMLValidationService.validate_slug_format slug = (true, None) <->
  (slug_text slug \/ exists body, slug = (body ++ LF)%string /\ slug_text body) /\
  (3 <= String.length slug <= 100)%nat /\
  ~ In slug YAMLValidationService.reserved.
Proof.
  unfold YAMLValidationService.validate_slug_format.
  rewrite <- re_match_iff.
  destruct (YAMLValidationService.re_match slug); cbn [negb].
  - destruct (Nat.ltb_spec (String.length slug) 3); cbn [orb].
    + split; [discriminate|]. intros [_ [H' _]]. lia.
    + destruct (Nat.ltb_spec 100 (String.length slug)).
      * split; [discriminate|]. intros [_ [H' _]]. lia.
      * destruct (yaml_schema.mem_str slug YAMLValidationService.reserved) eqn:M.
        -- split; [discriminate|]. intros [_ [_ Hn]]. exfalso. apply Hn.
           unfold yaml_schema.mem_str in M. apply existsb_exists in M.
           destruct M as [r [Hr E]]. apply String.eqb_eq in E. now subst.
        -- split; [|reflexivity]. intros _. split; [reflexivity|]. split; [lia|].
           intros Hin. unfold yaml_schema.mem_str in M.
           assert (X : existsb (String.eqb slug) YAMLValidationService.reserved = true).
           { apply existsb_exists. exists slug. split; [exact Hin|apply String.eqb_refl]. }
           congruence.
  - split; [discriminate|]. intros [H _]. discriminate.
Qed.

Lemma slug_format_accepted_witness :
  YAMLValidationService.validate_slug_format "revenue-dashboard" = (true, None) /\
  YAMLValidationService.validate_slug_format ("api" ++ LF) = (true, None) /\
  YAMLValidationService.validate_slug_format "api" =
    (false, Some "Slug 'api' is reserved and cannot be used").
Proof.
  split; [|split; [|reflexivity]].
  - apply slug_format_accepted. split; [|split].
    + left. exists "r"%char, "evenue-dashboar", "d"%char.
      repeat split; reflexivity.
    + simpl. lia.
    + simpl. intuition discriminate.
  - apply slug_format_accepted. split; [|split].
    + right. exists "api". split; [reflexivity|].
      exists "a"%char, "p", "i"%char. repeat split; reflexivity.
    + simpl. lia.
    + simpl. intuition discriminate.
Defined.

Lemma flat_map_nil_in {A B} (f : A -> list B) (l : list A) :
  (forall a, In a l -> f a = []) -> flat_map f l = [].
Proof.
  induction l as [|a l IH]; intros H; [reflexivity|]. cbn [flat_map].
  rewrite (H a) by now left. apply IH. intros b Hb. apply H. now right.
Qed.

(** The ids of the queries that no chart references. *)
Definition unused_queries (d : yaml_schema.DashboardYAML) : list string :=
  filter (fun i => negb (yaml_schema.mem_str i
                           (map yaml_schema.query_ref (yaml_schema.layout d))))
         (map yaml_schema.query_id (yaml_schema.queries d)).

(** X21.  [_check_warnings] warns about unused queries exactly when some
    query of the definition is referenced by no chart, in one message that
    lists the ids of these queries, sorted; and it returns no warning at
    all for a definition in which every query is used, no SQL text is
    longer than 10000 characters, and there are at most 20 charts and 10
    tags. *)
Theorem check_warnings_reports_unused_queries (d : yaml_schema.DashboardYAML) :
  let warnings := YAMLValidationService._check_warnings d in
  let unused_message :=
    ("Unused queries detected: " ++
     Py.join ", " (yaml_schema.sorted_set (unused_queries d)) ++ ". " ++
     "Consider removing them to improve clarity.")%string in
  ((exists q, In q (yaml_schema.queries d) /\
              forall item, In item (yaml_schema.layout d) ->
                           yaml_schema.query_ref item <> yaml_schema.query_id q) <->
   In unused_message warnings) /\
  (forall w, In w warnings -> Py.startswith "Unused queries detected: " w = true ->
             w = unused_message) /\
  ((forall q, In q (yaml_schema.queries d) ->
              Z.of_nat (String.length (yaml_schema.sql q)) <= 10000 /\
              exists item, In item (yaml_schema.layout d) /\
                           yaml_schema.query_ref item = yaml_schema.query_id q) ->
   (List.length (yaml_schema.layout d) <= 20)%nat ->
   (List.length (yaml_schema.tags (yaml_schema.metadata d)) <= 10)%nat ->
   warnings = []).
Proof.
  cbv zeta. unfold YAMLValidationService._check_warnings. cbv zeta.
  fold (unused_queries d).
  set (long := flat_map _ (yaml_schema.queries d)).
  set (charts := if 20 <? _ then _ else []).
  set (tags := if 10 <? _ then _ else []).
  set (msg := ("Unused queries detected: " ++ _)%string).
  assert (Hlong : forall w, In w long -> Py.startswith "Unused queries detected: " w = false).
  { intros w H. unfold long in H. apply in_flat_map in H. destruct H as [q [_ H]].
    destruct (10000 <? _); [|contradiction]. destruct H as [<- | []]. reflexivity. }
  assert (Hcharts : forall w, In w charts ->
                              Py.startswith "Unused queries detected: " w = false).
  { intros w H. unfold charts in H. destruct (20 <? _); [|contradiction].
    destruct H as [<- | []]. reflexivity. }
  assert (Htags : forall w, In w tags ->
                            Py.startswith "Unused queries detected: " w = false).
  { intros w H. unfold tags in H. destruct (10 <? _); [|contradiction].
    destruct H as [<- | []]. reflexivity. }
  assert (Hunused : (exists q, In q (yaml_schema.queries d) /\
                       forall item, In item (yaml_schema.layout d) ->
                                    yaml_schema.query_ref item <> yaml_schema.query_id q)
                    <-> unused_queries d <> []).
  { unfold unused_queries. split.
    - intros [q [Hq Hno]] E.
      assert (Hin : In (yaml_schema.query_id q)
                       (filter (fun i => negb (yaml_schema.mem_str i
                                  (map yaml_schema.query_ref (yaml_schema.layout d))))
                               (map yaml_schema.query_id (yaml_schema.queries d)))).
      { apply filter_In. split; [now apply in_map|]. apply negb_true_iff.
        destruct (yaml_schema.mem_str _ _) eqn:M; [|reflexivity].
        unfold yaml_schema.mem_str in M. apply existsb_exists in M.
        destruct M as [r [Hr Heq]]. apply String.eqb_eq in Heq. subst r.
        apply in_map_iff in Hr. destruct Hr as [item [Href Hitem]].
        exfalso. now apply (Hno item). }
      rewrite E in Hin. contradiction.
    - intros Hne. destruct (filter _ _) as [|i rest] eqn:F; [congruence|].
      assert (Hin : In i (i :: rest)) by now left.
      rewrite <- F in Hin. apply filter_In in Hin. destruct Hin as [Hi Hnot].
      apply in_map_iff in Hi. destruct Hi as [q [<- Hq]]. exists q. split; [exact Hq|].
      intros item Hitem Href. apply negb_true_iff in Hnot.
      assert (X : yaml_schema.mem_str (yaml_schema.query_id q)
                    (map yaml_schema.query_ref (yaml_schema.layout d)) = true).
      { unfold yaml_schema.mem_str. apply existsb_exists.
        exists (yaml_schema.query_ref item). split; [now apply in_map|].
        apply String.eqb_eq. now symmetry. }
      congruence. }
  split; [|split].
  - rewrite Hunused. split.
    + intros Hne. apply in_or_app. right. apply in_or_app. right. apply in_or_app. left.
      destruct (unused_queries d); [congruence|now left].
    + intros Hin E. rewrite E in Hin.
      apply in_app_or in Hin. destruct Hin as [Hin | Hin];
        [apply Hlong in Hin; discriminate|].
      apply in_app_or in Hin. destruct Hin as [Hin | Hin];
        [apply Hcharts in Hin; discriminate|].
      apply in_app_or in Hin. destruct Hin as [[] | Hin].
      apply Htags in Hin. discriminate.
  - intros w Hin Hstart.
    apply in_app_or in Hin. destruct Hin as [Hin | Hin];
      [apply Hlong in Hin; congruence|].
    apply in_app_or in Hin. destruct Hin as [Hin | Hin];
      [apply Hcharts in Hin; congruence|].
    apply in_app_or in Hin. destruct Hin as [Hin | Hin];
      [|apply Htags in Hin; congruence].
    destruct (unused_queries d); [contradiction|]. destruct Hin as [<- | []]. reflexivity.
  - intros Hq Hcharts20 Htags10.
    assert (E1 : long = []).
    { unfold long. apply flat_map_nil_in. intros q Hin.
      destruct (Hq q Hin) as [Hlen _].
      destruct (Z.ltb_spec 10000 (Z.of_nat (String.length (yaml_schema.sql q))));
        [lia|reflexivity]. }
    assert (E2 : charts = []).
    { unfold charts.
      destruct (Z.ltb_spec 20 (Z.of_nat (List.length (yaml_schema.layout d))));
        [lia|reflexivity]. }
    assert (E3 : tags = []).
    { unfold tags.
      destruct (Z.ltb_spec 10 (Z.of_nat (List.length
                  (yaml_schema.tags (yaml_schema.metadata d))))); [lia|reflexivity]. }
    assert (E4 : unused_queries d = []).
    { destruct (unused_queries d) as [|i rest] eqn:U; [reflexivity|]. exfalso.
      assert (Hne : i :: rest <> []) by discriminate.
      apply Hunused in Hne. destruct Hne as [q [Hin Hno]].
      destruct (Hq q Hin) as [_ [item [Hitem Href]]]. now apply (Hno item). }
    rewrite E1, E2, E3, E4. reflexivity.
Qed.

Lemma check_warnings_reports_unused_queries_witness :
  YAMLValidationService._check_warnings revenue_dashboard = [].
Proof.
  pose proof (check_warnings_reports_unused_queries revenue_dashboard) as H.
  cbv zeta in H. destruct H as [_ [_ H]]. apply H.
  - intros q Hq. simpl in Hq.
    destruct Hq as [<- | [<- | []]]; (split; [vm_compute; discriminate|]).
    + eexists. split; [left; reflexivity|reflexivity].
    + eexists. split; [right; left; reflexivity|reflexivity].
  - vm_compute. lia.
  - vm_compute. lia.
Defined.

Section SqlErrors.
Import BigQueryClient.
Variable settings : Settings.

(** [validate_query] answers [(True, None)] or [(False, message)] with a
    message that is not empty. *)
Lemma validate_query_verdict (sql : string) :
  validate_query settings sql = (true, None) \/
  exists c msg, validate_query settings sql = (false, Some (String c msg)).
Proof.
  unfold validate_query. cbv zeta.
  destruct (find _ DANGEROUS_PATTERNS) as [p|].
  - right. eexists _, _. reflexivity.
  - destruct (bigquery_allowed_datasets settings) as [|d0 ds]; [now left|].
    destruct (negb _); [|now left]. right. eexists _, _. reflexivity.
Qed.
End SqlErrors.

(** X22.  [_validate_sql_queries] reports one error for each query that
    [validate_query] refuses and none for the others, in the order of the
    queries; the error names the query in its [field], has the type
    [sql_error] and carries the message of [validate_query].  In
    particular a query whose upper-cased SQL contains a dangerous pattern
    is reported with the message that names the keyword. *)
Theorem sql_errors_name_the_refused_queries (settings : BigQueryClient.Settings)
    (d : yaml_schema.DashboardYAML) :
  let errors := YAMLValidationService._validate_sql_queries settings d in
  let refused := filter (fun q => negb (fst (BigQueryClient.validate_query settings
                                               (yaml_schema.sql q))))
                        (yaml_schema.queries d) in
  map (fun e => (YAMLValidationService.field e, YAMLValidationService.type e,
                 Some (YAMLValidationService.message e))) errors =
  map (fun q => (("queries." ++ yaml_schema.query_id q ++ ".sql")%string, "sql_error",
                 snd (BigQueryClient.validate_query settings (yaml_schema.sql q))))
      refused /\
  (errors = [] <->
   forall q, In q (yaml_schema.queries d) ->
             BigQueryClient.validate_query settings (yaml_schema.sql q) = (true, None)) /\
  (forall q pattern,
      In q (yaml_schema.queries d) ->
      In pattern BigQueryClient.DANGEROUS_PATTERNS ->
      Py.contains pattern (Py.upper (yaml_schema.sql q)) = true ->
      exists keyword,
        In keyword DANGEROUS_KEYWORDS /\
        In {| YAMLValidationService.field :=
                ("queries." ++ yaml_schema.query_id q ++ ".sql")%string;
              YAMLValidationService.message := dangerous_message keyword;
              YAMLValidationService.type := "sql_error" |} errors).
Proof.
  cbv zeta. unfold YAMLValidationService._validate_sql_queries.
  split; [|split].
  - induction (yaml_schema.queries d) as [|q qs IH]; [reflexivity|].
    cbn [flat_map filter].
    destruct (validate_query_verdict settings (yaml_schema.sql q)) as [E | [c [msg E]]];
      rewrite E; cbn [fst snd negb app map Py.truthy]; [exact IH|].
    cbn [exceptions.truthy map]. rewrite E. cbn [snd]. f_equal. exact IH.
  - split.
    + intros H q Hq.
      destruct (validate_query_verdict settings (yaml_schema.sql q)) as [E | [c [msg E]]];
        [exact E|].
      exfalso. 
      assert (X : In q (yaml_schema.queries d) -> False); [|now apply X].
      revert H. induction (yaml_schema.queries d) as [|q0 qs IH]; [intros _ []|].
      cbn [flat_map]. intros H Hin. apply app_eq_nil in H. destruct H as [H0 H1].
      destruct Hin as [-> | Hin]; [|now apply IH].
      rewrite E in H0. discriminate.
    + intros H. apply flat_map_nil_in. intros q Hq. now rewrite (H q Hq).
  - intros q pattern Hq Hp Hc.
    destruct (validate_query_dangerous settings (yaml_schema.sql q) pattern Hp Hc)
      as [keyword [Hk [_ E]]].
    exists keyword. split; [exact Hk|]. apply in_flat_map. exists q.
    split; [exact Hq|]. rewrite E. left. reflexivity.
Qed.

(* ================================================================= *)
(** ** Building and reading the lineage tables *)

(** What identifies a node in [lineage_nodes]. *)
Definition seed_key (s : DashboardCompilerService.NodeSeed) : db_models.NodeType * string :=
  (DashboardCompilerService.node_type s, DashboardCompilerService.node_id s).

Definition unbound_datetime : exn :=
  builtin UnboundLocalError "local variable 'datetime' referenced before assignment".

Definition duplicate_edge : exn := builtin IntegrityError "uq_lineage_edge".

Section LineageBuild.
Import LineageService.

Lemma NodeType_eqb_eq (a b : db_models.NodeType) :
  db_models.NodeType_eqb a b = true <-> a = b.
Proof. destruct a, b; simpl; split; intro H; try reflexivity; discriminate. Qed.

Lemma EdgeType_eqb_eq (a b : db_models.EdgeType) :
  db_models.EdgeType_eqb a b = true <-> a = b.
Proof. destruct a, b; simpl; split; intro H; try reflexivity; discriminate. Qed.

Lemma find_app_one {A} (f : A -> bool) (l : list A) (a : A) :
  find f (l ++ [a]) =
  match find f l with
  | Some x => Some x
  | None => if f a then Some a else None
  end.
Proof.
  induction l as [|x l IH]; simpl; [reflexivity|].
  destruct (f x); [reflexivity | exact IH].
Qed.

(** The table after a node was added: the new node answers for its own
    type and identifier when no older node does. *)
Lemma find_node_added (db : Db) (s s' : DashboardCompilerService.NodeSeed) :
  find_node db (DashboardCompilerService.node_type s)
               (DashboardCompilerService.node_id s) = None ->
  (find_node
     (snd (_create_or_update_node (DashboardCompilerService.node_type s)
             (DashboardCompilerService.node_id s)
             (Some (DashboardCompilerService.node_metadata s)) db))
     (DashboardCompilerService.node_type s')
     (DashboardCompilerService.node_id s') = None) <->
  (find_node db (DashboardCompilerService.node_type s')
                (DashboardCompilerService.node_id s') = None /\
   seed_key s' <> seed_key s).
Proof.
  intros Hnew. unfold _create_or_update_node. rewrite Hnew.
  cbn [snd]. unfold find_node at 1. cbn [lineage_nodes].
  rewrite find_app_one. fold (find_node db (DashboardCompilerService.node_type s')
                                (DashboardCompilerService.node_id s')).
  destruct (find_node db (DashboardCompilerService.node_type s')
              (DashboardCompilerService.node_id s')) as [n|] eqn:E.
  - split; [discriminate | intros [H _]; discriminate].
  - cbn [node_type node_id]. unfold seed_key.
    destruct (db_models.NodeType_eqb _ _ && (_ =? _)%string) eqn:K.
    + apply andb_true_iff in K. destruct K as [K1 K2].
      apply NodeType_eqb_eq in K1. apply String.eqb_eq in K2.
      split; [discriminate|]. intros [_ H]. exfalso. apply H. congruence.
    + split; [|reflexivity]. intros _. split; [reflexivity|].
      intros H. unfold seed_key in H. injection H as H1 H2.
      apply andb_false_iff in K. destruct K as [K | K].
      * rewrite H1 in K.
        assert (X : db_models.NodeType_eqb (DashboardCompilerService.node_type s')
                      (DashboardCompilerService.node_type s') = true)
          by now apply NodeType_eqb_eq.
        congruence.
      * rewrite H2, String.eqb_refl in K. discriminate.
Qed.

(** The loop over the node seeds: it ends without an exception exactly when
    every seed names a node the table does not hold yet, the earlier seeds
    included; otherwise the update branch raises. *)
Lemma create_nodes_outcome (seeds : list DashboardCompilerService.NodeSeed) :
  forall (node_map : Py.dict Z) (nodes_created : Z) (db : Db),
    (fst (create_nodes seeds node_map nodes_created db) = Raise unbound_datetime /\
     ((exists s, In s seeds /\
                 find_node db (DashboardCompilerService.node_type s)
                              (DashboardCompilerService.node_id s) <> None) \/
      ~ NoDup (map seed_key seeds)))
    \/
    ((exists node_map' db',
         create_nodes seeds node_map nodes_created db =
           (Return (node_map', nodes_created + Z.of_nat (List.length seeds)), db') /\
         lineage_edges db' = lineage_edges db) /\
     NoDup (map seed_key seeds) /\
     (forall s, In s seeds ->
                find_node db (DashboardCompilerService.node_type s)
                             (DashboardCompilerService.node_id s) = None)).
Proof.
  induction seeds as [|s rest IH]; intros node_map nodes_created db.
  - right. split; [|split].
    + exists node_map, db. cbn. rewrite Z.add_0_r. split; reflexivity.
    + constructor.
    + intros s [].
  - cbn [create_nodes]. unfold Eff.bind.
    destruct (find_node db (DashboardCompilerService.node_type s)
                (DashboardCompilerService.node_id s)) as [n|] eqn:E.
    + left. split.
      * unfold _create_or_update_node. rewrite E. reflexivity.
      * left. exists s. split; [now left|]. rewrite E. discriminate.
    + pose proof (fun s' => find_node_added db s s' E) as Hadd.
      unfold _create_or_update_node in Hadd |- *. rewrite E in Hadd |- *.
      cbn [snd] in Hadd. cbv beta iota.
      match goal with
      | |- context [create_nodes rest ?m ?k ?d] =>
          destruct (IH m k d) as [[Hr Hwhy] | [[nm [db' [Hc He]]] [Hnd Hfresh]]]
      end.
      * left. split; [exact Hr|].
        destruct Hwhy as [[s' [Hin Hfound]] | Hdup].
        -- destruct (find_node db (DashboardCompilerService.node_type s')
                       (DashboardCompilerService.node_id s')) as [n|] eqn:E'.
           ++ left. exists s'. split; [now right|]. rewrite E'. discriminate.
           ++ right. intros Hnd. inversion Hnd as [|? ? Hnotin _]; subst.
              apply Hfound. apply (Hadd s'). split; [exact E'|].
              intros K. apply Hnotin. rewrite <- K. now apply in_map.
        -- right. intros Hnd. inversion Hnd; subst. now apply Hdup.
      * right. split; [|split].
        -- exists nm, db'. split; [|exact He].
           rewrite Hc. cbn [List.length]. do 3 f_equal. lia.
        -- cbn [map]. constructor; [|exact Hnd].
           intros Hin. apply in_map_iff in Hin. destruct Hin as [s' [K Hs']].
           apply (Hadd s') in Hfresh; [|exact Hs']. now destruct Hfresh.
        -- intros s' [<- | Hs']; [exact E|].
           apply (Hadd s'). now apply Hfresh.
Qed.

(** The loop over the edge seeds raises nothing but the violation of
    [uq_lineage_edge], and counts no more edges than there are seeds. *)
Lemma create_edges_outcome (seeds : list DashboardCompilerService.EdgeSeed)
    (node_map : Py.dict Z) :
  forall (edges_created : Z) (db : Db),
    fst (create_edges seeds node_map edges_created db) = Raise duplicate_edge \/
    exists n, fst (create_edges seeds node_map edges_created db) = Return n /\
              edges_created <= n <= edges_created + Z.of_nat (List.length seeds).
Proof.
  induction seeds as [|s rest IH]; intros edges_created db.
  - right. exists edges_created. cbn. split; [reflexivity | lia].
  - cbn [create_edges].
    destruct (Py.dict_get node_map (DashboardCompilerService.source_node_id s))
      as [source|];
      [destruct (Py.dict_get node_map (DashboardCompilerService.target_node_id s))
         as [target|]|].
    + unfold Eff.bind, _create_edge.
      destruct (existsb _ (lineage_edges db)); [now left|].
      match goal with
      | |- context [create_edges rest node_map ?k ?d] =>
          destruct (IH k d) as [Hr | [n [Hn Hb]]]
      end; [now left|].
      right. exists n. split; [exact Hn|]. cbn [List.length]. lia.
    + destruct (IH edges_created db) as [Hr | [n [Hn Hb]]]; [now left|].
      right. exists n. split; [exact Hn|]. cbn [List.length]. lia.
    + destruct (IH edges_created db) as [Hr | [n [Hn Hb]]]; [now left|].
      right. exists n. split; [exact Hn|]. cbn [List.length]. lia.
Qed.

Lemma clear_returns (slug : string) (db : Db) :
  fst (_clear_dashboard_lineage slug db) = Return tt.
Proof.
  unfold _clear_dashboard_lineage. now destruct (find_node db _ slug).
Qed.

(** [build_lineage_for_dashboard] as its three stages. *)
Lemma build_lineage_outcome (slug : string)
    (nodes : list DashboardCompilerService.NodeSeed)
    (edges : list DashboardCompilerService.EdgeSeed) (db : Db) :
  let cleared := snd (_clear_dashboard_lineage slug db) in
  let outcome := fst (build_lineage_for_dashboard slug nodes edges db) in
  (outcome = Raise unbound_datetime /\
   ((exists s, In s nodes /\
               find_node cleared (DashboardCompilerService.node_type s)
                                 (DashboardCompilerService.node_id s) <> None) \/
    ~ NoDup (map seed_key nodes)))
  \/
  ((outcome = Raise duplicate_edge \/
    exists n, outcome = Return (Z.of_nat (List.length nodes), n) /\
              0 <= n <= Z.of_nat (List.length edges)) /\
   NoDup (map seed_key nodes) /\
   (forall s, In s nodes ->
              find_node cleared (DashboardCompilerService.node_type s)
                                (DashboardCompilerService.node_id s) = None)).
Proof.
  cbv zeta. unfold build_lineage_for_dashboard, Eff.bind.
  pose proof (clear_returns slug db) as Hc.
  destruct (_clear_dashboard_lineage slug db) as [r cleared]. cbn [fst snd] in *.
  subst r.
  destruct (create_nodes_outcome nodes [] 0 cleared)
    as [[Hr Hwhy] | [[nm [db' [Hn He]]] [Hnd Hfresh]]].
  - left. split; [|exact Hwhy].
    destruct (create_nodes nodes [] 0 cleared) as [[r|e] db']; cbn [fst] in Hr;
      [discriminate|]. cbn [fst]. congruence.
  - right. split; [|split; assumption].
    rewrite Hn. cbn [Z.add].
    destruct (create_edges_outcome edges nm 0 db') as [Hr | [n [Hr Hb]]].
    + left. destruct (create_edges edges nm 0 db') as [[r|e] db2]; cbn [fst] in Hr;
        [discriminate|]. cbn [fst]. congruence.
    + right. exists n. split; [|lia].
      destruct (create_edges edges nm 0 db') as [[r|e] db2]; cbn [fst] in Hr;
        [|discriminate]. cbn [fst Eff.ret]. congruence.
Qed.
End LineageBuild.

(** X23.  [build_lineage_for_dashboard] raises [UnboundLocalError] exactly
    when a node seed names a node (type and identifier) that the table
    still holds after the dashboard's own node was cleared, or two seeds
    name the same node; it raises nothing else but the violation of the
    unique constraint on edges; and when it returns, [nodes_created] is the
    number of node seeds and [edges_created] at most the number of edge
    seeds. *)
Theorem lineage_build_needs_new_nodes (slug : string)
    (nodes : list DashboardCompilerService.NodeSeed)
    (edges : list DashboardCompilerService.EdgeSeed) (db : LineageService.Db) :
  let cleared := snd (LineageService._clear_dashboard_lineage slug db) in
  let outcome := fst (LineageService.build_lineage_for_dashboard slug nodes edges db) in
  (outcome = Raise unbound_datetime <->
   (exists s, In s nodes /\
              LineageService.find_node cleared
                (DashboardCompilerService.node_type s)
                (DashboardCompilerService.node_id s) <> None) \/
   ~ NoDup (map seed_key nodes)) /\
  (forall e, outcome = Raise e -> e = unbound_datetime \/ e = duplicate_edge) /\
  (forall created, outcome = Return created ->
     fst created = Z.of_nat (List.length nodes) /\
     0 <= snd created <= Z.of_nat (List.length edges)).
Proof.
  cbv zeta.
  destruct (build_lineage_outcome slug nodes edges db)
    as [[Hr Hwhy] | [Hout [Hnd Hfresh]]].
  - rewrite Hr. split; [|split].
    + split; [intros _; exact Hwhy | reflexivity].
    + intros e H. left. congruence.
    + intros created H. discriminate.
  - split; [|split].
    + split.
      * intros H. exfalso. destruct Hout as [Hout | [n [Hout _]]];
          rewrite Hout in H; discriminate.
      * intros [[s [Hin Hfound]] | Hdup]; exfalso;
          [apply Hfound; now apply Hfresh | now apply Hdup].
    + intros e H. right. destruct Hout as [Hout | [n [Hout _]]];
        rewrite Hout in H; [congruence | discriminate].
    + intros created H. destruct Hout as [Hout | [n [Hout Hb]]];
        rewrite Hout in H; [discriminate|].
      injection H as <-. cbn [fst snd]. split; [reflexivity | exact Hb].
Qed.

Section SharedTable.
Variable list_of_set : list string -> list string.
Hypothesis listing : set_listing list_of_set.

Lemma listing_in (l : list string) (t : string) : In t l -> In t (list_of_set l).
Proof.
  intros H. apply (Permutation_in t (Permutation_sym (listing l))).
  now apply nodup_In.
Qed.

Lemma table_key_in_query_nodes (d : yaml_schema.DashboardYAML) (q : yaml_schema.Query)
    (t : string) :
  In t (DashboardCompilerService.findall_table_refs (yaml_schema.sql q)) ->
  In (db_models.table, t)
     (map seed_key (DashboardCompilerService.query_nodes list_of_set d q)).
Proof.
  intros H. unfold DashboardCompilerService.query_nodes. cbn [map]. right.
  rewrite map_map. apply in_map_iff. exists t. split; [reflexivity|].
  unfold DashboardCompilerService._extract_table_references. now apply listing_in.
Qed.
End SharedTable.

Lemma not_NoDup_twice {A} (a : A) (l1 l2 l3 l4 : list A) :
  In a l2 -> In a l4 -> ~ NoDup (l1 ++ l2 ++ l3 ++ l4).
Proof.
  intros H2 H4 H. apply NoDup_app_remove_l in H.
  apply in_split in H2. destruct H2 as [u [v ->]].
  rewrite <- !app_assoc in H. apply NoDup_app_remove_l in H.
  cbn [app] in H. inversion H as [|? ? Hnotin _]; subst.
  apply Hnotin. rewrite !in_app_iff. right. right. exact H4.
Qed.

(** X24.  A definition in which two queries read the same table cannot
    have its lineage stored: the seeds name the table node once for each
    of the two queries, the second meets the node the first created, and
    [build_lineage_for_dashboard] raises [UnboundLocalError] whatever the
    tables held before. *)
Theorem shared_table_breaks_lineage (list_of_set : list string -> list string)
    (d : yaml_schema.DashboardYAML) (q1 q2 : yaml_schema.Query)
    (before between rest : list yaml_schema.Query) (t : string)
    (db : LineageService.Db) :
  set_listing list_of_set ->
  yaml_schema.queries d = before ++ q1 :: between ++ q2 :: rest ->
  In t (DashboardCompilerService.findall_table_refs (yaml_schema.sql q1)) ->
  In t (DashboardCompilerService.findall_table_refs (yaml_schema.sql q2)) ->
  let seeds := DashboardCompilerService._build_lineage_seeds list_of_set d in
  fst (LineageService.build_lineage_for_dashboard
         (yaml_schema.slug (yaml_schema.metadata d)) (fst seeds) (snd seeds) db) =
  Raise unbound_datetime.
Proof.
  intros listing Hq H1 H2. cbv zeta.
  destruct (build_lineage_outcome (yaml_schema.slug (yaml_schema.metadata d))
              (fst (DashboardCompilerService._build_lineage_seeds list_of_set d))
              (snd (DashboardCompilerService._build_lineage_seeds list_of_set d)) db)
    as [[Hr _] | [_ [Hnd _]]]; [exact Hr|].
  exfalso.
  unfold DashboardCompilerService._build_lineage_seeds in Hnd. cbn [fst] in Hnd.
  rewrite map_cons, map_app in Hnd.
  apply NoDup_cons_iff in Hnd. destruct Hnd as [_ Hnd].
  apply NoDup_app_remove_l in Hnd. revert Hnd.
  rewrite Hq, flat_map_app. cbn [flat_map]. rewrite flat_map_app. cbn [flat_map].
  rewrite !map_app.
  apply (not_NoDup_twice (db_models.table, t)).
  - now apply table_key_in_query_nodes.
  - apply in_or_app. left. now apply table_key_in_query_nodes.
Qed.

Lemma shared_table_breaks_lineage_witness :
  fst (LineageService.build_lineage_for_dashboard "revenue-dashboard"
         (fst (DashboardCompilerService._build_lineage_seeds listing_forward
                 revenue_dashboard))
         (snd (DashboardCompilerService._build_lineage_seeds listing_forward
                 revenue_dashboard))
         LineageService.empty_db) =
  Raise unbound_datetime.
Proof.
  apply (shared_table_breaks_lineage listing_forward revenue_dashboard
           (sample_query "monthly_revenue"
              "SELECT month, SUM(revenue) AS total FROM `proj.sales.orders` GROUP BY month")
           (sample_query "top_products"
              "SELECT p.name, SUM(o.revenue) AS total FROM proj.sales.orders o JOIN proj.catalog.products p ON o.product_id = p.id GROUP BY p.name")
           [] [] [] "proj.sales.orders" LineageService.empty_db).
  - exact listing_forward_ok.
  - reflexivity.
  - vm_compute. now left.
  - vm_compute. now left.
Defined.

Section Downstream.
Import LineageService.

Lemma in_unless_empty {A B} (l : list A) (r : list B) (x : B) :
  In x (match l with [] => [] | _ :: _ => r end) <-> l <> [] /\ In x r.
Proof.
  destruct l; simpl; split.
  - intros [].
  - intros [H _]. now apply H.
  - intros H. split; [discriminate | exact H].
  - intros [_ H]. exact H.
Qed.

Lemma existsb_Zeqb (z : Z) (l : list Z) : existsb (Z.eqb z) l = true <-> In z l.
Proof.
  rewrite existsb_exists. split.
  - intros [y [Hy E]]. apply Z.eqb_eq in E. now subst.
  - intros H. exists z. split; [exact H | apply Z.eqb_refl].
Qed.

(** The sources of the edges of one type that end in one of [targets]. *)
Lemma in_sources (db : Db) (ty : db_models.EdgeType) (targets : list Z) (z : Z) :
  In z (map source_node_id
          (filter (fun e => existsb (Z.eqb (target_node_id e)) targets &&
                            db_models.EdgeType_eqb (edge_type e) ty)
                  (lineage_edges db))) <->
  exists e, In e (lineage_edges db) /\ In (target_node_id e) targets /\
            edge_type e = ty /\ source_node_id e = z.
Proof.
  rewrite in_map_iff. split.
  - intros [e [Hs He]]. apply filter_In in He. destruct He as [He Hp].
    apply andb_true_iff in Hp. destruct Hp as [Hp1 Hp2].
    apply existsb_Zeqb in Hp1. apply EdgeType_eqb_eq in Hp2. now exists e.
  - intros [e [He [Ht [Hty Hs]]]]. exists e. split; [exact Hs|].
    apply filter_In. split; [exact He|]. apply andb_true_iff. split.
    + now apply existsb_Zeqb.
    + now apply EdgeType_eqb_eq.
Qed.

Lemma in_sources_one (db : Db) (ty : db_models.EdgeType) (target z : Z) :
  In z (map source_node_id
          (filter (fun e => (target_node_id e =? target) &&
                            db_models.EdgeType_eqb (edge_type e) ty)
                  (lineage_edges db))) <->
  exists e, In e (lineage_edges db) /\ target_node_id e = target /\
            edge_type e = ty /\ source_node_id e = z.
Proof.
  rewrite in_map_iff. split.
  - intros [e [Hs He]]. apply filter_In in He. destruct He as [He Hp].
    apply andb_true_iff in Hp. destruct Hp as [Hp1 Hp2].
    apply Z.eqb_eq in Hp1. apply EdgeType_eqb_eq in Hp2. now exists e.
  - intros [e [He [Ht [Hty Hs]]]]. exists e. split; [exact Hs|].
    apply filter_In. split; [exact He|]. apply andb_true_iff. split.
    + now apply Z.eqb_eq.
    + now apply EdgeType_eqb_eq.
Qed.

Lemma in_not_nil {A} (x : A) (l : list A) : In x l -> l <> [].
Proof. intros H ->. exact H. Qed.
End Downstream.

(** X25.  [get_downstream_dashboards] lists a slug exactly when the tables
    hold a path from a dashboard node with that identifier to the node
    found for the table: a [contains] edge from the dashboard node to a
    node, an [executes] edge from that node to a second one, and a
    [reads_from] edge from the second one to the table node.  A table
    without a node, or without such a path, has no downstream dashboard. *)
Theorem downstream_dashboards_follow_edges (db : LineageService.Db)
    (table_name slug : string) :
  In slug (LineageService.get_downstream_dashboards db table_name) <->
  exists table_node reads executes contains dashboard_node,
    LineageService.find_node db db_models.table table_name = Some table_node /\
    In reads (LineageService.lineage_edges db) /\
    LineageService.edge_type reads = db_models.reads_from /\
    LineageService.target_node_id reads = LineageService.id table_node /\
    In executes (LineageService.lineage_edges db) /\
    LineageService.edge_type executes = db_models.executes /\
    LineageService.target_node_id executes = LineageService.source_node_id reads /\
    In contains (LineageService.lineage_edges db) /\
    LineageService.edge_type contains = db_models.contains /\
    LineageService.target_node_id contains = LineageService.source_node_id executes /\
    In dashboard_node (LineageService.lineage_nodes db) /\
    LineageService.node_type dashboard_node = db_models.dashboard /\
    LineageService.id dashboard_node = LineageService.source_node_id contains /\
    LineageService.node_id dashboard_node = slug.
Proof.
  unfold LineageService.get_downstream_dashboards.
  destruct (LineageService.find_node db db_models.table table_name) as [table_node|].
  2:{ split; [intros [] | intros [tn [? [? [? [? [H _]]]]]]; discriminate]. }
  cbv zeta. rewrite !in_unless_empty, in_map_iff. split.
  - intros [Hq [Hc [n [Hslug Hn]]]]. apply filter_In in Hn.
    destruct Hn as [Hn Hp]. apply andb_true_iff in Hp. destruct Hp as [Hid Hty].
    apply existsb_Zeqb in Hid. apply NodeType_eqb_eq in Hty.
    apply in_sources in Hid. destruct Hid as [e3 [He3 [Ht3 [Hty3 Hs3]]]].
    apply in_sources in Ht3. destruct Ht3 as [e2 [He2 [Ht2 [Hty2 Hs2]]]].
    apply in_sources_one in Ht2. destruct Ht2 as [e1 [He1 [Ht1 [Hty1 Hs1]]]].
    exists table_node, e1, e2, e3, n. repeat split; try assumption; congruence.
  - intros [tn [e1 [e2 [e3 [n [Htn [He1 [Hty1 [Ht1 [He2 [Hty2 [Ht2 [He3 [Hty3 [Ht3
             [Hn [Hnty [Hid Hslug]]]]]]]]]]]]]]]]]].
    injection Htn as <-.
    assert (Q : In (LineageService.source_node_id e1)
                  (map LineageService.source_node_id
                     (filter (fun e => (LineageService.target_node_id e =?
                                        LineageService.id table_node) &&
                                       db_models.EdgeType_eqb (LineageService.edge_type e)
                                         db_models.reads_from)
                             (LineageService.lineage_edges db)))).
    { apply in_sources_one. now exists e1. }
    assert (C : In (LineageService.source_node_id e2)
                  (map LineageService.source_node_id
                     (filter (fun e => existsb (Z.eqb (LineageService.target_node_id e))
                                         (map LineageService.source_node_id
                     (filter (fun e => (LineageService.target_node_id e =?
                                        LineageService.id table_node) &&
                                       db_models.EdgeType_eqb (LineageService.edge_type e)
                                         db_models.reads_from)
                             (LineageService.lineage_edges db))) &&
                                       db_models.EdgeType_eqb (LineageService.edge_type e)
                                         db_models.executes)
                             (LineageService.lineage_edges db)))).
    { apply in_sources. exists e2. repeat split; try assumption. now rewrite Ht2. }
    split; [exact (in_not_nil _ _ Q)|]. split; [exact (in_not_nil _ _ C)|].
    exists n. split; [exact Hslug|]. apply filter_In. split; [exact Hn|].
    apply andb_true_iff. split; [|now apply NodeType_eqb_eq].
    apply existsb_Zeqb. apply in_sources. exists e3.
    repeat split; try assumption; [now rewrite Ht3 | now symmetry].
Qed.

(* ================================================================= *)
(** ** Serving and warming dashboards *)

Section StarFree.

Lemma contains_star_cons (c : ascii) (s : string) :
  Py.contains "*" (String c s) = (Ascii.eqb "*" c || Py.contains "*" s)%bool.
Proof. cbn [Py.contains Py.startswith]. now rewrite andb_true_r. Qed.

Lemma contains_star_app (a b : string) :
  Py.contains "*" (a ++ b) = (Py.contains "*" a || Py.contains "*" b)%bool.
Proof.
  induction a as [|c a IH].
  - cbn [append]. destruct (Py.contains "*" b); destruct b; reflexivity.
  - cbn [append]. rewrite !contains_star_cons, IH. now rewrite orb_assoc.
Qed.

Lemma contains_longer (p q s : string) :
  Py.contains (p ++ q) s = true -> Py.contains q s = true.
Proof.
  intros H. apply contains_app in H. destruct H as [pre [post ->]].
  apply contains_app. exists (pre ++ p)%string, post.
  now rewrite !append_assoc.
Qed.

Lemma digit_is_no_star (n : Z) :
  Ascii.eqb "*" (ascii_of_N (Z.to_N (48 + n mod 10))) = false.
Proof.
  apply Ascii.eqb_neq. intros H.
  assert (B : 0 <= n mod 10 < 10) by (apply Z.mod_pos_bound; lia).
  apply (f_equal N_of_ascii) in H. rewrite N_ascii_embedding in H by lia.
  change (N_of_ascii "*") with 42%N in H. lia.
Qed.

Lemma digits_fuel_star_free (fuel : nat) :
  forall (n : Z) (acc : string),
    Py.contains "*" acc = false ->
    Py.contains "*" (Py.digits_fuel fuel n acc) = false.
Proof.
  induction fuel as [|f IH]; intros n acc H; cbn [Py.digits_fuel]; [exact H|].
  assert (X : Py.contains "*"
                (String (ascii_of_N (Z.to_N (48 + n mod 10))) acc) = false).
  { now rewrite contains_star_cons, digit_is_no_star, H. }
  destruct (n / 10 =? 0); [exact X | now apply IH].
Qed.

Lemma str_int_star_free (n : Z) : Py.contains "*" (Py.str_int n) = false.
Proof.
  unfold Py.str_int, Py.digits. destruct (n <? 0).
  - rewrite contains_star_cons. now rewrite digits_fuel_star_free.
  - now apply digits_fuel_star_free.
Qed.

(** The keys the services write hold no star unless the slug or the chart
    identifier does. *)
Lemma data_cache_key_star_free (slug : string) (version : Z) :
  Py.contains "*" slug = false ->
  Py.contains "*" (DataServingService.data_cache_key slug version) = false.
Proof.
  intros H. unfold DataServingService.data_cache_key.
  rewrite !contains_star_app, H, str_int_star_free. reflexivity.
Qed.

Lemma chart_cache_key_star_free (slug chart_id : string) (version : Z) :
  Py.contains "*" slug = false -> Py.contains "*" chart_id = false ->
  Py.contains "*" (DataServingService.chart_cache_key slug chart_id version) = false.
Proof.
  intros H1 H2. unfold DataServingService.chart_cache_key.
  rewrite !contains_star_app, H1, H2, str_int_star_free. reflexivity.
Qed.

Lemma invalidation_pattern_needs_star (slug key : string) :
  Py.contains "*" key = false ->
  Py.contains ("dashboard:" ++ slug ++ ":*") key = false.
Proof.
  intros H.
  destruct (Py.contains ("dashboard:" ++ slug ++ ":*") key) eqn:E; [|reflexivity].
  change ("dashboard:" ++ slug ++ ":*")%string
    with ("dashboard:" ++ (slug ++ ":*"))%string in E.
  apply contains_longer in E.
  change (slug ++ ":*")%string with (slug ++ (":" ++ "*"))%string in E.
  apply contains_longer in E. apply contains_longer in E. congruence.
Qed.
End StarFree.

(** X26.  [invalidate_dashboard_cache] asks the cache to drop the keys
    that contain the text [dashboard:<slug>:*], star included.  With the
    in-process cache the entries the services store for a slug without a
    star stay as they are, for every version and every chart identifier
    without a star; and a cache none of whose keys holds a star is left
    untouched, the count returned being zero. *)
Theorem dashboard_invalidation_keeps_served_data (s : DataServingService.state)
    (slug : string) :
  Py.contains "*" slug = false ->
  let count := fst (DataServingService.invalidate_dashboard_cache s slug) in
  let s' := snd (DataServingService.invalidate_dashboard_cache s slug) in
  let entry (st : DataServingService.state) :=
    Py.dict_get (InMemoryCache._cache (DataServingService.cache st)) in
  DataServingService.dashboards s' = DataServingService.dashboards s /\
  (forall version,
      entry s' (DataServingService.data_cache_key slug version) =
      entry s (DataServingService.data_cache_key slug version)) /\
  (forall chart_id version,
      Py.contains "*" chart_id = false ->
      entry s' (DataServingService.chart_cache_key slug chart_id version) =
      entry s (DataServingService.chart_cache_key slug chart_id version)) /\
  ((forall key, In key (Py.dict_keys (InMemoryCache._cache (DataServingService.cache s))) ->
                Py.contains "*" key = false) ->
   count = 0 /\ s' = s).
Proof.
  intros Hslug. cbv zeta. unfold DataServingService.invalidate_dashboard_cache.
  pose proof (invalidate_pattern_cache (DataServingService.cache s)
                ("dashboard:" ++ slug ++ ":*")%string) as Hc.
  destruct (InMemoryCache.invalidate_pattern (DataServingService.cache s)
              ("dashboard:" ++ slug ++ ":*")%string) as [count c] eqn:E.
  cbn [fst snd DataServingService.dashboards DataServingService.cache] in *.
  split; [reflexivity|]. split; [|split].
  - intros version. rewrite Hc. apply dict_get_filter_kept. cbn [fst].
    rewrite invalidation_pattern_needs_star; [reflexivity|].
    now apply data_cache_key_star_free.
  - intros chart_id version Hchart. rewrite Hc. apply dict_get_filter_kept. cbn [fst].
    rewrite invalidation_pattern_needs_star; [reflexivity|].
    now apply chart_cache_key_star_free.
  - intros Hkeys. unfold InMemoryCache.invalidate_pattern in E.
    assert (K : filter (fun key => Py.contains ("dashboard:" ++ slug ++ ":*") key)
                  (Py.dict_keys (InMemoryCache._cache (DataServingService.cache s))) = []).
    { apply filter_none. intros key Hin.
      apply invalidation_pattern_needs_star. now apply Hkeys. }
    rewrite K in E. cbn [List.length fold_left] in E. injection E as <- <-.
    split; [reflexivity|]. destruct s as [rows [m t d]]. reflexivity.
Qed.

(** A row of [dashboards], a service state with an empty cache, clocks
    that read one instant throughout a call, and a rendering of instants. *)
Definition revenue_row : db_models.Dashboard :=
  {| db_models.slug := "revenue-dashboard";
     db_models.name := "Revenue";
     db_models.version := 3;
     db_models.view_type := db_models.analytical;
     db_models.updated_at := 0;
     db_models.last_accessed := None;
     db_models.access_count := 0 |}.

Definition serving_state : DataServingService.state :=
  {| DataServingService.dashboards := [revenue_row];
     DataServingService.cache := InMemoryCache.init 1000 86400 |}.

Definition clock_at (t : Q) : DataServingService.clock :=
  {| DataServingService.get_purge := t;
     DataServingService.get_check := t;
     DataServingService.set_purge := t;
     DataServingService.set_stamp := t;
     DataServingService.utcnow1 := t;
     DataServingService.utcnow2 := t;
     DataServingService.utcnow3 := t |}.

Definition seconds_text (t : Q) : string := Py.str_int (Qnum t / Z.pos (Qden t)).

Lemma dashboard_invalidation_keeps_served_data_witness :
  let s := snd (DataServingService.serve_dashboard_data 3600 seconds_text
                  serving_state "revenue-dashboard" false (clock_at 10)) in
  Py.contains "*" "revenue-dashboard" = false /\
  DataServingService.dashboards
    (snd (DataServingService.invalidate_dashboard_cache s "revenue-dashboard")) =
  DataServingService.dashboards s /\
  fst (DataServingService.invalidate_dashboard_cache s "revenue-dashboard") = 0 /\
  snd (DataServingService.invalidate_dashboard_cache s "revenue-dashboard") = s /\
  Py.dict_keys (InMemoryCache._cache (DataServingService.cache s)) =
    ["dashboard:revenue-dashboard:data:v3"].
Proof.
  cbv zeta.
  destruct (dashboard_invalidation_keeps_served_data
              (snd (DataServingService.serve_dashboard_data 3600 seconds_text
                      serving_state "revenue-dashboard" false (clock_at 10)))
              "revenue-dashboard" eq_refl) as [H1 [_ [_ H4]]].
  split; [reflexivity|]. split; [exact H1|].
  destruct H4 as [H5 H6].
  - intros key Hin. vm_compute in Hin. destruct Hin as [<- | []]. reflexivity.
  - split; [exact H5|]. split; [exact H6|]. reflexivity.
Defined.

Section Serving.
Import DataServingService.
Variable cache_default_ttl : Z.
Variable isoformat : Q -> string.

Lemma find_map_same_key {A} (key : A -> string) (f : A -> A) (k : string) (l : list A) :
  (forall a, key (f a) = key a) ->
  find (fun a => String.eqb (key a) k) (map f l) =
  option_map f (find (fun a => String.eqb (key a) k) l).
Proof.
  intros H. induction l as [|a l IH]; [reflexivity|]. cbn [map find].
  rewrite H. destruct (String.eqb (key a) k); [reflexivity | exact IH].
Qed.

(** Recording an access or an update keeps the slug, the name, the version
    and the view type of every row. *)
Lemma get_dashboard_after_access (now : Q) (touched : string) (s : state)
    (c : InMemoryCache.t Py.Json) (slug : string) (dashboard : db_models.Dashboard) :
  _get_dashboard s slug = inr dashboard ->
  exists dashboard',
    _get_dashboard {| dashboards := record_access now touched (dashboards s);
                      cache := c |} slug = inr dashboard' /\
    db_models.version dashboard' = db_models.version dashboard /\
    db_models.name dashboard' = db_models.name dashboard /\
    db_models.view_type dashboard' = db_models.view_type dashboard.
Proof.
  unfold _get_dashboard, record_access. cbn [dashboards].
  rewrite (find_map_same_key db_models.slug).
  2:{ intros a. now destruct (String.eqb (db_models.slug a) touched). }
  destruct (find _ (dashboards s)) as [d|]; [|discriminate].
  intros H. injection H as <-. cbn [option_map].
  eexists. split; [reflexivity|].
  destruct (String.eqb (db_models.slug d) touched); repeat split.
Qed.

Lemma get_dashboard_after_update (now : Q) (touched : string) (s : state)
    (c : InMemoryCache.t Py.Json) (slug : string) (dashboard : db_models.Dashboard) :
  PrecomputeService._get_dashboard s slug = inr dashboard ->
  exists dashboard',
    _get_dashboard {| dashboards := PrecomputeService.record_update now touched
                                      (dashboards s);
                      cache := c |} slug = inr dashboard' /\
    db_models.version dashboard' = db_models.version dashboard /\
    db_models.name dashboard' = db_models.name dashboard /\
    db_models.view_type dashboard' = db_models.view_type dashboard.
Proof.
  unfold PrecomputeService._get_dashboard, _get_dashboard,
    PrecomputeService.record_update. cbn [dashboards].
  rewrite (find_map_same_key db_models.slug).
  2:{ intros a. now destruct (String.eqb (db_models.slug a) touched). }
  destruct (find _ (dashboards s)) as [d|]; [|discriminate].
  intros H. injection H as <-. cbn [option_map].
  eexists. split; [reflexivity|].
  destruct (String.eqb (db_models.slug d) touched); repeat split.
Qed.

Lemma set_returns_true {V : Type} (c c' : InMemoryCache.t V) t1 t2 key value ttl b :
  InMemoryCache.set c t1 t2 key value ttl = (Return b, c') -> b = true.
Proof.
  unfold InMemoryCache.set. cbv zeta.
  destruct (InMemoryCache._evict_lru _) as [[u|e] c2]; intros H;
    [now injection H | discriminate].
Qed.

(** A request that finds a live, truthy dictionary under the data key of
    the dashboard answers with it. *)
Lemma serve_live_entry (s : state) (slug : string) (clk : clock)
    (dashboard : db_models.Dashboard) (field : string * Py.Json)
    (fields : list (string * Py.Json)) (expiry : Q) :
  wf_cache (cache s) ->
  _get_dashboard s slug = inr dashboard ->
  Py.dict_get (InMemoryCache._cache (cache s))
    (data_cache_key slug (db_models.version dashboard)) =
    Some (Py.JDict (field :: fields), expiry) ->
  (get_purge clk <= expiry)%Q -> (get_check clk <= expiry)%Q ->
  exists s',
    serve_dashboard_data cache_default_ttl isoformat s slug false clk =
    (inr {| dashboard_slug := slug;
            version := db_models.version dashboard;
            data := Py.JDict (field :: fields);
            cache_hit := true;
            as_of := match Py.dict_get (field :: fields) "computed_at" with
                     | Some x => x
                     | None => Py.JNone
                     end;
            metadata_name := db_models.name dashboard;
            metadata_view_type :=
              db_models.ViewType_value (db_models.view_type dashboard) |}, s').
Proof.
  intros Hwf Hd Hentry H1 H2. unfold serve_dashboard_data. rewrite Hd.
  cbv zeta. cbn [negb andb]. unfold cache_get.
  pose proof (get_live (cache s) (get_purge clk) (get_check clk) _ _ _
                Hwf Hentry H1 H2) as Hget.
  destruct (InMemoryCache.get (cache s) (get_purge clk) (get_check clk)
              (data_cache_key slug (db_models.version dashboard))) as [v c1].
  cbn [fst] in Hget. subst v. cbn [Py.truthy Json_get]. eexists. reflexivity.
Qed.
End Serving.

Section Warm.
Import DataServingService.
Variable cache_default_ttl : Z.
Variable isoformat : Q -> string.

Lemma cache_get_cache (c : InMemoryCache.t Py.Json) (t1 t2 : Q) (key : string) :
  snd (cache_get c t1 t2 key) = snd (InMemoryCache.get c t1 t2 key).
Proof.
  unfold cache_get. now destruct (InMemoryCache.get c t1 t2 key) as [[v|] c'].
Qed.

(** What a request that computes leaves in the cache. *)
Lemma computed_entry_stored (c1 c2 : InMemoryCache.t Py.Json) (t1 t2 : Q)
    (key : string) (value : Py.Json) (b : bool) :
  wf_cache c1 ->
  InMemoryCache.set c1 t1 t2 key value (Some cache_default_ttl) = (Return b, c2) ->
  wf_cache c2 /\
  Py.dict_get (InMemoryCache._cache c2) key =
  Some (value,
        (t2 + inject_Z (Py.or_int (Some cache_default_ttl)
                          (InMemoryCache.default_ttl c1)))%Q).
Proof.
  intros Hwf Hset. pose proof (set_returns_true _ _ _ _ _ _ _ _ Hset) as ->.
  split.
  - pose proof (wf_set_call c1 t1 t2 key value (Some cache_default_ttl) Hwf) as H.
    now rewrite Hset in H.
  - exact (set_stores _ _ _ _ _ _ _ Hset).
Qed.
End Warm.

(** X27.  A request for the data of a dashboard that was computed (not
    served from the cache) leaves the data in the cache: the next request
    for the same slug without [force_refresh], made while both clock
    readings of its cache lookup are no later than the expiry, is a cache
    hit and returns the same data, [as_of] and version. *)
Theorem repeated_request_is_served_from_cache (cache_default_ttl : Z)
    (isoformat : Q -> string) (s s1 : DataServingService.state) (slug : string)
    (force_refresh : bool) (clk1 clk2 : DataServingService.clock)
    (d1 : DataServingService.DashboardData) :
  wf_cache (DataServingService.cache s) ->
  DataServingService.serve_dashboard_data cache_default_ttl isoformat s slug
    force_refresh clk1 = (inr d1, s1) ->
  DataServingService.cache_hit d1 = false ->
  let expiry :=
    (DataServingService.set_stamp clk1 +
     inject_Z (Py.or_int (Some cache_default_ttl)
                 (InMemoryCache.default_ttl (DataServingService.cache s))))%Q in
  (DataServingService.get_purge clk2 <= expiry)%Q ->
  (DataServingService.get_check clk2 <= expiry)%Q ->
  exists d2 s2,
    DataServingService.serve_dashboard_data cache_default_ttl isoformat s1 slug
      false clk2 = (inr d2, s2) /\
    DataServingService.cache_hit d2 = true /\
    DataServingService.data d2 = DataServingService.data d1 /\
    DataServingService.as_of d2 = DataServingService.as_of d1 /\
    DataServingService.version d2 = DataServingService.version d1.
Proof.
  intros Hwf Hserve Hmiss expiry H1 H2. subst expiry.
  unfold DataServingService.serve_dashboard_data in Hserve.
  destruct (DataServingService._get_dashboard s slug) as [e|dashboard] eqn:Hd;
    [discriminate|].
  cbv zeta in Hserve.
  destruct (if force_refresh
            then (Py.JNone, DataServingService.cache s)
            else DataServingService.cache_get (DataServingService.cache s)
                   (DataServingService.get_purge clk1)
                   (DataServingService.get_check clk1)
                   (DataServingService.data_cache_key slug
                      (db_models.version dashboard))) as [cached c1] eqn:Hc.
  assert (Hc1 : wf_cache c1 /\
                InMemoryCache.default_ttl c1 =
                InMemoryCache.default_ttl (DataServingService.cache s)).
  { destruct force_refresh.
    - injection Hc as _ <-. now split.
    - apply (f_equal snd) in Hc. rewrite cache_get_cache in Hc. cbn [snd] in Hc.
      subst c1. split; [now apply wf_get | apply get_config]. }
  destruct Hc1 as [Hwf1 Httl].
  destruct (negb force_refresh && Py.truthy cached)%bool.
  - destruct (DataServingService.Json_get cached "computed_at");
      [discriminate|]. injection Hserve as <- _. discriminate.
  - destruct (InMemoryCache.set c1 _ _ _ _ _) as [[b|e] c2] eqn:Hset;
      [|discriminate].
    injection Hserve as <- <-.
    destruct (computed_entry_stored _ _ _ _ _ _ _ _ Hwf1 Hset) as [Hwf2 Hentry].
    rewrite Httl in Hentry.
    destruct (get_dashboard_after_access (DataServingService.utcnow2 clk1) slug s c2
                slug dashboard Hd) as [dashboard' [Hd' [Hv [Hn Hvt]]]].
    rewrite <- Hv in Hentry.
    match type of Hd' with
    | DataServingService._get_dashboard ?st _ = _ =>
        destruct (serve_live_entry cache_default_ttl isoformat st slug clk2 dashboard'
                    _ _ _ Hwf2 Hd' Hentry H1 H2) as [s2 Hs2]
    end.
    eexists _, s2. split; [exact Hs2|].
    cbn [DataServingService.cache_hit DataServingService.data
           DataServingService.as_of DataServingService.version].
    rewrite Hv. repeat split.
Qed.

Lemma repeated_request_is_served_from_cache_witness :
  exists d2 s2,
    DataServingService.serve_dashboard_data 3600 seconds_text
      (snd (DataServingService.serve_dashboard_data 3600 seconds_text
              serving_state "revenue-dashboard" false (clock_at 10)))
      "revenue-dashboard" false (clock_at 3610) = (inr d2, s2) /\
    DataServingService.cache_hit d2 = true /\
    DataServingService.data d2 =
      DataServingService.data
        {| DataServingService.dashboard_slug := "revenue-dashboard";
           DataServingService.version := 3;
           DataServingService.data :=
             Py.JDict
               [("computed_at", Py.JStr "10"); ("charts", Py.JDict []);
                ("query_count", Py.JInt 0);
                ("note", Py.JStr "TODO: Implement query execution via StorageService + CompilerService + SQLExecutorService")];
           DataServingService.cache_hit := false;
           DataServingService.as_of := Py.JStr "10";
           DataServingService.metadata_name := "Revenue";
           DataServingService.metadata_view_type := "analytical" |} /\
    DataServingService.as_of d2 = Py.JStr "10" /\
    DataServingService.version d2 = 3.
Proof.
  apply (repeated_request_is_served_from_cache 3600 seconds_text serving_state
           (snd (DataServingService.serve_dashboard_data 3600 seconds_text
                   serving_state "revenue-dashboard" false (clock_at 10)))
           "revenue-dashboard" false (clock_at 10) (clock_at 3610)).
  - constructor.
  - vm_compute. reflexivity.
  - reflexivity.
  - vm_compute. discriminate.
  - vm_compute. discriminate.
Defined.

(** X28.  [precompute_dashboard] warms the cache for [serve_dashboard_data]:
    after a precompute that returned, a request for the slug without
    [force_refresh], made before the entry expires, is a cache hit whose
    [as_of] is the [computed_at] of the precompute and whose version is the
    one it reported; the key it reported is the key the request reads. *)
Theorem precompute_warms_serving (cache_default_ttl : Z) (isoformat : Q -> string)
    (s s1 : DataServingService.state) (slug : string)
    (clk1 clk2 : DataServingService.clock)
    (result : PrecomputeService.PrecomputeResult) :
  wf_cache (DataServingService.cache s) ->
  PrecomputeService.precompute_dashboard cache_default_ttl isoformat s slug clk1 =
    (inr result, s1) ->
  let expiry :=
    (DataServingService.set_stamp clk1 +
     inject_Z (Py.or_int (Some cache_default_ttl)
                 (InMemoryCache.default_ttl (DataServingService.cache s))))%Q in
  (DataServingService.get_purge clk2 <= expiry)%Q ->
  (DataServingService.get_check clk2 <= expiry)%Q ->
  exists d2 s2,
    DataServingService.serve_dashboard_data cache_default_ttl isoformat s1 slug
      false clk2 = (inr d2, s2) /\
    DataServingService.cache_hit d2 = true /\
    DataServingService.as_of d2 = Py.JStr (PrecomputeService.computed_at result) /\
    DataServingService.version d2 = PrecomputeService.result_version result /\
    PrecomputeService.cache_key result =
      DataServingService.data_cache_key slug (DataServingService.version d2) /\
    PrecomputeService.status result = "success".
Proof.
  intros Hwf Hpre expiry H1 H2. subst expiry.
  unfold PrecomputeService.precompute_dashboard in Hpre. cbv zeta in Hpre.
  destruct (PrecomputeService._get_dashboard s slug) as [e|dashboard] eqn:Hd;
    [discriminate|].
  destruct (InMemoryCache.set (DataServingService.cache s) _ _ _ _ _)
    as [[b|e] c2] eqn:Hset; [|discriminate].
  injection Hpre as <- <-.
  destruct (computed_entry_stored _ _ _ _ _ _ _ _ Hwf Hset) as [Hwf2 Hentry].
  destruct (get_dashboard_after_update (DataServingService.utcnow2 clk1) slug s c2
              slug dashboard Hd) as [dashboard' [Hd' [Hv [Hn Hvt]]]].
  rewrite <- Hv in Hentry.
  match type of Hd' with
  | DataServingService._get_dashboard ?st _ = _ =>
      destruct (serve_live_entry cache_default_ttl isoformat st slug clk2 dashboard'
                  _ _ _ Hwf2 Hd' Hentry H1 H2) as [s2 Hs2]
  end.
  eexists _, s2. split; [exact Hs2|].
  cbn [DataServingService.cache_hit DataServingService.as_of
         DataServingService.version PrecomputeService.computed_at
         PrecomputeService.result_version PrecomputeService.cache_key
         PrecomputeService.status].
  rewrite Hv. repeat split.
Qed.

Lemma precompute_warms_serving_witness :
  exists d2 s2,
    DataServingService.serve_dashboard_data 3600 seconds_text
      (snd (PrecomputeService.precompute_dashboard 3600 seconds_text
              serving_state "revenue-dashboard" (clock_at 10)))
      "revenue-dashboard" false (clock_at 20) = (inr d2, s2) /\
    DataServingService.cache_hit d2 = true /\
    DataServingService.as_of d2 = Py.JStr "10" /\
    DataServingService.version d2 = 3 /\
    "dashboard:revenue-dashboard:data:v3" =
      DataServingService.data_cache_key "revenue-dashboard"
        (DataServingService.version d2) /\
    "success" = "success".
Proof.
  apply (precompute_warms_serving 3600 seconds_text serving_state
           (snd (PrecomputeService.precompute_dashboard 3600 seconds_text
                   serving_state "revenue-dashboard" (clock_at 10)))
           "revenue-dashboard" (clock_at 10) (clock_at 20)
           {| PrecomputeService.result_slug := "revenue-dashboard";
              PrecomputeService.result_version := 3;
              PrecomputeService.computed_at := "10";
              PrecomputeService.duration_ms := 0;
              PrecomputeService.query_count := 0;
              PrecomputeService.cache_key := "dashboard:revenue-dashboard:data:v3";
              PrecomputeService.status := "success" |}).
  - constructor.
  - vm_compute. reflexivity.
  - vm_compute. discriminate.
  - vm_compute. discriminate.
Defined.

(** The entry [precompute_multiple] appends for an outcome of
    [precompute_dashboard]. *)
Definition batch_entry (slug : string)
    (outcome : DataServingService.error + PrecomputeService.PrecomputeResult)
  : PrecomputeService.BatchEntry :=
  match outcome with
  | inr result => PrecomputeService.Succeeded slug result
  | inl e => PrecomputeService.Failed slug (DataServingService.str e)
  end.

Definition known (s : DataServingService.state) (slug : string) : bool :=
  match PrecomputeService._get_dashboard s slug with
  | inr _ => true
  | inl _ => false
  end.

Section BatchPrecompute.
Import DataServingService PrecomputeService.
Variable cache_default_ttl : Z.
Variable isoformat : Q -> string.
Variable clocks : nat -> clock.

(** Two states in which every slug finds a row of the same version, with
    caches of the same positive capacity. *)
Definition same_table (s s' : state) : Prop :=
  0 < InMemoryCache.max_size (cache s') /\
  forall slug,
    match PrecomputeService._get_dashboard s slug,
          PrecomputeService._get_dashboard s' slug with
    | inr d, inr d' => db_models.version d' = db_models.version d
    | inl _, inl _ => True
    | _, _ => False
    end.

Lemma precompute_outcome (s : state) (slug : string) (clk : clock) :
  0 < InMemoryCache.max_size (cache s) ->
  fst (precompute_dashboard cache_default_ttl isoformat s slug clk) =
  match PrecomputeService._get_dashboard s slug with
  | inl e => inl e
  | inr dashboard =>
      inr {| result_slug := slug;
             result_version := db_models.version dashboard;
             computed_at := isoformat (utcnow2 clk);
             duration_ms := BigQueryClient.millis (utcnow3 clk - utcnow1 clk);
             query_count := 0;
             cache_key := data_cache_key slug (db_models.version dashboard);
             status := "success" |}
  end.
Proof.
  intros Hsize. unfold precompute_dashboard. cbv zeta.
  destruct (PrecomputeService._get_dashboard s slug) as [e|dashboard]; [reflexivity|].
  match goal with
  | |- context [InMemoryCache.set ?c ?t1 ?t2 ?k ?v ?ttl] =>
      destruct (set_succeeds c t1 t2 k v ttl Hsize) as [c' ->]
  end.
  reflexivity.
Qed.

Lemma get_dashboard_update_version (now : Q) (touched : string) (s : state)
    (c : InMemoryCache.t Py.Json) (slug : string) :
  match PrecomputeService._get_dashboard s slug,
        PrecomputeService._get_dashboard
          {| dashboards := record_update now touched (dashboards s); cache := c |} slug
  with
  | inr d, inr d' => db_models.version d' = db_models.version d
  | inl _, inl _ => True
  | _, _ => False
  end.
Proof.
  unfold PrecomputeService._get_dashboard, record_update. cbn [dashboards].
  rewrite (find_map_same_key db_models.slug).
  2:{ intros a. now destruct (String.eqb (db_models.slug a) touched). }
  destruct (find _ (dashboards s)) as [d|]; cbn [option_map]; [|exact I].
  now destruct (String.eqb (db_models.slug d) touched).
Qed.

Lemma same_table_refl (s : state) :
  0 < InMemoryCache.max_size (cache s) -> same_table s s.
Proof.
  intros H. split; [exact H|]. intros slug.
  now destruct (PrecomputeService._get_dashboard s slug).
Qed.

Lemma same_table_outcome (s s' : state) (slug : string) (clk : clock) :
  0 < InMemoryCache.max_size (cache s) -> same_table s s' ->
  fst (precompute_dashboard cache_default_ttl isoformat s' slug clk) =
  fst (precompute_dashboard cache_default_ttl isoformat s slug clk).
Proof.
  intros Hs [Hs' Hrows]. rewrite !precompute_outcome by assumption.
  specialize (Hrows slug).
  destruct (PrecomputeService._get_dashboard s slug) as [e|d] eqn:E,
           (PrecomputeService._get_dashboard s' slug) as [e'|d'] eqn:E';
    try contradiction.
  - unfold PrecomputeService._get_dashboard in E, E'.
    destruct (find _ (dashboards s)); [discriminate|].
    destruct (find _ (dashboards s')); [discriminate|]. congruence.
  - now rewrite Hrows.
Qed.

Lemma same_table_step (s s' : state) (slug : string) (clk : clock) :
  same_table s s' ->
  same_table s (snd (precompute_dashboard cache_default_ttl isoformat s' slug clk)).
Proof.
  intros [Hs' Hrows]. unfold precompute_dashboard. cbv zeta.
  destruct (PrecomputeService._get_dashboard s' slug) as [e|d] eqn:E;
    [now split|].
  match goal with
  | |- context [InMemoryCache.set ?c ?t1 ?t2 ?k ?v ?ttl] =>
      pose proof (set_config c t1 t2 k v ttl) as [Hsize _];
      destruct (set_succeeds c t1 t2 k v ttl Hs') as [c' Hset];
      rewrite Hset in Hsize |- *
  end.
  cbn [snd] in *. split; [cbn [cache]; lia|]. intros slug'.
  specialize (Hrows slug').
  pose proof (get_dashboard_update_version (utcnow2 clk) slug s' c' slug') as Hup.
  destruct (PrecomputeService._get_dashboard s slug'),
           (PrecomputeService._get_dashboard s' slug'),
           (PrecomputeService._get_dashboard _ slug');
    try contradiction; try exact I. congruence.
Qed.

(** The entries of a batch in which every dashboard is precomputed from
    the state [s], the one at position [i + k] with the clocks
    [clocks (i + k)]. *)
Fixpoint entries_alone (s : state) (i : nat) (slugs : list string) : list BatchEntry :=
  match slugs with
  | [] => []
  | slug :: rest =>
      batch_entry slug
        (fst (precompute_dashboard cache_default_ttl isoformat s slug (clocks i)))
      :: entries_alone s (S i) rest
  end.

Lemma entries_alone_nth (s : state) (slugs : list string) :
  forall (i k : nat) (slug : string),
    nth_error slugs k = Some slug ->
    nth_error (entries_alone s i slugs) k =
    Some (batch_entry slug
            (fst (precompute_dashboard cache_default_ttl isoformat s slug
                    (clocks (i + k))))).
Proof.
  induction slugs as [|x rest IH]; intros i k slug H; [now destruct k|].
  destruct k as [|k]; cbn [nth_error entries_alone] in *.
  - injection H as <-. now rewrite Nat.add_0_r.
  - rewrite (IH (S i) k slug H). now rewrite Nat.add_succ_r.
Qed.

Lemma entries_alone_length (s : state) (slugs : list string) (i : nat) :
  List.length (entries_alone s i slugs) = List.length slugs.
Proof.
  revert i. induction slugs as [|x rest IH]; intros i; [reflexivity|].
  cbn [entries_alone List.length]. now rewrite IH.
Qed.

Lemma precompute_each_spec (s : state) (slugs : list string) :
  0 < InMemoryCache.max_size (cache s) ->
  forall (s' : state) (i : nat) (acc : list BatchEntry) (successful failed : Z),
    same_table s s' ->
    fst (precompute_each cache_default_ttl isoformat s' slugs clocks i acc
           successful failed) =
    (acc ++ entries_alone s i slugs,
     successful + Z.of_nat (List.length (filter (known s) slugs)),
     failed + Z.of_nat (List.length (filter (fun slug => negb (known s slug)) slugs))).
Proof.
  intros Hs. induction slugs as [|slug rest IH]; intros s' i acc su fa Hsame.
  - cbn. now rewrite app_nil_r, !Z.add_0_r.
  - cbn [precompute_each entries_alone filter].
    pose proof (same_table_outcome s s' slug (clocks i) Hs Hsame) as Hout.
    pose proof (same_table_step s s' slug (clocks i) Hsame) as Hnext.
    pose proof (precompute_outcome s slug (clocks i) Hs) as Halone.
    destruct (precompute_dashboard cache_default_ttl isoformat s' slug (clocks i))
      as [[e|result] s''].
    + cbn [fst snd] in *. rewrite (IH s'' (S i) _ _ _ Hnext).
      rewrite <- Hout. cbn [batch_entry].
      unfold known. rewrite <- Hout in Halone.
      destruct (PrecomputeService._get_dashboard s slug); [|discriminate].
      cbn [negb List.length]. rewrite <- app_assoc. cbn [app].
      repeat match goal with |- (_, _) = (_, _) => f_equal end; lia.
    + cbn [fst snd] in *. rewrite (IH s'' (S i) _ _ _ Hnext).
      rewrite <- Hout. cbn [batch_entry].
      unfold known. rewrite <- Hout in Halone.
      destruct (PrecomputeService._get_dashboard s slug); [discriminate|].
      cbn [negb List.length]. rewrite <- app_assoc. cbn [app].
      repeat match goal with |- (_, _) = (_, _) => f_equal end; lia.
Qed.
End BatchPrecompute.

(** X29.  With a cache of positive capacity, [precompute_multiple] reports
    one entry for each slug, in the order of the slugs, and the entry is
    the outcome the dashboard would have had if it had been precomputed
    alone from the initial state: a missing dashboard gives a failed entry
    and does not stop the others.  [successful] counts the slugs that have
    a row, [failed] the others, and the two add up to [total], the number
    of slugs. *)
Theorem batch_precompute_reports_every_slug (cache_default_ttl : Z)
    (isoformat : Q -> string) (clocks : nat -> DataServingService.clock)
    (s : DataServingService.state) (slugs : list string) :
  0 < InMemoryCache.max_size (DataServingService.cache s) ->
  let r := fst (PrecomputeService.precompute_multiple cache_default_ttl isoformat
                  s slugs clocks) in
  PrecomputeService.total r = Z.of_nat (List.length slugs) /\
  PrecomputeService.successful r =
    Z.of_nat (List.length (filter (known s) slugs)) /\
  PrecomputeService.failed r =
    Z.of_nat (List.length (filter (fun slug => negb (known s slug)) slugs)) /\
  PrecomputeService.successful r + PrecomputeService.failed r =
    PrecomputeService.total r /\
  List.length (PrecomputeService.results r) = List.length slugs /\
  (forall i slug,
      nth_error slugs i = Some slug ->
      nth_error (PrecomputeService.results r) i =
      Some (batch_entry slug
              (fst (PrecomputeService.precompute_dashboard cache_default_ttl
                      isoformat s slug (clocks i)))) /\
      (known s slug = false ->
       nth_error (PrecomputeService.results r) i =
       Some (PrecomputeService.Failed slug
               ("Dashboard '" ++ slug ++ "' not found")%string))).
Proof.
  intros Hs. cbv zeta. unfold PrecomputeService.precompute_multiple.
  pose proof (precompute_each_spec cache_default_ttl isoformat clocks s slugs Hs
                s O [] 0 0 (same_table_refl s Hs)) as H.
  destruct (PrecomputeService.precompute_each _ _ s slugs clocks 0 [] 0 0)
    as [[[results successful] failed] s'].
  cbn [fst] in H. injection H as -> -> ->.
  cbn [fst PrecomputeService.total PrecomputeService.successful
         PrecomputeService.failed PrecomputeService.results app Z.add].
  split; [reflexivity|]. split; [reflexivity|]. split; [reflexivity|].
  split; [|split].
  - rewrite <- Nat2Z.inj_add. f_equal.
    rewrite (length_filter_split (known s) slugs). reflexivity.
  - apply entries_alone_length.
  - intros i slug Hi.
    pose proof (entries_alone_nth cache_default_ttl isoformat clocks s slugs O i slug Hi)
      as Hn.
    cbn [Nat.add] in Hn. split; [exact Hn|].
    intros Hk. rewrite Hn. rewrite precompute_outcome by exact Hs.
    unfold known in Hk. unfold PrecomputeService._get_dashboard in *.
    destruct (find _ (DataServingService.dashboards s)); [discriminate|].
    reflexivity.
Qed.

Lemma batch_precompute_reports_every_slug_witness :
  let r := fst (PrecomputeService.precompute_multiple 3600 seconds_text
                  serving_state ["missing"; "revenue-dashboard"] (fun _ => clock_at 10)) in
  PrecomputeService.total r = 2 /\
  PrecomputeService.successful r = 1 /\
  PrecomputeService.failed r = 1 /\
  nth_error (PrecomputeService.results r) 0 =
    Some (PrecomputeService.Failed "missing" "Dashboard 'missing' not found") /\
  nth_error (PrecomputeService.results r) 1 =
    Some (batch_entry "revenue-dashboard"
            (fst (PrecomputeService.precompute_dashboard 3600 seconds_text
                    serving_state "revenue-dashboard" (clock_at 10)))).
Proof.
  cbv zeta.
  destruct (batch_precompute_reports_every_slug 3600 seconds_text
              (fun _ => clock_at 10) serving_state ["missing"; "revenue-dashboard"])
    as [H1 [H2 [H3 [_ [_ H6]]]]]; [reflexivity|].
  split; [exact H1|]. split; [exact H2|]. split; [exact H3|]. split.
  - destruct (H6 O "missing" eq_refl) as [_ H]. now apply H.
  - now destruct (H6 1%nat "revenue-dashboard" eq_refl) as [H _].
Defined.
